(** * Floating lantern / hot-air balloon swarm: model and properties

    A shallow embedding of [simulation.js].  The repository holds two
    variants of the simulation:

    - the lantern variant, class [LanternSimulation] (one mesh per lantern,
      pointer hover, all-pairs collisions), modelled in [Module Lantern];
    - the balloon variant (instanced state arrays, interaction orbs,
      no collisions), modelled in [Module Balloons], with its tracking
      inputs and its mouse in [Module Tracking] and its tuning interface
      in [Module SIM].

    The listeners of the lantern variant's control panel are modelled in
    [Module Controls].

    JavaScript numbers are modelled as real numbers: rounding, overflow and
    the storage of some arrays as 32-bit floats are not modelled.  The one
    place where the source relies on a non-number ([NaN] being falsy in
    [x || 0.016]) is modelled with an explicit [NaN] value, see
    [JS.Number].  [Math.random()] is modelled by threading the sequence of
    values it will return through the code that draws from it. *)

From Stdlib Require Import Reals Lra Lia ZArith List String Bool.
Import ListNotations.
Local Open Scope R_scope.

(* ====================================================================== *)
(** ** JavaScript and three.js helpers                                     *)
(* ====================================================================== *)

Module JS.

(** *** Comparisons on numbers, as booleans *)

Definition ltb (a b : R) : bool := if Rlt_dec a b then true else false.
Definition leb (a b : R) : bool := if Rle_dec a b then true else false.
Definition eqb (a b : R) : bool := if Req_dec_T a b then true else false.
Definition gtb (a b : R) : bool := ltb b a.
Definition geb (a b : R) : bool := leb b a.

(** *** [Math.random()]

    The generator is the sequence of numbers it is going to return; every
    draw takes the head and leaves the tail.  The ECMAScript contract is
    that each draw lies in [0, 1). *)

Definition Rand := nat -> R.

Definition valid (s : Rand) : Prop := forall n, 0 <= s n < 1.

Definition tl (s : Rand) : Rand := fun n => s (S n).

Definition Gen (A : Type) : Type := Rand -> A * Rand.

Definition ret {A} (a : A) : Gen A := fun s => (a, s).

Definition bind {A B} (m : Gen A) (k : A -> Gen B) : Gen B :=
  fun s => k (fst (m s)) (snd (m s)).

Definition Math_random : Gen R := fun s => (s 0%nat, tl s).

(** [for (const x of xs) { ... }] with a body that draws random numbers. *)
Fixpoint forEach {A B} (f : A -> Gen B) (xs : list A) : Gen (list B) :=
  match xs with
  | [] => ret []
  | x :: rest =>
      bind (f x) (fun y => bind (forEach f rest) (fun ys => ret (y :: ys)))
  end.

(** *** [Math] and [THREE.MathUtils] *)

Definition Math_min (a b : R) : R := Rmin a b.
Definition Math_max (a b : R) : R := Rmax a b.
Definition Math_abs (a : R) : R := Rabs a.
Definition Math_sqrt (a : R) : R := sqrt a.
Definition Math_floor (a : R) : Z := Zfloor a.

(** [Math.pow(x, y)] for a positive base; [Math.pow(0, y)] is [0] for
    positive [y].  (A negative base with a fractional exponent is [NaN] in
    JavaScript; the simulation only reaches it with a smoothing rate above
    1, which is outside this model.) *)
Definition Math_pow (x y : R) : R :=
  if Rlt_dec 0 x then Rpower x y
  else if Rlt_dec 0 y then 0 else 1.

(** [THREE.MathUtils.clamp(value, min, max)] is
    [Math.max(min, Math.min(max, value))]. *)
Definition clamp (value min max : R) : R := Math_max min (Math_min max value).

(** [THREE.MathUtils.randFloat(low, high)] is
    [low + Math.random() * (high - low)]. *)
Definition randFloat (low high : R) : Gen R :=
  bind Math_random (fun u => ret (low + u * (high - low))).

(** [THREE.MathUtils.randFloatSpread(range)] is
    [range * (0.5 - Math.random())]. *)
Definition randFloatSpread (range : R) : Gen R :=
  bind Math_random (fun u => ret (range * (0.5 - u))).

Definition degToRad (degrees : R) : R := degrees * (PI / 180).

(** The remainder operator [%] on integer-valued numbers truncates toward
    zero and takes the sign of the dividend, like [Z.rem]. *)
Definition rem (a b : Z) : Z := Z.rem a b.

(** *** Numbers that may be [NaN]

    Only the frame-time computation needs them: [NaN] propagates through
    [-], [/] and [Math.min], and [x || d] replaces the falsy numbers [0]
    and [NaN] by [d].  The infinities are not modelled: timestamps are
    finite, and the only division is by 1000 (a division by zero is given
    [NaN] here). *)

Inductive Number : Type :=
| Finite (r : R)
| NaN.

Definition sub (a b : Number) : Number :=
  match a, b with
  | Finite x, Finite y => Finite (x - y)
  | _, _ => NaN
  end.

Definition div (a b : Number) : Number :=
  match a, b with
  | Finite x, Finite y => if Req_dec_T y 0 then NaN else Finite (x / y)
  | _, _ => NaN
  end.

Definition min (a b : Number) : Number :=
  match a, b with
  | Finite x, Finite y => Finite (Rmin x y)
  | _, _ => NaN
  end.

Definition truthy (a : Number) : bool :=
  match a with
  | Finite x => negb (eqb x 0)
  | NaN => false
  end.

Definition or (a d : Number) : Number := if truthy a then a else d.

End JS.

Declare Scope gen_scope.
Delimit Scope gen_scope with gen.
Notation "x <- c ;; k" := (JS.bind c (fun x => k))
  (at level 61, c at next level, right associativity) : gen_scope.

(** *** [THREE.Vector3] *)

Module V3.

Record t : Type := mk { x : R; y : R; z : R }.

Definition add (a b : t) : t := mk (x a + x b) (y a + y b) (z a + z b).
Definition sub (a b : t) : t := mk (x a - x b) (y a - y b) (z a - z b).
Definition scale (a : t) (k : R) : t := mk (x a * k) (y a * k) (z a * k).
Definition dot (a b : t) : R := x a * x b + y a * y b + z a * z b.
Definition lengthSq (a : t) : R := dot a a.
Definition length (a : t) : R := sqrt (lengthSq a).
Definition distanceTo (a b : t) : R := length (sub a b).

(** [this.lerp(v, alpha)]: each component moves by [(v - this) * alpha]. *)
Definition lerp (this v : t) (alpha : R) : t :=
  mk (x this + (x v - x this) * alpha)
     (y this + (y v - y this) * alpha)
     (z this + (z v - z this) * alpha).

Definition zero : t := mk 0 0 0.

End V3.

(** *** Colours, as the three channels of a [THREE.Color] *)

Record Color : Type := mkColor { red : R; green : R; blue : R }.

Definition white : Color := mkColor 1 1 1.

(** *** The spawn / visible / despawn volume (the [bounds] object) *)

Record Bounds : Type := mkBounds {
  yMin : R;
  yMax : R;
  ySpawnTop : R;
  yOffBottom : R;
  xVisible : R;
  xOff : R;
  zMin : R;
  zMax : R
}.

(** A [{ min, max }] pair of [CONFIG]. *)
Record Range : Type := mkRange { min : R; max : R }.

(** Writing index [n] of an array. *)
Fixpoint set_nth {A} (n : nat) (v : A) (l : list A) : list A :=
  match l, n with
  | [], _ => []
  | _ :: rest, O => v :: rest
  | h :: rest, S n' => h :: set_nth n' v rest
  end.

(* ====================================================================== *)
(** ** The lantern variant: class [LanternSimulation]                      *)
(* ====================================================================== *)

Module Lantern.

Local Open Scope gen_scope.

(** *** [CONFIG] *)

Record LanternCfg : Type := mkLanternCfg {
  width : R;
  height : R;
  depth : R;
  flareFactor : R;
  count : nat
}.

Record Physics : Type := mkPhysics {
  gravity : R;
  liftStrength : R;
  buoyancyRiseRate : R;
  buoyancyDecayRate : R;
  buoyancyDecayVariance : Range;
  horizontalDrag : R;
  verticalDrag : R;
  maxVerticalSpeed : R;
  collisionRestitution : R
}.

Record Spawn : Type := mkSpawn {
  initialVelocity_x_spread : R;
  initialVelocity_y : Range;
  initialVelocity_z_spread : R;
  initialBuoyancy_maxFactor : R;
  zBounds : Range;
  xMarginMultiplier : R;
  ySpawnOffset : R;
  yOffOffset : R
}.

Record WobbleCfg : Type := mkWobbleCfg {
  cfg_ampX : Range;
  cfg_ampZ : Range;
  cfg_speedX : Range;
  cfg_speedZ : Range
}.

Record RandomLight : Type := mkRandomLight {
  rate : R;
  thresholdY : R
}.

Record HSLOffset : Type := mkHSLOffset { off_h : R; off_s : R; off_l : R }.

Record Patterns : Type := mkPatterns {
  types : list string;
  checker_cellsY : R;
  checker_cellsA : R;
  horizontal_stripes : R;
  diagonal_stripes : R;
  density : option R;
  paletteStrength : option R;
  paletteOffsets_color2 : HSLOffset;
  paletteOffsets_color3 : HSLOffset
}.

Record Config : Type := mkConfig {
  lantern : LanternCfg;
  physics : Physics;
  spawn : Spawn;
  wobble : WobbleCfg;
  rotation_ySpeed_spread : R;
  randomLight : RandomLight;
  hover_radius : R;
  patterns : Patterns
}.

(** The values written in the source. *)
Definition CONFIG : Config := {|
  lantern := {| width := 0.6; height := 1.0; depth := 0.6;
                flareFactor := 1.3; count := 110 |};
  physics := {| gravity := -0.2;
                liftStrength := 1.2;
                buoyancyRiseRate := 200.5;
                buoyancyDecayRate := 0.4;
                buoyancyDecayVariance := mkRange 0.6 1.6;
                horizontalDrag := 0.949;
                verticalDrag := 0.995;
                maxVerticalSpeed := 4.0;
                collisionRestitution := 0.3 |};
  spawn := {| initialVelocity_x_spread := 0.6;
              initialVelocity_y := mkRange (-0.9) (-0.1);
              initialVelocity_z_spread := 0.6;
              initialBuoyancy_maxFactor := 0.4;
              zBounds := mkRange (-8) 4;
              xMarginMultiplier := 1.3;
              ySpawnOffset := 4;
              yOffOffset := 4 |};
  wobble := {| cfg_ampX := mkRange 0.4 1.0;
               cfg_ampZ := mkRange 0.3 0.8;
               cfg_speedX := mkRange 0.4 1.0;
               cfg_speedZ := mkRange 0.4 1.0 |};
  rotation_ySpeed_spread := 0.6;
  randomLight := {| rate := 0.08; thresholdY := 0.8 |};
  hover_radius := 0.3;
  patterns := {| types := ["checker"; "horizontal"; "diagonal"]%string;
                 checker_cellsY := 6;
                 checker_cellsA := 8;
                 horizontal_stripes := 8;
                 diagonal_stripes := 9;
                 density := Some 1.0;
                 paletteStrength := Some 1.0;
                 paletteOffsets_color2 := mkHSLOffset 0.05 0.08 0.1;
                 paletteOffsets_color3 := mkHSLOffset (-0.05) (-0.05) (-0.08) |}
|}.

(** *** Per-lantern state: the mesh transform and its [userData] *)

Record Wobble : Type := mkWobble {
  ampX : R;
  ampZ : R;
  speedX : R;
  speedZ : R;
  phaseX : R;
  phaseZ : R
}.

Record Pattern : Type := mkPattern {
  type : string;
  palette : option (list Color);
  stripes : R;
  cellsY : R;
  cellsA : R
}.

Record Lantern : Type := mkLantern {
  position : V3.t;
  rotation_y : R;
  velocity : V3.t;
  buoyancy : R;
  hovered : bool;
  decayRate : R;
  angularVelocity : option V3.t;
  wobbleOf : option Wobble;
  offColor : Color;
  pattern : option Pattern
}.

Definition set_position (l : Lantern) (p : V3.t) : Lantern :=
  mkLantern p (rotation_y l) (velocity l) (buoyancy l) (hovered l)
            (decayRate l) (angularVelocity l) (wobbleOf l) (offColor l)
            (pattern l).

Definition set_rotation_y (l : Lantern) (r : R) : Lantern :=
  mkLantern (position l) r (velocity l) (buoyancy l) (hovered l)
            (decayRate l) (angularVelocity l) (wobbleOf l) (offColor l)
            (pattern l).

Definition set_velocity (l : Lantern) (v : V3.t) : Lantern :=
  mkLantern (position l) (rotation_y l) v (buoyancy l) (hovered l)
            (decayRate l) (angularVelocity l) (wobbleOf l) (offColor l)
            (pattern l).

Definition set_buoyancy (l : Lantern) (b : R) : Lantern :=
  mkLantern (position l) (rotation_y l) (velocity l) b (hovered l)
            (decayRate l) (angularVelocity l) (wobbleOf l) (offColor l)
            (pattern l).

Definition set_hovered (l : Lantern) (h : bool) : Lantern :=
  mkLantern (position l) (rotation_y l) (velocity l) (buoyancy l) h
            (decayRate l) (angularVelocity l) (wobbleOf l) (offColor l)
            (pattern l).

(** *** Bounds *)

(** The [bounds] object the constructor starts with. *)
Definition initialBounds (cfg : Config) : Bounds := {|
  yMin := -2;
  yMax := 14;
  ySpawnTop := 18;
  yOffBottom := -6;
  xVisible := 10;
  xOff := 14;
  zMin := min (zBounds (spawn cfg));
  zMax := max (zBounds (spawn cfg))
|}.

(** [updateVisibleBounds()].  The camera and the container are the host's:
    [fov] is the camera's field of view in degrees, [dist] the distance
    from the camera to the view centre, [aspect] the value of
    [width / height || 1] and [viewCenterY] the height of the view
    centre. *)
Definition updateVisibleBounds (cfg : Config)
    (fov dist aspect viewCenterY : R) : Bounds :=
  let vHalf := tan (JS.degToRad fov / 2) * dist in
  let yMin' := viewCenterY - vHalf in
  let yMax' := viewCenterY + vHalf in
  let hHalf := vHalf * aspect in
  {| yMin := yMin';
     yMax := yMax';
     ySpawnTop := yMax' + ySpawnOffset (spawn cfg);
     yOffBottom := yMin' - yOffOffset (spawn cfg);
     xVisible := hHalf;
     xOff := hHalf * xMarginMultiplier (spawn cfg);
     zMin := min (zBounds (spawn cfg));
     zMax := max (zBounds (spawn cfg)) |}.

(** *** [resetLantern(lantern, isInitial)] *)

Definition resetLantern (cfg : Config) (bounds : Bounds)
    (l : Lantern) (isInitial : bool) : JS.Gen Lantern :=
  let spawnYMin := if isInitial then yOffBottom bounds else yMax bounds + 2 in
  let spawnYMax := ySpawnTop bounds in
  px <- JS.randFloatSpread (xVisible bounds * 2.0) ;;
  py <- JS.randFloat spawnYMin spawnYMax ;;
  pz <- JS.randFloat (zMin bounds) (zMax bounds) ;;
  vx <- JS.randFloatSpread (initialVelocity_x_spread (spawn cfg)) ;;
  vy <- JS.randFloat (min (initialVelocity_y (spawn cfg)))
                     (max (initialVelocity_y (spawn cfg))) ;;
  vz <- JS.randFloatSpread (initialVelocity_z_spread (spawn cfg)) ;;
  u1 <- JS.Math_random ;;
  u2 <- JS.Math_random ;;
  JS.ret
    (set_hovered
       (set_buoyancy
          (set_velocity (set_position l (V3.mk px py pz)) (V3.mk vx vy vz))
          (u1 * u2 * initialBuoyancy_maxFactor (spawn cfg)))
       false).

(** *** [updateLanterns(dt, time)]: the body of the loop, for one lantern

    The stages are the commented blocks of the loop body, in order. *)

(** "Update buoyancy" and "Random lighting", up to the clamp.
    ([lantern.userData.buoyancy || 0] is the identity on numbers.) *)
Definition updateBuoyancy (cfg : Config) (bounds : Bounds) (dt : R)
    (l : Lantern) : JS.Gen R :=
  let isHovered := hovered l in
  let b0 := buoyancy l in
  let b1 :=
    if isHovered then b0 + buoyancyRiseRate (physics cfg) * dt
    else if JS.gtb b0 0 then b0 - decayRate l * dt
    else b0 in
  b2 <- (if negb isHovered && JS.leb b1 0.01
            && JS.ltb (V3.y (position l))
                      (yMax bounds * thresholdY (randomLight cfg))
         then
           u <- JS.Math_random ;;
           JS.ret (if JS.ltb u (rate (randomLight cfg) * dt) then 1.0 else b1)
         else JS.ret b1) ;;
  JS.ret (JS.clamp b2 0 1).

(** "Apply forces", "Wobble", "Drag" and "Clamp speed". *)
Definition updateVelocity (cfg : Config) (dt time b : R) (l : Lantern)
    : V3.t :=
  let v := velocity l in
  let ay := gravity (physics cfg) + liftStrength (physics cfg) * b in
  let vy1 := V3.y v + ay * dt in
  let vx1 :=
    match wobbleOf l with
    | Some w => V3.x v + sin (time * speedX w + phaseX w) * ampX w * dt
    | None => V3.x v
    end in
  let vz1 :=
    match wobbleOf l with
    | Some w => V3.z v + cos (time * speedZ w + phaseZ w) * ampZ w * dt
    | None => V3.z v
    end in
  let vx2 := vx1 * horizontalDrag (physics cfg) in
  let vy2 := vy1 * verticalDrag (physics cfg) in
  let vz2 := vz1 * horizontalDrag (physics cfg) in
  let vy3 := JS.clamp vy2 (- maxVerticalSpeed (physics cfg))
                      (maxVerticalSpeed (physics cfg)) in
  V3.mk vx2 vy3 vz2.

(** "Update position" and "Rotation". *)
Definition integrate (dt : R) (l : Lantern) : Lantern :=
  let v := velocity l in
  let p := position l in
  let l1 :=
    set_position l (V3.mk (V3.x p + V3.x v * dt)
                          (V3.y p + V3.y v * dt)
                          (V3.z p + V3.z v * dt)) in
  match angularVelocity l1 with
  | Some w => set_rotation_y l1 (rotation_y l1 + V3.y w * dt)
  | None => l1
  end.

(** The test of "Recycle if out of bounds". *)
Definition outOfBounds (bounds : Bounds) (p : V3.t) : bool :=
  JS.ltb (V3.y p) (yOffBottom bounds)
  || JS.gtb (V3.y p) (ySpawnTop bounds)
  || JS.ltb (V3.x p) (- xOff bounds)
  || JS.gtb (V3.x p) (xOff bounds).

Definition recycle (cfg : Config) (bounds : Bounds) (l : Lantern)
    : JS.Gen Lantern :=
  if outOfBounds bounds (position l) then resetLantern cfg bounds l false
  else JS.ret l.

(** "Bounce off depth walls". *)
Definition bounceDepth (bounds : Bounds) (l : Lantern) : Lantern :=
  let p := position l in
  let v := velocity l in
  if JS.ltb (V3.z p) (zMin bounds) then
    set_velocity (set_position l (V3.mk (V3.x p) (V3.y p) (zMin bounds)))
                 (V3.mk (V3.x v) (V3.y v) (JS.Math_abs (V3.z v) * 0.6))
  else if JS.gtb (V3.z p) (zMax bounds) then
    set_velocity (set_position l (V3.mk (V3.x p) (V3.y p) (zMax bounds)))
                 (V3.mk (V3.x v) (V3.y v) (- JS.Math_abs (V3.z v) * 0.6))
  else l.

(** The lantern as it stands when the recycle test is made. *)
Definition integrated (cfg : Config) (dt time b : R) (l : Lantern)
    : Lantern :=
  let l1 := set_buoyancy l b in
  integrate dt (set_velocity l1 (updateVelocity cfg dt time b l1)).

(** One iteration of the loop.  (The vertex colours and the material are
    outputs for the renderer and feed nothing back into the state; the
    colour of a vertex is [applyPatternColor] below.) *)
Definition updateLantern (cfg : Config) (bounds : Bounds) (dt time : R)
    (l : Lantern) : JS.Gen Lantern :=
  b <- updateBuoyancy cfg bounds dt l ;;
  l3 <- recycle cfg bounds (integrated cfg dt time b l) ;;
  JS.ret (bounceDepth bounds l3).

Definition updateLanterns (cfg : Config) (bounds : Bounds) (dt time : R)
    (lanterns : list Lantern) : JS.Gen (list Lantern) :=
  JS.forEach (updateLantern cfg bounds dt time) lanterns.

(** *** [handleCollisions()] *)

(** The collision radius computed by [setupGeometry()]. *)
Definition collisionRadius (cfg : Config) : R :=
  JS.Math_max (width (lantern cfg) * flareFactor (lantern cfg))
              (height (lantern cfg)) * 0.35.

(** The body of the inner loop, for the pair [a], [b]. *)
Definition resolvePair (minDist restitution : R) (a b : Lantern)
    : Lantern * Lantern :=
  let minDistSq := minDist * minDist in
  let pa := position a in
  let va := velocity a in
  let pb := position b in
  let vb := velocity b in
  let dx := V3.x pb - V3.x pa in
  let dy := V3.y pb - V3.y pa in
  let dz := V3.z pb - V3.z pa in
  let distSq := dx * dx + dy * dy + dz * dz in
  if JS.eqb distSq 0 || JS.gtb distSq minDistSq then (a, b) else
  let dist := JS.Math_sqrt distSq in
  let overlap := minDist - dist in
  if JS.leb overlap 0 then (a, b) else
  let nx := dx / dist in
  let ny := dy / dist in
  let nz := dz / dist in
  let halfCorrection := overlap * 0.5 in
  let a1 := set_position a (V3.mk (V3.x pa - nx * halfCorrection)
                                  (V3.y pa - ny * halfCorrection)
                                  (V3.z pa - nz * halfCorrection)) in
  let b1 := set_position b (V3.mk (V3.x pb + nx * halfCorrection)
                                  (V3.y pb + ny * halfCorrection)
                                  (V3.z pb + nz * halfCorrection)) in
  let rvx := V3.x vb - V3.x va in
  let rvy := V3.y vb - V3.y va in
  let rvz := V3.z vb - V3.z va in
  let velAlongNormal := rvx * nx + rvy * ny + rvz * nz in
  if JS.gtb velAlongNormal 0 then (a1, b1) else
  let jImpulse := - (1 + restitution) * velAlongNormal * 0.5 in
  let impulseX := jImpulse * nx in
  let impulseY := jImpulse * ny in
  let impulseZ := jImpulse * nz in
  (set_velocity a1 (V3.mk (V3.x va - impulseX)
                          (V3.y va - impulseY)
                          (V3.z va - impulseZ)),
   set_velocity b1 (V3.mk (V3.x vb + impulseX)
                          (V3.y vb + impulseY)
                          (V3.z vb + impulseZ))).

(** One iteration of the inner loop on the array: lanterns [i] and [j]
    are read, resolved and written back. *)
Definition collide (cfg : Config) (i j : nat) (lanterns : list Lantern)
    : list Lantern :=
  match nth_error lanterns i, nth_error lanterns j with
  | Some a, Some b =>
      let ab := resolvePair (collisionRadius cfg * 2)
                            (collisionRestitution (physics cfg)) a b in
      set_nth j (snd ab) (set_nth i (fst ab) lanterns)
  | _, _ => lanterns
  end.

(** [for (let j = i + 1; j < this.lanterns.length; j++)] *)
Definition collideFrom (cfg : Config) (i : nat) (lanterns : list Lantern)
    : list Lantern :=
  fold_left (fun ls j => collide cfg i j ls)
            (seq (S i) (List.length lanterns - S i)) lanterns.

(** [for (let i = 0; i < this.lanterns.length; i++)] *)
Definition handleCollisions (cfg : Config) (lanterns : list Lantern)
    : list Lantern :=
  fold_left (fun ls i => collideFrom cfg i ls)
            (seq 0 (List.length lanterns)) lanterns.

(** *** [applyPatternColor(pattern, vertexIndex, outColor)] *)

(** [pattern?.palette?.length], with [0] for a missing pattern or
    palette. *)
Definition paletteOf (pattern : option Pattern) : list Color :=
  match pattern with
  | Some p => match palette p with Some colors => colors | None => [] end
  | None => []
  end.

(** The value of [idx] after the [switch]. *)
Definition switchIndex (density : R) (p : Pattern) (h a : R) (len : Z) : Z :=
  if String.eqb (type p) "checker" then
    let iy := JS.Math_floor (h * cellsY p * density) in
    let ia := JS.Math_floor (a * cellsA p * density) in
    JS.rem (iy + ia) len
  else if String.eqb (type p) "horizontal" then
    JS.rem (JS.Math_floor (h * stripes p * density)) len
  else
    let v := (h + a) * stripes p * density in
    JS.rem (JS.Math_floor v) len.

(** The index used in the palette lookup, [(idx + len) % len]. *)
Definition paletteIndex (density : R) (p : Pattern) (h a : R) (len : Z) : Z :=
  JS.rem (switchIndex density p h a len + len) len.

(** Reading [array[k]]: [None] stands for [undefined]. *)
Definition lookupZ {A} (l : list A) (k : Z) : option A :=
  if (k <? 0)%Z then None else nth_error l (Z.to_nat k).

(** The colour written to [outColor]; [None] stands for the [TypeError]
    that copying an [undefined] palette entry (or computing with an
    [undefined] vertex factor) ends in. *)
Definition applyPatternColor (cfg : Config)
    (heightFactors angleFactors : list R)
    (pattern : option Pattern) (vertexIndex : nat) : option Color :=
  match pattern, paletteOf pattern with
  | None, _ => Some white
  | _, [] => Some white
  | Some p, colors =>
      let density :=
        match density (patterns cfg) with Some d => d | None => 1.0 end in
      match nth_error heightFactors vertexIndex,
            nth_error angleFactors vertexIndex with
      | Some h, Some a =>
          let len := Z.of_nat (List.length colors) in
          lookupZ colors (paletteIndex density p h a len)
      | _, _ => None
      end
  end.

(** *** [spawnLantern(isInitial)]

    [offsetHSL] is [THREE.Color.offsetHSL], and [patternBaseColor] the
    colour every lantern starts from (the field is always set, so the
    random-colour branch is never taken). *)

Definition createPaletteFromBase (offsetHSL : Color -> R -> R -> R -> Color)
    (cfg : Config) (baseColor : Color) : list Color :=
  let strength :=
    match paletteStrength (patterns cfg) with Some s => s | None => 1.0 end in
  let c2 := paletteOffsets_color2 (patterns cfg) in
  let c3 := paletteOffsets_color3 (patterns cfg) in
  [ baseColor;
    offsetHSL baseColor (off_h c2 * strength) (off_s c2 * strength)
              (off_l c2 * strength);
    offsetHSL baseColor (off_h c3 * strength) (off_s c3 * strength)
              (off_l c3 * strength) ].

(** [patterns[patternType]?.stripes || 8]: only the horizontal and the
    diagonal entries have a [stripes] field. *)
Definition stripesFor (cfg : Config) (patternType : string) : R :=
  let orEight (v : R) := if JS.eqb v 0 then 8 else v in
  if String.eqb patternType "horizontal" then
    orEight (horizontal_stripes (patterns cfg))
  else if String.eqb patternType "diagonal" then
    orEight (diagonal_stripes (patterns cfg))
  else 8.

Definition spawnLantern (offsetHSL : Color -> R -> R -> R -> Color)
    (patternBaseColor : Color) (cfg : Config) (bounds : Bounds)
    (isInitial : bool) : JS.Gen Lantern :=
  k <- JS.randFloat (min (buoyancyDecayVariance (physics cfg)))
                    (max (buoyancyDecayVariance (physics cfg))) ;;
  wy <- JS.randFloatSpread (rotation_ySpeed_spread cfg) ;;
  ax <- JS.randFloat (min (cfg_ampX (wobble cfg))) (max (cfg_ampX (wobble cfg))) ;;
  az <- JS.randFloat (min (cfg_ampZ (wobble cfg))) (max (cfg_ampZ (wobble cfg))) ;;
  sx <- JS.randFloat (min (cfg_speedX (wobble cfg)))
                     (max (cfg_speedX (wobble cfg))) ;;
  sz <- JS.randFloat (min (cfg_speedZ (wobble cfg)))
                     (max (cfg_speedZ (wobble cfg))) ;;
  ux <- JS.Math_random ;;
  uz <- JS.Math_random ;;
  ut <- JS.Math_random ;;
  let offColor := patternBaseColor in
  let n := INR (List.length (types (patterns cfg))) in
  let patternType :=
    match lookupZ (types (patterns cfg)) (JS.Math_floor (ut * n)) with
    | Some name => name
    | None => "undefined"%string
    end in
  resetLantern cfg bounds
    {| position := V3.zero;
       rotation_y := 0;
       velocity := V3.zero;
       buoyancy := 0;
       hovered := false;
       decayRate := buoyancyDecayRate (physics cfg) * k;
       angularVelocity := Some (V3.mk 0 wy 0);
       wobbleOf := Some (mkWobble ax az sx sz (ux * PI * 2) (uz * PI * 2));
       offColor := offColor;
       pattern :=
         Some {| type := patternType;
                 palette := Some (createPaletteFromBase offsetHSL cfg offColor);
                 stripes := stripesFor cfg patternType;
                 cellsY := checker_cellsY (patterns cfg);
                 cellsA := checker_cellsA (patterns cfg) |} |}
    isInitial.

(** [spawnLanterns()]: [CONFIG.lantern.count] calls of
    [spawnLantern(true)]. *)
Fixpoint spawnMany (offsetHSL : Color -> R -> R -> R -> Color)
    (patternBaseColor : Color) (cfg : Config) (bounds : Bounds) (n : nat)
    : JS.Gen (list Lantern) :=
  match n with
  | O => JS.ret []
  | S n' =>
      l <- spawnLantern offsetHSL patternBaseColor cfg bounds true ;;
      ls <- spawnMany offsetHSL patternBaseColor cfg bounds n' ;;
      JS.ret (l :: ls)
  end.

Definition spawnLanterns (offsetHSL : Color -> R -> R -> R -> Color)
    (patternBaseColor : Color) (cfg : Config) (bounds : Bounds)
    : JS.Gen (list Lantern) :=
  spawnMany offsetHSL patternBaseColor cfg bounds (count (lantern cfg)).

(** *** Pointer events

    [project] is [Vector3.project(camera)]: world coordinates to normalized
    device coordinates. *)

Definition onPointerMove (cfg : Config) (project : V3.t -> V3.t)
    (pointer_x pointer_y : R) (lanterns : list Lantern) : list Lantern :=
  let hoverRadiusSq := hover_radius cfg * hover_radius cfg in
  map (fun l =>
         let tmpScreenPos := project (position l) in
         let dx := V3.x tmpScreenPos - pointer_x in
         let dy := V3.y tmpScreenPos - pointer_y in
         set_hovered l (JS.ltb (dx * dx + dy * dy) hoverRadiusSq))
      lanterns.

Definition onPointerLeave (lanterns : list Lantern) : list Lantern :=
  map (fun l => set_hovered l false) lanterns.

(** *** [animate(now)] *)

(** [Math.min((now - this.lastTime) / 1000, 0.05) || 0.016] *)
Definition frameDt (now lastTime : JS.Number) : JS.Number :=
  JS.or (JS.min (JS.div (JS.sub now lastTime) (JS.Finite 1000))
                (JS.Finite 0.05))
        (JS.Finite 0.016).

(** The same on timestamps that are numbers. *)
Definition dtOf (now lastTime : R) : R :=
  let m := JS.Math_min ((now - lastTime) / 1000) 0.05 in
  if JS.eqb m 0 then 0.016 else m.

Record Sim : Type := mkSim {
  lanterns : list Lantern;
  bounds : Bounds;
  lastTime : R;
  paused : bool
}.

(** One frame: everything [animate] does to the simulation state (the
    render call and the request for the next frame are the host's). *)
Definition animate (cfg : Config) (now : R) (s : Sim) : JS.Gen Sim :=
  let dt := dtOf now (lastTime s) in
  let time := now * 0.001 in
  if paused s then
    JS.ret (mkSim (lanterns s) (bounds s) now (paused s))
  else
    ls <- updateLanterns cfg (bounds s) dt time (lanterns s) ;;
    JS.ret (mkSim (handleCollisions cfg ls) (bounds s) now (paused s)).

End Lantern.

(* ====================================================================== *)
(** ** The balloon variant: instanced state arrays and interaction orbs    *)
(* ====================================================================== *)

Module Balloons.

Local Open Scope gen_scope.

(** *** [CONFIG] *)

Record BalloonsCfg : Type := mkBalloonsCfg {
  count : nat;
  scale : R;
  zBounds : Range;
  xMarginMultiplier : R;
  ySpawnOffset : R;
  yOffOffset : R
}.

Record Physics : Type := mkPhysics {
  gravity : R;
  liftStrength : R;
  buoyancyRiseRate : R;
  buoyancyDecayRate : R;
  buoyancyDecayVariance : Range;
  horizontalDrag : R;
  verticalDrag : R;
  maxVerticalSpeed : R
}.

Record WobbleCfg : Type := mkWobbleCfg {
  ampX : Range;
  ampZ : Range;
  speedX : Range;
  speedZ : Range
}.

Record Spawn : Type := mkSpawn {
  initialVelocity_x_spread : R;
  initialVelocity_y : Range;
  initialVelocity_z_spread : R;
  initialBuoyancy_maxFactor : R
}.

Record RandomLight : Type := mkRandomLight {
  rate : R;
  thresholdY : R
}.

Record Interaction : Type := mkInteraction {
  trackMode : string;
  maxPeople : nat;
  maxHands : nat;
  hoverRadiusWorld : R;
  useScreenSpaceHit : bool;
  screenRadiusNDC : option R;
  screenRadiusMin : option R;
  screenRadiusMax : option R;
  orbSmoothing : R;
  orbMaxTTL : R
}.

Record Config : Type := mkConfig {
  balloons : BalloonsCfg;
  physics : Physics;
  wobble : WobbleCfg;
  spawn : Spawn;
  randomLight : RandomLight;
  interaction : Interaction
}.

(** The values written in the source. *)
Definition CONFIG : Config := {|
  balloons := {| count := 400;
                 scale := 1.25;
                 zBounds := mkRange (-18) 10;
                 xMarginMultiplier := 1.28;
                 ySpawnOffset := 8;
                 yOffOffset := 8 |};
  physics := {| gravity := -0.16;
                liftStrength := 1.35;
                buoyancyRiseRate := 520;
                buoyancyDecayRate := 0.65;
                buoyancyDecayVariance := mkRange 0.65 1.55;
                horizontalDrag := 0.957;
                verticalDrag := 0.994;
                maxVerticalSpeed := 5.6 |};
  wobble := {| ampX := mkRange 0.18 0.55;
               ampZ := mkRange 0.16 0.50;
               speedX := mkRange 0.25 0.85;
               speedZ := mkRange 0.25 0.85 |};
  spawn := {| initialVelocity_x_spread := 0.75;
              initialVelocity_y := mkRange (-0.48) (-0.06);
              initialVelocity_z_spread := 0.75;
              initialBuoyancy_maxFactor := 0.10 |};
  randomLight := {| rate := 0.0015; thresholdY := 0.90 |};
  interaction := {| trackMode := "fingers";
                    maxPeople := 4;
                    maxHands := 4;
                    hoverRadiusWorld := 5.8;
                    useScreenSpaceHit := true;
                    screenRadiusNDC := Some 0.065;
                    screenRadiusMin := Some 0.03;
                    screenRadiusMax := Some 0.10;
                    orbSmoothing := 0.14;
                    orbMaxTTL := 0.12 |}
|}.

(** *** Bounds *)

Definition initialBounds (cfg : Config) : Bounds := {|
  yMin := -2;
  yMax := 14;
  ySpawnTop := 18;
  yOffBottom := -6;
  xVisible := 10;
  xOff := 14;
  zMin := min (zBounds (balloons cfg));
  zMax := max (zBounds (balloons cfg))
|}.

(** [updateVisibleBounds()]; the arguments are as in the lantern
    variant. *)
Definition updateVisibleBounds (cfg : Config)
    (fov dist aspect viewCenterY : R) : Bounds :=
  let vHalf := tan (JS.degToRad fov / 2) * dist in
  let yMin' := viewCenterY - vHalf in
  let yMax' := viewCenterY + vHalf in
  let hHalf := vHalf * aspect in
  {| yMin := yMin';
     yMax := yMax';
     ySpawnTop := yMax' + ySpawnOffset (balloons cfg);
     yOffBottom := yMin' - yOffOffset (balloons cfg);
     xVisible := hHalf;
     xOff := hHalf * xMarginMultiplier (balloons cfg);
     zMin := min (zBounds (balloons cfg));
     zMax := max (zBounds (balloons cfg)) |}.

(** *** Instanced state

    The source keeps one typed array per quantity ([posX], [posY], ...),
    all of length [N] and always read and written at a common index [i].
    Row [i] of these arrays is one [Instance]. *)

Record Instance : Type := mkInstance {
  posX : R; posY : R; posZ : R;
  velX : R; velY : R; velZ : R;
  rotY : R; angY : R;
  buoy : R; decay : R;
  wAmpX : R; wAmpZ : R; wSpdX : R; wSpdZ : R; wPhX : R; wPhZ : R;
  iBuoy : R;
  iBase : Z;
  iPatternType : R;
  iSeed : R
}.

Definition pos (b : Instance) : V3.t := V3.mk (posX b) (posY b) (posZ b).

Definition REAL_BALLOON_PALETTE : list Z :=
  [ 0xd72638; 0xff6f00; 0xf9c80e; 0x2e7d32; 0x1565c0; 0x283593; 0x6a1b9a;
    0x00838f; 0x6d4c41; 0x263238; 0xffffff; 0xe0e0e0; 0x111111 ]%Z.

(** [randomVibrantTint]: the palette entry at index
    [(Math.random() * length) | 0].  The entry itself stands for the three
    channels that [iBase] receives from it. *)
Definition randomVibrantTint : JS.Gen Z :=
  u <- JS.Math_random ;;
  JS.ret (nth (Z.to_nat (JS.Math_floor
                           (u * INR (List.length REAL_BALLOON_PALETTE))))
              REAL_BALLOON_PALETTE 0%Z).

(** [resetInstance(i, isInitial)]: the new content of row [i]. *)
Definition resetInstance (cfg : Config) (bounds : Bounds) (isInitial : bool)
    : JS.Gen Instance :=
  let spawnYMin := if isInitial then yOffBottom bounds else yMax bounds + 2 in
  let spawnYMax := ySpawnTop bounds in
  px <- JS.randFloatSpread (xVisible bounds * 2.0) ;;
  py <- JS.randFloat spawnYMin spawnYMax ;;
  pz <- JS.randFloat (zMin bounds) (zMax bounds) ;;
  vx <- JS.randFloatSpread (initialVelocity_x_spread (spawn cfg)) ;;
  vy <- JS.randFloat (min (initialVelocity_y (spawn cfg)))
                     (max (initialVelocity_y (spawn cfg))) ;;
  vz <- JS.randFloatSpread (initialVelocity_z_spread (spawn cfg)) ;;
  u1 <- JS.Math_random ;;
  u2 <- JS.Math_random ;;
  let b := u1 * u2 * initialBuoyancy_maxFactor (spawn cfg) in
  ur <- JS.Math_random ;;
  ang <- JS.randFloatSpread 0.45 ;;
  k <- JS.randFloat (min (buoyancyDecayVariance (physics cfg)))
                    (max (buoyancyDecayVariance (physics cfg))) ;;
  ax <- JS.randFloat (min (ampX (wobble cfg))) (max (ampX (wobble cfg))) ;;
  az <- JS.randFloat (min (ampZ (wobble cfg))) (max (ampZ (wobble cfg))) ;;
  sx <- JS.randFloat (min (speedX (wobble cfg))) (max (speedX (wobble cfg))) ;;
  sz <- JS.randFloat (min (speedZ (wobble cfg))) (max (speedZ (wobble cfg))) ;;
  ux <- JS.Math_random ;;
  uz <- JS.Math_random ;;
  tint <- randomVibrantTint ;;
  r <- JS.Math_random ;;
  us <- JS.Math_random ;;
  JS.ret {| posX := px; posY := py; posZ := pz;
            velX := vx; velY := vy; velZ := vz;
            rotY := ur * PI * 2; angY := ang;
            buoy := b; decay := buoyancyDecayRate (physics cfg) * k;
            wAmpX := ax; wAmpZ := az; wSpdX := sx; wSpdZ := sz;
            wPhX := ux * PI * 2; wPhZ := uz * PI * 2;
            iBuoy := b;
            iBase := tint;
            iPatternType :=
              if JS.ltb r 0.72 then 0 else if JS.ltb r 0.92 then 1 else 2;
            iSeed := us * 1000.0 |}.

(** The initial fill: [resetInstance(i, true)] for every row. *)
Fixpoint initialFill (cfg : Config) (bounds : Bounds) (n : nat)
    : JS.Gen (list Instance) :=
  match n with
  | O => JS.ret []
  | S n' =>
      b <- resetInstance cfg bounds true ;;
      bs <- initialFill cfg bounds n' ;;
      JS.ret (b :: bs)
  end.

(** *** Orbs *)

Definition FINGERTIPS_PER_HAND : nat := 5.

Definition MAX_ORBS (cfg : Config) : nat :=
  1 + maxPeople (interaction cfg) * 2
    + maxHands (interaction cfg) * FINGERTIPS_PER_HAND.

Record Orbs : Type := mkOrbs {
  orbPositions : list V3.t;
  orbTargets : list V3.t;
  orbBuoy : list R;
  orbTTL : list R
}.

(** The four arrays as allocated: [MAX_ORBS] zero entries each. *)
Definition initialOrbs (cfg : Config) : Orbs := {|
  orbPositions := repeat V3.zero (MAX_ORBS cfg);
  orbTargets := repeat V3.zero (MAX_ORBS cfg);
  orbBuoy := repeat 0 (MAX_ORBS cfg);
  orbTTL := repeat 0 (MAX_ORBS cfg)
|}.

(** [setOrb(slot, worldPos, strength)].  [None] stands for the
    [TypeError] of calling [.copy] on an [undefined] array entry; a write
    to a typed array outside its range is ignored, as [set_nth] does. *)
Definition setOrb (cfg : Config) (slot : Z) (worldPos : V3.t) (strength : R)
    (o : Orbs) : option Orbs :=
  if (slot <? 0)%Z || (slot >=? Z.of_nat (MAX_ORBS cfg))%Z then Some o else
  let k := Z.to_nat slot in
  match nth_error (orbTargets o) k, nth_error (orbPositions o) k with
  | Some _, Some p =>
      Some {| orbTargets := set_nth k worldPos (orbTargets o);
              orbPositions :=
                if JS.ltb (V3.lengthSq p) 1e-6
                then set_nth k worldPos (orbPositions o)
                else orbPositions o;
              orbBuoy := set_nth k strength (orbBuoy o);
              orbTTL := set_nth k (JS.Math_max 0.01
                                     (orbMaxTTL (interaction cfg)))
                                (orbTTL o) |}
  | _, _ => None
  end.

(** One iteration of the loop of [smoothOrbs(alpha)]. *)
Definition smoothOrb (alpha : R) (o : Orbs) (i : nat) : Orbs :=
  if JS.gtb (nth i (orbTTL o) 0) 0 then
    mkOrbs (set_nth i (V3.lerp (nth i (orbPositions o) V3.zero)
                               (nth i (orbTargets o) V3.zero) alpha)
                    (orbPositions o))
           (orbTargets o) (orbBuoy o) (orbTTL o)
  else o.

Definition smoothOrbs (cfg : Config) (alpha : R) (o : Orbs) : Orbs :=
  fold_left (smoothOrb alpha) (seq 0 (MAX_ORBS cfg)) o.

(** The first loop of [animate]:
    [orbTTL[i] = Math.max(0, orbTTL[i] - dt)]. *)
Definition decayTTL (dt : R) (o : Orbs) : Orbs :=
  mkOrbs (orbPositions o) (orbTargets o) (orbBuoy o)
         (map (fun ttl => JS.Math_max 0 (ttl - dt)) (orbTTL o)).

(** The smoothing factor computed by [animate]. *)
Definition smoothingAlpha (cfg : Config) (dt : R) : R :=
  1.0 - JS.Math_pow (1.0 - orbSmoothing (interaction cfg))
                    (JS.Math_max 1 (dt * 60)).

(** *** [applyOrbInfluence(dt)] *)

(** A pose bounding box in normalized device coordinates. *)
Record Box : Type := mkBox { minX : R; maxX : R; minY : R; maxY : R }.

Definition orDefault (v : option R) (d : R) : R :=
  match v with Some r => r | None => d end.

(** The clamped screen-space radius [rN]. *)
Definition screenRadius (cfg : Config) : R :=
  JS.clamp (orDefault (screenRadiusNDC (interaction cfg)) 0.065)
           (orDefault (screenRadiusMin (interaction cfg)) 0.03)
           (orDefault (screenRadiusMax (interaction cfg)) 0.10).

(** The value of the local [hovered] for one balloon.  [project] is
    [worldToNDC], that is [Vector3.project(camera)]. *)
Definition hoveredTest (cfg : Config) (project : V3.t -> V3.t)
    (poseBoxesNDC : list Box) (o : Orbs) (b : Instance) : bool :=
  let mode := trackMode (interaction cfg) in
  let useScreen := useScreenSpaceHit (interaction cfg) in
  let rW := hoverRadiusWorld (interaction cfg) in
  let rWSq := rW * rW in
  let rN := screenRadius cfg in
  let rNSq := rN * rN in
  if String.eqb mode "fullBody" then
    match poseBoxesNDC with
    | [] => false
    | _ =>
        let tmpNdcB := project (pos b) in
        let balloonClipOK :=
          JS.geb (V3.z tmpNdcB) (-1) && JS.leb (V3.z tmpNdcB) 1 in
        balloonClipOK
        && existsb (fun bb2 =>
                      JS.geb (V3.x tmpNdcB) (minX bb2)
                      && JS.leb (V3.x tmpNdcB) (maxX bb2)
                      && JS.geb (V3.y tmpNdcB) (minY bb2)
                      && JS.leb (V3.y tmpNdcB) (maxY bb2))
                   poseBoxesNDC
    end
  else if useScreen then
    let tmpNdcB := project (pos b) in
    let balloonClipOK :=
      JS.geb (V3.z tmpNdcB) (-1) && JS.leb (V3.z tmpNdcB) 1 in
    balloonClipOK
    && existsb (fun j =>
                  if JS.leb (nth j (orbTTL o) 0) 0 then false else
                  let tmpNdcO := project (nth j (orbPositions o) V3.zero) in
                  if JS.ltb (V3.z tmpNdcO) (-1) || JS.gtb (V3.z tmpNdcO) 1
                  then false else
                  let dx := V3.x tmpNdcB - V3.x tmpNdcO in
                  let dy := V3.y tmpNdcB - V3.y tmpNdcO in
                  JS.ltb (dx * dx + dy * dy) rNSq)
               (seq 0 (MAX_ORBS cfg))
  else
    existsb (fun j =>
               if JS.leb (nth j (orbTTL o) 0) 0 then false else
               let op := nth j (orbPositions o) V3.zero in
               let dx := posX b - V3.x op in
               let dy := posY b - V3.y op in
               let dz := posZ b - V3.z op in
               JS.ltb (dx * dx + dy * dy + dz * dz) rWSq)
            (seq 0 (MAX_ORBS cfg)).

Definition set_buoy (b : Instance) (v : R) : Instance :=
  mkInstance (posX b) (posY b) (posZ b) (velX b) (velY b) (velZ b)
             (rotY b) (angY b) v (decay b)
             (wAmpX b) (wAmpZ b) (wSpdX b) (wSpdZ b) (wPhX b) (wPhZ b)
             v (iBase b) (iPatternType b) (iSeed b).

(** The body of the loop of [applyOrbInfluence], for one balloon. *)
Definition influence (cfg : Config) (bounds : Bounds)
    (project : V3.t -> V3.t) (poseBoxesNDC : list Box) (o : Orbs) (dt : R)
    (i : Instance) : JS.Gen Instance :=
  let b0 := buoy i in
  let hovered := hoveredTest cfg project poseBoxesNDC o i in
  let b1 :=
    if hovered then b0 + buoyancyRiseRate (physics cfg) * dt
    else if JS.gtb b0 0 then b0 - decay i * dt
    else b0 in
  b2 <- (if negb hovered && JS.leb b1 0.01
            && JS.ltb (posY i) (yMax bounds * thresholdY (randomLight cfg))
         then
           u <- JS.Math_random ;;
           JS.ret (if JS.ltb u (rate (randomLight cfg) * dt) then 1.0 else b1)
         else JS.ret b1) ;;
  JS.ret (set_buoy i (JS.clamp b2 0 1)).

Definition applyOrbInfluence (cfg : Config) (bounds : Bounds)
    (project : V3.t -> V3.t) (poseBoxesNDC : list Box) (o : Orbs) (dt : R)
    (instances : list Instance) : JS.Gen (list Instance) :=
  JS.forEach (influence cfg bounds project poseBoxesNDC o dt) instances.

(** *** [updatePhysics(dt, t)] *)

(** Row [i] after the velocity update, the clamp and the integration of
    position and rotation, as it stands when the recycle test is made. *)
Definition integrated (cfg : Config) (dt t : R) (i : Instance) : Instance :=
  let b := buoy i in
  let vy1 := velY i + (gravity (physics cfg)
                       + liftStrength (physics cfg) * b) * dt in
  let vx1 := velX i + sin (t * wSpdX i + wPhX i) * wAmpX i * dt in
  let vz1 := velZ i + cos (t * wSpdZ i + wPhZ i) * wAmpZ i * dt in
  let vx2 := vx1 * horizontalDrag (physics cfg) in
  let vy2 := vy1 * verticalDrag (physics cfg) in
  let vz2 := vz1 * horizontalDrag (physics cfg) in
  let vy3 := JS.clamp vy2 (- maxVerticalSpeed (physics cfg))
                      (maxVerticalSpeed (physics cfg)) in
  mkInstance (posX i + vx2 * dt) (posY i + vy3 * dt) (posZ i + vz2 * dt)
             vx2 vy3 vz2
             (rotY i + angY i * dt) (angY i) (buoy i) (decay i)
             (wAmpX i) (wAmpZ i) (wSpdX i) (wSpdZ i) (wPhX i) (wPhZ i)
             (iBuoy i) (iBase i) (iPatternType i) (iSeed i).

Definition outOfBounds (bounds : Bounds) (i : Instance) : bool :=
  JS.ltb (posY i) (yOffBottom bounds)
  || JS.gtb (posY i) (ySpawnTop bounds)
  || JS.ltb (posX i) (- xOff bounds)
  || JS.gtb (posX i) (xOff bounds).

Definition recycle (cfg : Config) (bounds : Bounds) (i : Instance)
    : JS.Gen Instance :=
  if outOfBounds bounds i then resetInstance cfg bounds false
  else JS.ret i.

Definition set_depth (b : Instance) (pz vz : R) : Instance :=
  mkInstance (posX b) (posY b) pz (velX b) (velY b) vz
             (rotY b) (angY b) (buoy b) (decay b)
             (wAmpX b) (wAmpZ b) (wSpdX b) (wSpdZ b) (wPhX b) (wPhZ b)
             (iBuoy b) (iBase b) (iPatternType b) (iSeed b).

Definition bounceDepth (bounds : Bounds) (i : Instance) : Instance :=
  if JS.ltb (posZ i) (zMin bounds) then
    set_depth i (zMin bounds) (JS.Math_abs (velZ i) * 0.6)
  else if JS.gtb (posZ i) (zMax bounds) then
    set_depth i (zMax bounds) (- JS.Math_abs (velZ i) * 0.6)
  else i.

(** The body of the loop of [updatePhysics], for one balloon.
    ([writeMatrices] hands the transform to the renderer.) *)
Definition updateInstance (cfg : Config) (bounds : Bounds) (dt t : R)
    (i : Instance) : JS.Gen Instance :=
  i2 <- recycle cfg bounds (integrated cfg dt t i) ;;
  JS.ret (bounceDepth bounds i2).

Definition updatePhysics (cfg : Config) (bounds : Bounds) (dt t : R)
    (instances : list Instance) : JS.Gen (list Instance) :=
  JS.forEach (updateInstance cfg bounds dt t) instances.

(** *** [animate(now)] *)

Definition frameDt (now lastTime : JS.Number) : JS.Number :=
  JS.or (JS.min (JS.div (JS.sub now lastTime) (JS.Finite 1000))
                (JS.Finite 0.05))
        (JS.Finite 0.016).

Definition dtOf (now lastTime : R) : R :=
  let m := JS.Math_min ((now - lastTime) / 1000) 0.05 in
  if JS.eqb m 0 then 0.016 else m.

Record World : Type := mkWorld {
  instances : list Instance;
  orbs : Orbs;
  bounds : Bounds;
  lastTime : R
}.

(** What the host supplies to one frame: the [setOrb] calls that the
    tracking functions and [updateMouseOrb] make, in order, and the
    content of [poseBoxesNDC] once [updateFullBodyBoxes] has run. *)
Record FrameInput : Type := mkFrameInput {
  orbWrites : list (Z * V3.t * R);
  poseBoxesNDC : list Box
}.

Fixpoint applyWrites (cfg : Config) (ws : list (Z * V3.t * R)) (o : Orbs)
    : option Orbs :=
  match ws with
  | [] => Some o
  | (slot, worldPos, strength) :: rest =>
      match setOrb cfg slot worldPos strength o with
      | Some o' => applyWrites cfg rest o'
      | None => None
      end
  end.

(** One frame.  [None] stands for an exception leaving [animate]. *)
Definition animate (cfg : Config) (project : V3.t -> V3.t)
    (input : FrameInput) (now : R) (w : World) : JS.Gen (option World) :=
  let dt := dtOf now (lastTime w) in
  let t := now * 0.001 in
  let o1 := decayTTL dt (orbs w) in
  match applyWrites cfg (orbWrites input) o1 with
  | None => JS.ret None
  | Some o2 =>
      let alpha := smoothingAlpha cfg dt in
      let o3 := smoothOrbs cfg alpha o2 in
      is1 <- applyOrbInfluence cfg (bounds w) project (poseBoxesNDC input)
                               o3 dt (instances w) ;;
      is2 <- updatePhysics cfg (bounds w) dt t is1 ;;
      JS.ret (Some (mkWorld is2 o3 (bounds w) now))
  end.

(** *** The camera of [CONFIG.camera3d]

    [Vector3.project(camera)] of three.js, for a perspective camera that
    looks down the negative z axis (as the one placed at (0, 6, 40) and
    looking at (0, 6, 0) does): the point is moved to view space and
    multiplied by the matrix built by [makePerspective], then divided by
    its fourth coordinate. *)

Record Camera : Type := mkCamera {
  cam_position : V3.t;
  cam_fov : R;
  cam_aspect : R;
  cam_near : R;
  cam_far : R
}.

Definition project (c : Camera) (v : V3.t) : V3.t :=
  let vx := V3.x v - V3.x (cam_position c) in
  let vy := V3.y v - V3.y (cam_position c) in
  let vz := V3.z v - V3.z (cam_position c) in
  let near := cam_near c in
  let far := cam_far c in
  let top := near * tan (PI / 180 * 0.5 * cam_fov c) in
  let height := 2 * top in
  let width := cam_aspect c * height in
  let left := - 0.5 * width in
  let right := left + width in
  let bottom := top - height in
  let mx := 2 * near / (right - left) in
  let my := 2 * near / (top - bottom) in
  let ma := (right + left) / (right - left) in
  let mb := (top + bottom) / (top - bottom) in
  let mc := - (far + near) / (far - near) in
  let md := (- 2 * far * near) / (far - near) in
  let w := 1 / (- vz) in
  V3.mk ((mx * vx + ma * vz) * w)
        ((my * vy + mb * vz) * w)
        ((mc * vz + md) * w).

Definition camera3d (aspect : R) : Camera := {|
  cam_position := V3.mk 0 6 40;
  cam_fov := 55;
  cam_aspect := aspect;
  cam_near := 0.1;
  cam_far := 260
|}.

End Balloons.

(* ====================================================================== *)
(** ** The balloon variant: tracking inputs, mouse and tuning interface    *)
(* ====================================================================== *)

Module Tracking.

Import Balloons.

(** A landmark of the pose or hand detector, in normalized image
    coordinates. *)
Record Landmark : Type := mkLandmark { lm_x : R; lm_y : R }.

(** One detected person or hand, [res.landmarks[p]]: the array of its
    landmarks.  [None] stands for a missing (falsy) entry. *)
Definition Landmarks : Type := list (option Landmark).

(** [lm[i]], with [None] for [undefined] as well. *)
Definition entry (lm : Landmarks) (i : nat) : option Landmark :=
  match nth_error lm i with
  | Some pt => pt
  | None => None
  end.

(** The fields of [CONFIG.interaction] and [CONFIG.pose] that only the
    tracking code and the mouse read. *)
Record Inputs : Type := mkInputs {
  mouseEnabled : bool;
  poseEnabled : bool;
  mirror : bool;
  leftWristIndex : nat;
  rightWristIndex : nat
}.

Definition INPUTS : Inputs := {|
  mouseEnabled := true;
  poseEnabled := true;
  mirror := false;
  leftWristIndex := 15;
  rightWristIndex := 16
|}.

(** What the tracking functions read of the host: the two readiness flags,
    the size and the playback time of the video, and the playback times at
    which the detectors last ran. *)
Record Host : Type := mkHost {
  poseReady : bool;
  handsReady : bool;
  videoWidth : R;
  currentTime : R;
  lastPoseVideoTime : R;
  lastHandsVideoTime : R
}.

Definition set_lastPoseVideoTime (h : Host) (t : R) : Host :=
  mkHost (poseReady h) (handsReady h) (videoWidth h) (currentTime h)
         t (lastHandsVideoTime h).

Definition set_lastHandsVideoTime (h : Host) (t : R) : Host :=
  mkHost (poseReady h) (handsReady h) (videoWidth h) (currentTime h)
         (lastPoseVideoTime h) t.

Definition WRIST_SLOTS_START : nat := 1.

Definition WRIST_SLOTS_COUNT (cfg : Config) : nat :=
  maxPeople (interaction cfg) * 2.

Definition FINGER_SLOTS_START (cfg : Config) : nat :=
  WRIST_SLOTS_START + WRIST_SLOTS_COUNT cfg.

(** The normalized device coordinates of a landmark:
    [(mirror ? 1 - pt.x : pt.x) * 2 - 1] and [-(pt.y * 2 - 1)]. *)
Definition ndcX (inp : Inputs) (pt : Landmark) : R :=
  (if mirror inp then 1 - lm_x pt else lm_x pt) * 2 - 1.

Definition ndcY (pt : Landmark) : R := - (lm_y pt * 2 - 1).

(** *** [addPoseWristOrbPoints(nowMs)]

    [toWorld] is [ndcToWorldOnViewPlane] and [poses] the landmarks that
    the detector returns for the current video frame. *)

(** The [setOrb] calls of the loop body for person [p]. *)
Definition wristWritesOf (inp : Inputs) (toWorld : R -> R -> V3.t)
    (p : nat) (lm : Landmarks) : list (Z * V3.t * R) :=
  (match entry lm (leftWristIndex inp) with
   | Some lw => [(Z.of_nat (1 + p * 2), toWorld (ndcX inp lw) (ndcY lw), 1.0)]
   | None => []
   end)
  ++
  (match entry lm (rightWristIndex inp) with
   | Some rw =>
       [(Z.of_nat (1 + p * 2 + 1), toWorld (ndcX inp rw) (ndcY rw), 1.0)]
   | None => []
   end).

(** [for (let p = ...; p < poses.length; p++)], from person [p] on. *)
Fixpoint wristWrites (inp : Inputs) (toWorld : R -> R -> V3.t)
    (p : nat) (poses : list Landmarks) : list (Z * V3.t * R) :=
  match poses with
  | [] => []
  | lm :: rest =>
      wristWritesOf inp toWorld p lm ++ wristWrites inp toWorld (S p) rest
  end.

(** [None] stands for an exception raised by [setOrb]. *)
Definition addPoseWristOrbPoints (cfg : Config) (inp : Inputs)
    (toWorld : R -> R -> V3.t) (poses : list Landmarks)
    (h : Host) (o : Orbs) : option (Host * Orbs) :=
  if negb (String.eqb (trackMode (interaction cfg)) "wrists") then Some (h, o)
  else if negb (poseEnabled inp) then Some (h, o)
  else if negb (poseReady h) then Some (h, o)
  else if JS.eqb (videoWidth h) 0 then Some (h, o)
  else if JS.eqb (currentTime h) (lastPoseVideoTime h) then Some (h, o)
  else
    match applyWrites cfg (wristWrites inp toWorld 0 poses) o with
    | Some o' => Some (set_lastPoseVideoTime h (currentTime h), o')
    | None => None
    end.

(** *** [addFingerOrbPoints(nowMs)] *)

Definition HAND_TIPS : list nat := [4; 8; 12; 16; 20]%nat.

(** The fingertips the two nested loops visit, in order. *)
Definition fingerTips (hands : list Landmarks) : list (option Landmark) :=
  flat_map (fun lm => map (entry lm) HAND_TIPS) hands.

(** The [setOrb] calls of the loops from the fingertip at hand, with the
    running [slot]; [if (slot >= MAX_ORBS) return] ends them. *)
Fixpoint fingerWrites (cfg : Config) (inp : Inputs)
    (toWorld : R -> R -> V3.t) (tips : list (option Landmark)) (slot : nat)
    : list (Z * V3.t * R) :=
  match tips with
  | [] => []
  | tip :: rest =>
      if (MAX_ORBS cfg <=? slot)%nat then [] else
      match tip with
      | None => fingerWrites cfg inp toWorld rest (S slot)
      | Some pt =>
          (Z.of_nat slot, toWorld (ndcX inp pt) (ndcY pt), 1.0)
          :: fingerWrites cfg inp toWorld rest (S slot)
      end
  end.

Definition addFingerOrbPoints (cfg : Config) (inp : Inputs)
    (toWorld : R -> R -> V3.t) (hands : list Landmarks)
    (h : Host) (o : Orbs) : option (Host * Orbs) :=
  if negb (String.eqb (trackMode (interaction cfg)) "fingers") then Some (h, o)
  else if negb (handsReady h) then Some (h, o)
  else if JS.eqb (videoWidth h) 0 then Some (h, o)
  else if JS.eqb (currentTime h) (lastHandsVideoTime h) then Some (h, o)
  else
    match applyWrites cfg
            (fingerWrites cfg inp toWorld (fingerTips hands)
                          (FINGER_SLOTS_START cfg)) o with
    | Some o' => Some (set_lastHandsVideoTime h (currentTime h), o')
    | None => None
    end.

(** *** [updateFullBodyBoxes(nowMs)] *)

(** The inner loop: the running [minX], [maxX], [minY], [maxY] after one
    more landmark. *)
Definition extend (inp : Inputs) (acc : Box) (pt : option Landmark) : Box :=
  match pt with
  | None => acc
  | Some p =>
      let x := ndcX inp p in
      let y := ndcY p in
      mkBox (JS.Math_min (minX acc) x) (JS.Math_max (maxX acc) x)
            (JS.Math_min (minY acc) y) (JS.Math_max (maxY acc) y)
  end.

Definition extent (inp : Inputs) (lm : Landmarks) : Box :=
  fold_left (extend inp) lm (mkBox 999 (-999) 999 (-999)).

(** The box pushed for one person, if any. *)
Definition poseBox (inp : Inputs) (lm : Landmarks) : option Box :=
  let e := extent inp lm in
  if JS.ltb (minX e) 998 then
    let padX := 0.06 in
    let padY := 0.08 in
    Some (mkBox (minX e - padX) (maxX e + padX)
                (minY e - padY) (maxY e + padY))
  else None.

Definition poseBoxes (inp : Inputs) (poses : list Landmarks) : list Box :=
  flat_map (fun lm => match poseBox inp lm with
                      | Some bb => [bb]
                      | None => []
                      end) poses.

(** The new content of [poseBoxesNDC], which the function empties before
    anything else. *)
Definition updateFullBodyBoxes (cfg : Config) (inp : Inputs)
    (poses : list Landmarks) (h : Host) : Host * list Box :=
  if negb (String.eqb (trackMode (interaction cfg)) "fullBody") then (h, [])
  else if negb (poseEnabled inp) then (h, [])
  else if negb (poseReady h) then (h, [])
  else if JS.eqb (videoWidth h) 0 then (h, [])
  else if JS.eqb (currentTime h) (lastPoseVideoTime h) then (h, [])
  else (set_lastPoseVideoTime h (currentTime h), poseBoxes inp poses).

(** *** The mouse *)

(** The [pointermove] listener: the new value of [pointer], from the
    position of the event and the rectangle of the canvas. *)
Definition onPointerMove (inp : Inputs)
    (clientX clientY left top width height : R) (pointer : R * R) : R * R :=
  if negb (mouseEnabled inp) then pointer
  else (((clientX - left) / width) * 2 - 1,
        - ((clientY - top) / height) * 2 + 1).

(** The [pointerleave] listener, and the value [pointer] starts with. *)
Definition onPointerLeave : R * R := (999, 999).

(** [updateMouseOrb()]; [hits] are the points where the ray under the
    pointer meets the balloons, nearest first. *)
Definition updateMouseOrb (cfg : Config) (inp : Inputs) (pointer : R * R)
    (hits : list V3.t) (o : Orbs) : option Orbs :=
  if negb (mouseEnabled inp) then Some o
  else if JS.gtb (JS.Math_abs (fst pointer)) 2
          || JS.gtb (JS.Math_abs (snd pointer)) 2 then Some o
  else
    match hits with
    | [] => Some o
    | hit :: _ => setOrb cfg 0 hit 1.0 o
    end.

End Tracking.

(** *** The runtime tuning interface [window.SIM]

    Each setter rewrites one field of [CONFIG]; the arguments are numbers,
    booleans and strings as the setter expects them.  ([orbsVisible], which
    [setTrackMode] also sets, and the scale and overlay setters only
    change what is drawn.) *)

Module SIM.

Import Balloons.

Definition set_interaction (cfg : Config) (i : Interaction) : Config :=
  mkConfig (balloons cfg) (physics cfg) (wobble cfg) (spawn cfg)
           (randomLight cfg) i.

Definition setHandEffectRadius (v : R) (cfg : Config) : Config :=
  let i := interaction cfg in
  set_interaction cfg
    (mkInteraction (trackMode i) (maxPeople i) (maxHands i)
                   (JS.Math_max 0.1 v)
                   (useScreenSpaceHit i) (screenRadiusNDC i)
                   (screenRadiusMin i) (screenRadiusMax i)
                   (orbSmoothing i) (orbMaxTTL i)).

Definition setScreenRadiusNDC (v : R) (cfg : Config) : Config :=
  let i := interaction cfg in
  set_interaction cfg
    (mkInteraction (trackMode i) (maxPeople i) (maxHands i)
                   (hoverRadiusWorld i)
                   (useScreenSpaceHit i) (Some (JS.clamp v 0.01 0.25))
                   (screenRadiusMin i) (screenRadiusMax i)
                   (orbSmoothing i) (orbMaxTTL i)).

Definition useScreenSpaceHit (v : bool) (cfg : Config) : Config :=
  let i := interaction cfg in
  set_interaction cfg
    (mkInteraction (trackMode i) (maxPeople i) (maxHands i)
                   (hoverRadiusWorld i)
                   v (screenRadiusNDC i)
                   (screenRadiusMin i) (screenRadiusMax i)
                   (orbSmoothing i) (orbMaxTTL i)).

(** [String(mode || "wrists")] on a string: the empty string is falsy. *)
Definition setTrackMode (mode : string) (cfg : Config) : Config :=
  let i := interaction cfg in
  let m := if String.eqb mode "" then "wrists"%string else mode in
  set_interaction cfg
    (mkInteraction m (maxPeople i) (maxHands i)
                   (hoverRadiusWorld i)
                   (Balloons.useScreenSpaceHit i) (screenRadiusNDC i)
                   (screenRadiusMin i) (screenRadiusMax i)
                   (orbSmoothing i) (orbMaxTTL i)).

End SIM.

(* ====================================================================== *)
(** ** The lantern variant: the listeners of the control panel             *)
(* ====================================================================== *)

Module Controls.

Import Lantern.

(** [THREE.MathUtils.clamp] on a number that may be [NaN]:
    [Math.max(min, Math.min(max, NaN))] is [NaN]. *)
Definition clampNumber (v : JS.Number) (lo hi : R) : JS.Number :=
  match v with
  | JS.Finite x => JS.Finite (JS.clamp x lo hi)
  | JS.NaN => JS.NaN
  end.

(** The listener of the opacity field, in [setupUIControls]: the new
    [globalOpacity], from what [parseFloat] reads in the field,
    [clamp(parseFloat(value) || 0.9, 0, 1)]. *)
Definition opacityInput (parsed : JS.Number) : JS.Number :=
  clampNumber (JS.or parsed (JS.Finite 0.9)) 0 1.

(** The listener that [setupPhysicsControl] installs: a value that is not
    a finite number is dropped, any other is handed to the setter. *)
Definition physicsInput {S : Type} (setter : R -> S -> S)
    (parsed : JS.Number) (state : S) : S :=
  match parsed with
  | JS.Finite v => setter v state
  | JS.NaN => state
  end.

Definition set_wobble (cfg : Config) (w : WobbleCfg) : Config :=
  mkConfig (lantern cfg) (physics cfg) (spawn cfg) w
           (rotation_ySpeed_spread cfg) (randomLight cfg) (hover_radius cfg)
           (patterns cfg).

(** The setters of the three wobble sliders. *)
Definition setWobbleAmpX (v : R) (cfg : Config) : Config :=
  let w := wobble cfg in
  set_wobble cfg (mkWobbleCfg (mkRange (v * 0.4) v) (cfg_ampZ w)
                              (cfg_speedX w) (cfg_speedZ w)).

Definition setWobbleAmpZ (v : R) (cfg : Config) : Config :=
  let w := wobble cfg in
  set_wobble cfg (mkWobbleCfg (cfg_ampX w) (mkRange (v * 0.375) v)
                              (cfg_speedX w) (cfg_speedZ w)).

Definition setWobbleSpeed (v : R) (cfg : Config) : Config :=
  let w := wobble cfg in
  set_wobble cfg (mkWobbleCfg (cfg_ampX w) (cfg_ampZ w)
                              (mkRange (v * 0.4) v) (mkRange (v * 0.4) v)).

End Controls.

(* ====================================================================== *)
(** ** Vocabulary of the properties                                        *)
(* ====================================================================== *)

(** *** Results of code that draws random numbers

    [post m P]: whenever the random source keeps to [0, 1), the result of
    [m] satisfies [P], and what is left of the source keeps to [0, 1). *)

Definition post {A} (m : JS.Gen A) (P : A -> Prop) : Prop :=
  forall s, JS.valid s -> P (fst (m s)) /\ JS.valid (snd (m s)).

Definition unitInterval (b : R) : Prop := 0 <= b <= 1.

(** The band in which a recycled instance reappears is not empty and lies
    above the despawn floor. *)
Definition spawnBandOK (bnd : Bounds) : Prop :=
  yMax bnd + 2 <= ySpawnTop bnd /\ yOffBottom bnd <= yMax bnd + 2.

Section LanternVocabulary.

Import Lantern.

(** What [resetLantern] leaves behind: a lantern whose position, velocity
    and buoyancy are affine images of eight draws, and which is not
    hovered. *)
Definition resetOutcome (cfg : Config) (bnd : Bounds)
    (l : Lantern) (isInitial : bool) (l' : Lantern) : Prop :=
  exists ux uy uz wx wy wz u1 u2 : R,
    (0 <= ux < 1 /\ 0 <= uy < 1 /\ 0 <= uz < 1) /\
    (0 <= wx < 1 /\ 0 <= wy < 1 /\ 0 <= wz < 1) /\
    (0 <= u1 < 1 /\ 0 <= u2 < 1) /\
    let spawnYMin := if isInitial then yOffBottom bnd else yMax bnd + 2 in
    position l' =
      V3.mk (xVisible bnd * 2.0 * (0.5 - ux))
            (spawnYMin + uy * (ySpawnTop bnd - spawnYMin))
            (zMin bnd + uz * (zMax bnd - zMin bnd)) /\
    velocity l' =
      V3.mk (initialVelocity_x_spread (spawn cfg) * (0.5 - wx))
            (min (initialVelocity_y (spawn cfg))
             + wy * (max (initialVelocity_y (spawn cfg))
                     - min (initialVelocity_y (spawn cfg))))
            (initialVelocity_z_spread (spawn cfg) * (0.5 - wz)) /\
    buoyancy l' = u1 * u2 * initialBuoyancy_maxFactor (spawn cfg) /\
    hovered l' = false /\
    rotation_y l' = rotation_y l /\
    decayRate l' = decayRate l.

(** The quantities the resolver works with, for the pair [a], [b]: the
    distance between the two positions, the unit vector from [a] to [b],
    and the velocity of [b] relative to [a] along that vector (negative
    when the two approach each other). *)

Definition separation (a b : Lantern) : R :=
  V3.distanceTo (position b) (position a).

Definition normal (a b : Lantern) : V3.t :=
  V3.scale (V3.sub (position b) (position a)) (/ separation a b).

Definition relNormalVelocity (a b : Lantern) : R :=
  V3.dot (V3.sub (velocity b) (velocity a)) (normal a b).

Definition closingSpeed (a b : Lantern) : R := - relNormalVelocity a b.

(** The pair after the positional correction, and after the impulse. *)
Definition pushedApart (m : R) (a b : Lantern) : Lantern * Lantern :=
  let h := (m - separation a b) * 0.5 in
  (set_position a (V3.sub (position a) (V3.scale (normal a b) h)),
   set_position b (V3.add (position b) (V3.scale (normal a b) h))).

Definition bounced (m e : R) (a b : Lantern) : Lantern * Lantern :=
  let j := - (1 + e) * relNormalVelocity a b * 0.5 in
  let n := normal a b in
  let impulse := V3.mk (j * V3.x n) (j * V3.y n) (j * V3.z n) in
  (set_velocity (fst (pushedApart m a b)) (V3.sub (velocity a) impulse),
   set_velocity (snd (pushedApart m a b)) (V3.add (velocity b) impulse)).

End LanternVocabulary.

Section BalloonVocabulary.

Import Balloons.

(** What [resetInstance] writes into a row, as far as height, depth,
    velocity and buoyancy go. *)
Definition rowOutcome (cfg : Config) (bnd : Bounds)
    (isInitial : bool) (i : Instance) : Prop :=
  exists uy uz wy wz u1 u2 : R,
    (0 <= uy < 1 /\ 0 <= uz < 1) /\
    (0 <= wy < 1 /\ 0 <= wz < 1) /\
    (0 <= u1 < 1 /\ 0 <= u2 < 1) /\
    let spawnYMin := if isInitial then yOffBottom bnd else yMax bnd + 2 in
    posY i = spawnYMin + uy * (ySpawnTop bnd - spawnYMin) /\
    posZ i = zMin bnd + uz * (zMax bnd - zMin bnd) /\
    velY i = min (initialVelocity_y (spawn cfg))
             + wy * (max (initialVelocity_y (spawn cfg))
                     - min (initialVelocity_y (spawn cfg))) /\
    velZ i = initialVelocity_z_spread (spawn cfg) * (0.5 - wz) /\
    buoy i = u1 * u2 * initialBuoyancy_maxFactor (spawn cfg) /\
    iBuoy i = buoy i.

(** The four orb arrays have [MAX_ORBS] entries each. *)
Definition orbsWF (cfg : Config) (o : Orbs) : Prop :=
  List.length (orbPositions o) = MAX_ORBS cfg
  /\ List.length (orbTargets o) = MAX_ORBS cfg
  /\ List.length (orbBuoy o) = MAX_ORBS cfg
  /\ List.length (orbTTL o) = MAX_ORBS cfg.

(** Where the smoothed position of orb [k] goes in one frame. *)
Definition smoothed (alpha : R) (o : Orbs) (k : nat) : V3.t :=
  if JS.gtb (nth k (orbTTL o) 0) 0
  then V3.lerp (nth k (orbPositions o) V3.zero)
               (nth k (orbTargets o) V3.zero) alpha
  else nth k (orbPositions o) V3.zero.

End BalloonVocabulary.

(** Results of a frame of the balloon variant: whatever holds of the rows
    after [applyOrbInfluence] followed by [updatePhysics] holds of the
    world the frame returns, if it returns one. *)
Definition frameResult (P : list Balloons.Instance -> Prop)
    (r : option Balloons.World) : Prop :=
  match r with
  | Some w' => P (Balloons.instances w')
  | None => True
  end.

(** The depth [z] lies in front of the camera, between its near plane and
    its far plane (the camera looks down the negative z axis). *)
Definition betweenPlanes (c : Balloons.Camera) (z : R) : Prop :=
  Balloons.cam_near c <= V3.z (Balloons.cam_position c) - z
                      <= Balloons.cam_far c.

(* ====================================================================== *)
(** ** Sample states used in the examples                                  *)
(* ====================================================================== *)

(** A random source that always returns one half. *)
Definition halves : JS.Rand := fun _ => 0.5.


(** A lantern at position [p] with velocity [v], buoyancy [b] and hover
    flag [h]; the other fields are as a spawn leaves them. *)
Definition sampleLantern (p v : V3.t) (b : R) (h : bool) : Lantern.Lantern :=
  {| Lantern.position := p;
     Lantern.rotation_y := 0;
     Lantern.velocity := v;
     Lantern.buoyancy := b;
     Lantern.hovered := h;
     Lantern.decayRate := 0.4;
     Lantern.angularVelocity := Some (V3.mk 0 0.1 0);
     Lantern.wobbleOf := Some (Lantern.mkWobble 0.5 0.5 0.5 0.5 0 0);
     Lantern.offColor := white;
     Lantern.pattern := None |}.

(** A balloon row at position [(px, py, pz)] with velocity
    [(vx, vy, vz)] and buoyancy [b]. *)
Definition sampleRow (px py pz vx vy vz b : R) : Balloons.Instance :=
  {| Balloons.posX := px; Balloons.posY := py; Balloons.posZ := pz;
     Balloons.velX := vx; Balloons.velY := vy; Balloons.velZ := vz;
     Balloons.rotY := 0; Balloons.angY := 0.1;
     Balloons.buoy := b; Balloons.decay := 0.65;
     Balloons.wAmpX := 0.3; Balloons.wAmpZ := 0.3;
     Balloons.wSpdX := 0.5; Balloons.wSpdZ := 0.5;
     Balloons.wPhX := 0; Balloons.wPhZ := 0;
     Balloons.iBuoy := b; Balloons.iBase := 0xffffff%Z;
     Balloons.iPatternType := 0; Balloons.iSeed := 0 |}.

(** Three pairs: one overlapping and approaching, one overlapping and
    separating, one apart. *)
Definition pairA : Lantern.Lantern :=
  sampleLantern (V3.mk 0 0 0) (V3.mk 1 0 0) 0 false.
Definition pairB : Lantern.Lantern :=
  sampleLantern (V3.mk 0.3 0.4 0) (V3.mk 0 0 0) 0 false.
Definition pairA_leaving : Lantern.Lantern :=
  sampleLantern (V3.mk 0 0 0) (V3.mk (-1) 0 0) 0 false.
Definition pairB_far : Lantern.Lantern :=
  sampleLantern (V3.mk 3 4 0) (V3.mk 0 0 0) 0 false.

(** Two hovered lanterns rising at the speed limit, the first drifting
    sideways into the second, at the start of a frame of 16 ms. *)
Definition risingA : Lantern.Lantern :=
  sampleLantern (V3.mk 0 5 0) (V3.mk 1 4 0) 1 true.
Definition risingB : Lantern.Lantern :=
  sampleLantern (V3.mk 0.315184 5.4 0) (V3.mk 0 4 0) 1 true.
Definition risingSim : Lantern.Sim :=
  Lantern.mkSim [risingA; risingB] (Lantern.initialBounds Lantern.CONFIG) 1000 false.

(** The two lanterns after [updateLanterns]. *)
Definition risingA1 : Lantern.Lantern :=
  Lantern.integrated Lantern.CONFIG 0.016 (1016 * 0.001) 1 risingA.
Definition risingB1 : Lantern.Lantern :=
  Lantern.integrated Lantern.CONFIG 0.016 (1016 * 0.001) 1 risingB.



(** A lantern and a balloon row far above the spawn ceiling. *)
Definition highLantern : Lantern.Lantern :=
  sampleLantern (V3.mk 0 30 0) (V3.mk 0 1 0) 0.5 true.
Definition highRow : Balloons.Instance := sampleRow 0 30 0 0 1 0 0.5.

(** Orb 0 is live and sits at the view centre, 40 units in front of the
    camera of [CONFIG.camera3d], on its axis. *)
Definition oneLiveOrb : Balloons.Orbs :=
  let o := Balloons.initialOrbs Balloons.CONFIG in
  Balloons.mkOrbs (set_nth 0 (V3.mk 0 6 0) (Balloons.orbPositions o))
                  (set_nth 0 (V3.mk 0 6 0) (Balloons.orbTargets o))
                  (set_nth 0 1.0 (Balloons.orbBuoy o))
                  (set_nth 0 0.12 (Balloons.orbTTL o)).

(** A balloon on the camera axis, 50 units in front of the camera and 10
    units behind the orb. *)
Definition rowInFront : Balloons.Instance := sampleRow 0 6 (-10) 0 0 0 0.

(** The camera of the lantern variant ([CONFIG.camera]: at (0, 5, 22),
    looking at (0, 5, 0)), and a lantern on its axis. *)
Definition lanternCamera (aspect : R) : Balloons.Camera := {|
  Balloons.cam_position := V3.mk 0 5 22;
  Balloons.cam_fov := 45;
  Balloons.cam_aspect := aspect;
  Balloons.cam_near := 0.1;
  Balloons.cam_far := 100
|}.
Definition axisLantern : Lantern.Lantern :=
  sampleLantern (V3.mk 0 5 (-3)) (V3.mk 0 0 0) 0 false.

(** A balloon world of one row with orb 0 live, and a frame in which the
    host reports nothing. *)
Definition sampleWorld : Balloons.World :=
  Balloons.mkWorld [sampleRow 0 5 0 0 0 0 0.5] oneLiveOrb
                   (Balloons.initialBounds Balloons.CONFIG) 1000.
Definition quietFrame : Balloons.FrameInput := Balloons.mkFrameInput [] [].




(** A checker pattern on a palette of three colours, and a vertex whose
    height factor is negative. *)
Definition checkerPattern : Lantern.Pattern :=
  {| Lantern.type := "checker";
     Lantern.palette :=
       Some [mkColor 1 0 0; mkColor 0 1 0; mkColor 0 0 1];
     Lantern.stripes := 8;
     Lantern.cellsY := 6;
     Lantern.cellsA := 8 |}.


(* ====================================================================== *)
(** ** Vocabulary of the further properties                                *)
(* ====================================================================== *)

(** The bounds are well formed: the recycle band is not empty, the visible
    half-width is not negative and not beyond the offscreen margin, and
    the depth walls are in order. *)
Definition boundsWF (bnd : Bounds) : Prop :=
  spawnBandOK bnd
  /\ 0 <= xVisible bnd <= xOff bnd
  /\ zMin bnd <= zMax bnd.

(** A point inside the recycle volume and between the depth walls. *)
Definition insideVolume (bnd : Bounds) (p : V3.t) : Prop :=
  (yOffBottom bnd <= V3.y p <= ySpawnTop bnd)
  /\ (- xOff bnd <= V3.x p <= xOff bnd)
  /\ (zMin bnd <= V3.z p <= zMax bnd).

(** A [{ min, max }] pair in order, and a number within it. *)
Definition ordered (r : Range) : Prop := min r <= max r.

Definition within (r : Range) (v : R) : Prop := min r <= v <= max r.

(** Sum of vectors. *)
Definition sumV (vs : list V3.t) : V3.t := fold_right V3.add V3.zero vs.

Section FurtherLanternVocabulary.

Import Lantern.

(** What a frame never changes of a lantern: its decay rate, its spin,
    its wobble, its base colour and its pattern. *)
Definition sameIdentity (l l' : Lantern) : Prop :=
  decayRate l' = decayRate l
  /\ angularVelocity l' = angularVelocity l
  /\ wobbleOf l' = wobbleOf l
  /\ offColor l' = offColor l
  /\ pattern l' = pattern l.

(** Everything but the hover flag. *)
Definition sameButHovered (l l' : Lantern) : Prop :=
  position l' = position l
  /\ rotation_y l' = rotation_y l
  /\ velocity l' = velocity l
  /\ buoyancy l' = buoyancy l
  /\ sameIdentity l l'.

(** Sum of a quantity over the lanterns. *)
Definition total (f : Lantern -> R) (ls : list Lantern) : R :=
  fold_right (fun l acc => f l + acc) 0 ls.

(** The lanterns have equal masses: the momentum is the sum of the
    velocities, the centre of mass the mean of the positions, and the
    kinetic energy half the sum of the squared speeds. *)
Definition momentum (ls : list Lantern) : V3.t := sumV (map velocity ls).

Definition positionSum (ls : list Lantern) : V3.t := sumV (map position ls).

Definition speedSqSum (ls : list Lantern) : R :=
  total (fun l => V3.lengthSq (velocity l)) ls.

(** A pair the resolver leaves alone: at least the minimum distance apart,
    or exactly at the same place. *)
Definition apart (m : R) (a b : Lantern) : Prop :=
  m <= separation a b \/ separation a b = 0.

(** The wobble parameters lie in the configured ranges and the phases in
    one turn. *)
Definition wobbleOK (cfg : Config) (w : Wobble) : Prop :=
  within (cfg_ampX (wobble cfg)) (ampX w)
  /\ within (cfg_ampZ (wobble cfg)) (ampZ w)
  /\ within (cfg_speedX (wobble cfg)) (speedX w)
  /\ within (cfg_speedZ (wobble cfg)) (speedZ w)
  /\ 0 <= phaseX w < 2 * PI
  /\ 0 <= phaseZ w < 2 * PI.

End FurtherLanternVocabulary.

Section FurtherBalloonVocabulary.

Import Balloons.

(** The slots that a list of [setOrb] calls writes. *)
Definition slotsOf (ws : list (Z * V3.t * R)) : list Z :=
  map (fun w => fst (fst w)) ws.

(** Orb [k] is live. *)
Definition live (o : Orbs) (k : nat) : Prop := 0 < nth k (orbTTL o) 0.

(** The two orb states agree at every slot but [k]. *)
Definition sameElsewhere (k : nat) (o o' : Orbs) : Prop :=
  forall j, j <> k ->
    nth_error (orbPositions o') j = nth_error (orbPositions o) j
    /\ nth_error (orbTargets o') j = nth_error (orbTargets o) j
    /\ nth_error (orbBuoy o') j = nth_error (orbBuoy o) j
    /\ nth_error (orbTTL o') j = nth_error (orbTTL o) j.

(** A point inside a box. *)
Definition inBox (bb : Box) (x y : R) : Prop :=
  minX bb <= x <= maxX bb /\ minY bb <= y <= maxY bb.

(** The projected depth of a point is inside the clip range. *)
Definition inClipRange (project : V3.t -> V3.t) (v : V3.t) : Prop :=
  -1 <= V3.z (project v) <= 1.

(** The squared distance of two points on screen, and in the world. *)
Definition screenDistSq (project : V3.t -> V3.t) (a b : V3.t) : R :=
  (V3.x (project a) - V3.x (project b)) * (V3.x (project a) - V3.x (project b))
  + (V3.y (project a) - V3.y (project b))
    * (V3.y (project a) - V3.y (project b)).

Definition worldDistSq (a b : V3.t) : R :=
  (V3.x a - V3.x b) * (V3.x a - V3.x b)
  + (V3.y a - V3.y b) * (V3.y a - V3.y b)
  + (V3.z a - V3.z b) * (V3.z a - V3.z b).

End FurtherBalloonVocabulary.

Section SpawnVocabulary.

Import Lantern.

(** What [spawnLantern] gives a lantern for life. *)
Definition spawnedOK (offsetHSL : Color -> R -> R -> R -> Color)
    (cfg : Config) (base : Color) (l : Lantern) : Prop :=
  (buoyancyDecayRate (physics cfg) * min (buoyancyDecayVariance (physics cfg))
   <= decayRate l
   <= buoyancyDecayRate (physics cfg) * max (buoyancyDecayVariance (physics cfg)))
  /\ (exists wy, angularVelocity l = Some (V3.mk 0 wy 0)
                 /\ Rabs wy <= rotation_ySpeed_spread cfg / 2)
  /\ (exists w, wobbleOf l = Some w /\ wobbleOK cfg w)
  /\ offColor l = base
  /\ (exists p, pattern l = Some p
                /\ In (type p) (types (patterns cfg))
                /\ palette p = Some (createPaletteFromBase offsetHSL cfg base)
                /\ stripes p = stripesFor cfg (type p)
                /\ cellsY p = checker_cellsY (patterns cfg)
                /\ cellsA p = checker_cellsA (patterns cfg)).

End SpawnVocabulary.

Section TrackingVocabulary.

Import Balloons Tracking.

(** A landmark inside the image. *)
Definition normalized (pt : Landmark) : Prop :=
  0 <= lm_x pt <= 1 /\ 0 <= lm_y pt <= 1.

(** The landmark projects inside the box, at least [padX = 0.06] away from
    its left and right sides and [padY = 0.08] away from its bottom and
    top. *)
Definition paddedInside (inp : Inputs) (bb : Box) (pt : Landmark) : Prop :=
  minX bb + 0.06 <= ndcX inp pt <= maxX bb - 0.06
  /\ minY bb + 0.08 <= ndcY pt <= maxY bb - 0.08.

(** The guards of the pose functions let a detection through: tracking is
    enabled and ready, the video has a size, and its playback time has
    moved since the last detection. *)
Definition freshPoseFrame (inp : Inputs) (h : Host) : Prop :=
  poseEnabled inp = true
  /\ poseReady h = true
  /\ videoWidth h <> 0
  /\ currentTime h <> lastPoseVideoTime h.

End TrackingVocabulary.

(** Sample inputs of the tracking code: the configuration of the source
    switched to the full-body mode, a host whose video has advanced since
    the last detection, a person of whom two landmarks were found, and a
    hand of which only the tip of the index finger was found. *)
Definition fullBodyConfig : Balloons.Config :=
  SIM.setTrackMode "fullBody" Balloons.CONFIG.

Definition readyHost : Tracking.Host :=
  Tracking.mkHost true true 640 0.5 0.4 0.4.

Definition samplePerson : Tracking.Landmarks :=
  [Some (Tracking.mkLandmark 0.25 0.5); None;
   Some (Tracking.mkLandmark 0.75 0.25)].

Definition sampleHand : Tracking.Landmarks :=
  repeat None 8 ++ [Some (Tracking.mkLandmark 0.5 0.5)].

Section RowVocabulary.

Import Balloons.

(** What [resetInstance] writes into the columns of a row besides its
    position and buoyancy. *)
Definition rowOK (cfg : Config) (i : Instance) : Prop :=
  In (iBase i) REAL_BALLOON_PALETTE
  /\ (iPatternType i = 0 \/ iPatternType i = 1 \/ iPatternType i = 2)
  /\ 0 <= iSeed i < 1000
  /\ 0 <= rotY i < 2 * PI
  /\ Rabs (angY i) <= 0.225
  /\ (buoyancyDecayRate (physics cfg) * min (buoyancyDecayVariance (physics cfg))
      <= decay i
      <= buoyancyDecayRate (physics cfg)
         * max (buoyancyDecayVariance (physics cfg)))
  /\ (within (ampX (wobble cfg)) (wAmpX i)
      /\ within (ampZ (wobble cfg)) (wAmpZ i)
      /\ within (speedX (wobble cfg)) (wSpdX i)
      /\ within (speedZ (wobble cfg)) (wSpdZ i))
  /\ (0 <= wPhX i < 2 * PI /\ 0 <= wPhZ i < 2 * PI)
  /\ Rabs (velX i) <= initialVelocity_x_spread (spawn cfg) / 2
  /\ Rabs (velZ i) <= initialVelocity_z_spread (spawn cfg) / 2
  /\ iBuoy i = buoy i.

(** The horizontal speed of a row is at most [M] in both directions, and
    its wobble amplitudes are between 0 and [A]. *)
Definition driftOK (M A : R) (i : Instance) : Prop :=
  Rabs (velX i) <= M /\ Rabs (velZ i) <= M
  /\ 0 <= wAmpX i <= A /\ 0 <= wAmpZ i <= A.

(** The configuration keeps a drift of [M]: the amplitude ranges lie
    between 0 and [A], the spawn spreads give at most [M], and the drag
    takes back what the wobble adds in a step of [D] seconds. *)
Definition driftConfig (cfg : Config) (M A D : R) : Prop :=
  0 <= horizontalDrag (physics cfg)
  /\ horizontalDrag (physics cfg) * (M + A * D) <= M
  /\ 0 <= D
  /\ (0 <= initialVelocity_x_spread (spawn cfg)
      /\ initialVelocity_x_spread (spawn cfg) / 2 <= M)
  /\ (0 <= initialVelocity_z_spread (spawn cfg)
      /\ initialVelocity_z_spread (spawn cfg) / 2 <= M)
  /\ (0 <= min (ampX (wobble cfg)) /\ ordered (ampX (wobble cfg))
      /\ max (ampX (wobble cfg)) <= A)
  /\ (0 <= min (ampZ (wobble cfg)) /\ ordered (ampZ (wobble cfg))
      /\ max (ampZ (wobble cfg)) <= A).

End RowVocabulary.

(* ====================================================================== *)
(** ** Basic facts about the helpers                                       *)
(* ====================================================================== *)

Lemma ltb_true_iff (a b : R) : JS.ltb a b = true <-> a < b.
Proof. unfold JS.ltb; destruct (Rlt_dec a b); split; intros; try easy. Qed.

Lemma ltb_false_iff (a b : R) : JS.ltb a b = false <-> b <= a.
Proof.
  unfold JS.ltb; destruct (Rlt_dec a b); split; intros; try easy; lra.
Qed.

Lemma leb_true_iff (a b : R) : JS.leb a b = true <-> a <= b.
Proof. unfold JS.leb; destruct (Rle_dec a b); split; intros; try easy. Qed.

Lemma leb_false_iff (a b : R) : JS.leb a b = false <-> b < a.
Proof.
  unfold JS.leb; destruct (Rle_dec a b); split; intros; try easy; lra.
Qed.

Lemma gtb_true_iff (a b : R) : JS.gtb a b = true <-> b < a.
Proof. apply ltb_true_iff. Qed.

Lemma gtb_false_iff (a b : R) : JS.gtb a b = false <-> a <= b.
Proof. apply ltb_false_iff. Qed.

Lemma geb_true_iff (a b : R) : JS.geb a b = true <-> b <= a.
Proof. apply leb_true_iff. Qed.

Lemma eqb_true_iff (a b : R) : JS.eqb a b = true <-> a = b.
Proof. unfold JS.eqb; destruct (Req_dec_T a b); split; intros; easy. Qed.

Lemma eqb_false_iff (a b : R) : JS.eqb a b = false <-> a <> b.
Proof. unfold JS.eqb; destruct (Req_dec_T a b); split; intros; easy. Qed.

(** Case analysis on every comparison of the goal. *)
Ltac cmp_cases :=
  repeat match goal with
  | |- context [JS.ltb ?a ?b] =>
      let E := fresh "E" in
      destruct (JS.ltb a b) eqn:E;
      [apply ltb_true_iff in E | apply ltb_false_iff in E]
  | |- context [JS.leb ?a ?b] =>
      let E := fresh "E" in
      destruct (JS.leb a b) eqn:E;
      [apply leb_true_iff in E | apply leb_false_iff in E]
  | |- context [JS.gtb ?a ?b] =>
      let E := fresh "E" in
      destruct (JS.gtb a b) eqn:E;
      [apply gtb_true_iff in E | apply gtb_false_iff in E]
  | |- context [JS.eqb ?a ?b] =>
      let E := fresh "E" in
      destruct (JS.eqb a b) eqn:E;
      [apply eqb_true_iff in E | apply eqb_false_iff in E]
  end.

Lemma clamp_between (v lo hi : R) :
  lo <= hi -> lo <= JS.clamp v lo hi <= hi.
Proof.
  intros H. unfold JS.clamp, JS.Math_max, JS.Math_min, Rmax, Rmin.
  repeat destruct Rle_dec; lra.
Qed.

Lemma clamp_inside (v lo hi : R) :
  lo <= v <= hi -> JS.clamp v lo hi = v.
Proof.
  intros H. unfold JS.clamp, JS.Math_max, JS.Math_min, Rmax, Rmin.
  repeat destruct Rle_dec; lra.
Qed.

Lemma abs_le_bounds (a b : R) : Rabs a <= b -> - b <= a <= b.
Proof. unfold Rabs. destruct (Rcase_abs a); lra. Qed.

Lemma clamp_abs (v m : R) : 0 <= m -> Rabs (JS.clamp v (- m) m) <= m.
Proof.
  intros H. apply Rabs_le. apply clamp_between. lra.
Qed.

Lemma set_nth_length {A} (n : nat) (v : A) (l : list A) :
  List.length (set_nth n v l) = List.length l.
Proof.
  revert n; induction l as [|h t IH]; intros [|n]; simpl; auto.
Qed.

Lemma nth_error_set_nth_eq {A} (n : nat) (v : A) (l : list A) :
  (n < List.length l)%nat -> nth_error (set_nth n v l) n = Some v.
Proof.
  revert n; induction l as [|h t IH]; intros [|n] H; simpl in *;
    try lia; auto.
  apply IH; lia.
Qed.

Lemma nth_error_set_nth_neq {A} (n m : nat) (v : A) (l : list A) :
  n <> m -> nth_error (set_nth n v l) m = nth_error l m.
Proof.
  revert n m; induction l as [|h t IH]; intros [|n] [|m] H; simpl;
    try congruence; auto.
Qed.

Lemma nth_set_nth_eq {A} (n : nat) (v d : A) (l : list A) :
  (n < List.length l)%nat -> nth n (set_nth n v l) d = v.
Proof.
  intros H. apply nth_error_nth. now apply nth_error_set_nth_eq.
Qed.

Lemma nth_set_nth_neq {A} (n m : nat) (v d : A) (l : list A) :
  n <> m -> nth m (set_nth n v l) d = nth m l d.
Proof.
  revert n m; induction l as [|h t IH]; intros [|n] [|m] H; simpl;
    try congruence; auto.
Qed.

(** A property that every element has, and the written value too, survives
    a write. *)
Lemma Forall_set_nth {A} (P : A -> Prop) (n : nat) (v : A) (l : list A) :
  Forall P l -> P v -> Forall P (set_nth n v l).
Proof.
  intros Hl Hv. revert n.
  induction Hl as [|h t Hh Ht IH]; intros [|n]; simpl; auto.
Qed.

Lemma valid_tl (s : JS.Rand) : JS.valid s -> JS.valid (JS.tl s).
Proof. intros H n. apply H. Qed.

Lemma post_ret {A} (a : A) (P : A -> Prop) : P a -> post (JS.ret a) P.
Proof. intros H s Hs. split; assumption. Qed.

Lemma post_bind {A B} (m : JS.Gen A) (k : A -> JS.Gen B)
    (Q : A -> Prop) (P : B -> Prop) :
  post m Q -> (forall a, Q a -> post (k a) P) -> post (JS.bind m k) P.
Proof.
  intros Hm Hk s Hs. unfold JS.bind.
  destruct (Hm s Hs) as [Ha Hs']. exact (Hk _ Ha _ Hs').
Qed.

Lemma post_weaken {A} (m : JS.Gen A) (Q P : A -> Prop) :
  post m Q -> (forall a, Q a -> P a) -> post m P.
Proof.
  intros Hm HQP s Hs. destruct (Hm s Hs). split; auto.
Qed.

Lemma post_random : post JS.Math_random (fun u => 0 <= u < 1).
Proof.
  intros s Hs. split; [apply Hs | now apply valid_tl].
Qed.

Lemma post_randFloat (low high : R) :
  post (JS.randFloat low high)
       (fun v => exists u, 0 <= u < 1 /\ v = low + u * (high - low)).
Proof.
  unfold JS.randFloat. eapply post_bind; [apply post_random|].
  intros u Hu. apply post_ret. now exists u.
Qed.

Lemma post_randFloatSpread (range : R) :
  post (JS.randFloatSpread range)
       (fun v => exists u, 0 <= u < 1 /\ v = range * (0.5 - u)).
Proof.
  unfold JS.randFloatSpread. eapply post_bind; [apply post_random|].
  intros u Hu. apply post_ret. now exists u.
Qed.

Lemma post_true {A} (m : JS.Gen A) :
  (forall s, JS.valid s -> JS.valid (snd (m s))) -> post m (fun _ => True).
Proof. intros H s Hs. split; auto. Qed.

Lemma post_forEach2 {A B} (f : A -> JS.Gen B) (Rel : A -> B -> Prop)
    (xs : list A) :
  (forall x, In x xs -> post (f x) (Rel x)) ->
  post (JS.forEach f xs) (Forall2 Rel xs).
Proof.
  induction xs as [|x rest IH]; intros H; simpl.
  - apply post_ret. constructor.
  - eapply post_bind; [apply H; now left|].
    intros y Hy. eapply post_bind; [apply IH; intros; apply H; now right|].
    intros ys Hys. apply post_ret. now constructor.
Qed.

Lemma Forall2_Forall_r {A B} (Rel : A -> B -> Prop) (P : B -> Prop)
    (xs : list A) (ys : list B) :
  Forall2 Rel xs ys -> (forall x y, In x xs -> Rel x y -> P y) ->
  Forall P ys.
Proof.
  induction 1 as [|x y xs ys Hxy H IH]; intros HP; constructor.
  - apply (HP x); [now left | assumption].
  - apply IH. intros x' y' Hin. apply HP. now right.
Qed.

Lemma post_forEach {A B} (f : A -> JS.Gen B) (P : B -> Prop) (xs : list A) :
  (forall x, In x xs -> post (f x) P) ->
  post (JS.forEach f xs) (Forall P).
Proof.
  intros H.
  eapply post_weaken; [apply (post_forEach2 f (fun _ y => P y)); exact H|].
  intros ys Hys. eapply Forall2_Forall_r; [exact Hys|]. auto.
Qed.

(* ====================================================================== *)
(** ** Facts about the lantern variant                                     *)
(* ====================================================================== *)

Section LanternFacts.

Import Lantern.

Variable cfg : Config.
Variable bnd : Bounds.

Lemma resetLantern_outcome (l : Lantern) (isInitial : bool) :
  post (resetLantern cfg bnd l isInitial) (resetOutcome cfg bnd l isInitial).
Proof.
  unfold resetLantern.
  eapply post_bind; [apply post_randFloatSpread|]. intros px (ux & Hux & ->).
  eapply post_bind; [apply post_randFloat|]. intros py (uy & Huy & ->).
  eapply post_bind; [apply post_randFloat|]. intros pz (uz & Huz & ->).
  eapply post_bind; [apply post_randFloatSpread|]. intros vx (wx & Hwx & ->).
  eapply post_bind; [apply post_randFloat|]. intros vy (wy & Hwy & ->).
  eapply post_bind; [apply post_randFloatSpread|]. intros vz (wz & Hwz & ->).
  eapply post_bind; [apply post_random|]. intros u1 Hu1.
  eapply post_bind; [apply post_random|]. intros u2 Hu2.
  apply post_ret.
  exists ux, uy, uz, wx, wy, wz, u1, u2. cbv zeta. simpl.
  repeat split; try tauto; try lra; try reflexivity.
Qed.

(** The buoyancy after a reset, for a spawn factor between 0 and 1. *)
Lemma resetOutcome_buoyancy (l l' : Lantern) (isInitial : bool) :
  0 <= initialBuoyancy_maxFactor (spawn cfg) <= 1 ->
  resetOutcome cfg bnd l isInitial l' -> 0 <= buoyancy l' <= 1.
Proof.
  intros Hf (ux & uy & uz & wx & wy & wz & u1 & u2 & _ & _ & [H1 H2] & H).
  simpl in H. destruct H as (_ & _ & -> & _).
  assert (0 <= u1 * u2 <= 1) by nra. nra.
Qed.

(** The vertical velocity after a reset lies between the two configured
    ends of the spawn range. *)
Lemma resetOutcome_velocity_y (l l' : Lantern) (isInitial : bool) (m : R) :
  Rabs (min (initialVelocity_y (spawn cfg))) <= m ->
  Rabs (max (initialVelocity_y (spawn cfg))) <= m ->
  resetOutcome cfg bnd l isInitial l' -> Rabs (V3.y (velocity l')) <= m.
Proof.
  intros Hlo Hhi (ux & uy & uz & wx & wy & wz & u1 & u2 & _ & Hw & _ & H).
  simpl in H. destruct H as (_ & -> & _). simpl.
  destruct Hw as (_ & Hwy & _).
  apply abs_le_bounds in Hlo, Hhi. apply Rabs_le. nra.
Qed.


Lemma resetOutcome_depth (l l' : Lantern) (isInitial : bool) :
  zMin bnd <= zMax bnd ->
  resetOutcome cfg bnd l isInitial l' ->
  zMin bnd <= V3.z (position l') <= zMax bnd.
Proof.
  intros Hb (ux & uy & uz & wx & wy & wz & u1 & u2 & Hu & _ & _ & H).
  simpl in H. destruct H as (-> & _). simpl.
  destruct Hu as (_ & _ & Huz). nra.
Qed.


(** The buoyancy update ends in a clamp. *)
Lemma updateBuoyancy_unit (dt : R) (l : Lantern) :
  post (updateBuoyancy cfg bnd dt l) (fun b => 0 <= b <= 1).
Proof.
  unfold updateBuoyancy.
  eapply post_bind with (Q := fun _ => True).
  - destruct (_ && _).
    + eapply post_bind; [apply post_random|]. intros u _. now apply post_ret.
    + now apply post_ret.
  - intros b2 _. apply post_ret. apply clamp_between. lra.
Qed.

Lemma bounceDepth_buoyancy (l : Lantern) :
  buoyancy (bounceDepth bnd l) = buoyancy l.
Proof. unfold bounceDepth. cmp_cases; reflexivity. Qed.

Lemma bounceDepth_hovered (l : Lantern) :
  hovered (bounceDepth bnd l) = hovered l.
Proof. unfold bounceDepth. cmp_cases; reflexivity. Qed.

Lemma bounceDepth_velocity_y (l : Lantern) :
  V3.y (velocity (bounceDepth bnd l)) = V3.y (velocity l).
Proof. unfold bounceDepth. cmp_cases; reflexivity. Qed.

Lemma bounceDepth_position_y (l : Lantern) :
  V3.y (position (bounceDepth bnd l)) = V3.y (position l).
Proof. unfold bounceDepth. cmp_cases; reflexivity. Qed.

Lemma integrate_buoyancy (dt : R) (l : Lantern) :
  buoyancy (integrate dt l) = buoyancy l.
Proof. unfold integrate. simpl. destruct (angularVelocity l); reflexivity. Qed.

Lemma integrate_velocity (dt : R) (l : Lantern) :
  velocity (integrate dt l) = velocity l.
Proof. unfold integrate. simpl. destruct (angularVelocity l); reflexivity. Qed.

Lemma integrate_hovered (dt : R) (l : Lantern) :
  hovered (integrate dt l) = hovered l.
Proof. unfold integrate. simpl. destruct (angularVelocity l); reflexivity. Qed.

Lemma integrate_position (dt : R) (l : Lantern) :
  position (integrate dt l) =
  V3.mk (V3.x (position l) + V3.x (velocity l) * dt)
        (V3.y (position l) + V3.y (velocity l) * dt)
        (V3.z (position l) + V3.z (velocity l) * dt).
Proof. unfold integrate. simpl. destruct (angularVelocity l); reflexivity. Qed.

Lemma integrated_buoyancy (dt time b : R) (l : Lantern) :
  buoyancy (integrated cfg dt time b l) = b.
Proof. unfold integrated. now rewrite integrate_buoyancy. Qed.

Lemma integrated_velocity_y (dt time b : R) (l : Lantern) :
  V3.y (velocity (integrated cfg dt time b l)) =
  JS.clamp ((V3.y (velocity l)
             + (gravity (physics cfg) + liftStrength (physics cfg) * b) * dt)
            * verticalDrag (physics cfg))
           (- maxVerticalSpeed (physics cfg))
           (maxVerticalSpeed (physics cfg)).
Proof. unfold integrated. now rewrite integrate_velocity. Qed.

(** After one iteration of the loop of [updateLanterns] the buoyancy is in
    the unit interval, whatever it was before. *)
Lemma updateLantern_buoyancy (dt time : R) (l : Lantern) :
  0 <= initialBuoyancy_maxFactor (spawn cfg) <= 1 ->
  post (updateLantern cfg bnd dt time l) (fun l' => 0 <= buoyancy l' <= 1).
Proof.
  intros Hf. unfold updateLantern.
  eapply post_bind; [apply updateBuoyancy_unit|]. intros b Hb.
  eapply post_bind with (Q := fun l3 => 0 <= buoyancy l3 <= 1).
  - unfold recycle. destruct (outOfBounds _ _).
    + eapply post_weaken; [apply resetLantern_outcome|].
      intros l'. now apply resetOutcome_buoyancy.
    + apply post_ret. now rewrite integrated_buoyancy.
  - intros l3 H3. apply post_ret. now rewrite bounceDepth_buoyancy.
Qed.

(** After one iteration of the loop of [updateLanterns] the vertical speed
    is within the configured maximum, provided the spawn range is. *)
Lemma updateLantern_velocity_y (dt time : R) (l : Lantern) :
  0 <= maxVerticalSpeed (physics cfg) ->
  Rabs (min (initialVelocity_y (spawn cfg))) <= maxVerticalSpeed (physics cfg) ->
  Rabs (max (initialVelocity_y (spawn cfg))) <= maxVerticalSpeed (physics cfg) ->
  post (updateLantern cfg bnd dt time l)
       (fun l' => Rabs (V3.y (velocity l')) <= maxVerticalSpeed (physics cfg)).
Proof.
  intros Hm Hlo Hhi. unfold updateLantern.
  eapply post_bind; [apply updateBuoyancy_unit|]. intros b Hb.
  eapply post_bind with
    (Q := fun l3 => Rabs (V3.y (velocity l3)) <= maxVerticalSpeed (physics cfg)).
  - unfold recycle. destruct (outOfBounds _ _).
    + eapply post_weaken; [apply resetLantern_outcome|].
      intros l'. now apply resetOutcome_velocity_y.
    + apply post_ret. rewrite integrated_velocity_y. now apply clamp_abs.
  - intros l3 H3. apply post_ret. now rewrite bounceDepth_velocity_y.
Qed.

(** *** The collision pass *)

(** Whatever [resolvePair] keeps on both lanterns, the whole pass keeps on
    every lantern. *)
Section CollisionsKeep.

Variable P : Lantern -> Prop.
Hypothesis resolvePair_keeps :
  forall m e a b, P a -> P b ->
    P (fst (resolvePair m e a b)) /\ P (snd (resolvePair m e a b)).

Lemma collide_keeps (i j : nat) (ls : list Lantern) :
  Forall P ls -> Forall P (collide cfg i j ls).
Proof.
  intros H. unfold collide.
  destruct (nth_error ls i) as [a|] eqn:Ea; [|assumption].
  destruct (nth_error ls j) as [b|] eqn:Eb; [|assumption].
  pose proof (proj1 (Forall_forall P ls) H) as Hin.
  destruct (resolvePair_keeps (collisionRadius cfg * 2)
              (collisionRestitution (physics cfg)) a b) as [Ha Hb].
  - eapply Hin, nth_error_In; eassumption.
  - eapply Hin, nth_error_In; eassumption.
  - apply Forall_set_nth; [apply Forall_set_nth|]; assumption.
Qed.

Lemma collideFrom_keeps (i : nat) (ls : list Lantern) :
  Forall P ls -> Forall P (collideFrom cfg i ls).
Proof.
  unfold collideFrom. generalize (seq (S i) (List.length ls - S i)).
  intros js; revert ls.
  induction js as [|j js IH]; intros ls H; simpl; [assumption|].
  apply IH. now apply collide_keeps.
Qed.

Lemma handleCollisions_keeps (ls : list Lantern) :
  Forall P ls -> Forall P (handleCollisions cfg ls).
Proof.
  unfold handleCollisions. generalize (seq 0 (List.length ls)).
  intros idxs; revert ls.
  induction idxs as [|i idxs IH]; intros ls H; simpl; [assumption|].
  apply IH. now apply collideFrom_keeps.
Qed.

End CollisionsKeep.

Lemma resolvePair_buoyancy (m e : R) (a b : Lantern) :
  buoyancy (fst (resolvePair m e a b)) = buoyancy a /\
  buoyancy (snd (resolvePair m e a b)) = buoyancy b.
Proof.
  unfold resolvePair. cbv zeta. cmp_cases; simpl; auto.
Qed.

Lemma handleCollisions_buoyancy (ls : list Lantern) :
  Forall (fun l => 0 <= buoyancy l <= 1) ls ->
  Forall (fun l => 0 <= buoyancy l <= 1) (handleCollisions cfg ls).
Proof.
  apply handleCollisions_keeps. intros m e a b Ha Hb.
  destruct (resolvePair_buoyancy m e a b) as [-> ->]. now split.
Qed.

(** With two lanterns the pass is one call of the loop body. *)
Lemma handleCollisions_two (a b : Lantern) :
  handleCollisions cfg [a; b] =
  let ab := resolvePair (collisionRadius cfg * 2)
                        (collisionRestitution (physics cfg)) a b in
  [fst ab; snd ab].
Proof. reflexivity. Qed.

(** *** Spawning *)

Lemma spawnLantern_buoyancy (offsetHSL : Color -> R -> R -> R -> Color)
    (base : Color) (isInitial : bool) :
  0 <= initialBuoyancy_maxFactor (spawn cfg) <= 1 ->
  post (spawnLantern offsetHSL base cfg bnd isInitial)
       (fun l => 0 <= buoyancy l <= 1).
Proof.
  intros Hf. unfold spawnLantern.
  eapply post_bind; [apply post_randFloat|]. intros k _.
  eapply post_bind; [apply post_randFloatSpread|]. intros wy _.
  eapply post_bind; [apply post_randFloat|]. intros ax _.
  eapply post_bind; [apply post_randFloat|]. intros az _.
  eapply post_bind; [apply post_randFloat|]. intros sx _.
  eapply post_bind; [apply post_randFloat|]. intros sz _.
  eapply post_bind; [apply post_random|]. intros ux _.
  eapply post_bind; [apply post_random|]. intros uz _.
  eapply post_bind; [apply post_random|]. intros ut _.
  eapply post_weaken; [apply resetLantern_outcome|].
  intros l'. now apply resetOutcome_buoyancy.
Qed.

Lemma spawnLanterns_buoyancy (offsetHSL : Color -> R -> R -> R -> Color)
    (base : Color) :
  0 <= initialBuoyancy_maxFactor (spawn cfg) <= 1 ->
  post (spawnLanterns offsetHSL base cfg bnd)
       (Forall (fun l => 0 <= buoyancy l <= 1)).
Proof.
  intros Hf. unfold spawnLanterns.
  induction (count (lantern cfg)) as [|n IH]; simpl.
  - apply post_ret. constructor.
  - eapply post_bind; [now apply spawnLantern_buoyancy|]. intros l Hl.
    eapply post_bind; [apply IH|]. intros ls Hls.
    apply post_ret. now constructor.
Qed.

(** *** Whole passes *)

Lemma updateLanterns_buoyancy (dt time : R) (ls : list Lantern) :
  0 <= initialBuoyancy_maxFactor (spawn cfg) <= 1 ->
  post (updateLanterns cfg bnd dt time ls)
       (Forall (fun l => 0 <= buoyancy l <= 1)).
Proof.
  intros Hf. apply post_forEach. intros l _.
  now apply updateLantern_buoyancy.
Qed.

Lemma updateLanterns_velocity_y (dt time : R) (ls : list Lantern) :
  0 <= maxVerticalSpeed (physics cfg) ->
  Rabs (min (initialVelocity_y (spawn cfg))) <= maxVerticalSpeed (physics cfg) ->
  Rabs (max (initialVelocity_y (spawn cfg))) <= maxVerticalSpeed (physics cfg) ->
  post (updateLanterns cfg bnd dt time ls)
       (Forall (fun l =>
                  Rabs (V3.y (velocity l)) <= maxVerticalSpeed (physics cfg))).
Proof.
  intros Hm Hlo Hhi. apply post_forEach. intros l _.
  now apply updateLantern_velocity_y.
Qed.

End LanternFacts.

(** A frame keeps every buoyancy in the unit interval. *)
Lemma lantern_animate_buoyancy (cfg : Lantern.Config) (now : R)
    (s : Lantern.Sim) :
  0 <= Lantern.initialBuoyancy_maxFactor (Lantern.spawn cfg) <= 1 ->
  Forall (fun l => 0 <= Lantern.buoyancy l <= 1) (Lantern.lanterns s) ->
  post (Lantern.animate cfg now s)
       (fun s' => Forall (fun l => 0 <= Lantern.buoyancy l <= 1)
                         (Lantern.lanterns s')).
Proof.
  intros Hf Hs. unfold Lantern.animate. destruct (Lantern.paused s).
  - now apply post_ret.
  - eapply post_bind; [now apply updateLanterns_buoyancy|].
    intros ls Hls. apply post_ret. simpl.
    now apply handleCollisions_buoyancy.
Qed.

(* ====================================================================== *)
(** ** Facts about the balloon variant                                     *)
(* ====================================================================== *)

Section BalloonFacts.

Import Balloons.

Variable cfg : Config.
Variable bnd : Bounds.

Lemma post_randomVibrantTint : post randomVibrantTint (fun _ => True).
Proof.
  unfold randomVibrantTint.
  eapply post_bind; [apply post_random|]. intros u _. now apply post_ret.
Qed.

Lemma resetInstance_outcome (isInitial : bool) :
  post (resetInstance cfg bnd isInitial) (rowOutcome cfg bnd isInitial).
Proof.
  unfold resetInstance.
  eapply post_bind; [apply post_randFloatSpread|]. intros px _.
  eapply post_bind; [apply post_randFloat|]. intros py (uy & Huy & ->).
  eapply post_bind; [apply post_randFloat|]. intros pz (uz & Huz & ->).
  eapply post_bind; [apply post_randFloatSpread|]. intros vx _.
  eapply post_bind; [apply post_randFloat|]. intros vy (wy & Hwy & ->).
  eapply post_bind; [apply post_randFloatSpread|]. intros vz (wz & Hwz & ->).
  eapply post_bind; [apply post_random|]. intros u1 Hu1.
  eapply post_bind; [apply post_random|]. intros u2 Hu2.
  eapply post_bind; [apply post_random|]. intros ur _.
  eapply post_bind; [apply post_randFloatSpread|]. intros ang _.
  eapply post_bind; [apply post_randFloat|]. intros k _.
  eapply post_bind; [apply post_randFloat|]. intros ax _.
  eapply post_bind; [apply post_randFloat|]. intros az _.
  eapply post_bind; [apply post_randFloat|]. intros sx _.
  eapply post_bind; [apply post_randFloat|]. intros sz _.
  eapply post_bind; [apply post_random|]. intros ux _.
  eapply post_bind; [apply post_random|]. intros uz' _.
  eapply post_bind; [apply post_randomVibrantTint|]. intros tint _.
  eapply post_bind; [apply post_random|]. intros r _.
  eapply post_bind; [apply post_random|]. intros us _.
  apply post_ret.
  exists uy, uz, wy, wz, u1, u2. cbv zeta. simpl.
  repeat split; try tauto; try lra; try reflexivity.
Qed.

Lemma rowOutcome_buoy (isInitial : bool) (i : Instance) :
  0 <= initialBuoyancy_maxFactor (spawn cfg) <= 1 ->
  rowOutcome cfg bnd isInitial i -> 0 <= buoy i <= 1.
Proof.
  intros Hf (uy & uz & wy & wz & u1 & u2 & _ & _ & [H1 H2] & H).
  simpl in H. destruct H as (_ & _ & _ & _ & -> & _).
  assert (0 <= u1 * u2 <= 1) by nra. nra.
Qed.

Lemma rowOutcome_velY (isInitial : bool) (i : Instance) (m : R) :
  Rabs (min (initialVelocity_y (spawn cfg))) <= m ->
  Rabs (max (initialVelocity_y (spawn cfg))) <= m ->
  rowOutcome cfg bnd isInitial i -> Rabs (velY i) <= m.
Proof.
  intros Hlo Hhi (uy & uz & wy & wz & u1 & u2 & _ & [Hwy _] & _ & H).
  simpl in H. destruct H as (_ & _ & -> & _).
  apply abs_le_bounds in Hlo, Hhi. apply Rabs_le. nra.
Qed.


Lemma rowOutcome_depth (isInitial : bool) (i : Instance) :
  zMin bnd <= zMax bnd ->
  rowOutcome cfg bnd isInitial i -> zMin bnd <= posZ i <= zMax bnd.
Proof.
  intros Hb (uy & uz & wy & wz & u1 & u2 & [_ Huz] & _ & _ & H).
  simpl in H. destruct H as (_ & -> & _). nra.
Qed.

Lemma initialFill_buoy (n : nat) :
  0 <= initialBuoyancy_maxFactor (spawn cfg) <= 1 ->
  post (initialFill cfg bnd n) (Forall (fun i => 0 <= buoy i <= 1)).
Proof.
  intros Hf. induction n as [|n IH]; simpl.
  - apply post_ret. constructor.
  - eapply post_bind; [apply resetInstance_outcome|]. intros b Hb.
    eapply post_bind; [apply IH|]. intros bs Hbs.
    apply post_ret. constructor; [|assumption].
    eapply rowOutcome_buoy; eassumption.
Qed.

(** [applyOrbInfluence] rewrites the buoyancy of a row, clamped, and
    leaves its velocity alone. *)
Lemma influence_outcome (project : V3.t -> V3.t) (boxes : list Box)
    (o : Orbs) (dt : R) (i : Instance) :
  post (influence cfg bnd project boxes o dt i)
       (fun i' => 0 <= buoy i' <= 1 /\ iBuoy i' = buoy i' /\
                  velY i' = velY i /\ pos i' = pos i).
Proof.
  unfold influence.
  eapply post_bind with (Q := fun _ => True).
  - destruct (_ && _).
    + eapply post_bind; [apply post_random|]. intros u _. now apply post_ret.
    + now apply post_ret.
  - intros b2 _. apply post_ret. simpl. repeat split; try reflexivity;
      apply clamp_between; lra.
Qed.

Lemma bounceDepth_buoy (i : Instance) : buoy (bounceDepth bnd i) = buoy i.
Proof. unfold bounceDepth. cmp_cases; reflexivity. Qed.

Lemma bounceDepth_velY (i : Instance) : velY (bounceDepth bnd i) = velY i.
Proof. unfold bounceDepth. cmp_cases; reflexivity. Qed.

Lemma bounceDepth_posY (i : Instance) : posY (bounceDepth bnd i) = posY i.
Proof. unfold bounceDepth. cmp_cases; reflexivity. Qed.

(** One iteration of the loop of [updatePhysics] keeps a buoyancy that is
    in the unit interval there. *)
Lemma updateInstance_buoy (dt t : R) (i : Instance) :
  0 <= initialBuoyancy_maxFactor (spawn cfg) <= 1 ->
  0 <= buoy i <= 1 ->
  post (updateInstance cfg bnd dt t i) (fun i' => 0 <= buoy i' <= 1).
Proof.
  intros Hf Hi. unfold updateInstance.
  eapply post_bind with (Q := fun i2 => 0 <= buoy i2 <= 1).
  - unfold recycle. destruct (outOfBounds _ _).
    + eapply post_weaken; [apply resetInstance_outcome|].
      intros i'. now apply rowOutcome_buoy.
    + now apply post_ret.
  - intros i2 H2. apply post_ret. now rewrite bounceDepth_buoy.
Qed.

(** One iteration of the loop of [updatePhysics] leaves the vertical speed
    within the configured maximum, provided the spawn range is. *)
Lemma updateInstance_velY (dt t : R) (i : Instance) :
  0 <= maxVerticalSpeed (physics cfg) ->
  Rabs (min (initialVelocity_y (spawn cfg))) <= maxVerticalSpeed (physics cfg) ->
  Rabs (max (initialVelocity_y (spawn cfg))) <= maxVerticalSpeed (physics cfg) ->
  post (updateInstance cfg bnd dt t i)
       (fun i' => Rabs (velY i') <= maxVerticalSpeed (physics cfg)).
Proof.
  intros Hm Hlo Hhi. unfold updateInstance.
  eapply post_bind with
    (Q := fun i2 => Rabs (velY i2) <= maxVerticalSpeed (physics cfg)).
  - unfold recycle. destruct (outOfBounds _ _).
    + eapply post_weaken; [apply resetInstance_outcome|].
      intros i'. now apply rowOutcome_velY.
    + apply post_ret. simpl. now apply clamp_abs.
  - intros i2 H2. apply post_ret. now rewrite bounceDepth_velY.
Qed.

Lemma applyOrbInfluence_buoy (project : V3.t -> V3.t) (boxes : list Box)
    (o : Orbs) (dt : R) (rows : list Instance) :
  post (applyOrbInfluence cfg bnd project boxes o dt rows)
       (Forall (fun i => 0 <= buoy i <= 1)).
Proof.
  apply post_forEach. intros i _.
  eapply post_weaken; [apply influence_outcome|].
  intros i' H. apply H.
Qed.

Lemma updatePhysics_buoy (dt t : R) (rows : list Instance) :
  0 <= initialBuoyancy_maxFactor (spawn cfg) <= 1 ->
  Forall (fun i => 0 <= buoy i <= 1) rows ->
  post (updatePhysics cfg bnd dt t rows)
       (Forall (fun i => 0 <= buoy i <= 1)).
Proof.
  intros Hf Hrows. apply post_forEach. intros i Hi.
  apply updateInstance_buoy; [assumption|].
  exact (proj1 (Forall_forall _ rows) Hrows i Hi).
Qed.

Lemma updatePhysics_velY (dt t : R) (rows : list Instance) :
  0 <= maxVerticalSpeed (physics cfg) ->
  Rabs (min (initialVelocity_y (spawn cfg))) <= maxVerticalSpeed (physics cfg) ->
  Rabs (max (initialVelocity_y (spawn cfg))) <= maxVerticalSpeed (physics cfg) ->
  post (updatePhysics cfg bnd dt t rows)
       (Forall (fun i => Rabs (velY i) <= maxVerticalSpeed (physics cfg))).
Proof.
  intros Hm Hlo Hhi. apply post_forEach. intros i _.
  now apply updateInstance_velY.
Qed.

End BalloonFacts.

Lemma balloons_animate_buoy (cfg : Balloons.Config)
    (project : V3.t -> V3.t) (input : Balloons.FrameInput) (now : R)
    (w : Balloons.World) :
  0 <= Balloons.initialBuoyancy_maxFactor (Balloons.spawn cfg) <= 1 ->
  post (Balloons.animate cfg project input now w)
       (frameResult (Forall (fun i => 0 <= Balloons.buoy i <= 1))).
Proof.
  intros Hf. unfold Balloons.animate.
  destruct (Balloons.applyWrites _ _ _) as [o2|]; [|now apply post_ret].
  eapply post_bind; [apply applyOrbInfluence_buoy|]. intros is1 H1.
  eapply post_bind; [now apply updatePhysics_buoy|]. intros is2 H2.
  now apply post_ret.
Qed.

Lemma balloons_animate_velY (cfg : Balloons.Config)
    (project : V3.t -> V3.t) (input : Balloons.FrameInput) (now : R)
    (w : Balloons.World) :
  0 <= Balloons.maxVerticalSpeed (Balloons.physics cfg) ->
  Rabs (min (Balloons.initialVelocity_y (Balloons.spawn cfg)))
    <= Balloons.maxVerticalSpeed (Balloons.physics cfg) ->
  Rabs (max (Balloons.initialVelocity_y (Balloons.spawn cfg)))
    <= Balloons.maxVerticalSpeed (Balloons.physics cfg) ->
  post (Balloons.animate cfg project input now w)
       (frameResult
          (Forall (fun i => Rabs (Balloons.velY i)
                            <= Balloons.maxVerticalSpeed (Balloons.physics cfg)))).
Proof.
  intros Hm Hlo Hhi. unfold Balloons.animate.
  destruct (Balloons.applyWrites _ _ _) as [o2|]; [|now apply post_ret].
  eapply post_bind with (Q := fun _ => True).
  - eapply post_weaken; [apply applyOrbInfluence_buoy|]. trivial.
  - intros is1 _.
    eapply post_bind; [now apply updatePhysics_velY|]. intros is2 H2.
    now apply post_ret.
Qed.

(* ====================================================================== *)
(** ** One pair in the collision pass                                      *)
(* ====================================================================== *)

Section PairFacts.

Import Lantern.

Lemma sum_sq_nonneg (u v w : R) : 0 <= u * u + v * v + w * w.
Proof. nra. Qed.

Lemma separation_sq (a b : Lantern) :
  separation a b * separation a b =
  V3.lengthSq (V3.sub (position b) (position a)).
Proof.
  unfold separation, V3.distanceTo, V3.length. apply sqrt_sqrt.
  unfold V3.lengthSq, V3.dot. nra.
Qed.

Lemma separation_nonneg (a b : Lantern) : 0 <= separation a b.
Proof. apply sqrt_pos. Qed.

Lemma v3_eq (p q : V3.t) :
  V3.x p = V3.x q -> V3.y p = V3.y q -> V3.z p = V3.z q -> p = q.
Proof. destruct p, q; simpl; intros; subst; reflexivity. Qed.

(** The loop body on a pair that does not overlap. *)
Lemma resolvePair_apart (m e : R) (a b : Lantern) :
  m <= separation a b \/ separation a b = 0 ->
  resolvePair m e a b = (a, b).
Proof.
  intros H. pose proof (separation_sq a b) as Hsq.
  pose proof (separation_nonneg a b) as Hd.
  unfold resolvePair. cbv zeta. fold (V3.sub (position b) (position a)).
  unfold separation, V3.distanceTo, V3.length, V3.lengthSq, V3.dot in *.
  simpl in *. unfold JS.Math_sqrt.
  set (D := (V3.x (position b) - V3.x (position a))
            * (V3.x (position b) - V3.x (position a))
            + (V3.y (position b) - V3.y (position a))
              * (V3.y (position b) - V3.y (position a))
            + (V3.z (position b) - V3.z (position a))
              * (V3.z (position b) - V3.z (position a))) in *.
  destruct (JS.eqb D 0) eqn:E0; [reflexivity|].
  destruct (JS.gtb D (m * m)) eqn:E1; [reflexivity|]. simpl.
  destruct (JS.leb (m - sqrt D) 0) eqn:E2; [reflexivity|].
  exfalso. apply eqb_false_iff in E0. apply leb_false_iff in E2.
  destruct H as [H|H]; [lra|].
  apply E0. rewrite <- Hsq, H. lra.
Qed.

(** The loop body on a pair that overlaps. *)
Lemma resolvePair_overlap (m e : R) (a b : Lantern) :
  0 < separation a b < m ->
  resolvePair m e a b =
  if JS.gtb (relNormalVelocity a b) 0 then pushedApart m a b
  else bounced m e a b.
Proof.
  intros [Hpos Hlt]. pose proof (separation_sq a b) as Hsq.
  unfold resolvePair, bounced, pushedApart, relNormalVelocity, normal.
  cbv zeta.
  unfold separation, V3.distanceTo, V3.length, V3.lengthSq, V3.dot in *.
  simpl in *. unfold JS.Math_sqrt.
  set (D := (V3.x (position b) - V3.x (position a))
            * (V3.x (position b) - V3.x (position a))
            + (V3.y (position b) - V3.y (position a))
              * (V3.y (position b) - V3.y (position a))
            + (V3.z (position b) - V3.z (position a))
              * (V3.z (position b) - V3.z (position a))) in *.
  destruct (JS.eqb D 0) eqn:E0.
  { apply eqb_true_iff in E0. rewrite E0, sqrt_0 in Hpos. lra. }
  destruct (JS.gtb D (m * m)) eqn:E1.
  { apply gtb_true_iff in E1. nra. }
  simpl.
  destruct (JS.leb (m - sqrt D) 0) eqn:E2.
  { apply leb_true_iff in E2. lra. }
  reflexivity.
Qed.

Section Overlap.

Variables (m e : R) (a b : Lantern).
Hypothesis overlap : 0 < separation a b < m.

Lemma delta_sq :
  (V3.x (position b) - V3.x (position a))
  * (V3.x (position b) - V3.x (position a))
  + (V3.y (position b) - V3.y (position a))
    * (V3.y (position b) - V3.y (position a))
  + (V3.z (position b) - V3.z (position a))
    * (V3.z (position b) - V3.z (position a))
  = separation a b * separation a b.
Proof. symmetry. apply separation_sq. Qed.

(** Names for the distance and the three coordinate differences. *)
Ltac name_delta :=
  pose (d := separation a b);
  pose (dx := V3.x (position b) - V3.x (position a));
  pose (dy := V3.y (position b) - V3.y (position a));
  pose (dz := V3.z (position b) - V3.z (position a)).

(** After the positional correction the two are exactly [m] apart. *)
Lemma pushedApart_separation :
  separation (fst (pushedApart m a b)) (snd (pushedApart m a b)) = m.
Proof.
  name_delta. pose proof delta_sq as Hsq. fold d dx dy dz in Hsq.
  destruct overlap as [Hpos Hlt].
  unfold separation at 1. unfold V3.distanceTo, V3.length, V3.lengthSq.
  unfold pushedApart, normal, V3.dot. simpl.
  fold d dx dy dz.
  assert (Hd : d <> 0) by (unfold d; lra).
  apply sqrt_lem_1.
  - apply sum_sq_nonneg.
  - unfold d in *; lra.
  - transitivity ((dx * dx + dy * dy + dz * dz) * (m / d) * (m / d)).
    + rewrite Hsq. now field.
    + unfold dx, dy, dz. replace 0.5 with (/ 2) by lra. now field.
Qed.

(** The correction moves the two along the line that joins them, so the
    normal stays what it was. *)
Lemma pushedApart_normal :
  normal (fst (pushedApart m a b)) (snd (pushedApart m a b)) = normal a b.
Proof.
  name_delta. destruct overlap as [Hpos Hlt].
  unfold normal at 1. rewrite pushedApart_separation.
  unfold pushedApart, normal. fold d.
  assert (Hd : d <> 0) by (unfold d; lra).
  replace 0.5 with (/ 2) by lra.
  apply v3_eq; simpl; field; split; try assumption; unfold d in *; lra.
Qed.

Lemma normal_unit : V3.dot (normal a b) (normal a b) = 1.
Proof.
  name_delta. pose proof delta_sq as Hsq. fold d dx dy dz in Hsq.
  destruct overlap as [Hpos Hlt].
  unfold normal, V3.dot. simpl. fold d dx dy dz.
  assert (Hd : d <> 0) by (unfold d; lra).
  transitivity ((dx * dx + dy * dy + dz * dz) * / d * / d).
  - unfold dx, dy, dz. ring.
  - rewrite Hsq. now field.
Qed.

Lemma bounced_separation :
  separation (fst (bounced m e a b)) (snd (bounced m e a b)) = m.
Proof. exact pushedApart_separation. Qed.

Lemma bounced_normal :
  normal (fst (bounced m e a b)) (snd (bounced m e a b)) = normal a b.
Proof. exact pushedApart_normal. Qed.

(** The impulse turns the relative normal velocity [vn] into [- e * vn]. *)
Lemma bounced_relNormalVelocity :
  relNormalVelocity (fst (bounced m e a b)) (snd (bounced m e a b)) =
  - e * relNormalVelocity a b.
Proof.
  pose proof normal_unit as Hn.
  unfold relNormalVelocity at 1. rewrite bounced_normal.
  unfold bounced. cbv zeta. cbn [fst snd velocity set_velocity].
  unfold relNormalVelocity, V3.dot in *.
  set (n := normal a b) in *. clearbody n.
  cbn [V3.sub V3.add V3.x V3.y V3.z].
  set (vn := (V3.x (velocity b) - V3.x (velocity a)) * V3.x n
             + (V3.y (velocity b) - V3.y (velocity a)) * V3.y n
             + (V3.z (velocity b) - V3.z (velocity a)) * V3.z n).
  replace 0.5 with (/ 2) by lra.
  transitivity
    (vn - (1 + e) * vn
          * (V3.x n * V3.x n + V3.y n * V3.y n + V3.z n * V3.z n)).
  - unfold vn. field.
  - rewrite Hn. ring.
Qed.

End Overlap.

End PairFacts.

Lemma halves_valid : JS.valid halves.
Proof. intros n. unfold halves. lra. Qed.

(** A frame in which no orb is written returns a world. *)
Lemma quietFrame_returns (cfg : Balloons.Config) (project : V3.t -> V3.t)
    (now : R) (w : Balloons.World) (s : JS.Rand) :
  exists w',
    fst (Balloons.animate cfg project quietFrame now w s) = Some w'.
Proof. eexists. reflexivity. Qed.

(* ====================================================================== *)
(** ** Buoyancy stays in the unit interval                                 *)
(* ====================================================================== *)

(** C1.  In both variants the buoyancy of every instance lies in the
    closed interval from 0 to 1: after a reset ([resetLantern],
    [resetInstance]), after the initial population is spawned, and after
    every per-frame buoyancy update ([updateLanterns], respectively
    [applyOrbInfluence]); and a whole frame ([animate]) keeps it there for
    every instance.  The spawn factor [initialBuoyancy.maxFactor] of the
    configuration is taken between 0 and 1, as it is in the source (0.4
    and 0.10). *)
Theorem C1_buoyancy_in_unit_interval :
  forall (lcfg : Lantern.Config) (bcfg : Balloons.Config) (s : JS.Rand),
    0 <= Lantern.initialBuoyancy_maxFactor (Lantern.spawn lcfg) <= 1 ->
    0 <= Balloons.initialBuoyancy_maxFactor (Balloons.spawn bcfg) <= 1 ->
    JS.valid s ->
    (* the lantern variant *)
    (forall bnd l isInitial,
        unitInterval
          (Lantern.buoyancy (fst (Lantern.resetLantern lcfg bnd l isInitial s))))
    /\ (forall offsetHSL base bnd,
        Forall (fun l => unitInterval (Lantern.buoyancy l))
               (fst (Lantern.spawnLanterns offsetHSL base lcfg bnd s)))
    /\ (forall bnd dt time ls,
        Forall (fun l => unitInterval (Lantern.buoyancy l))
               (fst (Lantern.updateLanterns lcfg bnd dt time ls s)))
    /\ (forall now sim,
        Forall (fun l => unitInterval (Lantern.buoyancy l))
               (Lantern.lanterns sim) ->
        Forall (fun l => unitInterval (Lantern.buoyancy l))
               (Lantern.lanterns (fst (Lantern.animate lcfg now sim s))))
    (* the balloon variant *)
    /\ (forall bnd isInitial,
        unitInterval
          (Balloons.buoy (fst (Balloons.resetInstance bcfg bnd isInitial s))))
    /\ (forall bnd n,
        Forall (fun i => unitInterval (Balloons.buoy i))
               (fst (Balloons.initialFill bcfg bnd n s)))
    /\ (forall bnd project boxes o dt rows,
        Forall (fun i => unitInterval (Balloons.buoy i))
               (fst (Balloons.applyOrbInfluence bcfg bnd project boxes o dt
                                                rows s)))
    /\ (forall project input now w w',
        fst (Balloons.animate bcfg project input now w s) = Some w' ->
        Forall (fun i => unitInterval (Balloons.buoy i))
               (Balloons.instances w')).
Proof.
  intros lcfg bcfg s Hl Hb Hs. unfold unitInterval.
  refine (conj _ (conj _ (conj _ (conj _ (conj _ (conj _ (conj _ _))))))).
  - intros bnd l isInitial.
    eapply resetOutcome_buoyancy; [exact Hl|].
    exact (proj1 (resetLantern_outcome lcfg bnd l isInitial s Hs)).
  - intros offsetHSL base bnd.
    exact (proj1 (spawnLanterns_buoyancy lcfg bnd offsetHSL base Hl s Hs)).
  - intros bnd dt time ls.
    exact (proj1 (updateLanterns_buoyancy lcfg bnd dt time ls Hl s Hs)).
  - intros now sim Hsim.
    exact (proj1 (lantern_animate_buoyancy lcfg now sim Hl Hsim s Hs)).
  - intros bnd isInitial.
    eapply rowOutcome_buoy; [exact Hb|].
    exact (proj1 (resetInstance_outcome bcfg bnd isInitial s Hs)).
  - intros bnd n.
    exact (proj1 (initialFill_buoy bcfg bnd n Hb s Hs)).
  - intros bnd project boxes o dt rows.
    exact (proj1 (applyOrbInfluence_buoy bcfg bnd project boxes o dt rows s Hs)).
  - intros project input now w w' E.
    pose proof (proj1 (balloons_animate_buoy bcfg project input now w Hb s Hs))
      as H.
    rewrite E in H. exact H.
Qed.

(** The theorem at the configurations of the source, for the lanterns of a
    frame and the rows of an influence pass. *)
Lemma C1_buoyancy_in_unit_interval_witness :
  (0 <= Lantern.initialBuoyancy_maxFactor (Lantern.spawn Lantern.CONFIG) <= 1)
  /\ (0 <= Balloons.initialBuoyancy_maxFactor (Balloons.spawn Balloons.CONFIG)
      <= 1)
  /\ JS.valid halves
  /\ Forall (fun l => unitInterval (Lantern.buoyancy l))
            (fst (Lantern.updateLanterns Lantern.CONFIG
                    (Lantern.initialBounds Lantern.CONFIG) 0.016 1
                    [sampleLantern (V3.mk 0 5 0) (V3.mk 0 0 0) 0.5 true]
                    halves))
  /\ Forall (fun i => unitInterval (Balloons.buoy i))
            (fst (Balloons.applyOrbInfluence Balloons.CONFIG
                    (Balloons.initialBounds Balloons.CONFIG)
                    (Balloons.project (Balloons.camera3d 1)) []
                    (Balloons.initialOrbs Balloons.CONFIG) 0.016
                    [sampleRow 0 5 0 0 0 0 0.5] halves))
  /\ Forall (fun l => unitInterval (Lantern.buoyancy l))
            (Lantern.lanterns risingSim)
  /\ Forall (fun l => unitInterval (Lantern.buoyancy l))
            (Lantern.lanterns
               (fst (Lantern.animate Lantern.CONFIG 1016 risingSim halves)))
  /\ exists w',
       fst (Balloons.animate Balloons.CONFIG
              (Balloons.project (Balloons.camera3d 1)) quietFrame 1016
              sampleWorld halves) = Some w'
       /\ Forall (fun i => unitInterval (Balloons.buoy i))
                 (Balloons.instances w').
Proof.
  assert (Hl : 0 <= Lantern.initialBuoyancy_maxFactor
                      (Lantern.spawn Lantern.CONFIG) <= 1)
    by (simpl; lra).
  assert (Hb : 0 <= Balloons.initialBuoyancy_maxFactor
                      (Balloons.spawn Balloons.CONFIG) <= 1)
    by (simpl; lra).
  pose proof (C1_buoyancy_in_unit_interval Lantern.CONFIG Balloons.CONFIG
                halves Hl Hb halves_valid)
    as (_ & _ & Hupd & Hframe & _ & _ & Hinf & Hworld).
  assert (Hsim : Forall (fun l => unitInterval (Lantern.buoyancy l))
                        (Lantern.lanterns risingSim)).
  { unfold unitInterval. repeat constructor; simpl; lra. }
  split; [exact Hl|]. split; [exact Hb|]. split; [exact halves_valid|].
  split; [apply Hupd|]. split; [apply Hinf|]. split; [exact Hsim|].
  split; [exact (Hframe 1016 risingSim Hsim)|].
  destruct (quietFrame_returns Balloons.CONFIG
              (Balloons.project (Balloons.camera3d 1)) 1016 sampleWorld
              halves) as [w' E].
  exists w'. split; [exact E|]. exact (Hworld _ _ _ _ _ E).
Defined.

(* ====================================================================== *)
(** ** Collision resolution of one pair                                    *)
(* ====================================================================== *)

(** C3.  For two lanterns [a] and [b], with [d] their distance, [n] the
    unit vector from [a] to [b] and [vn] the velocity of [b] relative to
    [a] along [n]: the collision pass over the two is one execution of the
    loop body.  When [0 < d < 2 * collisionRadius], each lantern is moved
    away from the other by half the overlap along [n], which puts them
    exactly [2 * collisionRadius] apart, further than before; if they
    approach ([vn < 0]), [a] and [b] receive the opposite impulses
    [- j * n] and [j * n] with [j = (1 + restitution) * |vn| * 0.5], the
    relative normal velocity becomes [- restitution * vn] and, for a
    restitution above [-1], the closing speed along the normal is smaller
    than before; if they separate ([0 < vn]) the velocities are untouched.
    When [d >= 2 * collisionRadius], or [d = 0], both lanterns are left as
    they are. *)
Theorem C3_pair_resolution :
  forall (cfg : Lantern.Config) (a b : Lantern.Lantern),
    let minDist := Lantern.collisionRadius cfg * 2 in
    let e := Lantern.collisionRestitution (Lantern.physics cfg) in
    let d := separation a b in
    let n := normal a b in
    let vn := relNormalVelocity a b in
    let a' := fst (Lantern.resolvePair minDist e a b) in
    let b' := snd (Lantern.resolvePair minDist e a b) in
    Lantern.handleCollisions cfg [a; b] = [a'; b']
    /\ (0 < d < minDist ->
        Lantern.position a'
          = V3.sub (Lantern.position a) (V3.scale n ((minDist - d) * 0.5))
        /\ Lantern.position b'
           = V3.add (Lantern.position b) (V3.scale n ((minDist - d) * 0.5))
        /\ separation a' b' = minDist
        /\ d < separation a' b'
        /\ (vn < 0 ->
            let j := (1 + e) * Rabs vn * 0.5 in
            Lantern.velocity a' = V3.sub (Lantern.velocity a) (V3.scale n j)
            /\ Lantern.velocity b'
               = V3.add (Lantern.velocity b) (V3.scale n j)
            /\ relNormalVelocity a' b' = - e * vn
            /\ (-1 < e -> closingSpeed a' b' < closingSpeed a b))
        /\ (0 < vn ->
            Lantern.velocity a' = Lantern.velocity a
            /\ Lantern.velocity b' = Lantern.velocity b))
    /\ (minDist <= d \/ d = 0 -> a' = a /\ b' = b).
Proof.
  intros cfg a b minDist e d n vn a' b'.
  split; [apply handleCollisions_two|]. split.
  - intros Hov. subst a' b'.
    rewrite (resolvePair_overlap minDist e a b Hov). fold vn.
    destruct (JS.gtb vn 0) eqn:Evn.
    + apply gtb_true_iff in Evn.
      split; [reflexivity|]. split; [reflexivity|].
      rewrite (pushedApart_separation minDist a b Hov).
      split; [reflexivity|]. split; [apply Hov|].
      split; [intros; lra|]. intros _. split; reflexivity.
    + apply gtb_false_iff in Evn.
      split; [reflexivity|]. split; [reflexivity|].
      rewrite (bounced_separation minDist e a b Hov).
      split; [reflexivity|]. split; [apply Hov|].
      split; [|intros; lra]. intros Hneg j.
      assert (Hj : j = - (1 + e) * vn * 0.5).
      { unfold j. rewrite (Rabs_left vn Hneg). lra. }
      rewrite (bounced_relNormalVelocity minDist e a b Hov). fold vn.
      split; [|split; [|split]].
      * unfold bounced. cbv zeta. cbn [fst snd Lantern.velocity
                                          Lantern.set_velocity].
        fold n vn. rewrite Hj.
        apply v3_eq; simpl; lra.
      * unfold bounced. cbv zeta. cbn [fst snd Lantern.velocity
                                          Lantern.set_velocity].
        fold n vn. rewrite Hj.
        apply v3_eq; simpl; lra.
      * reflexivity.
      * intros He. unfold closingSpeed.
        rewrite (bounced_relNormalVelocity minDist e a b Hov). fold vn. nra.
  - intros Hap. subst a' b'.
    rewrite (resolvePair_apart minDist e a b Hap). split; reflexivity.
Qed.

Lemma separation_eq (a b : Lantern.Lantern) (r : R) :
  0 <= r ->
  r * r = V3.lengthSq (V3.sub (Lantern.position b) (Lantern.position a)) ->
  separation a b = r.
Proof.
  intros Hr H. unfold separation, V3.distanceTo, V3.length.
  apply sqrt_lem_1; [|assumption|assumption].
  unfold V3.lengthSq, V3.dot. apply sum_sq_nonneg.
Qed.

Lemma collisionRadius_CONFIG : Lantern.collisionRadius Lantern.CONFIG * 2 = 0.7.
Proof.
  unfold Lantern.collisionRadius, JS.Math_max, Rmax. simpl.
  destruct (Rle_dec _ _); lra.
Qed.

Lemma separation_pairAB : separation pairA pairB = 0.5.
Proof. apply separation_eq; [lra|]. unfold V3.lengthSq, V3.dot. simpl. lra. Qed.

Lemma separation_pairAB_leaving : separation pairA_leaving pairB = 0.5.
Proof. apply separation_eq; [lra|]. unfold V3.lengthSq, V3.dot. simpl. lra. Qed.

Lemma separation_pairAB_far : separation pairA pairB_far = 5.
Proof. apply separation_eq; [lra|]. unfold V3.lengthSq, V3.dot. simpl. lra. Qed.

Lemma relNormalVelocity_pairAB : relNormalVelocity pairA pairB = -0.6.
Proof.
  unfold relNormalVelocity, normal. rewrite separation_pairAB.
  unfold V3.dot. simpl. lra.
Qed.

Lemma relNormalVelocity_pairAB_leaving :
  relNormalVelocity pairA_leaving pairB = 0.6.
Proof.
  unfold relNormalVelocity, normal. rewrite separation_pairAB_leaving.
  unfold V3.dot. simpl. lra.
Qed.

Lemma C3_pair_resolution_witness :
  let minDist := Lantern.collisionRadius Lantern.CONFIG * 2 in
  let e := Lantern.collisionRestitution (Lantern.physics Lantern.CONFIG) in
  (* overlapping and approaching *)
  (0 < separation pairA pairB < minDist
   /\ relNormalVelocity pairA pairB < 0
   /\ -1 < e
   /\ separation pairA pairB
      < separation (fst (Lantern.resolvePair minDist e pairA pairB))
                   (snd (Lantern.resolvePair minDist e pairA pairB))
   /\ closingSpeed (fst (Lantern.resolvePair minDist e pairA pairB))
                   (snd (Lantern.resolvePair minDist e pairA pairB))
      < closingSpeed pairA pairB)
  (* overlapping and separating *)
  /\ (0 < separation pairA_leaving pairB < minDist
      /\ 0 < relNormalVelocity pairA_leaving pairB
      /\ Lantern.velocity
           (fst (Lantern.resolvePair minDist e pairA_leaving pairB))
         = Lantern.velocity pairA_leaving)
  (* apart *)
  /\ ((minDist <= separation pairA pairB_far
       \/ separation pairA pairB_far = 0)
      /\ fst (Lantern.resolvePair minDist e pairA pairB_far) = pairA).
Proof.
  intros minDist e.
  assert (Hov : 0 < separation pairA pairB < minDist).
  { unfold minDist. rewrite separation_pairAB, collisionRadius_CONFIG. lra. }
  assert (Hov' : 0 < separation pairA_leaving pairB < minDist).
  { unfold minDist.
    rewrite separation_pairAB_leaving, collisionRadius_CONFIG. lra. }
  assert (Hfar : minDist <= separation pairA pairB_far
                 \/ separation pairA pairB_far = 0).
  { left. unfold minDist.
    rewrite separation_pairAB_far, collisionRadius_CONFIG. lra. }
  assert (Hvn : relNormalVelocity pairA pairB < 0).
  { rewrite relNormalVelocity_pairAB. lra. }
  assert (Hvn' : 0 < relNormalVelocity pairA_leaving pairB).
  { rewrite relNormalVelocity_pairAB_leaving. lra. }
  assert (He : -1 < e) by (unfold e; simpl; lra).
  split; [|split].
  - destruct (C3_pair_resolution Lantern.CONFIG pairA pairB)
      as (_ & Hover & _).
    destruct (Hover Hov) as (_ & _ & _ & Hfurther & Happroach & _).
    destruct (Happroach Hvn) as (_ & _ & _ & Hclosing).
    repeat split; try assumption; try apply Hov. exact (Hclosing He).
  - destruct (C3_pair_resolution Lantern.CONFIG pairA_leaving pairB)
      as (_ & Hover & _).
    destruct (Hover Hov') as (_ & _ & _ & _ & _ & Hleave).
    destruct (Hleave Hvn') as (Hva & _).
    repeat split; try assumption; try apply Hov'.
  - destruct (C3_pair_resolution Lantern.CONFIG pairA pairB_far)
      as (_ & _ & Hapart).
    destruct (Hapart Hfar) as (Ha & _).
    split; assumption.
Defined.

(* ====================================================================== *)
(** ** The vertical speed limit                                            *)
(* ====================================================================== *)

(** A hovered lantern that stays inside the recycle volume and between the
    depth walls comes out of the loop body as [integrated] leaves it, and
    draws no random number. *)
Lemma updateLantern_hovered_inside (cfg : Lantern.Config) (bnd : Bounds)
    (dt time : R) (l : Lantern.Lantern) (s : JS.Rand) :
  let b := JS.clamp (Lantern.buoyancy l
                     + Lantern.buoyancyRiseRate (Lantern.physics cfg) * dt)
                    0 1 in
  let l1 := Lantern.integrated cfg dt time b l in
  Lantern.hovered l = true ->
  Lantern.outOfBounds bnd (Lantern.position l1) = false ->
  zMin bnd <= V3.z (Lantern.position l1) <= zMax bnd ->
  Lantern.updateLantern cfg bnd dt time l s = (l1, s).
Proof.
  intros b l1 Hh Hin Hz.
  unfold Lantern.updateLantern, Lantern.updateBuoyancy, JS.bind, JS.ret.
  rewrite Hh. simpl. fold b. fold l1.
  unfold Lantern.recycle. rewrite Hin. unfold JS.ret. simpl.
  unfold Lantern.bounceDepth.
  destruct (JS.ltb _ _) eqn:E1; [apply ltb_true_iff in E1; lra|].
  destruct (JS.gtb _ _) eqn:E2; [apply gtb_true_iff in E2; lra|].
  reflexivity.
Qed.

Lemma dtOf_16ms : Lantern.dtOf 1016 1000 = 0.016.
Proof.
  unfold Lantern.dtOf, JS.Math_min, Rmin.
  destruct (Rle_dec _ _); [|lra].
  destruct (JS.eqb _ _) eqn:E; [apply eqb_true_iff in E; lra|]. lra.
Qed.

Lemma hoveredSample_velocity (p v : V3.t) :
  V3.y v = 4 ->
  Lantern.velocity
    (Lantern.integrated Lantern.CONFIG 0.016 (1016 * 0.001) 1
                        (sampleLantern p v 1 true))
  = V3.mk ((V3.x v + sin (1016 * 0.001 * 0.5 + 0) * 0.5 * 0.016) * 0.949)
          3.99592
          ((V3.z v + cos (1016 * 0.001 * 0.5 + 0) * 0.5 * 0.016) * 0.949).
Proof.
  intros Hv. unfold Lantern.integrated. rewrite integrate_velocity.
  unfold Lantern.updateVelocity. simpl. rewrite Hv.
  rewrite clamp_inside by lra. f_equal. lra.
Qed.

Lemma hoveredSample_position (p v : V3.t) :
  V3.y v = 4 ->
  Lantern.position
    (Lantern.integrated Lantern.CONFIG 0.016 (1016 * 0.001) 1
                        (sampleLantern p v 1 true))
  = V3.mk (V3.x p
           + (V3.x v + sin (1016 * 0.001 * 0.5 + 0) * 0.5 * 0.016) * 0.949
             * 0.016)
          (V3.y p + 3.99592 * 0.016)
          (V3.z p
           + (V3.z v + cos (1016 * 0.001 * 0.5 + 0) * 0.5 * 0.016) * 0.949
             * 0.016).
Proof.
  intros Hv. unfold Lantern.integrated. rewrite integrate_position.
  cbn [Lantern.velocity Lantern.set_velocity Lantern.position
       Lantern.set_buoyancy sampleLantern].
  pose proof (hoveredSample_velocity p v Hv) as Hvel.
  unfold Lantern.integrated in Hvel. rewrite integrate_velocity in Hvel.
  cbn [Lantern.velocity Lantern.set_velocity] in Hvel.
  rewrite Hvel. reflexivity.
Qed.

Lemma hoveredSample_update (p v : V3.t) (s : JS.Rand) :
  V3.y v = 4 -> -1 <= V3.x p <= 1 -> V3.y p <= 6 -> 0 <= V3.y p ->
  V3.z p = 0 -> -1 <= V3.x v <= 1 -> V3.z v = 0 ->
  Lantern.updateLantern Lantern.CONFIG (Lantern.initialBounds Lantern.CONFIG)
                        0.016 (1016 * 0.001) (sampleLantern p v 1 true) s
  = (Lantern.integrated Lantern.CONFIG 0.016 (1016 * 0.001) 1
                        (sampleLantern p v 1 true), s).
Proof.
  intros Hv Hpx Hpy Hpy' Hpz Hvx Hvz.
  pose proof (SIN_bound (1016 * 0.001 * 0.5 + 0)) as Hs.
  pose proof (COS_bound (1016 * 0.001 * 0.5 + 0)) as Hc.
  assert (Hb : JS.clamp (Lantern.buoyancy (sampleLantern p v 1 true)
                         + Lantern.buoyancyRiseRate
                             (Lantern.physics Lantern.CONFIG) * 0.016) 0 1
               = 1).
  { unfold JS.clamp, JS.Math_max, JS.Math_min, Rmax, Rmin. simpl.
    repeat destruct (Rle_dec _ _); lra. }
  pose proof (updateLantern_hovered_inside Lantern.CONFIG
                (Lantern.initialBounds Lantern.CONFIG) 0.016 (1016 * 0.001)
                (sampleLantern p v 1 true) s) as H.
  cbv zeta in H. rewrite Hb in H. apply H; clear H.
  - reflexivity.
  - rewrite (hoveredSample_position p v Hv). unfold Lantern.outOfBounds. simpl.
    repeat match goal with
    | |- context [JS.ltb ?a ?b] =>
        replace (JS.ltb a b) with false
          by (symmetry; apply ltb_false_iff; lra)
    | |- context [JS.gtb ?a ?b] =>
        replace (JS.gtb a b) with false
          by (symmetry; apply gtb_false_iff; lra)
    end.
    reflexivity.
  - rewrite (hoveredSample_position p v Hv). simpl. rewrite Hvz, Hpz. lra.
Qed.

Lemma rising_updateLanterns :
  Lantern.updateLanterns Lantern.CONFIG (Lantern.initialBounds Lantern.CONFIG)
                         0.016 (1016 * 0.001) [risingA; risingB] halves
  = ([risingA1; risingB1], halves).
Proof.
  unfold Lantern.updateLanterns, JS.forEach, JS.bind, JS.ret. cbv beta.
  unfold risingA1, risingB1, risingA, risingB.
  rewrite !hoveredSample_update by (simpl; lra). cbn [fst snd].
  rewrite ?hoveredSample_update by (simpl; lra). reflexivity.
Qed.

Lemma rising_separation : separation risingA1 risingB1 = 0.5.
Proof.
  apply separation_eq; [lra|].
  unfold risingA1, risingB1, risingA, risingB.
  rewrite !hoveredSample_position by reflexivity.
  unfold V3.lengthSq, V3.dot, V3.sub. simpl.
  set (S := sin _). set (C := cos _).
  replace (0.315184 + (0 + S * 0.5 * 0.016) * 0.949 * 0.016
           - (0 + (1 + S * 0.5 * 0.016) * 0.949 * 0.016)) with 0.3 by lra.
  replace (5.4 + 3.99592 * 0.016 - (5 + 3.99592 * 0.016)) with 0.4 by lra.
  lra.
Qed.

Lemma rising_normal : normal risingA1 risingB1 = V3.mk 0.6 0.8 0.
Proof.
  unfold normal. rewrite rising_separation.
  unfold risingA1, risingB1, risingA, risingB.
  rewrite !hoveredSample_position by reflexivity.
  apply v3_eq; simpl; lra.
Qed.

Lemma rising_relNormalVelocity : relNormalVelocity risingA1 risingB1 = -0.5694.
Proof.
  unfold relNormalVelocity. rewrite rising_normal.
  unfold risingA1, risingB1, risingA, risingB.
  rewrite !hoveredSample_velocity by reflexivity.
  unfold V3.dot. simpl. lra.
Qed.

(** After the collision pass the second lantern rises faster than the
    limit. *)
Lemma rising_after_collisions :
  V3.y (Lantern.velocity
          (snd (Lantern.resolvePair (Lantern.collisionRadius Lantern.CONFIG * 2)
                  (Lantern.collisionRestitution
                     (Lantern.physics Lantern.CONFIG)) risingA1 risingB1)))
  = 4.292008.
Proof.
  rewrite resolvePair_overlap
    by (rewrite rising_separation, collisionRadius_CONFIG; lra).
  rewrite rising_relNormalVelocity.
  destruct (JS.gtb _ _) eqn:E; [apply gtb_true_iff in E; lra|].
  unfold bounced. cbv zeta.
  cbn [fst snd Lantern.velocity Lantern.set_velocity].
  rewrite rising_relNormalVelocity, rising_normal.
  unfold risingB1, risingB. rewrite hoveredSample_velocity by reflexivity.
  simpl. lra.
Qed.

Lemma rising_animate :
  Lantern.lanterns (fst (Lantern.animate Lantern.CONFIG 1016 risingSim halves))
  = Lantern.handleCollisions Lantern.CONFIG [risingA1; risingB1].
Proof.
  unfold Lantern.animate, risingSim.
  cbn [Lantern.paused Lantern.lastTime Lantern.lanterns Lantern.bounds].
  rewrite dtOf_16ms. unfold JS.bind. rewrite rising_updateLanterns. reflexivity.
Qed.

(** The claim C2 fails on the lantern variant: a frame that starts with
    every vertical speed within the limit ends, after the collision pass,
    with a lantern above it. *)
Lemma C2_counterexample :
  let limit := Lantern.maxVerticalSpeed (Lantern.physics Lantern.CONFIG) in
  let within := fun l => Rabs (V3.y (Lantern.velocity l)) <= limit in
  Forall within (Lantern.lanterns risingSim)
  /\ ~ Forall within
         (Lantern.lanterns
            (fst (Lantern.animate Lantern.CONFIG 1016 risingSim halves))).
Proof.
  intros limit within. split.
  - unfold within, limit. simpl.
    repeat constructor; simpl; rewrite Rabs_right; lra.
  - rewrite rising_animate, handleCollisions_two. cbv zeta.
    intros H. apply Forall_inv_tail, Forall_inv in H.
    unfold within, limit in H. rewrite rising_after_collisions in H.
    simpl in H. rewrite Rabs_right in H; lra.
Qed.

(** C2, amended.  The vertical speed of every instance is within
    [maxVerticalSpeed] after each integration pass: after
    [updateLanterns] in the lantern variant, and at the end of the frame
    in the balloon variant, where nothing follows [updatePhysics].  The
    limit is taken non-negative and the two ends of the vertical spawn
    velocity range within it, as in the source. *)
Theorem C2_vertical_speed_after_integration :
  forall (lcfg : Lantern.Config) (bcfg : Balloons.Config) (s : JS.Rand),
    0 <= Lantern.maxVerticalSpeed (Lantern.physics lcfg) ->
    Rabs (min (Lantern.initialVelocity_y (Lantern.spawn lcfg)))
      <= Lantern.maxVerticalSpeed (Lantern.physics lcfg) ->
    Rabs (max (Lantern.initialVelocity_y (Lantern.spawn lcfg)))
      <= Lantern.maxVerticalSpeed (Lantern.physics lcfg) ->
    0 <= Balloons.maxVerticalSpeed (Balloons.physics bcfg) ->
    Rabs (min (Balloons.initialVelocity_y (Balloons.spawn bcfg)))
      <= Balloons.maxVerticalSpeed (Balloons.physics bcfg) ->
    Rabs (max (Balloons.initialVelocity_y (Balloons.spawn bcfg)))
      <= Balloons.maxVerticalSpeed (Balloons.physics bcfg) ->
    JS.valid s ->
    (forall bnd dt time ls,
        Forall (fun l => Rabs (V3.y (Lantern.velocity l))
                         <= Lantern.maxVerticalSpeed (Lantern.physics lcfg))
               (fst (Lantern.updateLanterns lcfg bnd dt time ls s)))
    /\ (forall project input now w w',
        fst (Balloons.animate bcfg project input now w s) = Some w' ->
        Forall (fun i => Rabs (Balloons.velY i)
                         <= Balloons.maxVerticalSpeed (Balloons.physics bcfg))
               (Balloons.instances w')).
Proof.
  intros lcfg bcfg s Hl0 Hl1 Hl2 Hb0 Hb1 Hb2 Hs. split.
  - intros bnd dt time ls.
    exact (proj1 (updateLanterns_velocity_y lcfg bnd dt time ls
                    Hl0 Hl1 Hl2 s Hs)).
  - intros project input now w w' E.
    pose proof (proj1 (balloons_animate_velY bcfg project input now w
                         Hb0 Hb1 Hb2 s Hs)) as H.
    rewrite E in H. exact H.
Qed.

Lemma C2_vertical_speed_after_integration_witness :
  0 <= Lantern.maxVerticalSpeed (Lantern.physics Lantern.CONFIG)
  /\ Rabs (min (Lantern.initialVelocity_y (Lantern.spawn Lantern.CONFIG)))
     <= Lantern.maxVerticalSpeed (Lantern.physics Lantern.CONFIG)
  /\ Rabs (max (Lantern.initialVelocity_y (Lantern.spawn Lantern.CONFIG)))
     <= Lantern.maxVerticalSpeed (Lantern.physics Lantern.CONFIG)
  /\ 0 <= Balloons.maxVerticalSpeed (Balloons.physics Balloons.CONFIG)
  /\ Rabs (min (Balloons.initialVelocity_y (Balloons.spawn Balloons.CONFIG)))
     <= Balloons.maxVerticalSpeed (Balloons.physics Balloons.CONFIG)
  /\ Rabs (max (Balloons.initialVelocity_y (Balloons.spawn Balloons.CONFIG)))
     <= Balloons.maxVerticalSpeed (Balloons.physics Balloons.CONFIG)
  /\ JS.valid halves
  /\ Forall (fun l => Rabs (V3.y (Lantern.velocity l))
                      <= Lantern.maxVerticalSpeed
                           (Lantern.physics Lantern.CONFIG))
            (fst (Lantern.updateLanterns Lantern.CONFIG
                    (Lantern.initialBounds Lantern.CONFIG) 0.016
                    (1016 * 0.001) [risingA; risingB] halves))
  /\ exists w',
       fst (Balloons.animate Balloons.CONFIG
              (Balloons.project (Balloons.camera3d 1)) quietFrame 1016
              sampleWorld halves) = Some w'
       /\ Forall (fun i => Rabs (Balloons.velY i)
                           <= Balloons.maxVerticalSpeed
                                (Balloons.physics Balloons.CONFIG))
                 (Balloons.instances w').
Proof.
  assert (H1 : 0 <= Lantern.maxVerticalSpeed (Lantern.physics Lantern.CONFIG))
    by (simpl; lra).
  assert (H2 : Rabs (min (Lantern.initialVelocity_y
                            (Lantern.spawn Lantern.CONFIG)))
               <= Lantern.maxVerticalSpeed (Lantern.physics Lantern.CONFIG))
    by (simpl; apply Rabs_le; lra).
  assert (H3 : Rabs (max (Lantern.initialVelocity_y
                            (Lantern.spawn Lantern.CONFIG)))
               <= Lantern.maxVerticalSpeed (Lantern.physics Lantern.CONFIG))
    by (simpl; apply Rabs_le; lra).
  assert (H4 : 0 <= Balloons.maxVerticalSpeed
                      (Balloons.physics Balloons.CONFIG))
    by (simpl; lra).
  assert (H5 : Rabs (min (Balloons.initialVelocity_y
                            (Balloons.spawn Balloons.CONFIG)))
               <= Balloons.maxVerticalSpeed (Balloons.physics Balloons.CONFIG))
    by (simpl; apply Rabs_le; lra).
  assert (H6 : Rabs (max (Balloons.initialVelocity_y
                            (Balloons.spawn Balloons.CONFIG)))
               <= Balloons.maxVerticalSpeed (Balloons.physics Balloons.CONFIG))
    by (simpl; apply Rabs_le; lra).
  pose proof (C2_vertical_speed_after_integration Lantern.CONFIG
                Balloons.CONFIG halves H1 H2 H3 H4 H5 H6 halves_valid)
    as [Hupd Hworld].
  repeat (split; [assumption|]). split; [apply halves_valid|].
  split; [apply Hupd|].
  destruct (quietFrame_returns Balloons.CONFIG
              (Balloons.project (Balloons.camera3d 1)) 1016 sampleWorld
              halves) as [w' E].
  exists w'. split; [exact E|]. exact (Hworld _ _ _ _ _ E).
Defined.

(* ====================================================================== *)
(** ** The band in which a recycled instance reappears                     *)
(* ====================================================================== *)

(** Half the visible height is not negative for a field of view below 180
    degrees. *)
Lemma vHalf_nonneg (fov dist : R) :
  0 < fov < 180 -> 0 <= dist -> 0 <= tan (JS.degToRad fov / 2) * dist.
Proof.
  intros Hf Hd. apply Rmult_le_pos; [|assumption].
  left. apply tan_gt_0; unfold JS.degToRad; pose proof PI_RGT_0; nra.
Qed.



Lemma lantern_updateVisibleBounds_band (cfg : Lantern.Config)
    (fov dist aspect viewCenterY : R) :
  0 <= tan (JS.degToRad fov / 2) * dist ->
  2 <= Lantern.ySpawnOffset (Lantern.spawn cfg) ->
  0 <= Lantern.yOffOffset (Lantern.spawn cfg) ->
  spawnBandOK (Lantern.updateVisibleBounds cfg fov dist aspect viewCenterY).
Proof. intros Hv Hs Ho. unfold spawnBandOK. simpl. lra. Qed.

Lemma balloons_updateVisibleBounds_band (cfg : Balloons.Config)
    (fov dist aspect viewCenterY : R) :
  0 <= tan (JS.degToRad fov / 2) * dist ->
  2 <= Balloons.ySpawnOffset (Balloons.balloons cfg) ->
  0 <= Balloons.yOffOffset (Balloons.balloons cfg) ->
  spawnBandOK (Balloons.updateVisibleBounds cfg fov dist aspect viewCenterY).
Proof. intros Hv Hs Ho. unfold spawnBandOK. simpl. lra. Qed.






(* ====================================================================== *)
(** ** Screen-space hover                                                  *)
(* ====================================================================== *)

Lemma screenRadius_pos (cfg : Balloons.Config) :
  0 < Balloons.orDefault
        (Balloons.screenRadiusNDC (Balloons.interaction cfg)) 0.065 ->
  0 < Balloons.orDefault
        (Balloons.screenRadiusMax (Balloons.interaction cfg)) 0.10 ->
  0 < Balloons.screenRadius cfg.
Proof.
  intros Hr Hmax.
  unfold Balloons.screenRadius, JS.clamp, JS.Math_max, JS.Math_min, Rmax, Rmin.
  repeat destruct (Rle_dec _ _); lra.
Qed.

Lemma ndc_oneLiveOrb :
  Balloons.project (Balloons.camera3d 1.5)
                   (nth 0 (Balloons.orbPositions oneLiveOrb) V3.zero)
  = V3.mk 0 0 (2588 / 2599).
Proof.
  unfold Balloons.project. simpl.
  apply v3_eq; simpl; try lra.
  replace (260 - 0.1) with 259.9 by lra.
  replace (- (0 - 40)) with 40 by lra.
  replace (0 - 40) with (-40) by lra.
  lra.
Qed.

(** The test of the screen-space branch, for a balloon and a live orb
    that pass the clip test and project to the same point of the
    screen. *)
Lemma hoveredTest_same_point (cfg : Balloons.Config) (project : V3.t -> V3.t)
    (boxes : list Balloons.Box) (o : Balloons.Orbs) (i : Balloons.Instance)
    (j : nat) :
  let ndcB := project (Balloons.pos i) in
  let ndcO := project (nth j (Balloons.orbPositions o) V3.zero) in
  Balloons.trackMode (Balloons.interaction cfg) <> "fullBody"%string ->
  Balloons.useScreenSpaceHit (Balloons.interaction cfg) = true ->
  0 < Balloons.screenRadius cfg ->
  (j < Balloons.MAX_ORBS cfg)%nat ->
  0 < nth j (Balloons.orbTTL o) 0 ->
  V3.x ndcB = V3.x ndcO ->
  V3.y ndcB = V3.y ndcO ->
  -1 <= V3.z ndcB <= 1 ->
  -1 <= V3.z ndcO <= 1 ->
  Balloons.hoveredTest cfg project boxes o i = true.
Proof.
  intros ndcB ndcO Hmode Hscreen HrN Hj Hlive Hx Hy HzB HzO.
  unfold Balloons.hoveredTest. cbv zeta.
  apply String.eqb_neq in Hmode. rewrite Hmode, Hscreen.
  fold ndcB. apply andb_true_iff. split.
  - apply andb_true_iff. split.
    + apply geb_true_iff. lra.
    + apply leb_true_iff. lra.
  - apply existsb_exists. exists j. split.
    + apply in_seq. lia.
    + fold ndcO.
      replace (JS.leb (nth j (Balloons.orbTTL o) 0) 0) with false
        by (symmetry; apply leb_false_iff; lra).
      replace (JS.ltb (V3.z ndcO) (-1)) with false
        by (symmetry; apply ltb_false_iff; lra).
      replace (JS.gtb (V3.z ndcO) 1) with false
        by (symmetry; apply gtb_false_iff; lra).
      cbn [orb]. apply ltb_true_iff. rewrite Hx, Hy. nra.
Qed.

(** A point in front of the camera, between its near and its far plane,
    projects to a depth between -1 and 1: the depth is
    [((f + n) d - 2 f n) / ((f - n) d)] at the distance [d] from the
    camera, which is -1 at [d = n], 1 at [d = f] and increasing between
    the two. *)
Lemma project_depth_in_clip_range (c : Balloons.Camera) (v : V3.t) :
  0 < Balloons.cam_near c < Balloons.cam_far c ->
  betweenPlanes c (V3.z v) ->
  -1 <= V3.z (Balloons.project c v) <= 1.
Proof.
  intros [Hn Hf] [Hd1 Hd2]. unfold Balloons.project. cbv zeta. cbn [V3.z].
  set (n := Balloons.cam_near c) in *. set (f := Balloons.cam_far c) in *.
  set (d := V3.z (Balloons.cam_position c) - V3.z v) in *.
  replace (V3.z v - V3.z (Balloons.cam_position c)) with (- d)
    by (unfold d; lra).
  assert (Hd : 0 < d) by lra.
  assert (Hfd : 0 < (f - n) * d) by nra.
  replace ((- (f + n) / (f - n) * - d + -2 * f * n / (f - n)) * (1 / - - d))
    with (((f + n) * d - 2 * f * n) / ((f - n) * d)) by (field; lra).
  split.
  - apply Rmult_le_reg_r with ((f - n) * d); [exact Hfd|].
    unfold Rdiv. rewrite Rmult_assoc, Rinv_l by lra. nra.
  - apply Rmult_le_reg_r with ((f - n) * d); [exact Hfd|].
    unfold Rdiv. rewrite Rmult_assoc, Rinv_l by lra. nra.
Qed.

(** For the camera of [CONFIG.camera3d], at z = 40 with its near plane at
    0.1 and its far plane at 260, these are the depths from -220 to
    39.9. *)
Lemma camera3d_betweenPlanes (aspect z : R) :
  betweenPlanes (Balloons.camera3d aspect) z <-> -220 <= z <= 39.9.
Proof. unfold betweenPlanes. simpl. lra. Qed.

(** Smoothing moves an orb to a point between its position and its
    target: between the planes when both are. *)
Lemma lerp_betweenPlanes (c : Balloons.Camera) (p t : V3.t) (alpha : R) :
  0 <= alpha <= 1 ->
  betweenPlanes c (V3.z p) -> betweenPlanes c (V3.z t) ->
  betweenPlanes c (V3.z (V3.lerp p t alpha)).
Proof.
  unfold betweenPlanes, V3.lerp. cbn [V3.z]. intros Ha Hp Ht. nra.
Qed.

(** The pointer test of the lantern variant has no depth guard. *)
Lemma onPointerMove_hovered (cfg : Lantern.Config) (project : V3.t -> V3.t)
    (pointer_x pointer_y : R) (ls : list Lantern.Lantern) :
  Lantern.hover_radius cfg <> 0 ->
  Forall (fun l' =>
            V3.x (project (Lantern.position l')) = pointer_x ->
            V3.y (project (Lantern.position l')) = pointer_y ->
            Lantern.hovered l' = true)
         (Lantern.onPointerMove cfg project pointer_x pointer_y ls).
Proof.
  intros Hr. unfold Lantern.onPointerMove. apply Forall_map.
  apply Forall_forall. intros l _. simpl. intros Hx Hy.
  apply ltb_true_iff. rewrite Hx, Hy. nra.
Qed.

(** C5.  In screen-space hover mode of the balloon variant (the branch of
    [applyOrbInfluence] taken when [useScreenSpaceHit] is set and the
    tracking mode is not [fullBody]), with a positive configured radius
    (and a positive upper clamp bound, 0.10 in the source), a balloon and
    a live orb that project to the same point of the screen are judged
    hovered, whatever the depth of the balloon and whatever the depth of
    the orb in front of the camera of the program.  That camera is fixed
    at z = 40 and looks down the z axis, with its near plane at 0.1 and
    its far plane at 260: every depth from -220 to 39.9 passes the clip
    test of the branch.  The depths the program produces are among them:
    the balloons are kept between the depth walls of
    [CONFIG.balloons.zBounds], -18 and 10, the tracking points are put on
    the view plane, z = 0, and the mouse orb on the surface of a balloon,
    and smoothing moves an orb to a point between its position and its
    target.  The pointer test of the lantern variant has no depth test:
    with a non-zero radius, a lantern that projects to the pointer's
    coordinate is hovered after [onPointerMove], whatever its depth. *)
Theorem C5_screen_space_hover_regardless_of_depth :
  forall (cfg : Balloons.Config) (aspect : R) (boxes : list Balloons.Box)
         (o : Balloons.Orbs) (i : Balloons.Instance) (j : nat),
    let cam := Balloons.camera3d aspect in
    let ndcB := Balloons.project cam (Balloons.pos i) in
    let ndcO :=
      Balloons.project cam (nth j (Balloons.orbPositions o) V3.zero) in
    (* the balloon variant *)
    (Balloons.trackMode (Balloons.interaction cfg) <> "fullBody"%string ->
     Balloons.useScreenSpaceHit (Balloons.interaction cfg) = true ->
     0 < Balloons.orDefault
           (Balloons.screenRadiusNDC (Balloons.interaction cfg)) 0.065 ->
     0 < Balloons.orDefault
           (Balloons.screenRadiusMax (Balloons.interaction cfg)) 0.10 ->
     (j < Balloons.MAX_ORBS cfg)%nat ->
     0 < nth j (Balloons.orbTTL o) 0 ->
     V3.x ndcB = V3.x ndcO ->
     V3.y ndcB = V3.y ndcO ->
     betweenPlanes cam (Balloons.posZ i) ->
     betweenPlanes cam (V3.z (nth j (Balloons.orbPositions o) V3.zero)) ->
     Balloons.hoveredTest cfg (Balloons.project cam) boxes o i = true)
    (* the depths in front of the camera, and those of the program *)
    /\ (forall z, betweenPlanes cam z <-> -220 <= z <= 39.9)
    /\ (forall z,
          min (Balloons.zBounds (Balloons.balloons Balloons.CONFIG)) <= z
            <= max (Balloons.zBounds (Balloons.balloons Balloons.CONFIG)) ->
          betweenPlanes cam z)
    /\ betweenPlanes cam 0
    /\ (forall (p t : V3.t) (alpha : R),
          0 <= alpha <= 1 ->
          betweenPlanes cam (V3.z p) -> betweenPlanes cam (V3.z t) ->
          betweenPlanes cam (V3.z (V3.lerp p t alpha)))
    (* the lantern variant *)
    /\ (forall (lcfg : Lantern.Config) (project : V3.t -> V3.t)
               (pointer_x pointer_y : R) (ls : list Lantern.Lantern),
        Lantern.hover_radius lcfg <> 0 ->
        Forall (fun l' =>
                  V3.x (project (Lantern.position l')) = pointer_x ->
                  V3.y (project (Lantern.position l')) = pointer_y ->
                  Lantern.hovered l' = true)
               (Lantern.onPointerMove lcfg project pointer_x pointer_y ls)).
Proof.
  intros cfg aspect boxes o i j cam ndcB ndcO.
  assert (Hcam : 0 < Balloons.cam_near cam < Balloons.cam_far cam)
    by (simpl; lra).
  refine (conj _ (conj _ (conj _ (conj _ (conj _ _))))).
  5: { intros p t alpha. apply lerp_betweenPlanes. }
  - intros Hmode Hscreen Hr Hmax Hj Hlive Hx Hy HzB HzO.
    apply (hoveredTest_same_point cfg (Balloons.project cam) boxes o i j);
      try assumption.
    + now apply screenRadius_pos.
    + now apply project_depth_in_clip_range.
    + now apply project_depth_in_clip_range.
  - intros z. apply camera3d_betweenPlanes.
  - intros z Hz. apply camera3d_betweenPlanes. simpl in Hz. lra.
  - apply camera3d_betweenPlanes. lra.
  - intros lcfg project px py ls Hr. now apply onPointerMove_hovered.
Qed.

Lemma ndc_rowInFront :
  Balloons.project (Balloons.camera3d 1.5) (Balloons.pos rowInFront)
  = V3.mk 0 0 (12953 / 12995).
Proof.
  unfold Balloons.project. simpl.
  apply v3_eq; simpl; try lra.
  replace (260 - 0.1) with 259.9 by lra.
  replace (- (-10 - 40)) with 50 by lra.
  replace (-10 - 40) with (-50) by lra.
  lra.
Qed.

(** The lantern on the axis of the camera projects to the centre of the
    screen. *)
Lemma ndc_axisLantern (aspect : R) :
  V3.x (Balloons.project (lanternCamera aspect)
                         (Lantern.position axisLantern)) = 0
  /\ V3.y (Balloons.project (lanternCamera aspect)
                            (Lantern.position axisLantern)) = 0.
Proof. unfold Balloons.project. simpl. split; lra. Qed.

(** The theorem at the configuration of the source: a balloon 50 units
    in front of the camera and a live orb 40 units in front of it, on its
    axis; and a lantern on the axis of its camera, with the pointer at
    the centre of the screen. *)
Lemma C5_screen_space_hover_regardless_of_depth_witness :
  let cfg := Balloons.CONFIG in
  let cam := Balloons.camera3d 1.5 in
  let ndcB := Balloons.project cam (Balloons.pos rowInFront) in
  let ndcO :=
    Balloons.project cam (nth 0 (Balloons.orbPositions oneLiveOrb) V3.zero) in
  let proj := Balloons.project (lanternCamera 1.5) in
  (Balloons.trackMode (Balloons.interaction cfg) <> "fullBody"%string
   /\ Balloons.useScreenSpaceHit (Balloons.interaction cfg) = true
   /\ 0 < Balloons.orDefault
            (Balloons.screenRadiusNDC (Balloons.interaction cfg)) 0.065
   /\ 0 < Balloons.orDefault
            (Balloons.screenRadiusMax (Balloons.interaction cfg)) 0.10
   /\ (0 < Balloons.MAX_ORBS cfg)%nat
   /\ 0 < nth 0 (Balloons.orbTTL oneLiveOrb) 0
   /\ V3.x ndcB = V3.x ndcO
   /\ V3.y ndcB = V3.y ndcO
   /\ betweenPlanes cam (Balloons.posZ rowInFront)
   /\ betweenPlanes cam
        (V3.z (nth 0 (Balloons.orbPositions oneLiveOrb) V3.zero)))
  /\ Balloons.hoveredTest cfg (Balloons.project cam) [] oneLiveOrb rowInFront
     = true
  /\ (Lantern.hover_radius Lantern.CONFIG <> 0
      /\ V3.x (proj (Lantern.position axisLantern)) = 0
      /\ V3.y (proj (Lantern.position axisLantern)) = 0)
  /\ Forall (fun l' => Lantern.hovered l' = true)
            (Lantern.onPointerMove Lantern.CONFIG proj 0 0 [axisLantern]).
Proof.
  intros cfg cam ndcB ndcO proj.
  assert (Hrad : Lantern.hover_radius Lantern.CONFIG <> 0)
    by (simpl; lra).
  assert (H1 : Balloons.trackMode (Balloons.interaction cfg)
               <> "fullBody"%string) by discriminate.
  assert (H2 : Balloons.useScreenSpaceHit (Balloons.interaction cfg) = true)
    by reflexivity.
  assert (H3 : 0 < Balloons.orDefault
                     (Balloons.screenRadiusNDC (Balloons.interaction cfg))
                     0.065) by (simpl; lra).
  assert (H4 : 0 < Balloons.orDefault
                     (Balloons.screenRadiusMax (Balloons.interaction cfg))
                     0.10) by (simpl; lra).
  assert (H5 : (0 < Balloons.MAX_ORBS cfg)%nat)
    by (unfold cfg, Balloons.MAX_ORBS; simpl; lia).
  assert (H6 : 0 < nth 0 (Balloons.orbTTL oneLiveOrb) 0) by (simpl; lra).
  assert (H7 : V3.x ndcB = V3.x ndcO).
  { unfold ndcB, ndcO, cam. rewrite ndc_rowInFront, ndc_oneLiveOrb.
    reflexivity. }
  assert (H8 : V3.y ndcB = V3.y ndcO).
  { unfold ndcB, ndcO, cam. rewrite ndc_rowInFront, ndc_oneLiveOrb.
    reflexivity. }
  assert (H9 : betweenPlanes cam (Balloons.posZ rowInFront))
    by (unfold betweenPlanes; simpl; lra).
  assert (H10 : betweenPlanes cam
                  (V3.z (nth 0 (Balloons.orbPositions oneLiveOrb) V3.zero)))
    by (unfold betweenPlanes; simpl; lra).
  destruct (ndc_axisLantern 1.5) as [Hx Hy].
  split.
  - repeat (split; [assumption|]). assumption.
  - split; [|split; [repeat split; assumption|]].
    + exact (proj1 (C5_screen_space_hover_regardless_of_depth cfg 1.5 []
                      oneLiveOrb rowInFront 0%nat)
                   H1 H2 H3 H4 H5 H6 H7 H8 H9 H10).
    + pose proof (proj2 (proj2 (proj2 (proj2 (proj2
                    (C5_screen_space_hover_regardless_of_depth cfg 1.5 []
                       oneLiveOrb rowInFront 0%nat)))))
                    Lantern.CONFIG proj 0 0 [axisLantern] Hrad) as H.
      apply Forall_inv in H. constructor; [|constructor].
      apply H; [exact Hx | exact Hy].
Defined.

(* ====================================================================== *)
(** ** The frame time                                                      *)
(* ====================================================================== *)

(** The two variants compute the frame time with the same expression. *)
Lemma frameDt_same (now lastTime : JS.Number) :
  Balloons.frameDt now lastTime = Lantern.frameDt now lastTime.
Proof. reflexivity. Qed.

Lemma dtOf_same (now lastTime : R) :
  Balloons.dtOf now lastTime = Lantern.dtOf now lastTime.
Proof. reflexivity. Qed.

(** On timestamps that are numbers, the frame time is the number [dtOf]
    that [animate] works with. *)
Lemma frameDt_finite (now lastTime : R) :
  Lantern.frameDt (JS.Finite now) (JS.Finite lastTime)
  = JS.Finite (Lantern.dtOf now lastTime).
Proof.
  unfold Lantern.frameDt, Lantern.dtOf, JS.sub, JS.div, JS.min, JS.or,
    JS.truthy, JS.Math_min.
  destruct (Req_dec_T 1000 0) as [E|_]; [lra|].
  destruct (JS.eqb _ _); reflexivity.
Qed.

Lemma frameDt_nan_l (lastTime : JS.Number) :
  Lantern.frameDt JS.NaN lastTime = JS.Finite 0.016.
Proof. reflexivity. Qed.

Lemma frameDt_nan_r (now : JS.Number) :
  Lantern.frameDt now JS.NaN = JS.Finite 0.016.
Proof. destruct now; reflexivity. Qed.

Lemma dtOf_cases (now lastTime : R) :
  let e := now - lastTime in
  Lantern.dtOf now lastTime <= 0.05
  /\ Lantern.dtOf now lastTime <> 0
  /\ (e = 0 -> Lantern.dtOf now lastTime = 0.016)
  /\ (0 < e -> Lantern.dtOf now lastTime = Rmin (e / 1000) 0.05
               /\ 0 < Lantern.dtOf now lastTime)
  /\ (e < 0 -> Lantern.dtOf now lastTime = e / 1000).
Proof.
  intros e. unfold Lantern.dtOf, JS.Math_min. fold e.
  unfold Rmin. destruct (Rle_dec (e / 1000) 0.05) as [Hle|Hgt];
    (destruct (JS.eqb _ _) eqn:E;
     [apply eqb_true_iff in E | apply eqb_false_iff in E]);
    repeat split; intros; try lra;
    try (intro; lra); try (exfalso; apply E; lra).
Qed.

(** The claim C6 fails for a negative elapsed time: a timestamp 10 ms
    before the previous one gives a frame time of -0.01 s, which is the
    raw value and not a positive step. *)
Lemma C6_counterexample :
  Lantern.frameDt (JS.Finite 990) (JS.Finite 1000) = JS.Finite (-0.01)
  /\ Balloons.frameDt (JS.Finite 990) (JS.Finite 1000) = JS.Finite (-0.01)
  /\ ~ 0 < -0.01.
Proof.
  assert (H : Lantern.dtOf 990 1000 = -0.01).
  { destruct (dtOf_cases 990 1000) as (_ & _ & _ & _ & Hneg).
    rewrite Hneg; lra. }
  split; [|split].
  - now rewrite frameDt_finite, H.
  - change (Balloons.frameDt (JS.Finite 990) (JS.Finite 1000))
      with (Lantern.frameDt (JS.Finite 990) (JS.Finite 1000)).
    now rewrite frameDt_finite, H.
  - lra.
Qed.

(** C6, amended.  Whatever the two timestamps are, the frame time is a
    number, never zero and never above 0.05 s; it is the default step of
    0.016 s when the elapsed time is zero or not a number; for a positive
    elapsed time it is positive, the elapsed seconds capped at 0.05; a
    negative elapsed time is passed on as it is, in seconds.  Both
    variants compute it alike, and [dtOf] is its value on timestamps that
    are numbers. *)
Theorem C6_frame_time :
  forall now lastTime : JS.Number,
    Balloons.frameDt now lastTime = Lantern.frameDt now lastTime
    /\ exists dt : R,
        Lantern.frameDt now lastTime = JS.Finite dt
        /\ dt <= 0.05
        /\ dt <> 0
        /\ (JS.sub now lastTime = JS.NaN \/ JS.sub now lastTime = JS.Finite 0 ->
            dt = 0.016)
        /\ (forall e, JS.sub now lastTime = JS.Finite e -> 0 < e ->
            0 < dt /\ dt = Rmin (e / 1000) 0.05)
        /\ (forall e, JS.sub now lastTime = JS.Finite e -> e < 0 ->
            dt = e / 1000)
        /\ (forall n l, now = JS.Finite n -> lastTime = JS.Finite l ->
            dt = Lantern.dtOf n l /\ dt = Balloons.dtOf n l).
Proof.
  intros now lastTime. split; [reflexivity|].
  destruct now as [n|], lastTime as [l|].
  - exists (Lantern.dtOf n l). rewrite frameDt_finite.
    destruct (dtOf_cases n l) as (Hmax & Hnz & Hzero & Hpos & Hneg).
    split; [reflexivity|]. split; [assumption|]. split; [assumption|].
    simpl. split; [|split; [|split]].
    + intros [H|H]; [discriminate|]. injection H as H. auto.
    + intros e H He. injection H as H. subst e.
      destruct (Hpos He). split; assumption.
    + intros e H He. injection H as H. subst e. auto.
    + intros n' l' Hn Hl. injection Hn as Hn. injection Hl as Hl.
      subst. split; reflexivity.
  - exists 0.016. rewrite frameDt_nan_r. simpl.
    repeat split; try lra; try discriminate.
  - exists 0.016. rewrite frameDt_nan_l. simpl.
    repeat split; try lra; try discriminate.
  - exists 0.016. rewrite frameDt_nan_l. simpl.
    repeat split; try lra; try discriminate.
Qed.

Lemma C6_frame_time_witness :
  (JS.sub (JS.Finite 1016) (JS.Finite 1000) = JS.Finite 16 /\ 0 < 16)
  /\ (JS.sub (JS.Finite 990) (JS.Finite 1000) = JS.Finite (-10) /\ -10 < 0)
  /\ (JS.sub JS.NaN (JS.Finite 1000) = JS.NaN)
  /\ (exists dt, Lantern.frameDt (JS.Finite 1016) (JS.Finite 1000)
                 = JS.Finite dt
                 /\ 0 < dt <= 0.05 /\ dt = Lantern.dtOf 1016 1000)
  /\ (exists dt, Lantern.frameDt (JS.Finite 990) (JS.Finite 1000)
                 = JS.Finite dt /\ dt = -10 / 1000)
  /\ (exists dt, Lantern.frameDt JS.NaN (JS.Finite 1000) = JS.Finite dt
                 /\ dt = 0.016).
Proof.
  assert (H16 : JS.sub (JS.Finite 1016) (JS.Finite 1000) = JS.Finite 16).
  { simpl. f_equal. lra. }
  assert (H10 : JS.sub (JS.Finite 990) (JS.Finite 1000) = JS.Finite (-10)).
  { simpl. f_equal. lra. }
  split; [split; [exact H16 | lra]|].
  split; [split; [exact H10 | lra]|].
  split; [reflexivity|]. split; [|split].
  - destruct (C6_frame_time (JS.Finite 1016) (JS.Finite 1000))
      as (_ & dt & Hdt & Hmax & _ & _ & Hpos & _ & Hfin).
    exists dt. split; [exact Hdt|].
    destruct (Hpos 16 H16) as [Hp _]; [lra|].
    destruct (Hfin 1016 1000 eq_refl eq_refl) as [Hd _].
    split; [lra | exact Hd].
  - destruct (C6_frame_time (JS.Finite 990) (JS.Finite 1000))
      as (_ & dt & Hdt & _ & _ & _ & _ & Hneg & _).
    exists dt. split; [exact Hdt|]. apply Hneg; [exact H10 | lra].
  - destruct (C6_frame_time JS.NaN (JS.Finite 1000))
      as (_ & dt & Hdt & _ & _ & Hnan & _).
    exists dt. split; [exact Hdt|]. apply Hnan. left. reflexivity.
Defined.

(* ====================================================================== *)
(** ** Orb smoothing                                                       *)
(* ====================================================================== *)

Section OrbFacts.

Import Balloons.

Lemma initialOrbs_WF (cfg : Config) : orbsWF cfg (initialOrbs cfg).
Proof. unfold orbsWF, initialOrbs. simpl. now rewrite !repeat_length. Qed.

Lemma smoothOrb_rest (alpha : R) (o : Orbs) (i : nat) :
  orbTargets (smoothOrb alpha o i) = orbTargets o
  /\ orbBuoy (smoothOrb alpha o i) = orbBuoy o
  /\ orbTTL (smoothOrb alpha o i) = orbTTL o
  /\ List.length (orbPositions (smoothOrb alpha o i))
     = List.length (orbPositions o).
Proof.
  unfold smoothOrb. destruct (JS.gtb _ _); simpl; auto.
  now rewrite set_nth_length.
Qed.

Lemma smoothOrb_same (alpha : R) (o : Orbs) (i : nat) :
  (i < List.length (orbPositions o))%nat ->
  nth i (orbPositions (smoothOrb alpha o i)) V3.zero = smoothed alpha o i.
Proof.
  intros Hi. unfold smoothOrb, smoothed.
  destruct (JS.gtb _ _); simpl; [|reflexivity].
  now apply nth_set_nth_eq.
Qed.

Lemma smoothOrb_other (alpha : R) (o : Orbs) (i k : nat) :
  i <> k ->
  nth k (orbPositions (smoothOrb alpha o i)) V3.zero
  = nth k (orbPositions o) V3.zero.
Proof.
  intros Hik. unfold smoothOrb.
  destruct (JS.gtb _ _); simpl; [|reflexivity].
  now apply nth_set_nth_neq.
Qed.

Lemma smoothed_after_other (alpha : R) (o : Orbs) (i k : nat) :
  i <> k -> smoothed alpha (smoothOrb alpha o i) k = smoothed alpha o k.
Proof.
  intros Hik. unfold smoothed.
  destruct (smoothOrb_rest alpha o i) as (-> & _ & -> & _).
  now rewrite smoothOrb_other.
Qed.

(** The loop over a list of distinct indices. *)
Lemma smooth_fold (alpha : R) (idxs : list nat) :
  NoDup idxs ->
  forall o : Orbs,
    let o' := fold_left (smoothOrb alpha) idxs o in
    orbTargets o' = orbTargets o
    /\ orbBuoy o' = orbBuoy o
    /\ orbTTL o' = orbTTL o
    /\ List.length (orbPositions o') = List.length (orbPositions o)
    /\ forall k,
        (In k idxs -> (k < List.length (orbPositions o))%nat ->
         nth k (orbPositions o') V3.zero = smoothed alpha o k)
        /\ (~ In k idxs ->
            nth k (orbPositions o') V3.zero = nth k (orbPositions o) V3.zero).
Proof.
  induction 1 as [|i rest Hi Hnd IH]; intros o; simpl.
  - repeat split; auto. intros [].
  - destruct (IH (smoothOrb alpha o i)) as (Ht & Hb & Hl & Hlen & Hk).
    destruct (smoothOrb_rest alpha o i) as (Ht' & Hb' & Hl' & Hlen').
    split; [congruence|]. split; [congruence|]. split; [congruence|].
    split; [congruence|]. intros k. destruct (Hk k) as [Hin Hout]. split.
    + intros [->|Hkin] Hlt.
      * rewrite Hout by assumption. now apply smoothOrb_same.
      * rewrite Hin by (try assumption; congruence).
        apply smoothed_after_other. intros ->. contradiction.
    + intros Hnot. rewrite Hout by tauto.
      apply smoothOrb_other. intros ->. apply Hnot. now left.
Qed.

Lemma smoothOrbs_outcome (cfg : Config) (alpha : R) (o : Orbs) :
  orbsWF cfg o ->
  let o' := smoothOrbs cfg alpha o in
  orbTargets o' = orbTargets o
  /\ orbBuoy o' = orbBuoy o
  /\ orbTTL o' = orbTTL o
  /\ orbsWF cfg o'
  /\ forall k, (k < MAX_ORBS cfg)%nat ->
               nth k (orbPositions o') V3.zero = smoothed alpha o k.
Proof.
  intros (Hp & Ht & Hb & Hl) o'.
  destruct (smooth_fold alpha (seq 0 (MAX_ORBS cfg)) (seq_NoDup _ _) o)
    as (Ht' & Hb' & Hl' & Hlen & Hk).
  fold (smoothOrbs cfg alpha o) in *. fold o' in Ht', Hb', Hl', Hlen, Hk.
  split; [assumption|]. split; [assumption|]. split; [assumption|].
  split.
  - unfold orbsWF. rewrite Ht', Hb', Hl', Hlen. auto.
  - intros k Hlt. apply (proj1 (Hk k)); [apply in_seq; lia | lia].
Qed.

Lemma Rpower_exponent_inj (x y z : R) :
  0 < x -> x <> 1 -> Rpower x y = Rpower x z -> y = z.
Proof.
  intros Hx Hx1 H. unfold Rpower in H. apply exp_inv in H.
  pose proof (ln_neq_0 x Hx1 Hx) as Hln.
  apply (Rmult_eq_reg_r (ln x)); assumption.
Qed.

Lemma smoothingAlpha_eq (cfg : Config) (dt : R) :
  orbSmoothing (interaction cfg) < 1 ->
  smoothingAlpha cfg dt
  = 1 - Rpower (1 - orbSmoothing (interaction cfg)) (Rmax 1 (dt * 60)).
Proof.
  intros Hs. unfold smoothingAlpha, JS.Math_pow, JS.Math_max.
  destruct (Rlt_dec 0 (1.0 - orbSmoothing (interaction cfg))); [|lra].
  replace (1.0 - orbSmoothing (interaction cfg))
    with (1 - orbSmoothing (interaction cfg)) by lra.
  lra.
Qed.

End OrbFacts.

(** The claim C7 fails for frames shorter than 1/60 s: for a frame of
    8 ms the code smooths with the configured rate 0.14 itself, not with
    [1 - (1 - 0.14)^(0.008 * 60)]. *)
Lemma C7_counterexample :
  Balloons.orbSmoothing (Balloons.interaction Balloons.CONFIG) = 0.14
  /\ Balloons.smoothingAlpha Balloons.CONFIG 0.008 = 0.14
  /\ Balloons.smoothingAlpha Balloons.CONFIG 0.008
     <> 1 - Rpower (1 - 0.14) (0.008 * 60).
Proof.
  assert (Ha : Balloons.smoothingAlpha Balloons.CONFIG 0.008 = 0.14).
  { rewrite smoothingAlpha_eq by (simpl; lra). simpl.
    unfold Rmax. destruct (Rle_dec _ _); [lra|].
    rewrite Rpower_1; lra. }
  split; [reflexivity|]. split; [exact Ha|].
  rewrite Ha. intros H.
  assert (Hp : Rpower (1 - 0.14) (0.008 * 60) = Rpower (1 - 0.14) 1).
  { rewrite Rpower_1; lra. }
  apply Rpower_exponent_inj in Hp; lra.
Qed.

(** C7, amended.  For a smoothing rate below 1 and orb arrays of
    [MAX_ORBS] entries: the factor computed by [animate] is
    [alpha = 1 - (1 - smoothingRate)^max(1, dt * 60)], which is the
    frame-rate-compensated [1 - (1 - smoothingRate)^(dt * 60)] for frames
    of 1/60 s or longer and the smoothing rate itself for shorter frames;
    and [smoothOrbs(alpha)] moves the smoothed position of every live orb
    toward its target by linear interpolation with factor [alpha], leaves
    the orbs that are not live where they are, and changes no target,
    strength or time-to-live. *)
Theorem C7_orb_smoothing :
  forall (cfg : Balloons.Config) (dt : R) (o : Balloons.Orbs),
    let rate := Balloons.orbSmoothing (Balloons.interaction cfg) in
    let alpha := Balloons.smoothingAlpha cfg dt in
    let o' := Balloons.smoothOrbs cfg alpha o in
    rate < 1 ->
    orbsWF cfg o ->
    alpha = 1 - Rpower (1 - rate) (Rmax 1 (dt * 60))
    /\ (1 / 60 <= dt -> alpha = 1 - Rpower (1 - rate) (dt * 60))
    /\ (dt <= 1 / 60 -> alpha = rate)
    /\ (forall k, (k < Balloons.MAX_ORBS cfg)%nat ->
        let p := nth k (Balloons.orbPositions o) V3.zero in
        let target := nth k (Balloons.orbTargets o) V3.zero in
        let p' := nth k (Balloons.orbPositions o') V3.zero in
        (0 < nth k (Balloons.orbTTL o) 0 -> p' = V3.lerp p target alpha)
        /\ (nth k (Balloons.orbTTL o) 0 <= 0 -> p' = p))
    /\ Balloons.orbTargets o' = Balloons.orbTargets o
    /\ Balloons.orbBuoy o' = Balloons.orbBuoy o
    /\ Balloons.orbTTL o' = Balloons.orbTTL o.
Proof.
  intros cfg dt o rate alpha o' Hrate Hwf.
  pose proof (smoothingAlpha_eq cfg dt Hrate) as Ha. fold rate alpha in Ha.
  destruct (smoothOrbs_outcome cfg alpha o Hwf) as (Ht & Hb & Hl & _ & Hk).
  fold o' in Ht, Hb, Hl, Hk.
  split; [exact Ha|]. split; [|split; [|split; [|split; [|split]]]];
    try assumption.
  - intros Hdt. rewrite Ha. unfold Rmax.
    destruct (Rle_dec _ _) as [H|H]; [reflexivity|].
    replace (dt * 60) with 1 by lra. reflexivity.
  - intros Hdt. rewrite Ha. unfold Rmax.
    destruct (Rle_dec _ _) as [H|H].
    + replace (dt * 60) with 1 by lra. rewrite Rpower_1; lra.
    + rewrite Rpower_1; lra.
  - intros k Hlt p target p'. unfold p'. rewrite (Hk k Hlt).
    unfold smoothed. split; intros Hlive.
    + replace (JS.gtb _ _) with true
        by (symmetry; apply gtb_true_iff; lra).
      reflexivity.
    + replace (JS.gtb _ _) with false
        by (symmetry; apply gtb_false_iff; lra).
      reflexivity.
Qed.

Lemma oneLiveOrb_WF : orbsWF Balloons.CONFIG oneLiveOrb.
Proof. unfold orbsWF. repeat split; reflexivity. Qed.

Lemma C7_orb_smoothing_witness :
  let cfg := Balloons.CONFIG in
  let rate := Balloons.orbSmoothing (Balloons.interaction cfg) in
  let o' := Balloons.smoothOrbs cfg (Balloons.smoothingAlpha cfg 0.02)
                                oneLiveOrb in
  (rate < 1 /\ orbsWF cfg oneLiveOrb /\ 1 / 60 <= 0.02 /\ 0.008 <= 1 / 60
   /\ (0 < Balloons.MAX_ORBS cfg)%nat
   /\ (1 < Balloons.MAX_ORBS cfg)%nat
   /\ 0 < nth 0 (Balloons.orbTTL oneLiveOrb) 0
   /\ nth 1 (Balloons.orbTTL oneLiveOrb) 0 <= 0)
  /\ Balloons.smoothingAlpha cfg 0.02 = 1 - Rpower (1 - rate) (0.02 * 60)
  /\ Balloons.smoothingAlpha cfg 0.008 = rate
  /\ nth 0 (Balloons.orbPositions o') V3.zero
     = V3.lerp (nth 0 (Balloons.orbPositions oneLiveOrb) V3.zero)
               (nth 0 (Balloons.orbTargets oneLiveOrb) V3.zero)
               (Balloons.smoothingAlpha cfg 0.02)
  /\ nth 1 (Balloons.orbPositions o') V3.zero
     = nth 1 (Balloons.orbPositions oneLiveOrb) V3.zero.
Proof.
  intros cfg rate o'.
  assert (Hrate : rate < 1) by (unfold rate, cfg; simpl; lra).
  assert (H50 : 1 / 60 <= 0.02) by lra.
  assert (H125 : 0.008 <= 1 / 60) by lra.
  assert (Hk0 : (0 < Balloons.MAX_ORBS cfg)%nat)
    by (unfold cfg, Balloons.MAX_ORBS; simpl; lia).
  assert (Hk1 : (1 < Balloons.MAX_ORBS cfg)%nat)
    by (unfold cfg, Balloons.MAX_ORBS; simpl; lia).
  assert (Hlive : 0 < nth 0 (Balloons.orbTTL oneLiveOrb) 0) by (simpl; lra).
  assert (Hdead : nth 1 (Balloons.orbTTL oneLiveOrb) 0 <= 0) by (simpl; lra).
  split; [repeat split; try assumption; apply oneLiveOrb_WF|].
  destruct (C7_orb_smoothing cfg 0.02 oneLiveOrb Hrate oneLiveOrb_WF)
    as (_ & Hlong & _ & Horbs & _).
  destruct (C7_orb_smoothing cfg 0.008 oneLiveOrb Hrate oneLiveOrb_WF)
    as (_ & _ & Hshort & _).
  destruct (Horbs 0%nat Hk0) as [Hlerp _].
  destruct (Horbs 1%nat Hk1) as [_ Hstay].
  split; [exact (Hlong H50)|]. split; [exact (Hshort H125)|].
  split; [exact (Hlerp Hlive) | exact (Hstay Hdead)].
Defined.

(* ====================================================================== *)
(** ** Depth containment                                                   *)
(* ====================================================================== *)







Lemma lantern_bounceDepth_within (bnd : Bounds) (l : Lantern.Lantern) :
  zMin bnd <= zMax bnd ->
  zMin bnd <= V3.z (Lantern.position (Lantern.bounceDepth bnd l)) <= zMax bnd.
Proof.
  intros Hb. unfold Lantern.bounceDepth. cmp_cases; simpl; lra.
Qed.

Lemma balloons_bounceDepth_within (bnd : Bounds) (i : Balloons.Instance) :
  zMin bnd <= zMax bnd ->
  zMin bnd <= Balloons.posZ (Balloons.bounceDepth bnd i) <= zMax bnd.
Proof.
  intros Hb. unfold Balloons.bounceDepth. cmp_cases; simpl; lra.
Qed.







(* ====================================================================== *)
(** ** The palette index of the pattern generator                          *)
(* ====================================================================== *)

Lemma rem_wrap (t len : Z) :
  (0 < len)%Z -> (0 <= JS.rem (JS.rem t len + len) len < len)%Z.
Proof.
  intros Hlen. unfold JS.rem.
  pose proof (Z.rem_bound_abs t len) as Habs.
  apply Z.rem_bound_pos; lia.
Qed.

Lemma switchIndex_is_rem (density : R) (p : Lantern.Pattern) (h a : R)
    (len : Z) :
  exists t : Z, Lantern.switchIndex density p h a len = JS.rem t len.
Proof.
  unfold Lantern.switchIndex.
  destruct (String.eqb _ _); [eexists; reflexivity|].
  destruct (String.eqb _ _); eexists; reflexivity.
Qed.

Lemma paletteIndex_bounds (density : R) (p : Lantern.Pattern) (h a : R)
    (len : Z) :
  (0 < len)%Z -> (0 <= Lantern.paletteIndex density p h a len < len)%Z.
Proof.
  intros Hlen. unfold Lantern.paletteIndex.
  destruct (switchIndex_is_rem density p h a len) as [t ->].
  now apply rem_wrap.
Qed.

Lemma lookupZ_in_range {A} (l : list A) (k : Z) :
  (0 <= k < Z.of_nat (List.length l))%Z ->
  exists v, Lantern.lookupZ l k = Some v /\ In v l.
Proof.
  intros Hk. unfold Lantern.lookupZ.
  destruct (k <? 0)%Z eqn:E; [apply Z.ltb_lt in E; lia|].
  destruct (nth_error l (Z.to_nat k)) as [v|] eqn:En.
  - exists v. split; [reflexivity|]. eapply nth_error_In; eassumption.
  - apply nth_error_None in En. lia.
Qed.

(** C9.  Whatever the pattern type, the height and angle factors and the
    density are, negative band indices included, the index
    [(idx + len) % len] that [applyPatternColor] uses on a palette of
    [len > 0] colours lies in [0, len); so for a vertex of the geometry
    the lookup succeeds and the colour written is one of the palette.
    With a missing pattern, a missing palette or an empty palette the
    colour written is white. *)
Theorem C9_palette_index_in_bounds :
  forall (cfg : Lantern.Config) (heightFactors angleFactors : list R)
         (pattern : option Lantern.Pattern) (vertexIndex : nat),
    (forall density p h a len,
        (0 < len)%Z ->
        (0 <= Lantern.paletteIndex density p h a len < len)%Z)
    /\ (forall p colors h a,
        pattern = Some p ->
        Lantern.palette p = Some colors ->
        colors <> [] ->
        nth_error heightFactors vertexIndex = Some h ->
        nth_error angleFactors vertexIndex = Some a ->
        exists c,
          Lantern.applyPatternColor cfg heightFactors angleFactors pattern
                                    vertexIndex = Some c
          /\ In c colors)
    /\ (Lantern.paletteOf pattern = [] ->
        Lantern.applyPatternColor cfg heightFactors angleFactors pattern
                                  vertexIndex = Some white).
Proof.
  intros cfg hs angs pattern vertexIndex. split; [|split].
  - intros density p h a len. apply paletteIndex_bounds.
  - intros p colors h a -> Hpal Hne Hh Ha.
    unfold Lantern.applyPatternColor, Lantern.paletteOf.
    rewrite Hpal, Hh, Ha.
    destruct colors as [|c0 rest]; [contradiction|].
    apply lookupZ_in_range. apply paletteIndex_bounds. simpl List.length. lia.
  - intros Hempty. unfold Lantern.applyPatternColor.
    destruct pattern as [p|]; [|reflexivity]. now rewrite Hempty.
Qed.

(** The band indices are -2 and 0, the remainder is -2, and the wrapped
    index is 1. *)
Example checker_negative_band :
  Lantern.switchIndex 1 checkerPattern (-0.3) 0.1 3 = (-2)%Z
  /\ Lantern.paletteIndex 1 checkerPattern (-0.3) 0.1 3 = 1%Z.
Proof.
  assert (E : Lantern.switchIndex 1 checkerPattern (-0.3) 0.1 3 = (-2)%Z).
  { unfold Lantern.switchIndex, JS.Math_floor. simpl.
    rewrite (Zfloor_eq (-2)) by (simpl; lra).
    rewrite (Zfloor_eq 0) by (simpl; lra).
    reflexivity. }
  split; [exact E|]. unfold Lantern.paletteIndex. rewrite E. reflexivity.
Qed.

Lemma C9_palette_index_in_bounds_witness :
  let colors := [mkColor 1 0 0; mkColor 0 1 0; mkColor 0 0 1] in
  ((0 < 3)%Z
   /\ Lantern.palette checkerPattern = Some colors
   /\ colors <> []
   /\ nth_error [-0.3] 0 = Some (-0.3)
   /\ nth_error [0.1] 0 = Some 0.1
   /\ Lantern.paletteOf None = [])
  /\ (0 <= Lantern.paletteIndex 1 checkerPattern (-0.3) 0.1 3 < 3)%Z
  /\ (exists c,
        Lantern.applyPatternColor Lantern.CONFIG [-0.3] [0.1]
                                  (Some checkerPattern) 0 = Some c
        /\ In c colors)
  /\ Lantern.applyPatternColor Lantern.CONFIG [-0.3] [0.1] None 0
     = Some white.
Proof.
  intros colors.
  assert (Hne : colors <> []) by discriminate.
  split; [repeat split; try reflexivity; try lia; exact Hne|].
  destruct (C9_palette_index_in_bounds Lantern.CONFIG [-0.3] [0.1]
              (Some checkerPattern) 0%nat) as (Hidx & Hcol & _).
  destruct (C9_palette_index_in_bounds Lantern.CONFIG [-0.3] [0.1]
              None 0%nat) as (_ & _ & Hwhite).
  split; [apply Hidx; lia|]. split.
  - exact (Hcol checkerPattern colors (-0.3) 0.1 eq_refl eq_refl Hne
                eq_refl eq_refl).
  - exact (Hwhite eq_refl).
Defined.

(* ====================================================================== *)
(** ** Writing an orb                                                      *)
(* ====================================================================== *)

Lemma setOrb_out_of_range (cfg : Balloons.Config) (slot : Z)
    (worldPos : V3.t) (strength : R) (o : Balloons.Orbs) :
  (slot < 0 \/ Z.of_nat (Balloons.MAX_ORBS cfg) <= slot)%Z ->
  Balloons.setOrb cfg slot worldPos strength o = Some o.
Proof.
  intros H. unfold Balloons.setOrb.
  destruct (slot <? 0)%Z eqn:E1; [reflexivity|].
  destruct (slot >=? Z.of_nat (Balloons.MAX_ORBS cfg))%Z eqn:E2;
    [reflexivity|].
  apply Z.ltb_ge in E1. rewrite Z.geb_leb in E2. apply Z.leb_gt in E2. lia.
Qed.

Lemma setOrb_in_range (cfg : Balloons.Config) (slot : Z)
    (worldPos : V3.t) (strength : R) (o : Balloons.Orbs) :
  orbsWF cfg o ->
  (0 <= slot < Z.of_nat (Balloons.MAX_ORBS cfg))%Z ->
  exists o',
    Balloons.setOrb cfg slot worldPos strength o = Some o'
    /\ orbsWF cfg o'
    /\ nth (Z.to_nat slot) (Balloons.orbTargets o') V3.zero = worldPos
    /\ nth (Z.to_nat slot) (Balloons.orbBuoy o') 0 = strength
    /\ nth (Z.to_nat slot) (Balloons.orbTTL o') 0
       = Rmax 0.01 (Balloons.orbMaxTTL (Balloons.interaction cfg)).
Proof.
  intros (Hp & Ht & Hb & Hl) Hslot. unfold Balloons.setOrb.
  replace (slot <? 0)%Z with false by (symmetry; apply Z.ltb_ge; lia).
  replace (slot >=? Z.of_nat (Balloons.MAX_ORBS cfg))%Z with false
    by (symmetry; rewrite Z.geb_leb; apply Z.leb_gt; lia).
  cbn [orb].
  assert (Hk : (Z.to_nat slot < Balloons.MAX_ORBS cfg)%nat) by lia.
  destruct (nth_error (Balloons.orbTargets o) (Z.to_nat slot)) as [t|] eqn:Et.
  2: { apply nth_error_None in Et. lia. }
  destruct (nth_error (Balloons.orbPositions o) (Z.to_nat slot))
    as [p|] eqn:Ep.
  2: { apply nth_error_None in Ep. lia. }
  eexists. split; [reflexivity|]. cbn [Balloons.orbTargets Balloons.orbBuoy
                                        Balloons.orbTTL Balloons.orbPositions].
  split; [|split; [|split]].
  - unfold orbsWF. cbn [Balloons.orbTargets Balloons.orbBuoy
                          Balloons.orbTTL Balloons.orbPositions].
    rewrite !set_nth_length.
    destruct (JS.ltb _ _); rewrite ?set_nth_length; auto.
  - apply nth_set_nth_eq. lia.
  - apply nth_set_nth_eq. lia.
  - apply nth_set_nth_eq. lia.
Qed.

(** C10.  [setOrb] with a slot below 0 or at least [MAX_ORBS] returns
    normally and leaves all four orb arrays as they are.  With a slot in
    range, and arrays of [MAX_ORBS] entries, it returns normally too (no
    access outside the arrays), keeps the arrays at [MAX_ORBS] entries,
    stores the target and the strength, and writes the time-to-live
    [max(0.01, orbMaxTTL)], which is at least 0.01 and so strictly
    positive: the orb is live. *)
Theorem C10_setOrb_guard_and_ttl :
  forall (cfg : Balloons.Config) (slot : Z) (worldPos : V3.t) (strength : R)
         (o : Balloons.Orbs),
    ((slot < 0 \/ Z.of_nat (Balloons.MAX_ORBS cfg) <= slot)%Z ->
     Balloons.setOrb cfg slot worldPos strength o = Some o)
    /\ (orbsWF cfg o ->
        (0 <= slot < Z.of_nat (Balloons.MAX_ORBS cfg))%Z ->
        exists o',
          Balloons.setOrb cfg slot worldPos strength o = Some o'
          /\ orbsWF cfg o'
          /\ nth (Z.to_nat slot) (Balloons.orbTargets o') V3.zero = worldPos
          /\ nth (Z.to_nat slot) (Balloons.orbBuoy o') 0 = strength
          /\ 0.01 <= nth (Z.to_nat slot) (Balloons.orbTTL o') 0
          /\ 0 < nth (Z.to_nat slot) (Balloons.orbTTL o') 0).
Proof.
  intros cfg slot worldPos strength o. split.
  - apply setOrb_out_of_range.
  - intros Hwf Hslot.
    destruct (setOrb_in_range cfg slot worldPos strength o Hwf Hslot)
      as (o' & E & Hwf' & Ht & Hb & Hl).
    exists o'. repeat split; try assumption; try apply Hwf'.
    + rewrite Hl. apply Rmax_l.
    + rewrite Hl. pose proof (Rmax_l 0.01 (Balloons.orbMaxTTL
                                             (Balloons.interaction cfg))).
      lra.
Qed.

Lemma C10_setOrb_guard_and_ttl_witness :
  let cfg := Balloons.CONFIG in
  let o := Balloons.initialOrbs cfg in
  ((29 < 0 \/ Z.of_nat (Balloons.MAX_ORBS cfg) <= 29)%Z
   /\ orbsWF cfg o
   /\ (0 <= 3 < Z.of_nat (Balloons.MAX_ORBS cfg))%Z)
  /\ Balloons.setOrb cfg 29 (V3.mk 1 2 3) 1.0 o = Some o
  /\ exists o',
       Balloons.setOrb cfg 3 (V3.mk 1 2 3) 1.0 o = Some o'
       /\ 0 < nth 3 (Balloons.orbTTL o') 0.
Proof.
  intros cfg o.
  assert (Hout : (29 < 0 \/ Z.of_nat (Balloons.MAX_ORBS cfg) <= 29)%Z)
    by (right; unfold cfg, Balloons.MAX_ORBS; simpl; lia).
  assert (Hwf : orbsWF cfg o) by apply initialOrbs_WF.
  assert (Hin : (0 <= 3 < Z.of_nat (Balloons.MAX_ORBS cfg))%Z)
    by (unfold cfg, Balloons.MAX_ORBS; simpl; lia).
  split; [repeat split; try assumption; lia|].
  destruct (C10_setOrb_guard_and_ttl cfg 29 (V3.mk 1 2 3) 1.0 o)
    as [Hnoop _].
  destruct (C10_setOrb_guard_and_ttl cfg 3 (V3.mk 1 2 3) 1.0 o)
    as [_ Hwrite].
  destruct (Hwrite Hwf Hin) as (o' & E & _ & _ & _ & _ & Hlive).
  split; [exact (Hnoop Hout)|]. exists o'. split; assumption.
Defined.

(* ====================================================================== *)
(** ** The bounds and the recycle volume                                   *)
(* ====================================================================== *)

Lemma post_conj {A} (m : JS.Gen A) (P Q : A -> Prop) :
  post m P -> post m Q -> post m (fun a => P a /\ Q a).
Proof.
  intros HP HQ s Hs. destruct (HP s Hs), (HQ s Hs). auto.
Qed.

Lemma lantern_initialBounds_WF (cfg : Lantern.Config) :
  ordered (Lantern.zBounds (Lantern.spawn cfg)) ->
  boundsWF (Lantern.initialBounds cfg).
Proof.
  intros Hz. unfold boundsWF, spawnBandOK. simpl. unfold ordered in Hz. lra.
Qed.

Lemma balloons_initialBounds_WF (cfg : Balloons.Config) :
  ordered (Balloons.zBounds (Balloons.balloons cfg)) ->
  boundsWF (Balloons.initialBounds cfg).
Proof.
  intros Hz. unfold boundsWF, spawnBandOK. simpl. unfold ordered in Hz. lra.
Qed.

Lemma lantern_updateVisibleBounds_WF (cfg : Lantern.Config)
    (fov dist aspect viewCenterY : R) :
  0 <= tan (JS.degToRad fov / 2) * dist -> 0 <= aspect ->
  1 <= Lantern.xMarginMultiplier (Lantern.spawn cfg) ->
  2 <= Lantern.ySpawnOffset (Lantern.spawn cfg) ->
  0 <= Lantern.yOffOffset (Lantern.spawn cfg) ->
  ordered (Lantern.zBounds (Lantern.spawn cfg)) ->
  boundsWF (Lantern.updateVisibleBounds cfg fov dist aspect viewCenterY).
Proof.
  intros Hv Ha Hm Hs Ho Hz. unfold boundsWF, spawnBandOK, ordered in *.
  simpl. set (vHalf := tan (JS.degToRad fov / 2) * dist) in *.
  assert (0 <= vHalf * aspect) by now apply Rmult_le_pos.
  repeat split; nra.
Qed.

Lemma balloons_updateVisibleBounds_WF (cfg : Balloons.Config)
    (fov dist aspect viewCenterY : R) :
  0 <= tan (JS.degToRad fov / 2) * dist -> 0 <= aspect ->
  1 <= Balloons.xMarginMultiplier (Balloons.balloons cfg) ->
  2 <= Balloons.ySpawnOffset (Balloons.balloons cfg) ->
  0 <= Balloons.yOffOffset (Balloons.balloons cfg) ->
  ordered (Balloons.zBounds (Balloons.balloons cfg)) ->
  boundsWF (Balloons.updateVisibleBounds cfg fov dist aspect viewCenterY).
Proof.
  intros Hv Ha Hm Hs Ho Hz. unfold boundsWF, spawnBandOK, ordered in *.
  simpl. set (vHalf := tan (JS.degToRad fov / 2) * dist) in *.
  assert (0 <= vHalf * aspect) by now apply Rmult_le_pos.
  repeat split; nra.
Qed.

(** X1.  The bounds that [updateVisibleBounds] computes are ordered, in
    both variants: for a field of view strictly between 0 and 180 degrees,
    a camera distance and an aspect ratio that are not negative, a margin
    multiplier of at least 1 and positive spawn and despawn offsets, the
    despawn floor lies strictly below the visible bottom, the visible
    bottom is not above the visible top, the spawn ceiling lies strictly
    above the visible top, the visible band is centred on the view centre,
    and the offscreen margin is at least the visible half-width, which is
    not negative. *)
Theorem X1_visible_bounds_ordered :
  forall (lcfg : Lantern.Config) (bcfg : Balloons.Config)
         (fov dist aspect viewCenterY : R),
    0 < fov < 180 -> 0 <= dist -> 0 <= aspect ->
    1 <= Lantern.xMarginMultiplier (Lantern.spawn lcfg) ->
    0 < Lantern.ySpawnOffset (Lantern.spawn lcfg) ->
    0 < Lantern.yOffOffset (Lantern.spawn lcfg) ->
    1 <= Balloons.xMarginMultiplier (Balloons.balloons bcfg) ->
    0 < Balloons.ySpawnOffset (Balloons.balloons bcfg) ->
    0 < Balloons.yOffOffset (Balloons.balloons bcfg) ->
    let ordered_bounds (b : Bounds) :=
      yOffBottom b < yMin b /\ yMin b <= yMax b /\ yMax b < ySpawnTop b
      /\ yMin b + yMax b = 2 * viewCenterY
      /\ 0 <= xVisible b <= xOff b in
    ordered_bounds
      (Lantern.updateVisibleBounds lcfg fov dist aspect viewCenterY)
    /\ ordered_bounds
         (Balloons.updateVisibleBounds bcfg fov dist aspect viewCenterY).
Proof.
  intros lcfg bcfg fov dist aspect c Hf Hd Ha Hlm Hls Hlo Hbm Hbs Hbo.
  pose proof (vHalf_nonneg fov dist Hf Hd) as Hv.
  cbv zeta. simpl.
  set (vHalf := tan (JS.degToRad fov / 2) * dist) in *.
  assert (0 <= vHalf * aspect) by nra.
  repeat split; nra.
Qed.

(** The theorem at the configuration of the source. *)
Lemma X1_visible_bounds_ordered_witness :
  let ordered_bounds (b : Bounds) :=
    yOffBottom b < yMin b /\ yMin b <= yMax b /\ yMax b < ySpawnTop b
    /\ yMin b + yMax b = 2 * 6
    /\ 0 <= xVisible b <= xOff b in
  ordered_bounds (Lantern.updateVisibleBounds Lantern.CONFIG 55 40 1.5 6)
  /\ ordered_bounds (Balloons.updateVisibleBounds Balloons.CONFIG 55 40 1.5 6).
Proof.
  apply (X1_visible_bounds_ordered Lantern.CONFIG Balloons.CONFIG 55 40 1.5 6);
    simpl; lra.
Defined.

(** A reset puts the instance inside the recycle volume. *)
Lemma resetOutcome_inside (cfg : Lantern.Config) (bnd : Bounds)
    (l l' : Lantern.Lantern) (isInitial : bool) :
  boundsWF bnd ->
  resetOutcome cfg bnd l isInitial l' ->
  insideVolume bnd (Lantern.position l').
Proof.
  intros ([Hb1 Hb2] & Hx & Hz)
         (ux & uy & uz & wx & wy & wz & u1 & u2 & Hu & _ & _ & H).
  simpl in H. destruct H as (-> & _). unfold insideVolume. simpl.
  destruct Hu as (Hux & Huy & Huz).
  destruct isInitial; repeat split; nra.
Qed.

Lemma resetInstance_posX (cfg : Balloons.Config) (bnd : Bounds)
    (isInitial : bool) :
  post (Balloons.resetInstance cfg bnd isInitial)
       (fun i => exists ux, 0 <= ux < 1
                            /\ Balloons.posX i = xVisible bnd * 2.0 * (0.5 - ux)).
Proof.
  unfold Balloons.resetInstance.
  eapply post_bind; [apply post_randFloatSpread|]. intros px (ux & Hux & ->).
  eapply post_bind; [apply post_randFloat|]. intros py _.
  eapply post_bind; [apply post_randFloat|]. intros pz _.
  eapply post_bind; [apply post_randFloatSpread|]. intros vx _.
  eapply post_bind; [apply post_randFloat|]. intros vy _.
  eapply post_bind; [apply post_randFloatSpread|]. intros vz _.
  eapply post_bind; [apply post_random|]. intros u1 _.
  eapply post_bind; [apply post_random|]. intros u2 _.
  eapply post_bind; [apply post_random|]. intros ur _.
  eapply post_bind; [apply post_randFloatSpread|]. intros ang _.
  eapply post_bind; [apply post_randFloat|]. intros k _.
  eapply post_bind; [apply post_randFloat|]. intros ax _.
  eapply post_bind; [apply post_randFloat|]. intros az _.
  eapply post_bind; [apply post_randFloat|]. intros sx _.
  eapply post_bind; [apply post_randFloat|]. intros sz _.
  eapply post_bind; [apply post_random|]. intros ux' _.
  eapply post_bind; [apply post_random|]. intros uz' _.
  eapply post_bind; [apply post_randomVibrantTint|]. intros tint _.
  eapply post_bind; [apply post_random|]. intros r _.
  eapply post_bind; [apply post_random|]. intros us _.
  apply post_ret. exists ux. split; [assumption|reflexivity].
Qed.

Lemma resetInstance_inside (cfg : Balloons.Config) (bnd : Bounds)
    (isInitial : bool) :
  boundsWF bnd ->
  post (Balloons.resetInstance cfg bnd isInitial)
       (fun i => insideVolume bnd (Balloons.pos i)).
Proof.
  intros ([Hb1 Hb2] & Hx & Hz).
  eapply post_weaken;
    [apply post_conj; [apply resetInstance_outcome
                      |apply (resetInstance_posX cfg bnd isInitial)]|].
  intros i [(uy & uz & wy & wz & u1 & u2 & [Huy Huz] & _ & _ & H)
            (ux & Hux & Hpx)].
  simpl in H. destruct H as (Hpy & Hpz & _).
  unfold insideVolume, Balloons.pos. simpl. rewrite Hpx, Hpy, Hpz.
  destruct isInitial; repeat split; nra.
Qed.

Lemma lantern_bounceDepth_position_x (bnd : Bounds) (l : Lantern.Lantern) :
  V3.x (Lantern.position (Lantern.bounceDepth bnd l))
  = V3.x (Lantern.position l).
Proof. unfold Lantern.bounceDepth. cmp_cases; reflexivity. Qed.

Lemma balloons_bounceDepth_posX (bnd : Bounds) (i : Balloons.Instance) :
  Balloons.posX (Balloons.bounceDepth bnd i) = Balloons.posX i.
Proof. unfold Balloons.bounceDepth. cmp_cases; reflexivity. Qed.

Lemma lantern_outOfBounds_false (bnd : Bounds) (p : V3.t) :
  Lantern.outOfBounds bnd p = false ->
  (yOffBottom bnd <= V3.y p <= ySpawnTop bnd)
  /\ (- xOff bnd <= V3.x p <= xOff bnd).
Proof.
  unfold Lantern.outOfBounds.
  rewrite !orb_false_iff, !ltb_false_iff, !gtb_false_iff. lra.
Qed.

Lemma balloons_outOfBounds_false (bnd : Bounds) (i : Balloons.Instance) :
  Balloons.outOfBounds bnd i = false ->
  (yOffBottom bnd <= Balloons.posY i <= ySpawnTop bnd)
  /\ (- xOff bnd <= Balloons.posX i <= xOff bnd).
Proof.
  unfold Balloons.outOfBounds.
  rewrite !orb_false_iff, !ltb_false_iff, !gtb_false_iff. lra.
Qed.

(** One iteration of the loop of [updateLanterns] leaves the lantern
    inside the recycle volume and between the depth walls. *)
Lemma updateLantern_inside (cfg : Lantern.Config) (bnd : Bounds)
    (dt time : R) (l : Lantern.Lantern) :
  boundsWF bnd ->
  post (Lantern.updateLantern cfg bnd dt time l)
       (fun l' => insideVolume bnd (Lantern.position l')).
Proof.
  intros Hwf. unfold Lantern.updateLantern.
  eapply post_bind; [apply updateBuoyancy_unit|]. intros b _.
  eapply post_bind with
    (Q := fun l3 =>
            (yOffBottom bnd <= V3.y (Lantern.position l3) <= ySpawnTop bnd)
            /\ (- xOff bnd <= V3.x (Lantern.position l3) <= xOff bnd)).
  - unfold Lantern.recycle.
    destruct (Lantern.outOfBounds _ _) eqn:E.
    + eapply post_weaken; [apply resetLantern_outcome|].
      intros l' Hl'.
      destruct (resetOutcome_inside cfg bnd _ l' false Hwf Hl') as (? & ? & _).
      now split.
    + apply post_ret. now apply lantern_outOfBounds_false.
  - intros l3 [Hy Hx]. apply post_ret. unfold insideVolume.
    rewrite bounceDepth_position_y, lantern_bounceDepth_position_x.
    split; [assumption|]. split; [assumption|].
    apply lantern_bounceDepth_within. apply Hwf.
Qed.

Lemma updateInstance_inside (cfg : Balloons.Config) (bnd : Bounds)
    (dt t : R) (i : Balloons.Instance) :
  boundsWF bnd ->
  post (Balloons.updateInstance cfg bnd dt t i)
       (fun i' => insideVolume bnd (Balloons.pos i')).
Proof.
  intros Hwf. unfold Balloons.updateInstance.
  eapply post_bind with
    (Q := fun i2 =>
            (yOffBottom bnd <= Balloons.posY i2 <= ySpawnTop bnd)
            /\ (- xOff bnd <= Balloons.posX i2 <= xOff bnd)).
  - unfold Balloons.recycle.
    destruct (Balloons.outOfBounds _ _) eqn:E.
    + eapply post_weaken; [now apply resetInstance_inside|].
      intros i' (? & ? & _). now split.
    + apply post_ret. now apply balloons_outOfBounds_false.
  - intros i2 [Hy Hx]. apply post_ret. unfold insideVolume, Balloons.pos.
    cbn [V3.x V3.y V3.z].
    rewrite bounceDepth_posY, balloons_bounceDepth_posX.
    split; [assumption|]. split; [assumption|].
    apply balloons_bounceDepth_within. apply Hwf.
Qed.

Lemma spawnLantern_inside (cfg : Lantern.Config) (bnd : Bounds)
    (offsetHSL : Color -> R -> R -> R -> Color) (base : Color)
    (isInitial : bool) :
  boundsWF bnd ->
  post (Lantern.spawnLantern offsetHSL base cfg bnd isInitial)
       (fun l => insideVolume bnd (Lantern.position l)).
Proof.
  intros Hwf. unfold Lantern.spawnLantern.
  eapply post_bind; [apply post_randFloat|]. intros k _.
  eapply post_bind; [apply post_randFloatSpread|]. intros wy _.
  eapply post_bind; [apply post_randFloat|]. intros ax _.
  eapply post_bind; [apply post_randFloat|]. intros az _.
  eapply post_bind; [apply post_randFloat|]. intros sx _.
  eapply post_bind; [apply post_randFloat|]. intros sz _.
  eapply post_bind; [apply post_random|]. intros ux _.
  eapply post_bind; [apply post_random|]. intros uz _.
  eapply post_bind; [apply post_random|]. intros ut _.
  eapply post_weaken; [apply resetLantern_outcome|].
  intros l'. now apply resetOutcome_inside.
Qed.

(** A loop that collects [n] results. *)
Lemma spawnMany_post (cfg : Lantern.Config) (bnd : Bounds)
    (offsetHSL : Color -> R -> R -> R -> Color) (base : Color)
    (P : Lantern.Lantern -> Prop) (n : nat) :
  post (Lantern.spawnLantern offsetHSL base cfg bnd true) P ->
  post (Lantern.spawnMany offsetHSL base cfg bnd n)
       (fun ls => Forall P ls /\ List.length ls = n).
Proof.
  intros H. induction n as [|n IH]; simpl.
  - apply post_ret. split; [constructor | reflexivity].
  - eapply post_bind; [exact H|]. intros l Hl.
    eapply post_bind; [apply IH|]. intros ls [Hls Hlen].
    apply post_ret. split; [now constructor | simpl; congruence].
Qed.

Lemma initialFill_post (cfg : Balloons.Config) (bnd : Bounds)
    (P : Balloons.Instance -> Prop) (n : nat) :
  post (Balloons.resetInstance cfg bnd true) P ->
  post (Balloons.initialFill cfg bnd n)
       (fun rows => Forall P rows /\ List.length rows = n).
Proof.
  intros H. induction n as [|n IH]; simpl.
  - apply post_ret. split; [constructor | reflexivity].
  - eapply post_bind; [exact H|]. intros b Hb.
    eapply post_bind; [apply IH|]. intros bs [Hbs Hlen].
    apply post_ret. split; [now constructor | simpl; congruence].
Qed.

(** X2.  The initial population is spawned inside the recycle volume: for
    well-formed bounds, [spawnLanterns] returns exactly
    [CONFIG.lantern.count] lanterns and the initial fill of the balloon
    variant exactly the requested number of rows, and each of them lies
    between the despawn floor and the spawn ceiling, within the offscreen
    margin on both sides and between the two depth walls; so does every
    instance that [resetLantern] or [resetInstance] has just reset. *)
Theorem X2_spawn_inside_volume :
  forall (lcfg : Lantern.Config) (bcfg : Balloons.Config) (bnd : Bounds)
         (s : JS.Rand),
    boundsWF bnd -> JS.valid s ->
    (forall offsetHSL base,
        let ls := fst (Lantern.spawnLanterns offsetHSL base lcfg bnd s) in
        List.length ls = Lantern.count (Lantern.lantern lcfg)
        /\ Forall (fun l => insideVolume bnd (Lantern.position l)) ls)
    /\ (forall n,
        let rows := fst (Balloons.initialFill bcfg bnd n s) in
        List.length rows = n
        /\ Forall (fun i => insideVolume bnd (Balloons.pos i)) rows)
    /\ (forall l isInitial,
        insideVolume bnd
          (Lantern.position (fst (Lantern.resetLantern lcfg bnd l isInitial s))))
    /\ (forall isInitial,
        insideVolume bnd
          (Balloons.pos (fst (Balloons.resetInstance bcfg bnd isInitial s)))).
Proof.
  intros lcfg bcfg bnd s Hwf Hs.
  refine (conj _ (conj _ (conj _ _))).
  - intros offsetHSL base ls. unfold ls, Lantern.spawnLanterns.
    destruct (spawnMany_post lcfg bnd offsetHSL base _
                (Lantern.count (Lantern.lantern lcfg))
                (spawnLantern_inside lcfg bnd offsetHSL base true Hwf) s Hs)
      as [[H1 H2] _].
    split; assumption.
  - intros n rows. unfold rows.
    destruct (initialFill_post bcfg bnd _ n
                (resetInstance_inside bcfg bnd true Hwf) s Hs)
      as [[H1 H2] _].
    split; assumption.
  - intros l isInitial.
    eapply resetOutcome_inside; [exact Hwf|].
    exact (proj1 (resetLantern_outcome lcfg bnd l isInitial s Hs)).
  - intros isInitial.
    exact (proj1 (resetInstance_inside bcfg bnd isInitial Hwf s Hs)).
Qed.

(** The theorem at the configuration of the source. *)
Lemma X2_spawn_inside_volume_witness :
  boundsWF (Lantern.initialBounds Lantern.CONFIG)
  /\ JS.valid halves
  /\ insideVolume (Lantern.initialBounds Lantern.CONFIG)
       (Lantern.position
          (fst (Lantern.resetLantern Lantern.CONFIG
                  (Lantern.initialBounds Lantern.CONFIG)
                  highLantern true halves))).
Proof.
  assert (Hwf : boundsWF (Lantern.initialBounds Lantern.CONFIG)).
  { apply lantern_initialBounds_WF. unfold ordered. simpl. lra. }
  split; [exact Hwf|]. split; [exact halves_valid|].
  exact (proj1 (proj2 (proj2 (X2_spawn_inside_volume
                  Lantern.CONFIG Balloons.CONFIG
                  (Lantern.initialBounds Lantern.CONFIG) halves Hwf
                  halves_valid))) highLantern true).
Defined.

Lemma updatePhysics_inside (cfg : Balloons.Config) (bnd : Bounds)
    (dt t : R) (rows : list Balloons.Instance) :
  boundsWF bnd ->
  post (Balloons.updatePhysics cfg bnd dt t rows)
       (fun rows' => Forall (fun i => insideVolume bnd (Balloons.pos i)) rows').
Proof.
  intros Hwf. apply post_forEach. intros i _. now apply updateInstance_inside.
Qed.


(** X3.  The recycle volume is an invariant of the integration pass: for
    well-formed bounds, after [updateLanterns] every lantern, and after
    [updatePhysics] (and so at the end of every frame of the balloon
    variant) every balloon, lies between the despawn floor and the spawn
    ceiling, within the offscreen margin on both sides and between the two
    depth walls, wherever it was before and whatever the time step. *)
Theorem X3_update_stays_inside_volume :
  forall (lcfg : Lantern.Config) (bcfg : Balloons.Config) (bnd : Bounds)
         (s : JS.Rand),
    boundsWF bnd -> JS.valid s ->
    (forall dt time ls,
        Forall (fun l => insideVolume bnd (Lantern.position l))
               (fst (Lantern.updateLanterns lcfg bnd dt time ls s)))
    /\ (forall dt t rows,
        Forall (fun i => insideVolume bnd (Balloons.pos i))
               (fst (Balloons.updatePhysics bcfg bnd dt t rows s)))
    /\ (forall project input now rows o last,
        frameResult (Forall (fun i => insideVolume bnd (Balloons.pos i)))
          (fst (Balloons.animate bcfg project input now
                  (Balloons.mkWorld rows o bnd last) s))).
Proof.
  intros lcfg bcfg bnd s Hwf Hs.
  refine (conj _ (conj _ _)).
  - intros dt time ls.
    refine (proj1 (post_forEach _ _ ls _ s Hs)).
    intros l _. now apply updateLantern_inside.
  - intros dt t rows.
    exact (proj1 (updatePhysics_inside bcfg bnd dt t rows Hwf s Hs)).
  - intros project input now rows o last.
    assert (H : post (Balloons.animate bcfg project input now
                        (Balloons.mkWorld rows o bnd last))
                     (frameResult
                        (Forall (fun i => insideVolume bnd (Balloons.pos i))))).
    { unfold Balloons.animate. cbn [Balloons.bounds Balloons.orbs
                                     Balloons.instances Balloons.lastTime].
      destruct (Balloons.applyWrites _ _ _) as [o2|]; [|now apply post_ret].
      eapply post_bind with (Q := fun _ => True).
      - eapply post_weaken; [apply applyOrbInfluence_buoy|]. trivial.
      - intros is1 _.
        eapply post_bind; [now apply updatePhysics_inside|]. intros is2 H2.
        now apply post_ret. }
    exact (proj1 (H s Hs)).
Qed.

(** The theorem at the configuration of the source. *)
Lemma X3_update_stays_inside_volume_witness :
  boundsWF (Balloons.initialBounds Balloons.CONFIG)
  /\ JS.valid halves
  /\ Forall (fun i => insideVolume (Balloons.initialBounds Balloons.CONFIG)
                                   (Balloons.pos i))
            (fst (Balloons.updatePhysics Balloons.CONFIG
                    (Balloons.initialBounds Balloons.CONFIG) 0.016 1
                    [highRow] halves)).
Proof.
  assert (Hwf : boundsWF (Balloons.initialBounds Balloons.CONFIG)).
  { apply balloons_initialBounds_WF. unfold ordered. simpl. lra. }
  split; [exact Hwf|]. split; [exact halves_valid|].
  exact (proj1 (proj2 (X3_update_stays_inside_volume
                  Lantern.CONFIG Balloons.CONFIG
                  (Balloons.initialBounds Balloons.CONFIG) halves Hwf
                  halves_valid)) 0.016 1 [highRow]).
Defined.

(* ====================================================================== *)
(** ** The collision pass as a whole                                       *)
(* ====================================================================== *)

Lemma set_nth_same {A} (n : nat) (x : A) (l : list A) :
  nth_error l n = Some x -> set_nth n x l = l.
Proof.
  revert n; induction l as [|h t IH]; intros [|n] H; simpl in *;
    try congruence.
  f_equal. now apply IH.
Qed.

Lemma map_set_nth {A B} (g : A -> B) (n : nat) (v : A) (l : list A) :
  map g (set_nth n v l) = set_nth n (g v) (map g l).
Proof.
  revert n; induction l as [|h t IH]; intros [|n]; simpl; try reflexivity.
  now rewrite IH.
Qed.

Lemma total_set_nth (f : Lantern.Lantern -> R) (n : nat)
    (v x : Lantern.Lantern) (ls : list Lantern.Lantern) :
  nth_error ls n = Some x ->
  total f (set_nth n v ls) = total f ls - f x + f v.
Proof.
  revert n; induction ls as [|h t IH]; intros [|n] H; simpl in *;
    try congruence.
  - injection H as ->. lra.
  - rewrite (IH n H). lra.
Qed.

Lemma total_opp (f : Lantern.Lantern -> R) (ls : list Lantern.Lantern) :
  total (fun l => - f l) ls = - total f ls.
Proof. induction ls as [|h t IH]; simpl; [lra | rewrite IH; lra]. Qed.

Lemma sumV_total (g : Lantern.Lantern -> V3.t) (ls : list Lantern.Lantern) :
  sumV (map g ls) =
  V3.mk (total (fun l => V3.x (g l)) ls)
        (total (fun l => V3.y (g l)) ls)
        (total (fun l => V3.z (g l)) ls).
Proof.
  induction ls as [|h t IH]; simpl; [reflexivity|].
  rewrite IH. reflexivity.
Qed.

Section CollisionPass.

Import Lantern.

Variable cfg : Config.

(** *** A quantity whose sum over a pair the loop body does not increase *)

Section TotalLe.

Variable f : Lantern -> R.
Hypothesis pair_le :
  forall a b,
    f (fst (resolvePair (collisionRadius cfg * 2)
                        (collisionRestitution (physics cfg)) a b))
    + f (snd (resolvePair (collisionRadius cfg * 2)
                          (collisionRestitution (physics cfg)) a b))
    <= f a + f b.

Lemma collide_total_le (i j : nat) (ls : list Lantern) :
  i <> j -> total f (collide cfg i j ls) <= total f ls.
Proof.
  intros Hij. unfold collide.
  destruct (nth_error ls i) as [a|] eqn:Ea; [|lra].
  destruct (nth_error ls j) as [b|] eqn:Eb; [|lra].
  cbv zeta.
  rewrite (total_set_nth f j _ b).
  2: { rewrite nth_error_set_nth_neq by assumption. exact Eb. }
  rewrite (total_set_nth f i _ a) by exact Ea.
  pose proof (pair_le a b). lra.
Qed.

Lemma collideFrom_total_le (i : nat) (ls : list Lantern) :
  total f (collideFrom cfg i ls) <= total f ls.
Proof.
  unfold collideFrom.
  assert (Hjs : forall j, In j (seq (S i) (List.length ls - S i)) -> i <> j).
  { intros j Hj. apply in_seq in Hj. lia. }
  revert Hjs. generalize (seq (S i) (List.length ls - S i)).
  intros js; revert ls.
  induction js as [|j js IH]; intros ls Hjs; simpl; [lra|].
  eapply Rle_trans.
  - apply IH. intros j' Hj'. apply Hjs. now right.
  - apply collide_total_le. apply Hjs. now left.
Qed.

Lemma handleCollisions_total_le (ls : list Lantern) :
  total f (handleCollisions cfg ls) <= total f ls.
Proof.
  unfold handleCollisions. generalize (seq 0 (List.length ls)).
  intros idxs; revert ls.
  induction idxs as [|i idxs IH]; intros ls; simpl; [lra|].
  eapply Rle_trans; [apply IH | apply collideFrom_total_le].
Qed.

End TotalLe.

(** *** A quantity whose sum over a pair the loop body keeps *)

Lemma handleCollisions_total_eq (f : Lantern -> R) (ls : list Lantern) :
  (forall a b,
      f (fst (resolvePair (collisionRadius cfg * 2)
                          (collisionRestitution (physics cfg)) a b))
      + f (snd (resolvePair (collisionRadius cfg * 2)
                            (collisionRestitution (physics cfg)) a b))
      = f a + f b) ->
  total f (handleCollisions cfg ls) = total f ls.
Proof.
  intros H. apply Rle_antisym.
  - apply handleCollisions_total_le. intros a b. rewrite H. lra.
  - pose proof (handleCollisions_total_le (fun l => - f l)) as Hopp.
    assert (Hle : forall a b,
               - f (fst (resolvePair (collisionRadius cfg * 2)
                                     (collisionRestitution (physics cfg))
                                     a b))
               + - f (snd (resolvePair (collisionRadius cfg * 2)
                                       (collisionRestitution (physics cfg))
                                       a b))
               <= - f a + - f b)
      by (intros a b; pose proof (H a b); lra).
    specialize (Hopp Hle ls).
    rewrite !total_opp in Hopp. lra.
Qed.

(** *** What the loop body keeps of each lantern *)

Section Keeps.

Variable K : Type.
Variable g : Lantern -> K.
Hypothesis pair_keeps :
  forall a b,
    g (fst (resolvePair (collisionRadius cfg * 2)
                        (collisionRestitution (physics cfg)) a b)) = g a
    /\ g (snd (resolvePair (collisionRadius cfg * 2)
                           (collisionRestitution (physics cfg)) a b)) = g b.

Lemma collide_map (i j : nat) (ls : list Lantern) :
  map g (collide cfg i j ls) = map g ls.
Proof.
  unfold collide.
  destruct (nth_error ls i) as [a|] eqn:Ea; [|reflexivity].
  destruct (nth_error ls j) as [b|] eqn:Eb; [|reflexivity].
  cbv zeta. destruct (pair_keeps a b) as [Ha Hb].
  rewrite !map_set_nth, Ha, Hb.
  rewrite (set_nth_same i (g a)) by (rewrite nth_error_map, Ea; reflexivity).
  apply set_nth_same. rewrite nth_error_map, Eb. reflexivity.
Qed.

Lemma collideFrom_map (i : nat) (ls : list Lantern) :
  map g (collideFrom cfg i ls) = map g ls.
Proof.
  unfold collideFrom. generalize (seq (S i) (List.length ls - S i)).
  intros js; revert ls.
  induction js as [|j js IH]; intros ls; simpl; [reflexivity|].
  rewrite IH. apply collide_map.
Qed.

Lemma handleCollisions_map (ls : list Lantern) :
  map g (handleCollisions cfg ls) = map g ls.
Proof.
  unfold handleCollisions. generalize (seq 0 (List.length ls)).
  intros idxs; revert ls.
  induction idxs as [|i idxs IH]; intros ls; simpl; [reflexivity|].
  rewrite IH. apply collideFrom_map.
Qed.

End Keeps.

Lemma handleCollisions_length (ls : list Lantern) :
  List.length (handleCollisions cfg ls) = List.length ls.
Proof.
  rewrite <- (length_map (fun _ => tt) (handleCollisions cfg ls)).
  rewrite (handleCollisions_map unit (fun _ => tt)).
  - apply length_map.
  - intros a b. split; reflexivity.
Qed.

(** *** The pass on pairs that the resolver leaves alone *)

Lemma collide_apart (i j : nat) (ls : list Lantern) :
  (forall a b, nth_error ls i = Some a -> nth_error ls j = Some b ->
               apart (collisionRadius cfg * 2) a b) ->
  collide cfg i j ls = ls.
Proof.
  intros H. unfold collide.
  destruct (nth_error ls i) as [a|] eqn:Ea; [|reflexivity].
  destruct (nth_error ls j) as [b|] eqn:Eb; [|reflexivity].
  cbv zeta.
  rewrite (resolvePair_apart (collisionRadius cfg * 2)
             (collisionRestitution (physics cfg)) a b
             (H a b eq_refl eq_refl)).
  simpl.
  rewrite (set_nth_same i a ls Ea). now apply set_nth_same.
Qed.

Lemma handleCollisions_apart (ls : list Lantern) :
  (forall i j a b, (i < j)%nat ->
      nth_error ls i = Some a -> nth_error ls j = Some b ->
      apart (collisionRadius cfg * 2) a b) ->
  handleCollisions cfg ls = ls.
Proof.
  intros H.
  assert (Hfrom : forall i, collideFrom cfg i ls = ls).
  { intros i. unfold collideFrom.
    assert (Hjs : forall j, In j (seq (S i) (List.length ls - S i)) ->
                            (i < j)%nat).
    { intros j Hj. apply in_seq in Hj. lia. }
    revert Hjs. generalize (seq (S i) (List.length ls - S i)).
    intros js. induction js as [|j js IH]; intros Hjs; simpl; [reflexivity|].
    rewrite collide_apart.
    - apply IH. intros j' Hj'. apply Hjs. now right.
    - intros a b. apply H. apply Hjs. now left. }
  unfold handleCollisions. generalize (seq 0 (List.length ls)).
  intros idxs. induction idxs as [|i idxs IH]; simpl; [reflexivity|].
  now rewrite Hfrom.
Qed.

End CollisionPass.

Section PairSums.

Import Lantern.

Variables (m e : R) (a b : Lantern).

Lemma resolvePair_velocity_sum :
  V3.add (velocity (fst (resolvePair m e a b)))
         (velocity (snd (resolvePair m e a b)))
  = V3.add (velocity a) (velocity b).
Proof.
  unfold resolvePair. cbv zeta. cmp_cases; simpl; try reflexivity.
  unfold V3.add. simpl. apply v3_eq; simpl; ring.
Qed.

Lemma resolvePair_position_sum :
  V3.add (position (fst (resolvePair m e a b)))
         (position (snd (resolvePair m e a b)))
  = V3.add (position a) (position b).
Proof.
  unfold resolvePair. cbv zeta. cmp_cases; simpl; try reflexivity;
    unfold V3.add; simpl; apply v3_eq; simpl; ring.
Qed.

Lemma resolvePair_sameIdentity :
  sameIdentity a (fst (resolvePair m e a b))
  /\ sameIdentity b (snd (resolvePair m e a b)).
Proof.
  unfold resolvePair, sameIdentity. cbv zeta. cmp_cases; simpl; auto 10.
Qed.

Lemma resolvePair_rest :
  (buoyancy (fst (resolvePair m e a b)) = buoyancy a
   /\ hovered (fst (resolvePair m e a b)) = hovered a
   /\ rotation_y (fst (resolvePair m e a b)) = rotation_y a)
  /\ (buoyancy (snd (resolvePair m e a b)) = buoyancy b
      /\ hovered (snd (resolvePair m e a b)) = hovered b
      /\ rotation_y (snd (resolvePair m e a b)) = rotation_y b).
Proof.
  unfold resolvePair. cbv zeta. cmp_cases; simpl; auto 10.
Qed.

(** A pair is apart or overlaps. *)
Lemma apart_or_overlap : apart m a b \/ 0 < separation a b < m.
Proof.
  unfold apart. pose proof (separation_nonneg a b).
  destruct (Rle_dec m (separation a b)); [now left; left|].
  destruct (Req_dec (separation a b) 0); [now left; right|].
  right. lra.
Qed.

(** The impulse does not add kinetic energy, for a restitution between
    -1 and 1. *)
Lemma resolvePair_speedSq :
  -1 <= e <= 1 ->
  V3.lengthSq (velocity (fst (resolvePair m e a b)))
  + V3.lengthSq (velocity (snd (resolvePair m e a b)))
  <= V3.lengthSq (velocity a) + V3.lengthSq (velocity b).
Proof.
  intros He. destruct apart_or_overlap as [Hap|Hov].
  - rewrite (resolvePair_apart m e a b Hap). simpl. lra.
  - rewrite (resolvePair_overlap m e a b Hov).
    destruct (JS.gtb _ _); [simpl; lra|].
    pose proof (normal_unit m a b Hov) as Hn.
    unfold bounced. cbv zeta. cbn [fst snd velocity set_velocity].
    unfold relNormalVelocity, V3.lengthSq, V3.dot in *.
    set (n := normal a b) in *. clearbody n.
    cbn [V3.sub V3.add V3.x V3.y V3.z].
    set (vn := (V3.x (velocity b) - V3.x (velocity a)) * V3.x n
               + (V3.y (velocity b) - V3.y (velocity a)) * V3.y n
               + (V3.z (velocity b) - V3.z (velocity a)) * V3.z n).
    set (j := - (1 + e) * vn * 0.5).
    set (nn := V3.x n * V3.x n + V3.y n * V3.y n + V3.z n * V3.z n) in *.
    match goal with
    | |- ?lhs <= ?rhs =>
        replace lhs with (rhs + 2 * j * vn + 2 * j * j * nn)
          by (unfold vn, nn; ring)
    end.
    rewrite Hn.
    assert (H1 : 0 <= (1 + e) * (1 - e)) by nra.
    assert (H2 : 0 <= vn * vn) by nra.
    assert (H3 : 2 * j * vn + 2 * j * j * 1
                 = - ((1 + e) * (1 - e)) * (vn * vn) * / 2).
    { unfold j. replace 0.5 with (/ 2) by lra. field. }
    assert (H4 : 0 <= (1 + e) * (1 - e) * (vn * vn))
      by now apply Rmult_le_pos.
    lra.
Qed.

End PairSums.

(** X4.  The collision pass conserves momentum and the centre of mass:
    the sum of the velocities of all lanterns and the sum of their
    positions are the same after [handleCollisions] as before (the
    lanterns have equal masses), and the pass neither adds nor drops a
    lantern. *)
Theorem X4_collisions_conserve_momentum :
  forall (cfg : Lantern.Config) (ls : list Lantern.Lantern),
    momentum (Lantern.handleCollisions cfg ls) = momentum ls
    /\ positionSum (Lantern.handleCollisions cfg ls) = positionSum ls
    /\ List.length (Lantern.handleCollisions cfg ls) = List.length ls.
Proof.
  intros cfg ls. unfold momentum, positionSum. rewrite !sumV_total.
  split; [|split].
  - f_equal; apply handleCollisions_total_eq; intros a b;
      pose proof (resolvePair_velocity_sum
                    (Lantern.collisionRadius cfg * 2)
                    (Lantern.collisionRestitution (Lantern.physics cfg)) a b)
        as H;
      unfold V3.add in H; injection H; intros; assumption.
  - f_equal; apply handleCollisions_total_eq; intros a b;
      pose proof (resolvePair_position_sum
                    (Lantern.collisionRadius cfg * 2)
                    (Lantern.collisionRestitution (Lantern.physics cfg)) a b)
        as H;
      unfold V3.add in H; injection H; intros; assumption.
  - apply handleCollisions_length.
Qed.

(** X5.  The collision pass never adds kinetic energy: for a restitution
    between -1 and 1 (0.3 in the source), the sum of the squared speeds of
    all lanterns after [handleCollisions] is at most what it was before. *)
Theorem X5_collisions_kinetic_energy :
  forall (cfg : Lantern.Config) (ls : list Lantern.Lantern),
    -1 <= Lantern.collisionRestitution (Lantern.physics cfg) <= 1 ->
    speedSqSum (Lantern.handleCollisions cfg ls) <= speedSqSum ls.
Proof.
  intros cfg ls He. unfold speedSqSum.
  apply handleCollisions_total_le. intros a b.
  now apply resolvePair_speedSq.
Qed.

(** The theorem at the configuration of the source. *)
Lemma X5_collisions_kinetic_energy_witness :
  -1 <= Lantern.collisionRestitution (Lantern.physics Lantern.CONFIG) <= 1
  /\ speedSqSum (Lantern.handleCollisions Lantern.CONFIG [pairA; pairB])
     <= speedSqSum [pairA; pairB].
Proof.
  assert (He : -1 <= Lantern.collisionRestitution
                        (Lantern.physics Lantern.CONFIG) <= 1)
    by (simpl; lra).
  split; [exact He|].
  exact (X5_collisions_kinetic_energy Lantern.CONFIG [pairA; pairB] He).
Defined.

(** X6.  The collision pass leaves alone what does not overlap: if every
    two lanterns are at least [2 * collisionRadius] apart, or exactly at
    the same place (a pair the resolver cannot separate, since it has no
    direction to push along), [handleCollisions] returns the array
    unchanged.  On two lanterns the pass is idempotent: a second pass
    right after the first changes nothing, because the first leaves the
    pair exactly [2 * collisionRadius] apart. *)
Theorem X6_collisions_leave_separated_alone :
  forall (cfg : Lantern.Config),
    (forall ls : list Lantern.Lantern,
        (forall i j a b, (i < j)%nat ->
            nth_error ls i = Some a -> nth_error ls j = Some b ->
            apart (Lantern.collisionRadius cfg * 2) a b) ->
        Lantern.handleCollisions cfg ls = ls)
    /\ (forall a b : Lantern.Lantern,
        Lantern.handleCollisions cfg (Lantern.handleCollisions cfg [a; b])
        = Lantern.handleCollisions cfg [a; b]).
Proof.
  intros cfg. split.
  - intros ls H. now apply handleCollisions_apart.
  - intros a b. rewrite (handleCollisions_two cfg a b). cbv zeta.
    set (m := Lantern.collisionRadius cfg * 2).
    set (e := Lantern.collisionRestitution (Lantern.physics cfg)).
    rewrite handleCollisions_two. cbv zeta. fold m e.
    assert (Hap : apart m (fst (Lantern.resolvePair m e a b))
                          (snd (Lantern.resolvePair m e a b))).
    { destruct (apart_or_overlap m a b) as [Hap|Hov].
      - rewrite (resolvePair_apart m e a b Hap). exact Hap.
      - rewrite (resolvePair_overlap m e a b Hov). left.
        destruct (JS.gtb _ _).
        + rewrite (pushedApart_separation m a b Hov). lra.
        + rewrite (bounced_separation m e a b Hov). lra. }
    rewrite (resolvePair_apart m e _ _ Hap). reflexivity.
Qed.

(** The theorem at the configuration of the source. *)
Lemma X6_collisions_leave_separated_alone_witness :
  Lantern.handleCollisions Lantern.CONFIG [pairA; pairB_far]
  = [pairA; pairB_far].
Proof.
  apply (proj1 (X6_collisions_leave_separated_alone Lantern.CONFIG)).
  intros i j a b Hij Ha Hb. left.
  rewrite collisionRadius_CONFIG.
  destruct i as [|[|i]], j as [|[|j]]; simpl in Ha, Hb; try lia;
    try discriminate;
    try (destruct i; discriminate); try (destruct j; discriminate).
  injection Ha as <-. injection Hb as <-.
  rewrite separation_pairAB_far. lra.
Defined.

(* ====================================================================== *)
(** ** What a frame of the lantern variant keeps                           *)
(* ====================================================================== *)

Lemma forEach_pointwise {A B} (f : A -> JS.Gen B) (Rel : A -> B -> Prop) :
  (forall x s, Rel x (fst (f x s))) ->
  forall xs s, Forall2 Rel xs (fst (JS.forEach f xs s)).
Proof.
  intros H. induction xs as [|x rest IH]; intros s; simpl.
  - constructor.
  - unfold JS.bind, JS.ret. simpl. constructor; [apply H | apply IH].
Qed.

Lemma Forall2_compose {A B C} (R1 : A -> B -> Prop) (R2 : B -> C -> Prop)
    (R3 : A -> C -> Prop) (l1 : list A) (l2 : list B) (l3 : list C) :
  (forall a b c, R1 a b -> R2 b c -> R3 a c) ->
  Forall2 R1 l1 l2 -> Forall2 R2 l2 l3 -> Forall2 R3 l1 l3.
Proof.
  intros H H12. revert l3.
  induction H12 as [|a b l1 l2 Hab _ IH]; intros l3 H23;
    inversion H23; subst; constructor; eauto.
Qed.

Lemma Forall2_same {A} (Rel : A -> A -> Prop) (l : list A) :
  (forall x, Rel x x) -> Forall2 Rel l l.
Proof. intros H. induction l; constructor; auto. Qed.

Lemma map_eq_Forall2 {A K} (g : A -> K) (l l' : list A) :
  map g l' = map g l -> Forall2 (fun a b => g b = g a) l l'.
Proof.
  revert l'. induction l as [|a l IH]; intros [|b l'] H; simpl in H;
    try discriminate; constructor.
  - congruence.
  - apply IH. congruence.
Qed.

Section LanternFrameKeeps.

Import Lantern.

Variable cfg : Config.
Variable bnd : Bounds.

Lemma sameIdentity_refl (l : Lantern) : sameIdentity l l.
Proof. unfold sameIdentity. auto. Qed.

Lemma sameIdentity_trans (l1 l2 l3 : Lantern) :
  sameIdentity l1 l2 -> sameIdentity l2 l3 -> sameIdentity l1 l3.
Proof.
  unfold sameIdentity. intros (? & ? & ? & ? & ?) (? & ? & ? & ? & ?).
  repeat split; congruence.
Qed.

Lemma resetLantern_sameIdentity (l : Lantern) (isInitial : bool)
    (s : JS.Rand) :
  sameIdentity l (fst (resetLantern cfg bnd l isInitial s)).
Proof. unfold sameIdentity. simpl. auto. Qed.

Lemma integrated_sameIdentity (dt time b : R) (l : Lantern) :
  sameIdentity l (integrated cfg dt time b l).
Proof.
  unfold sameIdentity, integrated, integrate. simpl.
  destruct (angularVelocity l) eqn:E; simpl; auto.
Qed.

Lemma bounceDepth_sameIdentity (l : Lantern) :
  sameIdentity l (bounceDepth bnd l).
Proof. unfold sameIdentity, bounceDepth. cmp_cases; simpl; auto. Qed.

Lemma recycle_sameIdentity (l : Lantern) (s : JS.Rand) :
  sameIdentity l (fst (recycle cfg bnd l s)).
Proof.
  unfold recycle. destruct (outOfBounds _ _).
  - apply resetLantern_sameIdentity.
  - apply sameIdentity_refl.
Qed.

(** The value of the loop body, stage by stage. *)
Lemma updateLantern_fst (dt time : R) (l : Lantern) (s : JS.Rand) :
  fst (updateLantern cfg bnd dt time l s) =
  bounceDepth bnd
    (fst (recycle cfg bnd
            (integrated cfg dt time (fst (updateBuoyancy cfg bnd dt l s)) l)
            (snd (updateBuoyancy cfg bnd dt l s)))).
Proof. reflexivity. Qed.

Lemma updateLantern_sameIdentity (dt time : R) (l : Lantern) (s : JS.Rand) :
  sameIdentity l (fst (updateLantern cfg bnd dt time l s)).
Proof.
  rewrite updateLantern_fst.
  eapply sameIdentity_trans; [|apply bounceDepth_sameIdentity].
  eapply sameIdentity_trans; [|apply recycle_sameIdentity].
  apply integrated_sameIdentity.
Qed.

Lemma handleCollisions_sameIdentity (ls : list Lantern) :
  Forall2 sameIdentity ls (handleCollisions cfg ls).
Proof.
  pose (g := fun l : Lantern =>
               (decayRate l, angularVelocity l, wobbleOf l, offColor l,
                pattern l)).
  assert (H : map g (handleCollisions cfg ls) = map g ls).
  { apply handleCollisions_map. intros a b.
    destruct (resolvePair_sameIdentity
                (collisionRadius cfg * 2)
                (collisionRestitution (physics cfg)) a b)
      as [(? & ? & ? & ? & ?) (? & ? & ? & ? & ?)].
    unfold g. split; congruence. }
  apply map_eq_Forall2 in H.
  eapply Forall2_impl; [|exact H].
  intros a b Hab. unfold g in Hab. unfold sameIdentity.
  injection Hab as -> -> -> -> ->. auto.
Qed.

(** The hover flag after the loop body: what it was, unless the lantern
    was recycled. *)
Lemma updateLantern_hovered (dt time : R) (l : Lantern) (s : JS.Rand) :
  hovered (fst (updateLantern cfg bnd dt time l s)) =
  hovered l
  && negb (outOfBounds bnd
             (position
                (integrated cfg dt time
                            (fst (updateBuoyancy cfg bnd dt l s)) l))).
Proof.
  rewrite updateLantern_fst, bounceDepth_hovered.
  unfold recycle. destruct (outOfBounds _ _).
  - simpl. now rewrite andb_false_r.
  - simpl. unfold integrated. rewrite integrate_hovered. simpl.
    now rewrite andb_true_r.
Qed.

End LanternFrameKeeps.

(** X7.  A frame of the lantern variant never changes what a lantern is:
    after [animate] the array holds as many lanterns as before, and the
    lantern at each index has the decay rate, the spin, the wobble
    parameters, the base colour and the pattern it had, whether it was
    recycled, pushed by a collision or neither; the bounds and the pause
    flag are kept and the time stamp of the frame is recorded.  A paused
    frame keeps the lanterns exactly as they are and draws no random
    number. *)
Theorem X7_frame_keeps_identity :
  forall (cfg : Lantern.Config) (now : R) (sim : Lantern.Sim) (s : JS.Rand),
    let sim' := fst (Lantern.animate cfg now sim s) in
    Forall2 sameIdentity (Lantern.lanterns sim) (Lantern.lanterns sim')
    /\ List.length (Lantern.lanterns sim') = List.length (Lantern.lanterns sim)
    /\ Lantern.bounds sim' = Lantern.bounds sim
    /\ Lantern.paused sim' = Lantern.paused sim
    /\ Lantern.lastTime sim' = now
    /\ (Lantern.paused sim = true ->
        Lantern.lanterns sim' = Lantern.lanterns sim
        /\ snd (Lantern.animate cfg now sim s) = s).
Proof.
  intros cfg now sim s sim'.
  assert (H : Forall2 sameIdentity (Lantern.lanterns sim)
                      (Lantern.lanterns sim')).
  { unfold sim', Lantern.animate. destruct (Lantern.paused sim).
    - simpl. apply Forall2_same. apply sameIdentity_refl.
    - unfold JS.bind, JS.ret. simpl.
      eapply Forall2_compose;
        [intros a b c; apply sameIdentity_trans
        | | apply handleCollisions_sameIdentity].
      apply forEach_pointwise. intros l s0.
      apply updateLantern_sameIdentity. }
  split; [exact H|]. split; [symmetry; eapply Forall2_length; exact H|].
  unfold sim', Lantern.animate.
  destruct (Lantern.paused sim) eqn:Ep; simpl; auto.
  repeat split; auto; discriminate.
Qed.

(** The theorem at the configuration of the source. *)
Lemma X7_frame_keeps_identity_witness :
  Lantern.paused (Lantern.mkSim [risingA; risingB]
                    (Lantern.initialBounds Lantern.CONFIG) 1000 true) = true
  /\ Lantern.lanterns
       (fst (Lantern.animate Lantern.CONFIG 1016
               (Lantern.mkSim [risingA; risingB]
                  (Lantern.initialBounds Lantern.CONFIG) 1000 true) halves))
     = [risingA; risingB].
Proof.
  split; [reflexivity|].
  exact (proj1 (proj2 (proj2 (proj2 (proj2 (proj2
           (X7_frame_keeps_identity Lantern.CONFIG 1016
              (Lantern.mkSim [risingA; risingB]
                 (Lantern.initialBounds Lantern.CONFIG) 1000 true) halves)))))
           eq_refl)).
Defined.

(* ====================================================================== *)
(** ** The hover flag of a lantern                                         *)
(* ====================================================================== *)

Lemma handleCollisions_hovered (cfg : Lantern.Config)
    (ls : list Lantern.Lantern) :
  map Lantern.hovered (Lantern.handleCollisions cfg ls)
  = map Lantern.hovered ls.
Proof.
  apply handleCollisions_map. intros a b.
  destruct (resolvePair_rest (Lantern.collisionRadius cfg * 2)
              (Lantern.collisionRestitution (Lantern.physics cfg)) a b)
    as [(_ & Ha & _) (_ & Hb & _)].
  now split.
Qed.

(** X8.  The hover flag of a lantern is set by pointer events only and
    has no memory: [onPointerMove] recomputes every flag from the
    projected position alone (true exactly when the squared distance on
    screen to the pointer is below the squared hover radius), so the flags
    it leaves do not depend on the flags it found, and [onPointerLeave]
    clears every flag; neither moves a lantern or changes anything else.
    A frame never turns a flag on: after [animate] a lantern is hovered
    only if it was hovered before the frame. *)
Theorem X8_hover_flag :
  forall (cfg : Lantern.Config) (project : V3.t -> V3.t)
         (pointer_x pointer_y : R) (ls : list Lantern.Lantern),
    Forall2 (fun l l' =>
               sameButHovered l l'
               /\ (Lantern.hovered l' = true <->
                   (V3.x (project (Lantern.position l)) - pointer_x)
                   * (V3.x (project (Lantern.position l)) - pointer_x)
                   + (V3.y (project (Lantern.position l)) - pointer_y)
                     * (V3.y (project (Lantern.position l)) - pointer_y)
                   < Lantern.hover_radius cfg * Lantern.hover_radius cfg))
            ls (Lantern.onPointerMove cfg project pointer_x pointer_y ls)
    /\ Forall2 (fun l l' => sameButHovered l l' /\ Lantern.hovered l' = false)
               ls (Lantern.onPointerLeave ls)
    /\ Lantern.onPointerMove cfg project pointer_x pointer_y
         (Lantern.onPointerLeave ls)
       = Lantern.onPointerMove cfg project pointer_x pointer_y ls
    /\ (forall now bnd last s,
         Forall2 (fun l l' => Lantern.hovered l' = true ->
                              Lantern.hovered l = true)
                 ls
                 (Lantern.lanterns
                    (fst (Lantern.animate cfg now
                            (Lantern.mkSim ls bnd last false) s)))).
Proof.
  intros cfg project px py ls.
  assert (Hsame : forall l h, sameButHovered l (Lantern.set_hovered l h)).
  { intros l h. unfold sameButHovered, sameIdentity. simpl. auto 10. }
  refine (conj _ (conj _ (conj _ _))).
  - unfold Lantern.onPointerMove.
    induction ls as [|l ls IH]; simpl; constructor; [|exact IH].
    split; [apply Hsame|]. simpl. apply ltb_true_iff.
  - unfold Lantern.onPointerLeave.
    induction ls as [|l ls IH]; simpl; constructor; [|exact IH].
    split; [apply Hsame | reflexivity].
  - unfold Lantern.onPointerMove, Lantern.onPointerLeave.
    rewrite map_map. apply map_ext. intros l. reflexivity.
  - intros now bnd last s. unfold Lantern.animate. simpl.
    unfold JS.bind, JS.ret. simpl.
    set (ls1 := fst (Lantern.updateLanterns cfg bnd
                       (Lantern.dtOf now last) (now * 0.001) ls s)).
    assert (H1 : Forall2 (fun l l' => Lantern.hovered l' = true ->
                                      Lantern.hovered l = true) ls ls1).
    { apply forEach_pointwise. intros l s0.
      rewrite updateLantern_hovered. intros H.
      now apply andb_true_iff in H. }
    pose proof (handleCollisions_hovered cfg ls1) as H2.
    apply map_eq_Forall2 in H2.
    eapply Forall2_compose; [| exact H1 | exact H2].
    intros a b c Hab Hbc Hc. apply Hab. congruence.
Qed.

(* ====================================================================== *)
(** ** Recycling, and the collision pass that follows it                   *)
(* ====================================================================== *)












(* ====================================================================== *)
(** ** What a spawn gives a lantern                                        *)
(* ====================================================================== *)

Lemma post_pointwise {A} (m : JS.Gen A) (Q P : A -> Prop) :
  post m Q -> (forall s, P (fst (m s))) -> post m P.
Proof.
  intros Hm HP s Hs. destruct (Hm s Hs). split; auto.
Qed.

Lemma randFloat_within (r : Range) :
  ordered r -> post (JS.randFloat (min r) (max r)) (within r).
Proof.
  intros Hr. eapply post_weaken; [apply post_randFloat|].
  intros v (u & Hu & ->). unfold within, ordered in *. nra.
Qed.

(** [Math.floor(Math.random() * n)] is an index below [n]. *)
Lemma floor_index (u : R) (n : nat) :
  0 <= u < 1 -> (0 < n)%nat ->
  (0 <= JS.Math_floor (u * INR n) < Z.of_nat n)%Z.
Proof.
  intros Hu Hn. unfold JS.Math_floor.
  assert (Hpos : 0 < INR n) by (apply lt_0_INR; lia).
  pose proof (Zfloor_bound (u * INR n)) as [Hlo Hhi].
  split.
  - apply Zfloor_lub. simpl. nra.
  - apply lt_IZR. rewrite <- INR_IZR_INZ. nra.
Qed.

Lemma applyPatternColor_palette (cfg : Lantern.Config)
    (heightFactors angleFactors : list R) (p : Lantern.Pattern)
    (colors : list Color) (vertexIndex : nat) :
  Lantern.palette p = Some colors -> colors <> [] ->
  (vertexIndex < List.length heightFactors)%nat ->
  (vertexIndex < List.length angleFactors)%nat ->
  exists c,
    Lantern.applyPatternColor cfg heightFactors angleFactors (Some p)
                              vertexIndex = Some c
    /\ In c colors.
Proof.
  intros Hpal Hne Hh Ha.
  unfold Lantern.applyPatternColor, Lantern.paletteOf. rewrite Hpal.
  destruct (nth_error heightFactors vertexIndex) as [h|] eqn:Eh.
  2: { apply nth_error_None in Eh. lia. }
  destruct (nth_error angleFactors vertexIndex) as [a|] eqn:Ea.
  2: { apply nth_error_None in Ea. lia. }
  destruct colors as [|c0 rest]; [contradiction|].
  apply lookupZ_in_range. apply paletteIndex_bounds. simpl List.length. lia.
Qed.

Lemma spawnLantern_spawnedOK (cfg : Lantern.Config) (bnd : Bounds)
    (offsetHSL : Color -> R -> R -> R -> Color) (base : Color)
    (isInitial : bool) :
  0 <= Lantern.buoyancyDecayRate (Lantern.physics cfg) ->
  ordered (Lantern.buoyancyDecayVariance (Lantern.physics cfg)) ->
  0 <= Lantern.rotation_ySpeed_spread cfg ->
  ordered (Lantern.cfg_ampX (Lantern.wobble cfg)) ->
  ordered (Lantern.cfg_ampZ (Lantern.wobble cfg)) ->
  ordered (Lantern.cfg_speedX (Lantern.wobble cfg)) ->
  ordered (Lantern.cfg_speedZ (Lantern.wobble cfg)) ->
  Lantern.types (Lantern.patterns cfg) <> [] ->
  post (Lantern.spawnLantern offsetHSL base cfg bnd isInitial)
       (spawnedOK offsetHSL cfg base).
Proof.
  intros Hrate Hvar Hspin HaX HaZ HsX HsZ Htypes. unfold Lantern.spawnLantern.
  eapply post_bind; [now apply randFloat_within|]. intros k Hk.
  eapply post_bind; [apply post_randFloatSpread|]. intros wy (u & Hu & ->).
  eapply post_bind; [now apply randFloat_within|]. intros ax Hax.
  eapply post_bind; [now apply randFloat_within|]. intros az Haz.
  eapply post_bind; [now apply randFloat_within|]. intros sx Hsx.
  eapply post_bind; [now apply randFloat_within|]. intros sz Hsz.
  eapply post_bind; [apply post_random|]. intros ux Hux.
  eapply post_bind; [apply post_random|]. intros uz Huz.
  eapply post_bind; [apply post_random|]. intros ut Hut.
  cbv zeta.
  eapply post_pointwise; [apply resetLantern_outcome|].
  intros s.
  match goal with
  | |- spawnedOK _ _ _ (fst (Lantern.resetLantern _ _ ?l0 _ _)) =>
      pose proof (resetLantern_sameIdentity cfg bnd l0 isInitial s)
        as (Hd & Hw & Hwob & Hoff & Hpat)
  end.
  unfold spawnedOK. rewrite Hd, Hw, Hwob, Hoff, Hpat.
  cbn [Lantern.decayRate Lantern.angularVelocity Lantern.wobbleOf
       Lantern.offColor Lantern.pattern].
  pose proof PI_RGT_0 as Hpi.
  split; [|split; [|split; [|split]]].
  - unfold within, ordered in *. nra.
  - eexists. split; [reflexivity|]. apply Rabs_le. nra.
  - eexists. split; [reflexivity|]. unfold wobbleOK. simpl.
    repeat split; try apply Hax; try apply Haz; try apply Hsx;
      try apply Hsz; nra.
  - reflexivity.
  - eexists. split; [reflexivity|]. cbn [Lantern.type Lantern.palette
      Lantern.stripes Lantern.cellsY Lantern.cellsA].
    split; [|repeat split].
    assert (Hlen : (0 < List.length (Lantern.types (Lantern.patterns cfg)))%nat).
    { destruct (Lantern.types (Lantern.patterns cfg));
        [contradiction | simpl; lia]. }
    destruct (lookupZ_in_range (Lantern.types (Lantern.patterns cfg))
                (JS.Math_floor
                   (ut * INR (List.length
                                (Lantern.types (Lantern.patterns cfg))))))
      as (name & -> & Hin).
    + now apply floor_index.
    + exact Hin.
Qed.

(** X9.  What [spawnLantern] gives a lantern: a decay rate between the
    configured rate times the two ends of the variance range (so positive
    when these are), a spin about the vertical axis only and of at most
    half the configured spread, wobble amplitudes and speeds inside their
    configured ranges with phases in one turn, the base colour, and a
    pattern whose type is one of the configured types (never the
    [undefined] of an index out of range) and whose palette is the list
    of [createPaletteFromBase]: the base colour and its two offsets,
    three entries.  So for every vertex of the geometry
    [applyPatternColor] returns an entry of that palette and never ends
    in an error; the palette is not empty, so the branch for a missing or
    empty palette is not the one taken.  (The entry returned may itself
    be white: it is when the base colour is white.) *)
Theorem X9_spawn_parameters :
  forall (cfg : Lantern.Config) (bnd : Bounds)
         (offsetHSL : Color -> R -> R -> R -> Color) (base : Color)
         (isInitial : bool) (s : JS.Rand),
    JS.valid s ->
    0 < Lantern.buoyancyDecayRate (Lantern.physics cfg) ->
    0 < min (Lantern.buoyancyDecayVariance (Lantern.physics cfg)) ->
    ordered (Lantern.buoyancyDecayVariance (Lantern.physics cfg)) ->
    0 <= Lantern.rotation_ySpeed_spread cfg ->
    ordered (Lantern.cfg_ampX (Lantern.wobble cfg)) ->
    ordered (Lantern.cfg_ampZ (Lantern.wobble cfg)) ->
    ordered (Lantern.cfg_speedX (Lantern.wobble cfg)) ->
    ordered (Lantern.cfg_speedZ (Lantern.wobble cfg)) ->
    Lantern.types (Lantern.patterns cfg) <> [] ->
    let l := fst (Lantern.spawnLantern offsetHSL base cfg bnd isInitial s) in
    spawnedOK offsetHSL cfg base l
    /\ 0 < Lantern.decayRate l
    /\ Lantern.paletteOf (Lantern.pattern l)
       = Lantern.createPaletteFromBase offsetHSL cfg base
    /\ List.length (Lantern.paletteOf (Lantern.pattern l)) = 3%nat
    /\ forall (heightFactors angleFactors : list R) (vertexIndex : nat),
         (vertexIndex < List.length heightFactors)%nat ->
         (vertexIndex < List.length angleFactors)%nat ->
         exists c,
           Lantern.applyPatternColor cfg heightFactors angleFactors
                                     (Lantern.pattern l) vertexIndex = Some c
           /\ In c (Lantern.createPaletteFromBase offsetHSL cfg base).
Proof.
  intros cfg bnd offsetHSL base isInitial s Hs Hrate Hmin Hvar Hspin
         HaX HaZ HsX HsZ Htypes l.
  assert (Hok : spawnedOK offsetHSL cfg base l).
  { refine (proj1 (spawnLantern_spawnedOK cfg bnd offsetHSL base isInitial
                     _ Hvar Hspin HaX HaZ HsX HsZ Htypes s Hs)). lra. }
  split; [exact Hok|].
  destruct Hok as (Hd & _ & _ & _ & (p & Hp & _ & Hpal & _)).
  assert (Epal : Lantern.paletteOf (Lantern.pattern l)
                 = Lantern.createPaletteFromBase offsetHSL cfg base).
  { unfold Lantern.paletteOf. now rewrite Hp, Hpal. }
  split; [|split; [exact Epal|split]].
  - unfold ordered in Hvar. nra.
  - rewrite Epal. reflexivity.
  - intros hs angs v Hh Ha. rewrite Hp.
    eapply applyPatternColor_palette; eauto. discriminate.
Qed.

(** The theorem at the configuration of the source, for an orange base
    colour. *)
Lemma X9_spawn_parameters_witness :
  let orange := mkColor 1 0.5 0 in
  let l := fst (Lantern.spawnLantern (fun c _ _ _ => c) orange Lantern.CONFIG
                  (Lantern.initialBounds Lantern.CONFIG) true halves) in
  spawnedOK (fun c _ _ _ => c) Lantern.CONFIG orange l
  /\ 0 < Lantern.decayRate l
  /\ List.length (Lantern.paletteOf (Lantern.pattern l)) = 3%nat
  /\ exists c,
       Lantern.applyPatternColor Lantern.CONFIG [-0.3] [0.1]
                                 (Lantern.pattern l) 0 = Some c
       /\ In c (Lantern.createPaletteFromBase (fun c _ _ _ => c)
                                              Lantern.CONFIG orange).
Proof.
  intros orange.
  pose proof (X9_spawn_parameters Lantern.CONFIG
                (Lantern.initialBounds Lantern.CONFIG)
                (fun c _ _ _ => c) orange true halves halves_valid)
    as H.
  unfold ordered in H. simpl in H.
  destruct H as (H1 & H2 & _ & H3 & H4); try lra; try discriminate.
  split; [exact H1|]. split; [exact H2|]. split; [exact H3|].
  apply (H4 [-0.3] [0.1] 0%nat); simpl; lia.
Defined.

(* ====================================================================== *)
(** ** The three regimes of the buoyancy update                            *)
(* ====================================================================== *)

Lemma clamp_unit_rise (b d : R) :
  0 <= b -> 0 <= d -> JS.clamp (b + d) 0 1 = Rmin 1 (b + d).
Proof.
  intros Hb Hd. unfold JS.clamp, JS.Math_max, JS.Math_min, Rmax, Rmin.
  repeat destruct Rle_dec; lra.
Qed.

Lemma clamp_unit_decay (b d : R) :
  b <= 1 -> 0 <= d -> JS.clamp (b - d) 0 1 = Rmax 0 (b - d).
Proof.
  intros Hb Hd. unfold JS.clamp, JS.Math_max, JS.Math_min, Rmax, Rmin.
  repeat destruct Rle_dec; lra.
Qed.

(** The value [b1] of the source, for a buoyancy in the unit interval, as
    far as the clamp and the comparison with 0.01 can tell. *)
Lemma decayed_cases (b d : R) :
  0 <= b <= 1 -> 0 <= d ->
  let b1 := if JS.gtb b 0 then b - d else b in
  JS.clamp b1 0 1 = Rmax 0 (b - d)
  /\ (JS.leb b1 0.01 = true <-> b - d <= 0.01).
Proof.
  intros Hb Hd b1. unfold b1.
  destruct (JS.gtb b 0) eqn:E.
  - split; [apply clamp_unit_decay; lra | apply leb_true_iff].
  - apply gtb_false_iff in E. assert (b = 0) by lra. subst b.
    split.
    + unfold JS.clamp, JS.Math_max, JS.Math_min, Rmax, Rmin.
      repeat destruct Rle_dec; lra.
    + rewrite leb_true_iff. lra.
Qed.

Lemma clamp_one : JS.clamp 1.0 0 1 = 1.
Proof.
  unfold JS.clamp, JS.Math_max, JS.Math_min, Rmax, Rmin.
  repeat destruct Rle_dec; lra.
Qed.

(** X10.  The buoyancy update of the lantern variant has three regimes,
    for a buoyancy [b] in the unit interval, a time step and rates that
    are not negative.  A hovered lantern gains [buoyancyRiseRate * dt],
    capped at 1, so its buoyancy never goes down, and no random number is
    drawn.  A lantern that is not hovered and is either still brighter
    than 0.01 after the decay or at or above the ignition height loses
    [decayRate * dt], floored at 0, and no random number is drawn.  Only a
    lantern that is not hovered, dim (at most 0.01 after the decay) and
    below the ignition height [yMax * thresholdY] draws one random number:
    it lights up fully when the draw is below [rate * dt], and decays as
    before otherwise. *)
Theorem X10_lantern_buoyancy_regimes :
  forall (cfg : Lantern.Config) (bnd : Bounds) (dt : R)
         (l : Lantern.Lantern) (s : JS.Rand),
    0 <= dt ->
    0 <= Lantern.buoyancyRiseRate (Lantern.physics cfg) ->
    0 <= Lantern.decayRate l ->
    0 <= Lantern.buoyancy l <= 1 ->
    let b := Lantern.buoyancy l in
    let rise := Lantern.buoyancyRiseRate (Lantern.physics cfg) * dt in
    let decayed := Rmax 0 (b - Lantern.decayRate l * dt) in
    let ignitionY := yMax bnd * Lantern.thresholdY (Lantern.randomLight cfg) in
    let r := Lantern.updateBuoyancy cfg bnd dt l s in
    (Lantern.hovered l = true ->
     r = (Rmin 1 (b + rise), s) /\ b <= fst r)
    /\ (Lantern.hovered l = false ->
        0.01 < b - Lantern.decayRate l * dt
        \/ ignitionY <= V3.y (Lantern.position l) ->
        r = (decayed, s) /\ fst r <= b)
    /\ (Lantern.hovered l = false ->
        b - Lantern.decayRate l * dt <= 0.01 ->
        V3.y (Lantern.position l) < ignitionY ->
        r = (if JS.ltb (s 0%nat)
                       (Lantern.rate (Lantern.randomLight cfg) * dt)
             then 1 else decayed,
             JS.tl s)).
Proof.
  intros cfg bnd dt l s Hdt Hrise Hdecay Hb b rise decayed ignitionY r.
  assert (Hd : 0 <= Lantern.decayRate l * dt) by now apply Rmult_le_pos.
  assert (Hr : 0 <= rise) by (unfold rise; now apply Rmult_le_pos).
  destruct (decayed_cases b (Lantern.decayRate l * dt) Hb Hd) as [Hc Hle].
  cbv zeta in Hc, Hle. fold decayed in Hc.
  unfold r, Lantern.updateBuoyancy, JS.bind, JS.ret. fold b.
  refine (conj _ (conj _ _)).
  - intros Hh. rewrite Hh. cbn [negb andb fst snd].
    fold rise. rewrite clamp_unit_rise by (unfold b; lra).
    split; [reflexivity|]. cbn [fst]. unfold Rmin.
    destruct Rle_dec; unfold b in *; lra.
  - intros Hh Hcase. rewrite Hh. cbn [negb andb].
    assert (E : JS.leb (if JS.gtb b 0 then b - Lantern.decayRate l * dt else b)
                       0.01
                && JS.ltb (V3.y (Lantern.position l)) ignitionY = false).
    { apply andb_false_iff. destruct Hcase as [Hbright|Hhigh].
      - left. apply not_true_is_false. intros E. apply Hle in E. lra.
      - right. now apply ltb_false_iff. }
    fold ignitionY. rewrite E. cbn [fst snd]. rewrite Hc.
    split; [reflexivity|]. cbn [fst]. unfold decayed, Rmax.
    destruct Rle_dec; unfold b in *; lra.
  - intros Hh Hdim Hlow. rewrite Hh. cbn [negb andb].
    fold ignitionY.
    rewrite (proj2 Hle Hdim), (proj2 (ltb_true_iff _ _) Hlow).
    cbn [andb fst snd JS.Math_random].
    destruct (JS.ltb (s 0%nat) _); [now rewrite clamp_one | now rewrite Hc].
Qed.

(** The theorem at the configuration of the source. *)
Lemma X10_lantern_buoyancy_regimes_witness :
  Lantern.hovered risingA = true
  /\ Lantern.updateBuoyancy Lantern.CONFIG
       (Lantern.initialBounds Lantern.CONFIG) 0.016 risingA halves
     = (Rmin 1 (1 + 200.5 * 0.016), halves).
Proof.
  split; [reflexivity|].
  refine (proj1 (proj1 (X10_lantern_buoyancy_regimes Lantern.CONFIG
                          (Lantern.initialBounds Lantern.CONFIG) 0.016
                          risingA halves _ _ _ _) eq_refl));
    simpl; lra.
Defined.

(** X11.  The buoyancy update of the balloon variant, [applyOrbInfluence],
    has the same three regimes, with the hover test in place of the hover
    flag: a hovered balloon gains [buoyancyRiseRate * dt], capped at 1; a
    balloon that is not hovered and is bright or high loses
    [decay[i] * dt], floored at 0; in both cases no random number is
    drawn.  A balloon that is not hovered, dim and low draws one random
    number and lights up fully when it is below [rate * dt].  Position,
    velocity and every other column of the row are left as they are, and
    the instance attribute [iBuoy] receives the new buoyancy. *)
Theorem X11_balloon_buoyancy_regimes :
  forall (cfg : Balloons.Config) (bnd : Bounds) (project : V3.t -> V3.t)
         (boxes : list Balloons.Box) (o : Balloons.Orbs) (dt : R)
         (i : Balloons.Instance) (s : JS.Rand),
    0 <= dt ->
    0 <= Balloons.buoyancyRiseRate (Balloons.physics cfg) ->
    0 <= Balloons.decay i ->
    0 <= Balloons.buoy i <= 1 ->
    let b := Balloons.buoy i in
    let rise := Balloons.buoyancyRiseRate (Balloons.physics cfg) * dt in
    let decayed := Rmax 0 (b - Balloons.decay i * dt) in
    let ignitionY :=
      yMax bnd * Balloons.thresholdY (Balloons.randomLight cfg) in
    let hovered := Balloons.hoveredTest cfg project boxes o i in
    let r := Balloons.influence cfg bnd project boxes o dt i s in
    (hovered = true ->
     r = (Balloons.set_buoy i (Rmin 1 (b + rise)), s))
    /\ (hovered = false ->
        0.01 < b - Balloons.decay i * dt \/ ignitionY <= Balloons.posY i ->
        r = (Balloons.set_buoy i decayed, s))
    /\ (hovered = false ->
        b - Balloons.decay i * dt <= 0.01 ->
        Balloons.posY i < ignitionY ->
        r = (Balloons.set_buoy i
               (if JS.ltb (s 0%nat)
                          (Balloons.rate (Balloons.randomLight cfg) * dt)
                then 1 else decayed),
             JS.tl s)).
Proof.
  intros cfg bnd project boxes o dt i s Hdt Hrise Hdecay Hb
         b rise decayed ignitionY hovered r.
  assert (Hd : 0 <= Balloons.decay i * dt) by now apply Rmult_le_pos.
  assert (Hr : 0 <= rise) by (unfold rise; now apply Rmult_le_pos).
  destruct (decayed_cases b (Balloons.decay i * dt) Hb Hd) as [Hc Hle].
  cbv zeta in Hc, Hle. fold decayed in Hc.
  unfold r, Balloons.influence, JS.bind, JS.ret. fold b hovered.
  refine (conj _ (conj _ _)).
  - intros Hh. rewrite Hh. cbn [negb andb fst snd].
    fold rise. now rewrite clamp_unit_rise by (unfold b; lra).
  - intros Hh Hcase. rewrite Hh. cbn [negb andb].
    assert (E : JS.leb (if JS.gtb b 0 then b - Balloons.decay i * dt else b)
                       0.01
                && JS.ltb (Balloons.posY i) ignitionY = false).
    { apply andb_false_iff. destruct Hcase as [Hbright|Hhigh].
      - left. apply not_true_is_false. intros E. apply Hle in E. lra.
      - right. now apply ltb_false_iff. }
    fold ignitionY. rewrite E. cbn [fst snd]. now rewrite Hc.
  - intros Hh Hdim Hlow. rewrite Hh. cbn [negb andb].
    fold ignitionY.
    rewrite (proj2 Hle Hdim), (proj2 (ltb_true_iff _ _) Hlow).
    cbn [andb fst snd JS.Math_random].
    destruct (JS.ltb (s 0%nat) _); [now rewrite clamp_one | now rewrite Hc].
Qed.

(* ====================================================================== *)
(** ** The time-to-live of an orb                                          *)
(* ====================================================================== *)

Lemma decayTTL_WF (cfg : Balloons.Config) (dt : R) (o : Balloons.Orbs) :
  orbsWF cfg o -> orbsWF cfg (Balloons.decayTTL dt o).
Proof.
  intros (Hp & Ht & Hb & Hl). unfold orbsWF, Balloons.decayTTL. simpl.
  now rewrite length_map.
Qed.

Lemma decayTTL_nth (dt : R) (o : Balloons.Orbs) (k : nat) :
  (k < List.length (Balloons.orbTTL o))%nat ->
  nth k (Balloons.orbTTL (Balloons.decayTTL dt o)) 0
  = Rmax 0 (nth k (Balloons.orbTTL o) 0 - dt).
Proof.
  intros Hk. unfold Balloons.decayTTL. simpl.
  rewrite (nth_indep _ 0 (JS.Math_max 0 (0 - dt)))
    by (rewrite length_map; exact Hk).
  now rewrite (map_nth (fun ttl => JS.Math_max 0 (ttl - dt))).
Qed.

Lemma decayTTL_nonneg (dt : R) (o : Balloons.Orbs) :
  Forall (fun ttl => 0 <= ttl) (Balloons.orbTTL (Balloons.decayTTL dt o)).
Proof.
  unfold Balloons.decayTTL. simpl. apply Forall_map. apply Forall_forall.
  intros ttl _. apply Rmax_l.
Qed.

Lemma decayTTL_compose (dt dt' : R) (o : Balloons.Orbs) :
  0 <= dt' ->
  Balloons.decayTTL dt' (Balloons.decayTTL dt o)
  = Balloons.decayTTL (dt + dt') o.
Proof.
  intros Hdt'. unfold Balloons.decayTTL. simpl. f_equal.
  rewrite map_map. apply map_ext. intros ttl.
  unfold JS.Math_max, Rmax. repeat destruct Rle_dec; lra.
Qed.

(** X12.  The time-to-live of the orbs.  The first loop of a frame lowers
    every time-to-live by [dt] and floors it at 0, and touches nothing
    else, so no time-to-live is ever negative after it, and two frames
    of [dt] and then of [dt' >= 0] count as one frame of [dt + dt'].
    An orb written by [setOrb] and not written again is therefore live
    exactly as long as the frame times since the write add up to less
    than [max(0.01, orbMaxTTL)], and inert from then on.  With a
    negative [dt] the loop raises every time-to-live instead: every orb
    of the arrays, written or not, is live after it. *)
Theorem X12_orb_time_to_live :
  forall (cfg : Balloons.Config) (dt : R) (o : Balloons.Orbs),
    orbsWF cfg o ->
    let o1 := Balloons.decayTTL dt o in
    (orbsWF cfg o1
     /\ Balloons.orbPositions o1 = Balloons.orbPositions o
     /\ Balloons.orbTargets o1 = Balloons.orbTargets o
     /\ Balloons.orbBuoy o1 = Balloons.orbBuoy o)
    /\ (forall k, (k < Balloons.MAX_ORBS cfg)%nat ->
          nth k (Balloons.orbTTL o1) 0
          = Rmax 0 (nth k (Balloons.orbTTL o) 0 - dt))
    /\ Forall (fun ttl => 0 <= ttl) (Balloons.orbTTL o1)
    /\ (forall dt', 0 <= dt' ->
          Balloons.decayTTL dt' o1 = Balloons.decayTTL (dt + dt') o)
    /\ (forall slot worldPos strength o0,
          orbsWF cfg o0 ->
          (0 <= slot < Z.of_nat (Balloons.MAX_ORBS cfg))%Z ->
          Balloons.setOrb cfg slot worldPos strength o0 = Some o ->
          (live o1 (Z.to_nat slot) <->
           dt < Rmax 0.01 (Balloons.orbMaxTTL (Balloons.interaction cfg))))
    /\ (dt < 0 ->
        Forall (fun ttl => 0 <= ttl) (Balloons.orbTTL o) ->
        forall k, (k < Balloons.MAX_ORBS cfg)%nat -> live o1 k).
Proof.
  intros cfg dt o Hwf o1.
  assert (Hlen : List.length (Balloons.orbTTL o) = Balloons.MAX_ORBS cfg)
    by apply Hwf.
  assert (Hnth : forall k, (k < Balloons.MAX_ORBS cfg)%nat ->
            nth k (Balloons.orbTTL o1) 0
            = Rmax 0 (nth k (Balloons.orbTTL o) 0 - dt)).
  { intros k Hk. apply decayTTL_nth. lia. }
  refine (conj _ (conj Hnth (conj _ (conj _ (conj _ _))))).
  - split; [now apply decayTTL_WF|]. repeat split; reflexivity.
  - apply decayTTL_nonneg.
  - intros dt' Hdt'. now apply decayTTL_compose.
  - intros slot worldPos strength o0 Hwf0 Hslot Hset.
    destruct (setOrb_in_range cfg slot worldPos strength o0 Hwf0 Hslot)
      as (o' & Hset' & _ & _ & _ & Httl).
    rewrite Hset in Hset'. injection Hset' as <-.
    unfold live. rewrite Hnth by lia. rewrite Httl.
    unfold Rmax. repeat destruct Rle_dec; lra.
  - intros Hneg Hpos k Hk. unfold live. rewrite Hnth by exact Hk.
    assert (0 <= nth k (Balloons.orbTTL o) 0).
    { apply (proj1 (Forall_forall _ _) Hpos). apply nth_In. lia. }
    unfold Rmax. destruct Rle_dec; lra.
Qed.

(** The theorem at the configuration of the source. *)
Lemma X12_orb_time_to_live_witness :
  orbsWF Balloons.CONFIG oneLiveOrb
  /\ nth 0 (Balloons.orbTTL (Balloons.decayTTL 0.016 oneLiveOrb)) 0
     = Rmax 0 (nth 0 (Balloons.orbTTL oneLiveOrb) 0 - 0.016).
Proof.
  split; [exact oneLiveOrb_WF|].
  apply (proj1 (proj2 (X12_orb_time_to_live Balloons.CONFIG 0.016 oneLiveOrb
                         oneLiveOrb_WF))).
  unfold Balloons.MAX_ORBS. simpl. lia.
Defined.

(* ====================================================================== *)
(** ** Writing an orb touches one slot                                     *)
(* ====================================================================== *)

Lemma set_nth_set_nth {A} (n : nat) (v w : A) (l : list A) :
  set_nth n v (set_nth n w l) = set_nth n v l.
Proof.
  revert n; induction l as [|h t IH]; intros [|n]; simpl; try reflexivity.
  now rewrite IH.
Qed.

Lemma slot_in_range_false (cfg : Balloons.Config) (slot : Z) :
  (0 <= slot < Z.of_nat (Balloons.MAX_ORBS cfg))%Z ->
  ((slot <? 0)%Z || (slot >=? Z.of_nat (Balloons.MAX_ORBS cfg))%Z) = false.
Proof.
  intros H. apply orb_false_iff. split.
  - apply Z.ltb_ge. lia.
  - rewrite Z.geb_leb. apply Z.leb_gt. lia.
Qed.

(** The result of [setOrb] on a slot in range, written out. *)
Lemma setOrb_in_range_eq (cfg : Balloons.Config) (slot : Z)
    (worldPos : V3.t) (strength : R) (o : Balloons.Orbs) :
  orbsWF cfg o ->
  (0 <= slot < Z.of_nat (Balloons.MAX_ORBS cfg))%Z ->
  let k := Z.to_nat slot in
  Balloons.setOrb cfg slot worldPos strength o =
  Some {| Balloons.orbTargets := set_nth k worldPos (Balloons.orbTargets o);
          Balloons.orbPositions :=
            if JS.ltb (V3.lengthSq (nth k (Balloons.orbPositions o) V3.zero))
                      1e-6
            then set_nth k worldPos (Balloons.orbPositions o)
            else Balloons.orbPositions o;
          Balloons.orbBuoy := set_nth k strength (Balloons.orbBuoy o);
          Balloons.orbTTL :=
            set_nth k (JS.Math_max 0.01
                         (Balloons.orbMaxTTL (Balloons.interaction cfg)))
                    (Balloons.orbTTL o) |}.
Proof.
  intros (Hp & Ht & Hb & Hl) Hslot k. unfold Balloons.setOrb.
  rewrite (slot_in_range_false cfg slot Hslot). fold k.
  assert (Hk : (k < Balloons.MAX_ORBS cfg)%nat) by (unfold k; lia).
  destruct (nth_error (Balloons.orbTargets o) k) as [t|] eqn:Et.
  2: { apply nth_error_None in Et. lia. }
  destruct (nth_error (Balloons.orbPositions o) k) as [p|] eqn:Ep.
  2: { apply nth_error_None in Ep. lia. }
  now rewrite (nth_error_nth _ _ V3.zero Ep).
Qed.

Lemma sameElsewhere_refl (k : nat) (o : Balloons.Orbs) : sameElsewhere k o o.
Proof. intros j _. auto. Qed.

Lemma setOrb_elsewhere (cfg : Balloons.Config) (slot : Z) (worldPos : V3.t)
    (strength : R) (o o' : Balloons.Orbs) :
  orbsWF cfg o ->
  (0 <= slot < Z.of_nat (Balloons.MAX_ORBS cfg))%Z ->
  Balloons.setOrb cfg slot worldPos strength o = Some o' ->
  sameElsewhere (Z.to_nat slot) o o'.
Proof.
  intros Hwf Hslot Hset.
  pose proof (setOrb_in_range_eq cfg slot worldPos strength o Hwf Hslot)
    as Heq.
  cbv zeta in Heq. rewrite Hset in Heq. injection Heq as ->.
  intros j Hj. cbn [Balloons.orbPositions Balloons.orbTargets
                    Balloons.orbBuoy Balloons.orbTTL].
  rewrite !(nth_error_set_nth_neq (Z.to_nat slot) j) by congruence.
  destruct (JS.ltb _ _);
    rewrite ?(nth_error_set_nth_neq (Z.to_nat slot) j) by congruence; auto.
Qed.

(** X13.  [setOrb] on a slot in range touches that slot only: every other
    slot of the four orb arrays is left as it is.  At the slot it stores
    the target, the strength and the time-to-live; the smoothed position
    is set to the target only when it is still within 0.001 of the origin
    (squared length below 1e-6, as for a slot never written), and kept
    otherwise, for [smoothOrbs] to move.  Writing the same point twice
    is the same as writing it once. *)
Theorem X13_setOrb_touches_one_slot :
  forall (cfg : Balloons.Config) (slot : Z) (worldPos : V3.t) (strength : R)
         (o o' : Balloons.Orbs),
    orbsWF cfg o ->
    (0 <= slot < Z.of_nat (Balloons.MAX_ORBS cfg))%Z ->
    Balloons.setOrb cfg slot worldPos strength o = Some o' ->
    let k := Z.to_nat slot in
    sameElsewhere k o o'
    /\ nth k (Balloons.orbPositions o') V3.zero
       = (if JS.ltb (V3.lengthSq (nth k (Balloons.orbPositions o) V3.zero))
                    1e-6
          then worldPos
          else nth k (Balloons.orbPositions o) V3.zero)
    /\ Balloons.setOrb cfg slot worldPos strength o' = Some o'.
Proof.
  intros cfg slot worldPos strength o o' Hwf Hslot Hset k.
  pose proof (setOrb_in_range_eq cfg slot worldPos strength o Hwf Hslot)
    as Heq.
  cbv zeta in Heq. fold k in Heq. rewrite Hset in Heq.
  assert (Hwf' : orbsWF cfg o').
  { destruct (setOrb_in_range cfg slot worldPos strength o Hwf Hslot)
      as (o2 & Hset2 & Hwf2 & _). congruence. }
  assert (Hk : (k < Balloons.MAX_ORBS cfg)%nat) by (unfold k; lia).
  destruct Hwf as (Hp & Ht & Hb & Hl).
  injection Heq as ->.
  refine (conj _ (conj _ _)).
  - exact (setOrb_elsewhere cfg slot worldPos strength o _
             (conj Hp (conj Ht (conj Hb Hl))) Hslot Hset).
  - cbn [Balloons.orbPositions].
    destruct (JS.ltb _ _); [|reflexivity].
    apply nth_set_nth_eq. lia.
  - rewrite (setOrb_in_range_eq cfg slot worldPos strength _ Hwf' Hslot).
    cbv zeta. fold k.
    cbn [Balloons.orbPositions Balloons.orbTargets
         Balloons.orbBuoy Balloons.orbTTL].
    rewrite !set_nth_set_nth. f_equal. f_equal.
    destruct (JS.ltb (V3.lengthSq (nth k (Balloons.orbPositions o) V3.zero))
                     1e-6) eqn:E.
    + rewrite nth_set_nth_eq by lia.
      destruct (JS.ltb (V3.lengthSq worldPos) 1e-6);
        [apply set_nth_set_nth | reflexivity].
    + now rewrite E.
Qed.

(** The theorem at the configuration of the source. *)
Lemma X13_setOrb_touches_one_slot_witness :
  exists o',
    Balloons.setOrb Balloons.CONFIG 3 (V3.mk 1 2 3) 1
                    (Balloons.initialOrbs Balloons.CONFIG) = Some o'
    /\ sameElsewhere 3 (Balloons.initialOrbs Balloons.CONFIG) o'
    /\ Balloons.setOrb Balloons.CONFIG 3 (V3.mk 1 2 3) 1 o' = Some o'.
Proof.
  assert (Hwf : orbsWF Balloons.CONFIG (Balloons.initialOrbs Balloons.CONFIG))
    by apply initialOrbs_WF.
  assert (Hslot : (0 <= 3 < Z.of_nat (Balloons.MAX_ORBS Balloons.CONFIG))%Z)
    by (unfold Balloons.MAX_ORBS; simpl; lia).
  destruct (setOrb_in_range Balloons.CONFIG 3 (V3.mk 1 2 3) 1 _ Hwf Hslot)
    as (o' & Hset & _).
  exists o'. split; [exact Hset|].
  pose proof (X13_setOrb_touches_one_slot Balloons.CONFIG 3 (V3.mk 1 2 3) 1
                _ o' Hwf Hslot Hset) as (H1 & _ & H3).
  split; [exact H1 | exact H3].
Defined.

(* ====================================================================== *)
(** ** A frame of the balloon variant always returns                       *)
(* ====================================================================== *)

Lemma setOrb_WF (cfg : Balloons.Config) (slot : Z) (worldPos : V3.t)
    (strength : R) (o : Balloons.Orbs) :
  orbsWF cfg o ->
  Forall (fun ttl => 0 <= ttl) (Balloons.orbTTL o) ->
  exists o',
    Balloons.setOrb cfg slot worldPos strength o = Some o'
    /\ orbsWF cfg o'
    /\ Forall (fun ttl => 0 <= ttl) (Balloons.orbTTL o').
Proof.
  intros Hwf Hpos.
  destruct (Z_lt_dec slot 0) as [Hneg|Hnn].
  { exists o. split; [apply setOrb_out_of_range; lia | auto]. }
  destruct (Z_le_dec (Z.of_nat (Balloons.MAX_ORBS cfg)) slot) as [Hbig|Hin].
  { exists o. split; [apply setOrb_out_of_range; lia | auto]. }
  assert (Hslot : (0 <= slot < Z.of_nat (Balloons.MAX_ORBS cfg))%Z) by lia.
  destruct (setOrb_in_range cfg slot worldPos strength o Hwf Hslot)
    as (o' & Hset & Hwf' & _).
  exists o'. split; [exact Hset|]. split; [exact Hwf'|].
  pose proof (setOrb_in_range_eq cfg slot worldPos strength o Hwf Hslot)
    as Heq.
  cbv zeta in Heq. rewrite Hset in Heq. injection Heq as ->.
  cbn [Balloons.orbTTL]. apply Forall_set_nth; [exact Hpos|].
  unfold JS.Math_max, Rmax. destruct Rle_dec; lra.
Qed.

Lemma applyWrites_WF (cfg : Balloons.Config) (ws : list (Z * V3.t * R))
    (o : Balloons.Orbs) :
  orbsWF cfg o ->
  Forall (fun ttl => 0 <= ttl) (Balloons.orbTTL o) ->
  exists o',
    Balloons.applyWrites cfg ws o = Some o'
    /\ orbsWF cfg o'
    /\ Forall (fun ttl => 0 <= ttl) (Balloons.orbTTL o').
Proof.
  revert o. induction ws as [|[[slot p] strength] rest IH];
    intros o Hwf Hpos; simpl.
  - exists o. auto.
  - destruct (setOrb_WF cfg slot p strength o Hwf Hpos)
      as (o1 & -> & Hwf1 & Hpos1).
    now apply IH.
Qed.

Lemma forEach_length {A B} (f : A -> JS.Gen B) (xs : list A) (s : JS.Rand) :
  List.length (fst (JS.forEach f xs s)) = List.length xs.
Proof.
  symmetry. eapply Forall2_length.
  apply (forEach_pointwise f (fun _ _ => True)). trivial.
Qed.

(** X14.  A frame of the balloon variant always returns: when the four orb
    arrays have [MAX_ORBS] entries each, as allocated, [animate] raises
    no exception whatever the tracking functions and the mouse write
    (slots out of range included), whatever the time step and whatever
    the random draws; the world it returns has orb arrays of [MAX_ORBS]
    entries again, no negative time-to-live, as many balloons as before,
    the same bounds, and the time stamp of the frame. *)
Theorem X14_frame_always_returns :
  forall (cfg : Balloons.Config) (project : V3.t -> V3.t)
         (input : Balloons.FrameInput) (now : R) (w : Balloons.World)
         (s : JS.Rand),
    orbsWF cfg (Balloons.orbs w) ->
    exists w',
      fst (Balloons.animate cfg project input now w s) = Some w'
      /\ orbsWF cfg (Balloons.orbs w')
      /\ Forall (fun ttl => 0 <= ttl) (Balloons.orbTTL (Balloons.orbs w'))
      /\ List.length (Balloons.instances w')
         = List.length (Balloons.instances w)
      /\ Balloons.bounds w' = Balloons.bounds w
      /\ Balloons.lastTime w' = now.
Proof.
  intros cfg project input now w s Hwf. unfold Balloons.animate.
  set (dt := Balloons.dtOf now (Balloons.lastTime w)).
  destruct (applyWrites_WF cfg (Balloons.orbWrites input)
              (Balloons.decayTTL dt (Balloons.orbs w))
              (decayTTL_WF cfg dt _ Hwf) (decayTTL_nonneg dt _))
    as (o2 & -> & Hwf2 & Hpos2).
  destruct (smoothOrbs_outcome cfg (Balloons.smoothingAlpha cfg dt) o2 Hwf2)
    as (_ & _ & Hl3 & Hwf3 & _).
  eexists. unfold JS.bind, JS.ret. cbn [fst snd].
  split; [reflexivity|].
  cbn [Balloons.orbs Balloons.instances Balloons.bounds Balloons.lastTime].
  split; [exact Hwf3|]. split; [now rewrite Hl3|].
  split; [|split; reflexivity].
  unfold Balloons.updatePhysics, Balloons.applyOrbInfluence.
  now rewrite !forEach_length.
Qed.

(** The theorem at the configuration of the source. *)
Lemma X14_frame_always_returns_witness :
  orbsWF Balloons.CONFIG (Balloons.orbs sampleWorld)
  /\ exists w',
       fst (Balloons.animate Balloons.CONFIG
              (Balloons.project (Balloons.camera3d 1))
              (Balloons.mkFrameInput
                 [(0%Z, V3.mk 0 6 0, 1); (99%Z, V3.mk 0 0 0, 1)] [])
              1016 sampleWorld halves) = Some w'
       /\ List.length (Balloons.instances w') = 1%nat.
Proof.
  split; [exact oneLiveOrb_WF|].
  destruct (X14_frame_always_returns Balloons.CONFIG
              (Balloons.project (Balloons.camera3d 1))
              (Balloons.mkFrameInput
                 [(0%Z, V3.mk 0 6 0, 1); (99%Z, V3.mk 0 0 0, 1)] [])
              1016 sampleWorld halves oneLiveOrb_WF)
    as (w' & E & _ & _ & Hlen & _).
  exists w'. split; [exact E | exact Hlen].
Defined.

(* ====================================================================== *)
(** ** Orb smoothing never overshoots                                      *)
(* ====================================================================== *)

Lemma Rpower_le_base (x k : R) :
  0 < x <= 1 -> 1 <= k -> 0 < Rpower x k <= x.
Proof.
  intros [Hx0 Hx1] Hk. unfold Rpower. split; [apply exp_pos|].
  assert (Hln : ln x <= 0).
  { rewrite <- ln_1. destruct (Rle_lt_or_eq_dec x 1 Hx1) as [Hlt| ->];
      [left; now apply ln_increasing | lra]. }
  assert (Hle : k * ln x <= ln x) by nra.
  rewrite <- (exp_ln x Hx0) at 2.
  destruct (Rle_lt_or_eq_dec _ _ Hle) as [Hlt|Heq];
    [left; now apply exp_increasing | right; now rewrite Heq].
Qed.

Lemma smoothingAlpha_range (cfg : Balloons.Config) (dt : R) :
  0 <= Balloons.orbSmoothing (Balloons.interaction cfg) <= 1 ->
  Balloons.orbSmoothing (Balloons.interaction cfg)
  <= Balloons.smoothingAlpha cfg dt <= 1
  /\ (Balloons.orbSmoothing (Balloons.interaction cfg) < 1 ->
      Balloons.smoothingAlpha cfg dt < 1).
Proof.
  intros Hr. unfold Balloons.smoothingAlpha, JS.Math_pow.
  assert (Hk : 1 <= JS.Math_max 1 (dt * 60)) by apply Rmax_l.
  destruct (Rlt_dec 0 (1.0 - Balloons.orbSmoothing (Balloons.interaction cfg)))
    as [Hpos|Hzero].
  - destruct (Rpower_le_base
                (1.0 - Balloons.orbSmoothing (Balloons.interaction cfg))
                (JS.Math_max 1 (dt * 60))); [lra | exact Hk |].
    split; [lra | intros _; lra].
  - destruct (Rlt_dec 0 (JS.Math_max 1 (dt * 60))); [|lra].
    split; [lra | intros; lra].
Qed.

Lemma lerp_gap (p t : V3.t) (alpha : R) :
  V3.sub (V3.lerp p t alpha) t = V3.scale (V3.sub p t) (1 - alpha).
Proof. unfold V3.sub, V3.lerp, V3.scale. simpl. f_equal; ring. Qed.

Lemma length_scale (v : V3.t) (c : R) :
  0 <= c -> V3.length (V3.scale v c) = c * V3.length v.
Proof.
  intros Hc. unfold V3.length, V3.lengthSq, V3.dot, V3.scale. simpl.
  replace (V3.x v * c * (V3.x v * c) + V3.y v * c * (V3.y v * c)
           + V3.z v * c * (V3.z v * c))
    with (c * c * (V3.x v * V3.x v + V3.y v * V3.y v + V3.z v * V3.z v))
    by ring.
  rewrite sqrt_mult_alt by nra. now rewrite sqrt_square.
Qed.

(** X15.  Orb smoothing never overshoots.  For a smoothing rate between 0
    and 1 the factor [alpha] that [animate] computes lies between the rate
    and 1, whatever the time step (and strictly below 1 for a rate below
    1); one call of [smoothOrbs] with it moves the smoothed position of a
    live orb along the straight line toward its target and leaves it at
    [(1 - alpha)] times the distance it had, so never beyond the target
    and never farther away than before. *)
Theorem X15_smoothing_never_overshoots :
  forall (cfg : Balloons.Config) (dt : R) (o : Balloons.Orbs) (k : nat),
    orbsWF cfg o ->
    (k < Balloons.MAX_ORBS cfg)%nat ->
    0 <= Balloons.orbSmoothing (Balloons.interaction cfg) <= 1 ->
    live o k ->
    let alpha := Balloons.smoothingAlpha cfg dt in
    let p := nth k (Balloons.orbPositions o) V3.zero in
    let t := nth k (Balloons.orbTargets o) V3.zero in
    let p' :=
      nth k (Balloons.orbPositions (Balloons.smoothOrbs cfg alpha o))
          V3.zero in
    (Balloons.orbSmoothing (Balloons.interaction cfg) <= alpha <= 1)
    /\ V3.sub p' t = V3.scale (V3.sub p t) (1 - alpha)
    /\ V3.distanceTo p' t = (1 - alpha) * V3.distanceTo p t
    /\ V3.distanceTo p' t <= V3.distanceTo p t.
Proof.
  intros cfg dt o k Hwf Hk Hr Hlive alpha p t p'.
  destruct (smoothingAlpha_range cfg dt Hr) as [Ha _]. fold alpha in Ha.
  destruct (smoothOrbs_outcome cfg alpha o Hwf) as (_ & _ & _ & _ & Hnth).
  assert (Hp' : p' = V3.lerp p t alpha).
  { unfold p'. rewrite (Hnth k Hk). unfold smoothed.
    unfold live in Hlive.
    now rewrite (proj2 (gtb_true_iff _ _) Hlive). }
  assert (Hgap : V3.sub p' t = V3.scale (V3.sub p t) (1 - alpha))
    by (rewrite Hp'; apply lerp_gap).
  assert (Hdist : V3.distanceTo p' t = (1 - alpha) * V3.distanceTo p t).
  { unfold V3.distanceTo. rewrite Hgap. apply length_scale. lra. }
  split; [exact Ha|]. split; [exact Hgap|]. split; [exact Hdist|].
  rewrite Hdist.
  assert (0 <= V3.distanceTo p t) by apply sqrt_pos. nra.
Qed.

(** The theorem at the configuration of the source. *)
Lemma X15_smoothing_never_overshoots_witness :
  let alpha := Balloons.smoothingAlpha Balloons.CONFIG 0.016 in
  let p' :=
    nth 0 (Balloons.orbPositions
             (Balloons.smoothOrbs Balloons.CONFIG alpha oneLiveOrb))
        V3.zero in
  live oneLiveOrb 0
  /\ (0.14 <= alpha <= 1)
  /\ V3.distanceTo p' (V3.mk 0 6 0) <= V3.distanceTo (V3.mk 0 6 0) (V3.mk 0 6 0).
Proof.
  intros alpha p'.
  assert (Hlive : live oneLiveOrb 0) by (unfold live; simpl; lra).
  split; [exact Hlive|].
  assert (Hk : (0 < Balloons.MAX_ORBS Balloons.CONFIG)%nat)
    by (unfold Balloons.MAX_ORBS; simpl; lia).
  assert (Hr : 0 <= Balloons.orbSmoothing
                      (Balloons.interaction Balloons.CONFIG) <= 1)
    by (simpl; lra).
  pose proof (X15_smoothing_never_overshoots Balloons.CONFIG 0.016 oneLiveOrb
                0 oneLiveOrb_WF Hk Hr Hlive) as (H1 & _ & _ & H4).
  split; [exact H1 | exact H4].
Defined.

(* ====================================================================== *)
(** ** The hover test of the balloon variant                               *)
(* ====================================================================== *)

Lemma existsb_none {A} (f : A -> bool) (l : list A) :
  (forall x, In x l -> f x = false) -> existsb f l = false.
Proof.
  intros H. induction l as [|x l IH]; simpl; [reflexivity|].
  rewrite (H x) by now left. apply IH. intros y Hy. apply H. now right.
Qed.

Lemma existsb_seq (f : nat -> bool) (n : nat) :
  existsb f (seq 0 n) = true <-> exists k, (k < n)%nat /\ f k = true.
Proof.
  rewrite existsb_exists. split.
  - intros (k & Hin & Hk). exists k. apply in_seq in Hin. split; [lia|auto].
  - intros (k & Hlt & Hk). exists k. split; [apply in_seq; lia | auto].
Qed.

Section HoverTest.

Import Balloons.

Variable cfg : Config.
Variable project : V3.t -> V3.t.

Lemma clip_guard (v : V3.t) :
  JS.geb (V3.z (project v)) (-1) && JS.leb (V3.z (project v)) 1 = true
  <-> inClipRange project v.
Proof.
  unfold inClipRange. rewrite andb_true_iff, geb_true_iff, leb_true_iff.
  tauto.
Qed.

Lemma clip_reject (v : V3.t) :
  JS.ltb (V3.z (project v)) (-1) || JS.gtb (V3.z (project v)) 1 = false
  <-> inClipRange project v.
Proof.
  unfold inClipRange. rewrite orb_false_iff, ltb_false_iff, gtb_false_iff.
  tauto.
Qed.

Lemma box_test (bb : Box) (x y : R) :
  JS.geb x (minX bb) && JS.leb x (maxX bb)
  && JS.geb y (minY bb) && JS.leb y (maxY bb) = true
  <-> inBox bb x y.
Proof.
  unfold inBox. rewrite !andb_true_iff, !geb_true_iff, !leb_true_iff. tauto.
Qed.

(** The test of one orb in screen space, and in world space. *)
Lemma screen_orb_test (o : Orbs) (b : Instance) (j : nat) :
  (if JS.leb (nth j (orbTTL o) 0) 0 then false else
   if JS.ltb (V3.z (project (nth j (orbPositions o) V3.zero))) (-1)
      || JS.gtb (V3.z (project (nth j (orbPositions o) V3.zero))) 1
   then false else
   JS.ltb ((V3.x (project (pos b))
            - V3.x (project (nth j (orbPositions o) V3.zero)))
           * (V3.x (project (pos b))
              - V3.x (project (nth j (orbPositions o) V3.zero)))
           + (V3.y (project (pos b))
              - V3.y (project (nth j (orbPositions o) V3.zero)))
             * (V3.y (project (pos b))
                - V3.y (project (nth j (orbPositions o) V3.zero))))
          (screenRadius cfg * screenRadius cfg)) = true
  <-> live o j
      /\ inClipRange project (nth j (orbPositions o) V3.zero)
      /\ screenDistSq project (pos b) (nth j (orbPositions o) V3.zero)
         < screenRadius cfg * screenRadius cfg.
Proof.
  unfold live, screenDistSq.
  destruct (JS.leb _ _) eqn:E1;
    [apply leb_true_iff in E1 | apply leb_false_iff in E1].
  { split; [discriminate | intros [H _]; lra]. }
  destruct (_ || _) eqn:E2.
  { split; [discriminate|]. intros (_ & H & _).
    apply clip_reject in H. congruence. }
  apply clip_reject in E2. rewrite ltb_true_iff. tauto.
Qed.

Lemma world_orb_test (o : Orbs) (b : Instance) (j : nat) :
  (if JS.leb (nth j (orbTTL o) 0) 0 then false else
   JS.ltb ((posX b - V3.x (nth j (orbPositions o) V3.zero))
           * (posX b - V3.x (nth j (orbPositions o) V3.zero))
           + (posY b - V3.y (nth j (orbPositions o) V3.zero))
             * (posY b - V3.y (nth j (orbPositions o) V3.zero))
           + (posZ b - V3.z (nth j (orbPositions o) V3.zero))
             * (posZ b - V3.z (nth j (orbPositions o) V3.zero)))
          (hoverRadiusWorld (interaction cfg)
           * hoverRadiusWorld (interaction cfg))) = true
  <-> live o j
      /\ worldDistSq (pos b) (nth j (orbPositions o) V3.zero)
         < hoverRadiusWorld (interaction cfg)
           * hoverRadiusWorld (interaction cfg).
Proof.
  unfold live, worldDistSq, pos. cbn [V3.x V3.y V3.z].
  destruct (JS.leb _ _) eqn:E1;
    [apply leb_true_iff in E1 | apply leb_false_iff in E1].
  { split; [discriminate | intros [H _]; lra]. }
  rewrite ltb_true_iff. tauto.
Qed.

Lemma hoveredTest_fullBody (boxes : list Box) (o : Orbs) (b : Instance) :
  trackMode (interaction cfg) = "fullBody"%string ->
  (hoveredTest cfg project boxes o b = true <->
   inClipRange project (pos b)
   /\ exists bb, In bb boxes
                 /\ inBox bb (V3.x (project (pos b)))
                             (V3.y (project (pos b)))).
Proof.
  intros Hmode. unfold hoveredTest. rewrite Hmode. cbn [String.eqb].
  rewrite ?Ascii.eqb_refl. cbv zeta.
  destruct boxes as [|bb0 rest].
  - split; [discriminate | intros (_ & bb & [] & _)].
  - rewrite andb_true_iff, clip_guard, existsb_exists.
    split; intros [Hc (bb & Hin & Hbb)]; (split; [exact Hc|]);
      exists bb; (split; [exact Hin|]); now apply box_test.
Qed.

Lemma hoveredTest_screen (boxes : list Box) (o : Orbs) (b : Instance) :
  trackMode (interaction cfg) <> "fullBody"%string ->
  useScreenSpaceHit (interaction cfg) = true ->
  (hoveredTest cfg project boxes o b = true <->
   inClipRange project (pos b)
   /\ exists k, (k < MAX_ORBS cfg)%nat
                /\ live o k
                /\ inClipRange project (nth k (orbPositions o) V3.zero)
                /\ screenDistSq project (pos b)
                                (nth k (orbPositions o) V3.zero)
                   < screenRadius cfg * screenRadius cfg).
Proof.
  intros Hmode Hscreen. unfold hoveredTest.
  rewrite (proj2 (String.eqb_neq _ _) Hmode), Hscreen. cbv zeta.
  rewrite andb_true_iff, clip_guard, existsb_seq.
  split; intros [Hc (k & Hk & H)]; (split; [exact Hc|]); exists k;
    (split; [exact Hk|]); now apply (screen_orb_test o b k).
Qed.

Lemma hoveredTest_world (boxes : list Box) (o : Orbs) (b : Instance) :
  trackMode (interaction cfg) <> "fullBody"%string ->
  useScreenSpaceHit (interaction cfg) = false ->
  (hoveredTest cfg project boxes o b = true <->
   exists k, (k < MAX_ORBS cfg)%nat
             /\ live o k
             /\ worldDistSq (pos b) (nth k (orbPositions o) V3.zero)
                < hoverRadiusWorld (interaction cfg)
                  * hoverRadiusWorld (interaction cfg)).
Proof.
  intros Hmode Hscreen. unfold hoveredTest.
  rewrite (proj2 (String.eqb_neq _ _) Hmode), Hscreen. cbv zeta.
  rewrite existsb_seq.
  split; intros (k & Hk & H); exists k; (split; [exact Hk|]);
    now apply (world_orb_test o b k).
Qed.

(** Without a live orb nothing is hovered, outside the full-body mode. *)
Lemma hoveredTest_no_live (boxes : list Box) (o : Orbs) (b : Instance) :
  trackMode (interaction cfg) <> "fullBody"%string ->
  (forall k, (k < MAX_ORBS cfg)%nat -> ~ live o k) ->
  hoveredTest cfg project boxes o b = false.
Proof.
  intros Hmode Hdead. apply not_true_is_false. intros H.
  destruct (useScreenSpaceHit (interaction cfg)) eqn:Hs.
  - apply (hoveredTest_screen boxes o b Hmode Hs) in H.
    destruct H as (_ & k & Hk & Hl & _). exact (Hdead k Hk Hl).
  - apply (hoveredTest_world boxes o b Hmode Hs) in H.
    destruct H as (k & Hk & Hl & _). exact (Hdead k Hk Hl).
Qed.

Lemma initialOrbs_dead (k : nat) : ~ live (initialOrbs cfg) k.
Proof.
  unfold live, initialOrbs. cbn [orbTTL].
  destruct (Nat.lt_ge_cases k (MAX_ORBS cfg)) as [Hk|Hk].
  - rewrite nth_repeat_lt by exact Hk. lra.
  - rewrite nth_overflow by (rewrite repeat_length; exact Hk). lra.
Qed.

End HoverTest.

(** X16.  The hover test of the balloon variant, mode by mode.  In
    full-body mode a balloon is hovered exactly when its projection has a
    depth in the clip range and lies inside one of the pose boxes; the
    orbs are not consulted.  In the other modes the boxes are not
    consulted: with screen-space hits a balloon is hovered exactly when
    its projected depth is in the clip range and some live orb, itself
    projected into the clip range, is closer on screen than the clamped
    screen radius; with world-space hits, exactly when some live orb is
    closer in the world than [hoverRadiusWorld], whatever the camera sees.
    So with no pose box, respectively no live orb (as before the first
    tracking result or mouse hit), no balloon is hovered. *)
Theorem X16_hover_test_by_mode :
  forall (cfg : Balloons.Config) (project : V3.t -> V3.t)
         (boxes : list Balloons.Box) (o : Balloons.Orbs)
         (b : Balloons.Instance),
    let mode := Balloons.trackMode (Balloons.interaction cfg) in
    let hovered := Balloons.hoveredTest cfg project boxes o b in
    let orb k := nth k (Balloons.orbPositions o) V3.zero in
    (mode = "fullBody"%string ->
     (hovered = true <->
      inClipRange project (Balloons.pos b)
      /\ exists bb, In bb boxes
                    /\ inBox bb (V3.x (project (Balloons.pos b)))
                                (V3.y (project (Balloons.pos b))))
     /\ (boxes = [] -> hovered = false))
    /\ (mode <> "fullBody"%string ->
        Balloons.useScreenSpaceHit (Balloons.interaction cfg) = true ->
        (hovered = true <->
         inClipRange project (Balloons.pos b)
         /\ exists k, (k < Balloons.MAX_ORBS cfg)%nat
                      /\ live o k
                      /\ inClipRange project (orb k)
                      /\ screenDistSq project (Balloons.pos b) (orb k)
                         < Balloons.screenRadius cfg
                           * Balloons.screenRadius cfg))
    /\ (mode <> "fullBody"%string ->
        Balloons.useScreenSpaceHit (Balloons.interaction cfg) = false ->
        (hovered = true <->
         exists k, (k < Balloons.MAX_ORBS cfg)%nat
                   /\ live o k
                   /\ worldDistSq (Balloons.pos b) (orb k)
                      < Balloons.hoverRadiusWorld (Balloons.interaction cfg)
                        * Balloons.hoverRadiusWorld
                            (Balloons.interaction cfg)))
    /\ (mode <> "fullBody"%string ->
        ((forall k, (k < Balloons.MAX_ORBS cfg)%nat -> ~ live o k) ->
         hovered = false)
        /\ Balloons.hoveredTest cfg project boxes
                                (Balloons.initialOrbs cfg) b = false).
Proof.
  intros cfg project boxes o b mode hovered orb.
  refine (conj _ (conj _ (conj _ _))).
  - intros Hmode. split; [now apply hoveredTest_fullBody|].
    intros ->. apply not_true_is_false. intros H.
    apply (hoveredTest_fullBody cfg project [] o b Hmode) in H.
    destruct H as (_ & bb & [] & _).
  - intros Hmode Hs. now apply hoveredTest_screen.
  - intros Hmode Hs. now apply hoveredTest_world.
  - intros Hmode. split.
    + now apply hoveredTest_no_live.
    + apply hoveredTest_no_live; [exact Hmode|].
      intros k _. apply initialOrbs_dead.
Qed.

(** The theorem at the configuration of the source. *)
Lemma X16_hover_test_by_mode_witness :
  Balloons.trackMode (Balloons.interaction Balloons.CONFIG)
    <> "fullBody"%string
  /\ Balloons.hoveredTest Balloons.CONFIG
       (Balloons.project (Balloons.camera3d 1)) []
       (Balloons.initialOrbs Balloons.CONFIG) rowInFront = false.
Proof.
  assert (Hmode : Balloons.trackMode (Balloons.interaction Balloons.CONFIG)
                  <> "fullBody"%string) by (simpl; discriminate).
  split; [exact Hmode|].
  exact (proj2 (proj2 (proj2 (proj2
           (X16_hover_test_by_mode Balloons.CONFIG
              (Balloons.project (Balloons.camera3d 1)) []
              (Balloons.initialOrbs Balloons.CONFIG) rowInFront))) Hmode)).
Defined.

(** The regimes of the balloon variant at the configuration of the source:
    no orb is live, so the balloon is not hovered and its buoyancy decays. *)
Lemma X11_balloon_buoyancy_regimes_witness :
  Balloons.hoveredTest Balloons.CONFIG
    (Balloons.project (Balloons.camera3d 1)) []
    (Balloons.initialOrbs Balloons.CONFIG) highRow = false
  /\ Balloons.influence Balloons.CONFIG
       (Balloons.initialBounds Balloons.CONFIG)
       (Balloons.project (Balloons.camera3d 1)) []
       (Balloons.initialOrbs Balloons.CONFIG) 0.016 highRow halves
     = (Balloons.set_buoy highRow (Rmax 0 (0.5 - 0.65 * 0.016)), halves).
Proof.
  assert (Hh : Balloons.hoveredTest Balloons.CONFIG
                 (Balloons.project (Balloons.camera3d 1)) []
                 (Balloons.initialOrbs Balloons.CONFIG) highRow = false).
  { apply hoveredTest_no_live; [simpl; discriminate|].
    intros k _. apply initialOrbs_dead. }
  split; [exact Hh|].
  refine (proj1 (proj2 (X11_balloon_buoyancy_regimes Balloons.CONFIG
                          (Balloons.initialBounds Balloons.CONFIG)
                          (Balloons.project (Balloons.camera3d 1)) []
                          (Balloons.initialOrbs Balloons.CONFIG) 0.016
                          highRow halves _ _ _ _)) Hh _);
    simpl; lra.
Defined.

(* ====================================================================== *)
(** ** The pose boxes of the full-body mode                                *)
(* ====================================================================== *)

Section BodyBoxes.

Import Balloons Tracking.

Variable inp : Inputs.

Lemma ndc_normalized (pt : Landmark) :
  normalized pt -> -1 <= ndcX inp pt <= 1 /\ -1 <= ndcY pt <= 1.
Proof.
  intros [Hx Hy]. unfold ndcX, ndcY. destruct (mirror inp); lra.
Qed.

(** The running extent only grows, and holds every landmark seen. *)
Lemma extent_fold (lm : Landmarks) (acc : Box) :
  let e := fold_left (extend inp) lm acc in
  (minX e <= minX acc /\ maxX acc <= maxX e
   /\ minY e <= minY acc /\ maxY acc <= maxY e)
  /\ forall pt, In (Some pt) lm ->
       (minX e <= ndcX inp pt <= maxX e) /\ (minY e <= ndcY pt <= maxY e).
Proof.
  revert acc. induction lm as [|o lm IH]; intros acc; simpl.
  - split; [lra | intros pt []].
  - destruct (IH (extend inp acc o)) as [(H1 & H2 & H3 & H4) Hin].
    assert (Hstep : minX (extend inp acc o) <= minX acc
                    /\ maxX acc <= maxX (extend inp acc o)
                    /\ minY (extend inp acc o) <= minY acc
                    /\ maxY acc <= maxY (extend inp acc o)).
    { destruct o as [p|]; cbn [extend minX maxX minY maxY]; [|lra].
      unfold JS.Math_min, JS.Math_max.
      pose proof (Rmin_l (minX acc) (ndcX inp p)).
      pose proof (Rmax_l (maxX acc) (ndcX inp p)).
      pose proof (Rmin_l (minY acc) (ndcY p)).
      pose proof (Rmax_l (maxY acc) (ndcY p)). lra. }
    split; [lra|].
    intros pt [->|Hpt]; [|now apply Hin].
    set (e := fold_left (extend inp) lm (extend inp acc (Some pt))) in *.
    clearbody e.
    cbn [extend minX maxX minY maxY] in H1, H2, H3, H4.
    unfold JS.Math_min, JS.Math_max in *.
    pose proof (Rmin_r (minX acc) (ndcX inp pt)).
    pose proof (Rmax_r (maxX acc) (ndcX inp pt)).
    pose proof (Rmin_r (minY acc) (ndcY pt)).
    pose proof (Rmax_r (maxY acc) (ndcY pt)). lra.
Qed.

(** The running minimum is the initial value or the coordinate of a
    landmark. *)
Lemma extent_minX_attained (lm : Landmarks) (acc : Box) :
  let e := fold_left (extend inp) lm acc in
  minX e = minX acc \/ exists pt, In (Some pt) lm /\ ndcX inp pt = minX e.
Proof.
  revert acc. induction lm as [|o lm IH]; intros acc; simpl; [now left|].
  destruct (IH (extend inp acc o)) as [H|(pt & Hin & Hpt)].
  - set (e := fold_left (extend inp) lm (extend inp acc o)) in *.
    clearbody e. destruct o as [p|]; cbn [extend minX] in H; [|now left].
    unfold JS.Math_min, Rmin in H. destruct Rle_dec; [now left|].
    right. exists p. split; [now left | congruence].
  - right. exists pt. split; [now right | exact Hpt].
Qed.

Lemma extent_maxX_attained (lm : Landmarks) (acc : Box) :
  let e := fold_left (extend inp) lm acc in
  maxX e = maxX acc \/ exists pt, In (Some pt) lm /\ ndcX inp pt = maxX e.
Proof.
  revert acc. induction lm as [|o lm IH]; intros acc; simpl; [now left|].
  destruct (IH (extend inp acc o)) as [H|(pt & Hin & Hpt)].
  - set (e := fold_left (extend inp) lm (extend inp acc o)) in *.
    clearbody e. destruct o as [p|]; cbn [extend maxX] in H; [|now left].
    unfold JS.Math_max, Rmax in H. destruct Rle_dec; [|now left].
    right. exists p. split; [now left | congruence].
  - right. exists pt. split; [now right | exact Hpt].
Qed.

Lemma extent_minY_attained (lm : Landmarks) (acc : Box) :
  let e := fold_left (extend inp) lm acc in
  minY e = minY acc \/ exists pt, In (Some pt) lm /\ ndcY pt = minY e.
Proof.
  revert acc. induction lm as [|o lm IH]; intros acc; simpl; [now left|].
  destruct (IH (extend inp acc o)) as [H|(pt & Hin & Hpt)].
  - set (e := fold_left (extend inp) lm (extend inp acc o)) in *.
    clearbody e. destruct o as [p|]; cbn [extend minY] in H; [|now left].
    unfold JS.Math_min, Rmin in H. destruct Rle_dec; [now left|].
    right. exists p. split; [now left | congruence].
  - right. exists pt. split; [now right | exact Hpt].
Qed.

Lemma extent_maxY_attained (lm : Landmarks) (acc : Box) :
  let e := fold_left (extend inp) lm acc in
  maxY e = maxY acc \/ exists pt, In (Some pt) lm /\ ndcY pt = maxY e.
Proof.
  revert acc. induction lm as [|o lm IH]; intros acc; simpl; [now left|].
  destruct (IH (extend inp acc o)) as [H|(pt & Hin & Hpt)].
  - set (e := fold_left (extend inp) lm (extend inp acc o)) in *.
    clearbody e. destruct o as [p|]; cbn [extend maxY] in H; [|now left].
    unfold JS.Math_max, Rmax in H. destruct Rle_dec; [|now left].
    right. exists p. split; [now left | congruence].
  - right. exists pt. split; [now right | exact Hpt].
Qed.

(** The box pushed for a person holds every landmark of that person with
    the two paddings to spare, and sits exactly [padX] left of the
    leftmost landmark. *)
Lemma poseBox_some (lm : Landmarks) (bb : Box) :
  poseBox inp lm = Some bb ->
  (forall pt, In (Some pt) lm -> paddedInside inp bb pt)
  /\ exists pt, In (Some pt) lm /\ ndcX inp pt = minX bb + 0.06.
Proof.
  unfold poseBox. cbv zeta.
  destruct (JS.ltb _ _) eqn:E; [|discriminate].
  apply ltb_true_iff in E. intros H. injection H as <-.
  destruct (extent_fold lm (mkBox 999 (-999) 999 (-999))) as [_ Hin].
  cbv zeta in Hin. fold (extent inp lm) in Hin. split.
  - intros pt Hpt. destruct (Hin pt Hpt) as [Hx Hy].
    unfold paddedInside. simpl. lra.
  - destruct (extent_minX_attained lm (mkBox 999 (-999) 999 (-999)))
      as [H|(pt & Hpt & Hx)];
      fold (extent inp lm) in *; simpl in *; [lra|].
    exists pt. split; [exact Hpt | lra].
Qed.

(** When the landmarks of the person lie inside the image, the box sits
    exactly one padding away from the outermost landmark on the other
    three sides as well. *)
Lemma poseBox_tight (lm : Landmarks) (bb : Box) :
  poseBox inp lm = Some bb ->
  (forall pt, In (Some pt) lm -> normalized pt) ->
  (exists pt, In (Some pt) lm /\ ndcX inp pt = maxX bb - 0.06)
  /\ (exists pt, In (Some pt) lm /\ ndcY pt = minY bb + 0.08)
  /\ (exists pt, In (Some pt) lm /\ ndcY pt = maxY bb - 0.08).
Proof.
  intros Hbb Hnorm.
  destruct (poseBox_some lm bb Hbb) as [_ (p0 & Hp0 & _)].
  destruct (ndc_normalized p0 (Hnorm p0 Hp0)) as [Hx0 Hy0].
  revert Hbb. unfold poseBox. cbv zeta.
  destruct (JS.ltb _ _) eqn:E; [|discriminate].
  intros H. injection H as <-.
  destruct (extent_fold lm (mkBox 999 (-999) 999 (-999))) as [_ Hin].
  cbv zeta in Hin. fold (extent inp lm) in Hin.
  destruct (Hin p0 Hp0) as [Hbx Hby].
  refine (conj _ (conj _ _)).
  - destruct (extent_maxX_attained lm (mkBox 999 (-999) 999 (-999)))
      as [H|(pt & Hpt & Hx)];
      fold (extent inp lm) in *; simpl in *; [lra|].
    exists pt. split; [exact Hpt | lra].
  - destruct (extent_minY_attained lm (mkBox 999 (-999) 999 (-999)))
      as [H|(pt & Hpt & Hy)];
      fold (extent inp lm) in *; simpl in *; [lra|].
    exists pt. split; [exact Hpt | lra].
  - destruct (extent_maxY_attained lm (mkBox 999 (-999) 999 (-999)))
      as [H|(pt & Hpt & Hy)];
      fold (extent inp lm) in *; simpl in *; [lra|].
    exists pt. split; [exact Hpt | lra].
Qed.

Lemma poseBox_exists (lm : Landmarks) (pt : Landmark) :
  In (Some pt) lm -> ndcX inp pt < 998 ->
  exists bb, poseBox inp lm = Some bb.
Proof.
  intros Hin Hx. unfold poseBox. cbv zeta.
  destruct (extent_fold lm (mkBox 999 (-999) 999 (-999))) as [_ H].
  cbv zeta in H. fold (extent inp lm) in H.
  destruct (H pt Hin) as [[Hlo _] _].
  rewrite (proj2 (ltb_true_iff _ _)) by lra. eexists. reflexivity.
Qed.

Lemma poseBoxes_in (poses : list Landmarks) (lm : Landmarks) (bb : Box) :
  In lm poses -> poseBox inp lm = Some bb -> In bb (poseBoxes inp poses).
Proof.
  intros Hin Hbb. unfold poseBoxes. apply in_flat_map.
  exists lm. split; [exact Hin|]. rewrite Hbb. now left.
Qed.

Lemma poseBoxes_from (poses : list Landmarks) (bb : Box) :
  In bb (poseBoxes inp poses) ->
  exists lm, In lm poses /\ poseBox inp lm = Some bb.
Proof.
  unfold poseBoxes. intros H. apply in_flat_map in H.
  destruct H as (lm & Hin & Hbb). exists lm. split; [exact Hin|].
  destruct (poseBox inp lm) as [bb'|]; [|destruct Hbb].
  destruct Hbb as [->|[]]. reflexivity.
Qed.

(** At most one box per person. *)
Lemma poseBoxes_length (poses : list Landmarks) :
  (List.length (poseBoxes inp poses) <= List.length poses)%nat.
Proof.
  unfold poseBoxes. induction poses as [|lm poses IH]; simpl; [lia|].
  rewrite length_app. destruct (poseBox inp lm); simpl; lia.
Qed.

End BodyBoxes.

(** Unless the mode is full-body and the guards let the detection
    through, the list is left empty and nothing is recorded. *)
Lemma updateFullBodyBoxes_guarded (cfg : Balloons.Config)
    (inp : Tracking.Inputs) (poses : list Tracking.Landmarks)
    (h : Tracking.Host) :
  ~ (Balloons.trackMode (Balloons.interaction cfg) = "fullBody"%string
     /\ freshPoseFrame inp h) ->
  Tracking.updateFullBodyBoxes cfg inp poses h = (h, []).
Proof.
  intros Hn. unfold Tracking.updateFullBodyBoxes.
  destruct (String.eqb _ _) eqn:Em; [|reflexivity].
  destruct (Tracking.poseEnabled inp) eqn:Ee; [|reflexivity].
  destruct (Tracking.poseReady h) eqn:Er; [|reflexivity].
  destruct (JS.eqb (Tracking.videoWidth h) 0) eqn:Ew; [reflexivity|].
  destruct (JS.eqb (Tracking.currentTime h) _) eqn:Et; [reflexivity|].
  exfalso. apply Hn. apply String.eqb_eq in Em.
  apply eqb_false_iff in Ew. apply eqb_false_iff in Et.
  unfold freshPoseFrame. auto.
Qed.

(** X17.  The pose boxes of the full-body mode.  [updateFullBodyBoxes]
    always empties the list first; it refills it only in full-body mode
    with pose tracking enabled and ready, a video that has a size and a
    playback time that has moved since the last detection.  It then holds,
    for every detected person with at least one landmark left of 998, a
    box, and at most one box per person.  The box of a person contains
    every landmark of that person with the two paddings to spare: every
    landmark is at least 0.06 away from the left and the right side of
    the box and at least 0.08 away from its bottom and its top.  The box
    is no larger than that on the left, where a landmark lies exactly
    0.06 inside; when the landmarks of the person lie inside the image,
    the same holds of the right side, and of the bottom and the top with
    0.08.  A balloon whose projection falls on a landmark left of 998, at
    a depth in the clip range, is hovered.  The playback time is
    recorded, so a second call for the same video frame leaves the list
    empty: the boxes of a detection last for one frame of the simulation.
    In every other case (another mode, tracking disabled or not ready, a
    video without size, a playback time that has not moved) the list is
    left empty and nothing is recorded. *)
Theorem X17_full_body_boxes :
  forall (cfg : Balloons.Config) (inp : Tracking.Inputs)
         (poses : list Tracking.Landmarks) (h : Tracking.Host),
    Balloons.trackMode (Balloons.interaction cfg) = "fullBody"%string ->
    freshPoseFrame inp h ->
    let r := Tracking.updateFullBodyBoxes cfg inp poses h in
    let padded (bb : Balloons.Box) (pt : Tracking.Landmark) :=
      Balloons.minX bb + 0.06 <= Tracking.ndcX inp pt
        <= Balloons.maxX bb - 0.06
      /\ Balloons.minY bb + 0.08 <= Tracking.ndcY pt
           <= Balloons.maxY bb - 0.08 in
    (* a box for every person with a landmark left of 998 *)
    (forall lm pt,
        In lm poses -> In (Some pt) lm -> Tracking.ndcX inp pt < 998 ->
        exists bb, In bb (snd r)
                   /\ forall q, In (Some q) lm -> padded bb q)
    (* every box is the padded extent of one person *)
    /\ (forall bb, In bb (snd r) ->
          exists lm,
            In lm poses
            /\ (forall pt, In (Some pt) lm -> padded bb pt)
            /\ (exists pt, In (Some pt) lm
                           /\ Tracking.ndcX inp pt = Balloons.minX bb + 0.06)
            /\ ((forall pt, In (Some pt) lm -> normalized pt) ->
                (exists pt, In (Some pt) lm
                            /\ Tracking.ndcX inp pt
                               = Balloons.maxX bb - 0.06)
                /\ (exists pt, In (Some pt) lm
                               /\ Tracking.ndcY pt
                                  = Balloons.minY bb + 0.08)
                /\ (exists pt, In (Some pt) lm
                               /\ Tracking.ndcY pt
                                  = Balloons.maxY bb - 0.08)))
    /\ (List.length (snd r) <= List.length poses)%nat
    (* the boxes last for one frame *)
    /\ Tracking.lastPoseVideoTime (fst r) = Tracking.currentTime h
    /\ snd (Tracking.updateFullBodyBoxes cfg inp poses (fst r)) = []
    (* a balloon on a landmark is hovered *)
    /\ (forall lm pt project o b,
          In lm poses -> In (Some pt) lm -> Tracking.ndcX inp pt < 998 ->
          V3.x (project (Balloons.pos b)) = Tracking.ndcX inp pt ->
          V3.y (project (Balloons.pos b)) = Tracking.ndcY pt ->
          inClipRange project (Balloons.pos b) ->
          Balloons.hoveredTest cfg project (snd r) o b = true)
    (* in every other case the list is left empty *)
    /\ (forall cfg' h',
          ~ (Balloons.trackMode (Balloons.interaction cfg')
               = "fullBody"%string
             /\ freshPoseFrame inp h') ->
          Tracking.updateFullBodyBoxes cfg' inp poses h' = (h', [])).
Proof.
  intros cfg inp poses h Hmode (He & Hr & Hw & Ht) r padded.
  assert (Hw' : JS.eqb (Tracking.videoWidth h) 0 = false)
    by now apply eqb_false_iff.
  assert (Ht' : JS.eqb (Tracking.currentTime h)
                       (Tracking.lastPoseVideoTime h) = false)
    by now apply eqb_false_iff.
  assert (Er : r = (Tracking.set_lastPoseVideoTime h (Tracking.currentTime h),
                    Tracking.poseBoxes inp poses)).
  { unfold r, Tracking.updateFullBodyBoxes.
    rewrite Hmode, He, Hr, Hw', Ht'. reflexivity. }
  rewrite Er. cbn [fst snd].
  refine (conj _ (conj _ (conj _ (conj eq_refl (conj _ (conj _ _)))))).
  2: { intros bb Hbb.
       destruct (poseBoxes_from inp poses bb Hbb) as (lm & Hin & E).
       exists lm. split; [exact Hin|].
       destruct (poseBox_some inp lm bb E) as [Hpad Hleft].
       split; [exact Hpad|]. split; [exact Hleft|].
       intros Hnorm. now apply (poseBox_tight inp lm bb). }
  5: { intros cfg' h'. apply updateFullBodyBoxes_guarded. }
  - intros lm pt Hlm Hpt Hx.
    destruct (poseBox_exists inp lm pt Hpt Hx) as [bb Hbb].
    exists bb. split; [now apply (poseBoxes_in inp poses lm)|].
    intros q Hq. exact (proj1 (poseBox_some inp lm bb Hbb) q Hq).
  - apply poseBoxes_length.
  - unfold Tracking.updateFullBodyBoxes.
    rewrite Hmode, He. cbn [Tracking.poseReady Tracking.set_lastPoseVideoTime
                            Tracking.videoWidth Tracking.currentTime
                            Tracking.lastPoseVideoTime].
    rewrite Hr, Hw'.
    rewrite (proj2 (eqb_true_iff _ _) eq_refl). reflexivity.
  - intros lm pt project o b Hlm Hpt Hx Hpx Hpy Hclip.
    destruct (poseBox_exists inp lm pt Hpt Hx) as [bb Hbb].
    apply (hoveredTest_fullBody cfg project _ o b Hmode).
    split; [exact Hclip|]. exists bb.
    split; [now apply (poseBoxes_in inp poses lm)|].
    destruct (poseBox_some inp lm bb Hbb) as [Hin _].
    destruct (Hin pt Hpt) as [H1 H2]. unfold inBox. rewrite Hpx, Hpy. lra.
Qed.

(** The theorem at the configuration of the source switched to the
    full-body mode, for one person of whom two landmarks were found, at
    (-0.5, 0) and (0.5, 0.5) on screen: the one box holds the first with
    the paddings to spare, and a second call for the same video frame
    leaves no box. *)
Lemma X17_full_body_boxes_witness :
  Balloons.trackMode (Balloons.interaction fullBodyConfig)
    = "fullBody"%string
  /\ freshPoseFrame Tracking.INPUTS readyHost
  /\ (exists bb,
        In bb (snd (Tracking.updateFullBodyBoxes fullBodyConfig
                      Tracking.INPUTS [samplePerson] readyHost))
        /\ Balloons.minX bb + 0.06 <= -0.5 <= Balloons.maxX bb - 0.06
        /\ Balloons.minY bb + 0.08 <= 0 <= Balloons.maxY bb - 0.08)
  /\ snd (Tracking.updateFullBodyBoxes fullBodyConfig Tracking.INPUTS
            [samplePerson]
            (fst (Tracking.updateFullBodyBoxes fullBodyConfig Tracking.INPUTS
                    [samplePerson] readyHost)))
     = [].
Proof.
  assert (Hmode : Balloons.trackMode (Balloons.interaction fullBodyConfig)
                  = "fullBody"%string) by reflexivity.
  assert (Hfresh : freshPoseFrame Tracking.INPUTS readyHost).
  { unfold freshPoseFrame. simpl. repeat split; lra. }
  split; [exact Hmode|]. split; [exact Hfresh|].
  pose proof (X17_full_body_boxes fullBodyConfig Tracking.INPUTS
                [samplePerson] readyHost Hmode Hfresh)
    as (H1 & _ & _ & _ & H5 & _).
  split; [|exact H5].
  destruct (H1 samplePerson (Tracking.mkLandmark 0.25 0.5))
    as (bb & Hbb & Hpad).
  - now left.
  - now left.
  - unfold Tracking.ndcX. simpl. lra.
  - exists bb. split; [exact Hbb|].
    destruct (Hpad (Tracking.mkLandmark 0.25 0.5)) as [Hx Hy]; [now left|].
    unfold Tracking.ndcX, Tracking.ndcY in Hx, Hy. simpl in Hx, Hy.
    split; lra.
Defined.

(* ====================================================================== *)
(** ** The orb slots of the tracking points                                *)
(* ====================================================================== *)

Section OrbSlots.

Import Balloons Tracking.

Variable cfg : Config.
Variable inp : Inputs.
Variable toWorld : R -> R -> V3.t.

(** The write that a landmark gives rise to. *)
Lemma wristWritesOf_in (p : nat) (lm : Landmarks) (w : Z * V3.t * R) :
  In w (wristWritesOf inp toWorld p lm) <->
  (exists lw, entry lm (leftWristIndex inp) = Some lw
              /\ w = (Z.of_nat (1 + p * 2),
                      toWorld (ndcX inp lw) (ndcY lw), 1.0))
  \/ (exists rw, entry lm (rightWristIndex inp) = Some rw
                 /\ w = (Z.of_nat (1 + p * 2 + 1),
                         toWorld (ndcX inp rw) (ndcY rw), 1.0)).
Proof.
  assert (HL : forall (e : option Landmark) (z : Z),
             In w (match e with
                   | Some l => [(z, toWorld (ndcX inp l) (ndcY l), 1.0)]
                   | None => []
                   end)
             <-> exists l, e = Some l
                           /\ w = (z, toWorld (ndcX inp l) (ndcY l), 1.0)).
  { intros [l|] z; simpl; split.
    - intros [<-|[]]. eauto.
    - intros (l' & E & ->). injection E as <-. now left.
    - intros [].
    - intros (l' & E & _). discriminate. }
  unfold wristWritesOf. rewrite in_app_iff, !HL. reflexivity.
Qed.

Lemma wristWrites_in (poses : list Landmarks) (p0 : nat)
    (w : Z * V3.t * R) :
  In w (wristWrites inp toWorld p0 poses) <->
  exists p lm, nth_error poses p = Some lm
               /\ In w (wristWritesOf inp toWorld (p0 + p) lm).
Proof.
  revert p0. induction poses as [|lm0 rest IH]; intros p0; simpl.
  - split; [intros [] | intros ([|p] & lm & E & _); discriminate].
  - rewrite in_app_iff, IH. split.
    + intros [H|(p & lm & E & H)].
      * exists 0%nat, lm0. rewrite Nat.add_0_r. auto.
      * exists (S p), lm. split; [exact E|].
        now replace (p0 + S p)%nat with (S p0 + p)%nat by lia.
    + intros ([|p] & lm & E & H); simpl in E.
      * injection E as <-. left. now rewrite Nat.add_0_r in H.
      * right. exists p, lm. split; [exact E|].
        now replace (S p0 + p)%nat with (p0 + S p)%nat by lia.
Qed.

(** The slots of the fingertips, with the running slot. *)
Lemma fingerWrites_in (tips : list (option Landmark)) (slot : nat)
    (w : Z * V3.t * R) :
  In w (fingerWrites cfg inp toWorld tips slot) <->
  exists n pt, nth_error tips n = Some (Some pt)
               /\ (slot + n < MAX_ORBS cfg)%nat
               /\ w = (Z.of_nat (slot + n),
                       toWorld (ndcX inp pt) (ndcY pt), 1.0).
Proof.
  revert slot. induction tips as [|tip rest IH]; intros slot.
  - simpl. split; [intros [] | intros ([|n] & pt & E & _); discriminate].
  - change (fingerWrites cfg inp toWorld (tip :: rest) slot)
      with (if (MAX_ORBS cfg <=? slot)%nat then []
            else match tip with
                 | None => fingerWrites cfg inp toWorld rest (S slot)
                 | Some pt =>
                     (Z.of_nat slot, toWorld (ndcX inp pt) (ndcY pt), 1.0)
                     :: fingerWrites cfg inp toWorld rest (S slot)
                 end).
    destruct (MAX_ORBS cfg <=? slot)%nat eqn:Efull.
    + apply Nat.leb_le in Efull.
      split; [intros [] | intros (n & pt & _ & Hlt & _); lia].
    + apply Nat.leb_gt in Efull.
      assert (Hrest : In w (fingerWrites cfg inp toWorld rest (S slot)) <->
                exists n pt, nth_error rest n = Some (Some pt)
                             /\ (slot + S n < MAX_ORBS cfg)%nat
                             /\ w = (Z.of_nat (slot + S n),
                                     toWorld (ndcX inp pt) (ndcY pt), 1.0)).
      { rewrite IH. split; intros (n & pt & E & Hlt & Hw); exists n, pt;
          (split; [exact E|]); (split; [lia|]); rewrite Hw;
          do 3 f_equal; lia. }
      destruct tip as [pt0|]; cbn [In]; rewrite ?Hrest; split.
      * intros [<-|(n & pt & E & Hlt & ->)].
        -- exists 0%nat, pt0. rewrite Nat.add_0_r. auto.
        -- exists (S n), pt. auto.
      * intros ([|n] & pt & E & Hlt & ->); simpl in E.
        -- injection E as <-. left. now rewrite Nat.add_0_r.
        -- right. exists n, pt. auto.
      * intros (n & pt & E & Hlt & ->). exists (S n), pt. auto.
      * intros ([|n] & pt & E & Hlt & ->); simpl in E; [discriminate|].
        exists n, pt. auto.
Qed.

(** The fingertip [t] of hand [h] is entry [h * 5 + t] of the sequence
    that the two loops visit. *)
Lemma fingerTips_nth (hands : list Landmarks) (h t : nat) (lm : Landmarks) :
  nth_error hands h = Some lm -> (t < 5)%nat ->
  nth_error (fingerTips hands) (h * 5 + t)
  = Some (entry lm (nth t HAND_TIPS 0%nat)).
Proof.
  revert h. induction hands as [|lm0 rest IH]; intros h E Ht.
  - destruct h; discriminate.
  - unfold fingerTips. simpl flat_map. fold (fingerTips rest).
    destruct h as [|h]; simpl in E.
    + injection E as <-. simpl Nat.mul. simpl Nat.add.
      do 5 (destruct t as [|t]; [reflexivity|]). lia.
    + replace (S h * 5 + t)%nat with (5 + (h * 5 + t))%nat by lia.
      simpl. now apply IH.
Qed.

(** Conversely, every entry of the sequence is the fingertip [t] of some
    hand [h]. *)
Lemma fingerTips_from (hands : list Landmarks) (n : nat)
    (tip : option Landmark) :
  nth_error (fingerTips hands) n = Some tip ->
  exists h t lm,
    n = (h * 5 + t)%nat /\ (t < 5)%nat /\ nth_error hands h = Some lm
    /\ tip = entry lm (nth t HAND_TIPS 0%nat).
Proof.
  revert n. induction hands as [|lm0 rest IH]; intros n E.
  - destruct n; discriminate.
  - unfold fingerTips in E. simpl flat_map in E. fold (fingerTips rest) in E.
    destruct (Nat.lt_ge_cases n 5) as [Hlt|Hge].
    + exists 0%nat, n, lm0. split; [lia|]. split; [exact Hlt|].
      split; [reflexivity|].
      do 5 (destruct n as [|n]; [simpl in E; now injection E as <-|]). lia.
    + replace n with (5 + (n - 5))%nat in E by lia. simpl in E.
      destruct (IH (n - 5)%nat E) as (h & t & lm & Hn & Ht & Eh & Etip).
      exists (S h), t, lm. split; [lia|]. split; [exact Ht|].
      split; [exact Eh | exact Etip].
Qed.

End OrbSlots.

Lemma FINGER_SLOTS_START_eq (cfg : Balloons.Config) :
  Balloons.MAX_ORBS cfg
  = (Tracking.FINGER_SLOTS_START cfg
     + Balloons.maxHands (Balloons.interaction cfg) * 5)%nat.
Proof.
  unfold Balloons.MAX_ORBS, Tracking.FINGER_SLOTS_START,
    Tracking.WRIST_SLOTS_START, Tracking.WRIST_SLOTS_COUNT,
    Balloons.FINGERTIPS_PER_HAND.
  lia.
Qed.

(** X18.  The orb slots of the tracking points are stable and never
    collide.  Slot 0 is the mouse's.  In wrists mode the left wrist of
    person [p] is written to slot [1 + 2p] and the right wrist to slot
    [2 + 2p], nothing else is written, and with at most [maxPeople]
    persons every slot written lies below [FINGER_SLOTS_START].  In
    fingers mode fingertip [t] (of the five of [HAND_TIPS]) of hand [h]
    is written to slot [FINGER_SLOTS_START + 5h + t] whether or not
    other fingertips are missing (a missing tip leaves its slot
    unwritten, it does not shift the others), nothing else is written,
    every slot written lies from [FINGER_SLOTS_START] to below
    [MAX_ORBS], and the tips of the first [maxHands] hands all fit; hands
    beyond that are dropped.  Every point is written with strength 1. *)
Theorem X18_tracking_slots :
  forall (cfg : Balloons.Config) (inp : Tracking.Inputs)
         (toWorld : R -> R -> V3.t)
         (poses hands : list Tracking.Landmarks) (w : Z * V3.t * R),
    let start := Tracking.FINGER_SLOTS_START cfg in
    let point pt := toWorld (Tracking.ndcX inp pt) (Tracking.ndcY pt) in
    (In w (Tracking.wristWrites inp toWorld 0 poses) <->
     exists p lm pt,
       nth_error poses p = Some lm
       /\ ((Tracking.entry lm (Tracking.leftWristIndex inp) = Some pt
            /\ w = (Z.of_nat (1 + p * 2), point pt, 1.0))
           \/ (Tracking.entry lm (Tracking.rightWristIndex inp) = Some pt
               /\ w = (Z.of_nat (1 + p * 2 + 1), point pt, 1.0))))
    /\ ((List.length poses
         <= Balloons.maxPeople (Balloons.interaction cfg))%nat ->
        In w (Tracking.wristWrites inp toWorld 0 poses) ->
        (1 <= fst (fst w) < Z.of_nat start)%Z)
    /\ (In w (Tracking.fingerWrites cfg inp toWorld
                (Tracking.fingerTips hands) start) <->
        exists h t lm pt,
          nth_error hands h = Some lm /\ (t < 5)%nat
          /\ Tracking.entry lm (nth t Tracking.HAND_TIPS 0%nat) = Some pt
          /\ (start + h * 5 + t < Balloons.MAX_ORBS cfg)%nat
          /\ w = (Z.of_nat (start + h * 5 + t), point pt, 1.0))
    /\ (In w (Tracking.fingerWrites cfg inp toWorld
                (Tracking.fingerTips hands) start) ->
        (Z.of_nat start <= fst (fst w) < Z.of_nat (Balloons.MAX_ORBS cfg))%Z
        /\ snd w = 1.0)
    /\ (forall h t lm pt,
          nth_error hands h = Some lm -> (t < 5)%nat ->
          Tracking.entry lm (nth t Tracking.HAND_TIPS 0%nat) = Some pt ->
          (h < Balloons.maxHands (Balloons.interaction cfg))%nat ->
          In (Z.of_nat (start + h * 5 + t), point pt, 1.0)
             (Tracking.fingerWrites cfg inp toWorld
                (Tracking.fingerTips hands) start)).
Proof.
  intros cfg inp toWorld poses hands w start point.
  assert (Hw : In w (Tracking.wristWrites inp toWorld 0 poses) <->
               exists p lm pt,
                 nth_error poses p = Some lm
                 /\ ((Tracking.entry lm (Tracking.leftWristIndex inp) = Some pt
                      /\ w = (Z.of_nat (1 + p * 2), point pt, 1.0))
                     \/ (Tracking.entry lm (Tracking.rightWristIndex inp)
                         = Some pt
                         /\ w = (Z.of_nat (1 + p * 2 + 1), point pt, 1.0)))).
  { rewrite wristWrites_in. split.
    - intros (p & lm & E & H). apply wristWritesOf_in in H. simpl in H.
      destruct H as [(pt & Hpt & ->)|(pt & Hpt & ->)];
        exists p, lm, pt; (split; [exact E|]); [left|right]; auto.
    - intros (p & lm & pt & E & H). exists p, lm. split; [exact E|].
      apply wristWritesOf_in. simpl.
      destruct H as [[Hpt ->]|[Hpt ->]]; [left|right]; eauto. }
  refine (conj Hw (conj _ (conj _ (conj _ _)))).
  - intros Hlen Hin. apply Hw in Hin.
    destruct Hin as (p & lm & pt & E & H).
    assert (Hp : (p < List.length poses)%nat).
    { apply nth_error_Some. congruence. }
    unfold start, Tracking.FINGER_SLOTS_START, Tracking.WRIST_SLOTS_START,
      Tracking.WRIST_SLOTS_COUNT.
    destruct H as [[_ ->]|[_ ->]]; cbn [fst]; lia.
  - rewrite fingerWrites_in. split.
    + intros (n & pt & E & Hlt & ->).
      destruct (fingerTips_from hands n (Some pt) E)
        as (h & t & lm & -> & Ht & Eh & Etip).
      exists h, t, lm, pt. split; [exact Eh|]. split; [exact Ht|].
      split; [now symmetry|]. split; [fold start in Hlt; lia|].
      now rewrite Nat.add_assoc.
    + intros (h & t & lm & pt & Eh & Ht & Etip & Hlt & ->).
      exists (h * 5 + t)%nat, pt.
      split; [rewrite (fingerTips_nth hands h t lm Eh Ht); now rewrite Etip|].
      split; [fold start; lia|]. now rewrite Nat.add_assoc.
  - intros Hin. apply fingerWrites_in in Hin.
    destruct Hin as (n & pt & _ & Hlt & ->). cbn [fst snd].
    split; [lia | reflexivity].
  - intros h t lm pt Eh Ht Ept Hh. apply fingerWrites_in.
    exists (h * 5 + t)%nat, pt.
    split; [rewrite (fingerTips_nth hands h t lm Eh Ht); now rewrite Ept|].
    split.
    + rewrite (FINGER_SLOTS_START_eq cfg). fold start. nia.
    + now rewrite Nat.add_assoc.
Qed.

(** The theorem at the configuration of the source. *)
Lemma X18_tracking_slots_witness :
  In (Z.of_nat (Tracking.FINGER_SLOTS_START Balloons.CONFIG + 0 * 5 + 1),
      V3.mk 0 0 0, 1.0)
     (Tracking.fingerWrites Balloons.CONFIG Tracking.INPUTS
        (fun _ _ => V3.mk 0 0 0) (Tracking.fingerTips [sampleHand])
        (Tracking.FINGER_SLOTS_START Balloons.CONFIG)).
Proof.
  refine (proj2 (proj2 (proj2 (proj2
            (X18_tracking_slots Balloons.CONFIG Tracking.INPUTS
               (fun _ _ => V3.mk 0 0 0) [] [sampleHand]
               (0%Z, V3.mk 0 0 0, 1.0)))))
            0%nat 1%nat sampleHand (Tracking.mkLandmark 0.5 0.5)
            eq_refl _ eq_refl _); simpl; lia.
Defined.

(* ====================================================================== *)
(** ** The guards of the tracking functions and of the mouse               *)
(* ====================================================================== *)

Lemma applyWrites_returns (cfg : Balloons.Config) (ws : list (Z * V3.t * R))
    (o : Balloons.Orbs) :
  orbsWF cfg o ->
  exists o', Balloons.applyWrites cfg ws o = Some o' /\ orbsWF cfg o'.
Proof.
  revert o. induction ws as [|[[slot p] strength] rest IH];
    intros o Hwf; simpl.
  - exists o. auto.
  - destruct (Z_lt_dec slot 0) as [Hneg|Hnn].
    { rewrite setOrb_out_of_range by lia. now apply IH. }
    destruct (Z_le_dec (Z.of_nat (Balloons.MAX_ORBS cfg)) slot) as [Hbig|Hin].
    { rewrite setOrb_out_of_range by lia. now apply IH. }
    destruct (setOrb_in_range cfg slot p strength o Hwf) as (o1 & -> & Hwf1 & _);
      [lia|].
    now apply IH.
Qed.

Lemma pointer_in_canvas (c lo size : R) :
  0 < size -> lo <= c <= lo + size -> 0 <= (c - lo) / size <= 1.
Proof.
  intros Hs Hc. split.
  - apply Rmult_le_pos; [lra|]. left. now apply Rinv_0_lt_compat.
  - apply (Rmult_le_reg_r size); [exact Hs|].
    unfold Rdiv. rewrite Rmult_assoc, Rinv_l by lra. lra.
Qed.

(** X19.  The inputs of a frame are guarded.  With orb arrays of
    [MAX_ORBS] entries, the two tracking functions and [updateMouseOrb]
    never raise an exception and keep the arrays at that size.  A
    tracking function that has just run does nothing when it is called
    again before the video has advanced.  [updateMouseOrb] writes slot 0
    at most; it writes nothing while the pointer is parked at (999, 999),
    where the [pointerleave] listener puts it, and nothing without a hit.
    A [pointermove] event inside the canvas gives pointer coordinates
    between -1 and 1, which pass the guard: the nearest hit is then
    written to slot 0 with strength 1. *)
Theorem X19_inputs_guarded :
  forall (cfg : Balloons.Config) (inp : Tracking.Inputs)
         (toWorld : R -> R -> V3.t)
         (poses hands : list Tracking.Landmarks) (hits : list V3.t)
         (h : Tracking.Host) (o : Balloons.Orbs),
    orbsWF cfg o ->
    (exists h' o',
        Tracking.addPoseWristOrbPoints cfg inp toWorld poses h o
        = Some (h', o')
        /\ orbsWF cfg o'
        /\ Tracking.addPoseWristOrbPoints cfg inp toWorld poses h' o'
           = Some (h', o'))
    /\ (exists h' o',
        Tracking.addFingerOrbPoints cfg inp toWorld hands h o = Some (h', o')
        /\ orbsWF cfg o'
        /\ Tracking.addFingerOrbPoints cfg inp toWorld hands h' o'
           = Some (h', o'))
    /\ (forall pointer, exists o',
          Tracking.updateMouseOrb cfg inp pointer hits o = Some o'
          /\ orbsWF cfg o' /\ sameElsewhere 0 o o')
    /\ Tracking.updateMouseOrb cfg inp Tracking.onPointerLeave hits o = Some o
    /\ (forall pointer,
          Tracking.updateMouseOrb cfg inp pointer [] o = Some o)
    /\ (forall clientX clientY left top width height pointer,
          Tracking.mouseEnabled inp = true ->
          0 < width -> 0 < height ->
          left <= clientX <= left + width ->
          top <= clientY <= top + height ->
          let p := Tracking.onPointerMove inp clientX clientY left top
                                          width height pointer in
          (-1 <= fst p <= 1 /\ -1 <= snd p <= 1)
          /\ forall hit rest,
               Tracking.updateMouseOrb cfg inp p (hit :: rest) o
               = Balloons.setOrb cfg 0 hit 1.0 o).
Proof.
  intros cfg inp toWorld poses hands hits h o Hwf.
  assert (Hzero : (0 < Balloons.MAX_ORBS cfg)%nat)
    by (unfold Balloons.MAX_ORBS; lia).
  refine (conj _ (conj _ (conj _ (conj _ (conj _ _))))).
  - unfold Tracking.addPoseWristOrbPoints.
    destruct (negb (String.eqb _ _)) eqn:E1;
      [exists h, o; rewrite ?E1, ?E2, ?E3, ?E4, ?E5; auto|].
    destruct (negb (Tracking.poseEnabled inp)) eqn:E2;
      [exists h, o; rewrite ?E1, ?E2, ?E3, ?E4, ?E5; auto|].
    destruct (negb (Tracking.poseReady h)) eqn:E3;
      [exists h, o; rewrite ?E1, ?E2, ?E3, ?E4, ?E5; auto|].
    destruct (JS.eqb (Tracking.videoWidth h) 0) eqn:E4;
      [exists h, o; rewrite ?E1, ?E2, ?E3, ?E4, ?E5; auto|].
    destruct (JS.eqb (Tracking.currentTime h) (Tracking.lastPoseVideoTime h))
      eqn:E5; [exists h, o; rewrite ?E1, ?E2, ?E3, ?E4, ?E5; auto|].
    destruct (applyWrites_returns cfg
                (Tracking.wristWrites inp toWorld 0 poses) o Hwf)
      as (o' & -> & Hwf').
    eexists _, o'. split; [reflexivity|]. split; [exact Hwf'|].
    rewrite ?E1.
    cbn [Tracking.poseReady Tracking.videoWidth Tracking.currentTime
         Tracking.lastPoseVideoTime Tracking.set_lastPoseVideoTime].
    rewrite E3, E4, (proj2 (eqb_true_iff _ _) eq_refl). reflexivity.
  - unfold Tracking.addFingerOrbPoints.
    destruct (negb (String.eqb _ _)) eqn:E1;
      [exists h, o; rewrite ?E1, ?E2, ?E3, ?E4, ?E5; auto|].
    destruct (negb (Tracking.handsReady h)) eqn:E3;
      [exists h, o; rewrite ?E1, ?E2, ?E3, ?E4, ?E5; auto|].
    destruct (JS.eqb (Tracking.videoWidth h) 0) eqn:E4;
      [exists h, o; rewrite ?E1, ?E2, ?E3, ?E4, ?E5; auto|].
    destruct (JS.eqb (Tracking.currentTime h) (Tracking.lastHandsVideoTime h))
      eqn:E5; [exists h, o; rewrite ?E1, ?E2, ?E3, ?E4, ?E5; auto|].
    destruct (applyWrites_returns cfg
                (Tracking.fingerWrites cfg inp toWorld
                   (Tracking.fingerTips hands)
                   (Tracking.FINGER_SLOTS_START cfg)) o Hwf)
      as (o' & -> & Hwf').
    eexists _, o'. split; [reflexivity|]. split; [exact Hwf'|].
    rewrite ?E1.
    cbn [Tracking.handsReady Tracking.videoWidth Tracking.currentTime
         Tracking.lastHandsVideoTime Tracking.set_lastHandsVideoTime].
    rewrite E3, E4, (proj2 (eqb_true_iff _ _) eq_refl). reflexivity.
  - intros pointer. unfold Tracking.updateMouseOrb.
    destruct (negb _); [exists o; split; [|split];
                        auto using sameElsewhere_refl|].
    destruct (_ || _); [exists o; split; [|split];
                        auto using sameElsewhere_refl|].
    destruct hits as [|hit rest];
      [exists o; split; [|split]; auto using sameElsewhere_refl|].
    destruct (setOrb_in_range cfg 0 hit 1.0 o Hwf) as (o' & Hset & Hwf' & _);
      [lia|].
    exists o'. split; [exact Hset|]. split; [exact Hwf'|].
    apply (setOrb_elsewhere cfg 0 hit 1.0 o o' Hwf); [lia | exact Hset].
  - unfold Tracking.updateMouseOrb, Tracking.onPointerLeave. cbn [fst snd].
    destruct (negb _); [reflexivity|].
    assert (E : JS.gtb (JS.Math_abs 999) 2 = true).
    { apply gtb_true_iff. unfold JS.Math_abs. rewrite Rabs_right; lra. }
    now rewrite E.
  - intros pointer. unfold Tracking.updateMouseOrb.
    destruct (negb _); [reflexivity|]. now destruct (_ || _).
  - intros cx cy left top width height pointer Hen Hw Hh Hx Hy p.
    pose proof (pointer_in_canvas cx left width Hw Hx) as Hqx.
    pose proof (pointer_in_canvas cy top height Hh Hy) as Hqy.
    assert (Hp : p = ((cx - left) / width * 2 - 1,
                      - ((cy - top) / height) * 2 + 1)).
    { unfold p, Tracking.onPointerMove. now rewrite Hen. }
    rewrite Hp. cbn [fst snd]. split; [lra|].
    intros hit rest. unfold Tracking.updateMouseOrb. rewrite Hen.
    cbn [negb fst snd].
    assert (E1 : JS.gtb (JS.Math_abs ((cx - left) / width * 2 - 1)) 2 = false).
    { apply gtb_false_iff. unfold JS.Math_abs.
      apply Rle_trans with 1; [apply Rabs_le; lra | lra]. }
    assert (E2 : JS.gtb (JS.Math_abs (- ((cy - top) / height) * 2 + 1)) 2
                 = false).
    { apply gtb_false_iff. unfold JS.Math_abs.
      apply Rle_trans with 1; [apply Rabs_le; lra | lra]. }
    now rewrite E1, E2.
Qed.

(** The theorem at the configuration of the source. *)
Lemma X19_inputs_guarded_witness :
  orbsWF Balloons.CONFIG (Balloons.initialOrbs Balloons.CONFIG)
  /\ Tracking.updateMouseOrb Balloons.CONFIG Tracking.INPUTS
       Tracking.onPointerLeave [V3.mk 0 6 0]
       (Balloons.initialOrbs Balloons.CONFIG)
     = Some (Balloons.initialOrbs Balloons.CONFIG).
Proof.
  split; [apply initialOrbs_WF|].
  exact (proj1 (proj2 (proj2 (proj2
           (X19_inputs_guarded Balloons.CONFIG Tracking.INPUTS
              (fun _ _ => V3.zero) [] [] [V3.mk 0 6 0] readyHost
              (Balloons.initialOrbs Balloons.CONFIG)
              (initialOrbs_WF Balloons.CONFIG)))))).
Defined.

(* ====================================================================== *)
(** ** What a reset writes into a row of the balloon variant               *)
(* ====================================================================== *)

Lemma randomVibrantTint_palette :
  post Balloons.randomVibrantTint
       (fun tint => In tint Balloons.REAL_BALLOON_PALETTE).
Proof.
  unfold Balloons.randomVibrantTint.
  eapply post_bind; [apply post_random|]. intros u Hu. apply post_ret.
  apply nth_In.
  pose proof (floor_index u (List.length Balloons.REAL_BALLOON_PALETTE) Hu)
    as H.
  assert (0 < List.length Balloons.REAL_BALLOON_PALETTE)%nat by (simpl; lia).
  specialize (H H0). lia.
Qed.

Lemma randFloatSpread_abs (range : R) :
  0 <= range ->
  post (JS.randFloatSpread range) (fun v => Rabs v <= range / 2).
Proof.
  intros Hr. eapply post_weaken; [apply post_randFloatSpread|].
  intros v (u & Hu & ->). apply Rabs_le. nra.
Qed.

Lemma resetInstance_rowOK (cfg : Balloons.Config) (bnd : Bounds)
    (isInitial : bool) :
  0 <= Balloons.buoyancyDecayRate (Balloons.physics cfg) ->
  ordered (Balloons.buoyancyDecayVariance (Balloons.physics cfg)) ->
  ordered (Balloons.ampX (Balloons.wobble cfg)) ->
  ordered (Balloons.ampZ (Balloons.wobble cfg)) ->
  ordered (Balloons.speedX (Balloons.wobble cfg)) ->
  ordered (Balloons.speedZ (Balloons.wobble cfg)) ->
  0 <= Balloons.initialVelocity_x_spread (Balloons.spawn cfg) ->
  0 <= Balloons.initialVelocity_z_spread (Balloons.spawn cfg) ->
  post (Balloons.resetInstance cfg bnd isInitial) (rowOK cfg).
Proof.
  intros Hrate Hvar HaX HaZ HsX HsZ Hvx Hvz. unfold Balloons.resetInstance.
  eapply post_bind; [apply post_randFloatSpread|]. intros px _.
  eapply post_bind; [apply post_randFloat|]. intros py _.
  eapply post_bind; [apply post_randFloat|]. intros pz _.
  eapply post_bind; [now apply randFloatSpread_abs|]. intros vx Hvx'.
  eapply post_bind; [apply post_randFloat|]. intros vy _.
  eapply post_bind; [now apply randFloatSpread_abs|]. intros vz Hvz'.
  eapply post_bind; [apply post_random|]. intros u1 _.
  eapply post_bind; [apply post_random|]. intros u2 _.
  eapply post_bind; [apply post_random|]. intros ur Hur.
  eapply post_bind; [apply randFloatSpread_abs; lra|]. intros ang Hang.
  eapply post_bind; [now apply randFloat_within|]. intros k Hk.
  eapply post_bind; [now apply randFloat_within|]. intros ax Hax.
  eapply post_bind; [now apply randFloat_within|]. intros az Haz.
  eapply post_bind; [now apply randFloat_within|]. intros sx Hsx.
  eapply post_bind; [now apply randFloat_within|]. intros sz Hsz.
  eapply post_bind; [apply post_random|]. intros ux Hux.
  eapply post_bind; [apply post_random|]. intros uz Huz.
  eapply post_bind; [apply randomVibrantTint_palette|]. intros tint Htint.
  eapply post_bind; [apply post_random|]. intros r Hr.
  eapply post_bind; [apply post_random|]. intros us Hus.
  apply post_ret. unfold rowOK.
  cbn [Balloons.iBase Balloons.iPatternType Balloons.iSeed Balloons.rotY
       Balloons.angY Balloons.decay Balloons.wAmpX Balloons.wAmpZ
       Balloons.wSpdX Balloons.wSpdZ Balloons.wPhX Balloons.wPhZ
       Balloons.velX Balloons.velZ Balloons.iBuoy Balloons.buoy].
  pose proof PI_RGT_0 as Hpi.
  split; [exact Htint|].
  split; [destruct (JS.ltb r 0.72); [now left|];
          destruct (JS.ltb r 0.92); [right; now left | right; now right]|].
  split; [lra|]. split; [nra|]. split; [lra|].
  split; [unfold within, ordered in *; nra|].
  split; [auto|]. split; [split; nra|].
  split; [exact Hvx'|]. split; [exact Hvz'|]. reflexivity.
Qed.

(** X20.  What [resetInstance] writes into a row, for configured ranges
    that are in order and spreads and a decay rate that are not negative:
    the tint is one of the thirteen of [REAL_BALLOON_PALETTE] (the index
    [(Math.random() * 13) | 0] never leaves the array), the pattern type
    is 0, 1 or 2, the seed lies in [0, 1000), the heading in one turn,
    the spin within 0.225 either way, the decay rate between the
    configured rate times the two ends of the variance range, the wobble
    amplitudes and speeds inside their ranges, the horizontal velocities
    within half their spreads, and the instance attribute [iBuoy] equals
    the buoyancy.  The same holds of every row of the initial fill. *)
Theorem X20_reset_row_parameters :
  forall (cfg : Balloons.Config) (bnd : Bounds) (s : JS.Rand),
    JS.valid s ->
    0 <= Balloons.buoyancyDecayRate (Balloons.physics cfg) ->
    ordered (Balloons.buoyancyDecayVariance (Balloons.physics cfg)) ->
    ordered (Balloons.ampX (Balloons.wobble cfg)) ->
    ordered (Balloons.ampZ (Balloons.wobble cfg)) ->
    ordered (Balloons.speedX (Balloons.wobble cfg)) ->
    ordered (Balloons.speedZ (Balloons.wobble cfg)) ->
    0 <= Balloons.initialVelocity_x_spread (Balloons.spawn cfg) ->
    0 <= Balloons.initialVelocity_z_spread (Balloons.spawn cfg) ->
    (forall isInitial,
        rowOK cfg (fst (Balloons.resetInstance cfg bnd isInitial s)))
    /\ (forall n, Forall (rowOK cfg) (fst (Balloons.initialFill cfg bnd n s))).
Proof.
  intros cfg bnd s Hs Hrate Hvar HaX HaZ HsX HsZ Hvx Hvz. split.
  - intros isInitial.
    exact (proj1 (resetInstance_rowOK cfg bnd isInitial Hrate Hvar HaX HaZ
                    HsX HsZ Hvx Hvz s Hs)).
  - intros n.
    exact (proj1 (proj1 (initialFill_post cfg bnd (rowOK cfg) n
                           (resetInstance_rowOK cfg bnd true Hrate Hvar HaX
                              HaZ HsX HsZ Hvx Hvz) s Hs))).
Qed.

(** The theorem at the configuration of the source. *)
Lemma X20_reset_row_parameters_witness :
  JS.valid halves
  /\ rowOK Balloons.CONFIG
       (fst (Balloons.resetInstance Balloons.CONFIG
               (Balloons.initialBounds Balloons.CONFIG) false halves)).
Proof.
  split; [exact halves_valid|].
  refine (proj1 (X20_reset_row_parameters Balloons.CONFIG
                   (Balloons.initialBounds Balloons.CONFIG) halves
                   halves_valid _ _ _ _ _ _ _ _) false);
    unfold ordered; simpl; lra.
Defined.

(* ====================================================================== *)
(** ** The horizontal drift of a balloon stays bounded                     *)
(* ====================================================================== *)

Section Drift.

Import Balloons.

Variable cfg : Config.
Variable bnd : Bounds.
Variables M A D : R.
Hypothesis Hcfg : driftConfig cfg M A D.

Lemma wobble_step (v s amp dt : R) :
  -1 <= s <= 1 -> Rabs v <= M -> 0 <= amp <= A -> Rabs dt <= D ->
  Rabs ((v + s * amp * dt) * horizontalDrag (physics cfg)) <= M.
Proof.
  intros Hs Hv Hamp Hdt.
  destruct Hcfg as (Hd0 & Hd & HD & _).
  rewrite Rabs_mult, (Rabs_right (horizontalDrag (physics cfg))) by lra.
  assert (Hadd : Rabs (s * amp * dt) <= A * D).
  { rewrite !Rabs_mult.
    assert (Rabs s <= 1) by (apply Rabs_le; lra).
    assert (Rabs amp <= A) by (apply Rabs_le; lra).
    pose proof (Rabs_pos s). pose proof (Rabs_pos amp).
    pose proof (Rabs_pos dt).
    assert (Rabs s * Rabs amp <= 1 * A) by (apply Rmult_le_compat; lra).
    assert (Rabs s * Rabs amp * Rabs dt <= 1 * A * D).
    { apply Rmult_le_compat; try lra. apply Rmult_le_pos; lra. }
    lra. }
  pose proof (Rabs_triang v (s * amp * dt)) as Ht.
  pose proof (Rabs_pos (v + s * amp * dt)).
  assert (Rabs (v + s * amp * dt) * horizontalDrag (physics cfg)
          <= (M + A * D) * horizontalDrag (physics cfg)).
  { apply Rmult_le_compat_r; lra. }
  lra.
Qed.

Lemma integrated_drift (dt t : R) (i : Instance) :
  Rabs dt <= D -> driftOK M A i -> driftOK M A (integrated cfg dt t i).
Proof.
  intros Hdt (Hx & Hz & Hax & Haz). unfold driftOK, integrated.
  cbn [velX velZ wAmpX wAmpZ].
  split; [apply wobble_step; auto; apply SIN_bound|].
  split; [apply wobble_step; auto; apply COS_bound|]. auto.
Qed.

Lemma bounceDepth_drift (i : Instance) :
  0 <= M -> driftOK M A i -> driftOK M A (bounceDepth bnd i).
Proof.
  intros HM (Hx & Hz & Hax & Haz). unfold driftOK, bounceDepth.
  pose proof (Rabs_pos (velZ i)).
  cmp_cases; cbn [set_depth velX velZ wAmpX wAmpZ]; repeat split;
    try assumption; try apply Hax; try apply Haz;
    unfold JS.Math_abs; apply Rabs_le; lra.
Qed.

Lemma M_nonneg : 0 <= M.
Proof. destruct Hcfg as (_ & _ & _ & [H1 H2] & _). lra. Qed.

Lemma resetInstance_drift (isInitial : bool) :
  post (resetInstance cfg bnd isInitial) (driftOK M A).
Proof.
  destruct Hcfg as (_ & _ & _ & [Hx0 Hx] & [Hz0 Hz] & (HaX0 & HaXo & HaX)
                    & (HaZ0 & HaZo & HaZ)).
  unfold resetInstance.
  eapply post_bind; [apply post_randFloatSpread|]. intros px _.
  eapply post_bind; [apply post_randFloat|]. intros py _.
  eapply post_bind; [apply post_randFloat|]. intros pz _.
  eapply post_bind; [now apply randFloatSpread_abs|]. intros vx Hvx.
  eapply post_bind; [apply post_randFloat|]. intros vy _.
  eapply post_bind; [now apply randFloatSpread_abs|]. intros vz Hvz.
  eapply post_bind; [apply post_random|]. intros u1 _.
  eapply post_bind; [apply post_random|]. intros u2 _.
  eapply post_bind; [apply post_random|]. intros ur _.
  eapply post_bind; [apply post_randFloatSpread|]. intros ang _.
  eapply post_bind; [apply post_randFloat|]. intros k _.
  eapply post_bind; [now apply randFloat_within|]. intros ax Hax.
  eapply post_bind; [now apply randFloat_within|]. intros az Haz.
  eapply post_bind; [apply post_randFloat|]. intros sx _.
  eapply post_bind; [apply post_randFloat|]. intros sz _.
  eapply post_bind; [apply post_random|]. intros ux _.
  eapply post_bind; [apply post_random|]. intros uz _.
  eapply post_bind; [apply post_randomVibrantTint|]. intros tint _.
  eapply post_bind; [apply post_random|]. intros r _.
  eapply post_bind; [apply post_random|]. intros us _.
  apply post_ret. unfold driftOK, within in *.
  cbn [velX velZ wAmpX wAmpZ]. repeat split; lra.
Qed.

Lemma updateInstance_drift (dt t : R) (i : Instance) :
  Rabs dt <= D -> driftOK M A i ->
  post (updateInstance cfg bnd dt t i) (driftOK M A).
Proof.
  intros Hdt Hi. unfold updateInstance.
  eapply post_bind with (Q := driftOK M A).
  - unfold recycle. destruct (outOfBounds _ _).
    + apply resetInstance_drift.
    + apply post_ret. now apply integrated_drift.
  - intros i2 H2. apply post_ret. apply bounceDepth_drift; [|exact H2].
    apply M_nonneg.
Qed.

Lemma updatePhysics_drift (dt t : R) (rows : list Instance) :
  Rabs dt <= D -> Forall (driftOK M A) rows ->
  post (updatePhysics cfg bnd dt t rows) (Forall (driftOK M A)).
Proof.
  intros Hdt Hrows. apply post_forEach. intros i Hi.
  apply updateInstance_drift; [exact Hdt|].
  exact (proj1 (Forall_forall _ rows) Hrows i Hi).
Qed.

Lemma applyOrbInfluence_drift (project : V3.t -> V3.t) (boxes : list Box)
    (o : Orbs) (dt : R) (rows : list Instance) :
  Forall (driftOK M A) rows ->
  post (applyOrbInfluence cfg bnd project boxes o dt rows)
       (Forall (driftOK M A)).
Proof.
  intros Hrows. apply post_forEach. intros i Hi.
  eapply post_pointwise; [apply influence_outcome|].
  intros s. pose proof (proj1 (Forall_forall _ rows) Hrows i Hi) as H.
  unfold influence, JS.bind, JS.ret. cbn [fst].
  unfold driftOK in *. exact H.
Qed.

End Drift.

Lemma dtOf_forward (now lastTime : R) :
  lastTime <= now -> Rabs (Balloons.dtOf now lastTime) <= 0.05.
Proof.
  intros H. change (Balloons.dtOf now lastTime)
              with (Lantern.dtOf now lastTime).
  destruct (dtOf_cases now lastTime) as (Hle & _ & H0 & Hpos & _).
  cbv zeta in H0, Hpos. apply Rabs_le.
  destruct (Req_dec (now - lastTime) 0) as [E|E].
  - rewrite (H0 E). lra.
  - destruct Hpos as [_ Hp]; lra.
Qed.

(** X21.  The horizontal drift of a balloon stays bounded.  Let the
    wobble amplitudes be configured between 0 and [A], the spawn spreads
    give a horizontal speed of at most [M], and the horizontal drag [h]
    satisfy [0 <= h] and [h * (M + A * D) <= M] (for the source, with
    [D = 0.05]: any [M] from 0.62 on).  Then balloons whose horizontal
    velocity components are within [M] and whose amplitudes are within
    [A], as those of the initial fill are, keep these bounds through
    [updatePhysics] for every time step of magnitude up to [D], recycled
    or not and bounced off a depth wall or not; hence through every frame
    whose time stamp is not before the previous one. *)
Theorem X21_horizontal_drift_bounded :
  forall (cfg : Balloons.Config) (bnd : Bounds) (M A D : R) (s : JS.Rand),
    driftConfig cfg M A D -> JS.valid s ->
    (forall n,
        Forall (driftOK M A) (fst (Balloons.initialFill cfg bnd n s)))
    /\ (forall dt t rows,
          Rabs dt <= D -> Forall (driftOK M A) rows ->
          Forall (driftOK M A)
                 (fst (Balloons.updatePhysics cfg bnd dt t rows s)))
    /\ (forall project input now rows o last,
          0.05 <= D -> last <= now -> Forall (driftOK M A) rows ->
          frameResult (Forall (driftOK M A))
            (fst (Balloons.animate cfg project input now
                    (Balloons.mkWorld rows o bnd last) s))).
Proof.
  intros cfg bnd M A D s Hcfg Hs. refine (conj _ (conj _ _)).
  - intros n.
    exact (proj1 (proj1 (initialFill_post cfg bnd (driftOK M A) n
                           (resetInstance_drift cfg bnd M A D Hcfg true)
                           s Hs))).
  - intros dt t rows Hdt Hrows.
    exact (proj1 (updatePhysics_drift cfg bnd M A D Hcfg dt t rows Hdt Hrows
                    s Hs)).
  - intros project input now rows o last HD Hnow Hrows.
    assert (H : post (Balloons.animate cfg project input now
                        (Balloons.mkWorld rows o bnd last))
                     (frameResult (Forall (driftOK M A)))).
    { unfold Balloons.animate.
      cbn [Balloons.bounds Balloons.orbs Balloons.instances
           Balloons.lastTime].
      destruct (Balloons.applyWrites _ _ _) as [o2|]; [|now apply post_ret].
      eapply post_bind;
        [apply (applyOrbInfluence_drift cfg bnd M A); exact Hrows|].
      intros is1 H1.
      eapply post_bind;
        [apply (updatePhysics_drift cfg bnd M A D Hcfg); [|exact H1]|].
      - pose proof (dtOf_forward now last Hnow). lra.
      - intros is2 H2. now apply post_ret. }
    exact (proj1 (H s Hs)).
Qed.

(** The theorem at the configuration of the source. *)
Lemma X21_horizontal_drift_bounded_witness :
  driftConfig Balloons.CONFIG 0.62 0.55 0.05
  /\ JS.valid halves
  /\ Rabs 0.016 <= 0.05
  /\ Forall (driftOK 0.62 0.55) [sampleRow 0 5 0 0.3 0 (-0.3) 0.5]
  /\ Forall (driftOK 0.62 0.55)
            (fst (Balloons.updatePhysics Balloons.CONFIG
                    (Balloons.initialBounds Balloons.CONFIG) 0.016 1
                    [sampleRow 0 5 0 0.3 0 (-0.3) 0.5] halves)).
Proof.
  assert (Hcfg : driftConfig Balloons.CONFIG 0.62 0.55 0.05).
  { unfold driftConfig, ordered. simpl. lra. }
  assert (Hdt : Rabs 0.016 <= 0.05) by (rewrite Rabs_right; lra).
  assert (Hrows : Forall (driftOK 0.62 0.55)
                         [sampleRow 0 5 0 0.3 0 (-0.3) 0.5]).
  { constructor; [|constructor]. unfold driftOK. simpl.
    repeat split; try lra; apply Rabs_le; lra. }
  split; [exact Hcfg|]. split; [exact halves_valid|].
  split; [exact Hdt|]. split; [exact Hrows|].
  exact (proj1 (proj2 (X21_horizontal_drift_bounded Balloons.CONFIG
                  (Balloons.initialBounds Balloons.CONFIG) 0.62 0.55 0.05
                  halves Hcfg halves_valid)) 0.016 1 _ Hdt Hrows).
Defined.

(* ====================================================================== *)
(** ** The runtime tuning interface                                        *)
(* ====================================================================== *)

Lemma clamp_clamp (v lo hi lo' hi' : R) :
  lo' <= lo -> hi <= hi' ->
  JS.clamp (JS.clamp v lo' hi') lo hi = JS.clamp v lo hi.
Proof.
  intros Hlo Hhi. unfold JS.clamp, JS.Math_max, JS.Math_min, Rmax, Rmin.
  repeat destruct Rle_dec; lra.
Qed.

(** X22.  The setters of [window.SIM] and the values the simulation then
    works with.  After [setScreenRadiusNDC(v)] the screen radius of the
    hover test lies between the configured [screenRadiusMin] and
    [screenRadiusMax] (when these are in order); when these lie within the
    setter's own limits 0.01 and 0.25, as 0.03 and 0.10 do, it is [v]
    clamped to them, so a value beyond them has no further effect.  After
    [setHandEffectRadius(v)] the world radius is at least 0.1, so in
    world-space mode a balloon at the smoothed position of a live orb is
    hovered.  [setTrackMode] turns an empty mode into ["wrists"] and takes
    any other string as it is; after [setTrackMode("fullBody")] no
    balloon is hovered until a pose box exists, whatever orbs are live.
    No setter changes [MAX_ORBS], the size the orb arrays were allocated
    with. *)
Theorem X22_tuning_interface :
  forall (cfg : Balloons.Config) (v : R),
    let rmin :=
      Balloons.orDefault
        (Balloons.screenRadiusMin (Balloons.interaction cfg)) 0.03 in
    let rmax :=
      Balloons.orDefault
        (Balloons.screenRadiusMax (Balloons.interaction cfg)) 0.10 in
    (rmin <= rmax ->
     rmin <= Balloons.screenRadius (SIM.setScreenRadiusNDC v cfg) <= rmax)
    /\ (0.01 <= rmin -> rmax <= 0.25 ->
        Balloons.screenRadius (SIM.setScreenRadiusNDC v cfg)
        = JS.clamp v rmin rmax)
    /\ 0.1 <= Balloons.hoverRadiusWorld
                (Balloons.interaction (SIM.setHandEffectRadius v cfg))
    /\ (forall project boxes o b k,
          Balloons.trackMode (Balloons.interaction cfg) <> "fullBody"%string ->
          Balloons.useScreenSpaceHit (Balloons.interaction cfg) = false ->
          (k < Balloons.MAX_ORBS cfg)%nat -> live o k ->
          nth k (Balloons.orbPositions o) V3.zero = Balloons.pos b ->
          Balloons.hoveredTest (SIM.setHandEffectRadius v cfg) project boxes
                               o b = true)
    /\ (Balloons.trackMode (Balloons.interaction (SIM.setTrackMode "" cfg))
        = "wrists"%string
        /\ forall mode, mode <> ""%string ->
             Balloons.trackMode
               (Balloons.interaction (SIM.setTrackMode mode cfg)) = mode)
    /\ (forall project o b,
          Balloons.hoveredTest (SIM.setTrackMode "fullBody" cfg) project []
                               o b = false)
    /\ (Balloons.MAX_ORBS (SIM.setHandEffectRadius v cfg)
        = Balloons.MAX_ORBS cfg
        /\ Balloons.MAX_ORBS (SIM.setScreenRadiusNDC v cfg)
           = Balloons.MAX_ORBS cfg
        /\ (forall flag, Balloons.MAX_ORBS (SIM.useScreenSpaceHit flag cfg)
                         = Balloons.MAX_ORBS cfg)
        /\ (forall mode, Balloons.MAX_ORBS (SIM.setTrackMode mode cfg)
                         = Balloons.MAX_ORBS cfg)).
Proof.
  intros cfg v rmin rmax.
  assert (Hr : Balloons.screenRadius (SIM.setScreenRadiusNDC v cfg)
               = JS.clamp (JS.clamp v 0.01 0.25) rmin rmax) by reflexivity.
  refine (conj _ (conj _ (conj _ (conj _ (conj _ (conj _ _)))))).
  - intros Hord. rewrite Hr. now apply clamp_between.
  - intros Hlo Hhi. rewrite Hr. now apply clamp_clamp.
  - simpl. apply Rmax_l.
  - intros project boxes o b k Hmode Hs Hk Hlive Hpos.
    apply (hoveredTest_world (SIM.setHandEffectRadius v cfg) project boxes
             o b Hmode Hs).
    exists k. split; [exact Hk|]. split; [exact Hlive|].
    rewrite Hpos. unfold worldDistSq. simpl.
    pose proof (Rmax_l 0.1 v). unfold JS.Math_max. nra.
  - split; [reflexivity|]. intros mode Hne. simpl.
    now rewrite (proj2 (String.eqb_neq _ _) Hne).
  - intros project o b. reflexivity.
  - repeat split; reflexivity.
Qed.

(** The theorem at the configuration of the source. *)
Lemma X22_tuning_interface_witness :
  Balloons.screenRadius (SIM.setScreenRadiusNDC 0.2 Balloons.CONFIG)
  = JS.clamp 0.2 0.03 0.10.
Proof.
  apply (proj1 (proj2 (X22_tuning_interface Balloons.CONFIG 0.2)));
    simpl; lra.
Defined.

(* ====================================================================== *)
(** ** From a tracking point to a lit balloon, in one frame                *)
(* ====================================================================== *)

Lemma lerp_same (p : V3.t) (alpha : R) : V3.lerp p p alpha = p.
Proof. unfold V3.lerp. apply v3_eq; simpl; ring. Qed.

Lemma influence_hovered (cfg : Balloons.Config) (bnd : Bounds)
    (project : V3.t -> V3.t) (boxes : list Balloons.Box) (o : Balloons.Orbs)
    (dt : R) (i : Balloons.Instance) (s : JS.Rand) :
  Balloons.hoveredTest cfg project boxes o i = true ->
  Balloons.influence cfg bnd project boxes o dt i s
  = (Balloons.set_buoy i
       (JS.clamp (Balloons.buoy i
                  + Balloons.buoyancyRiseRate (Balloons.physics cfg) * dt)
                 0 1),
     s).
Proof.
  intros Hh. unfold Balloons.influence, JS.bind, JS.ret. rewrite Hh.
  reflexivity.
Qed.

(** X23.  From a tracking point to a lit balloon in one frame.  Outside
    the full-body mode, let a frame write a point [p] to an orb slot in
    range whose smoothed position is still at the origin (a slot never
    used), after the time-to-live loop and before the smoothing, as
    [animate] orders them.  Then for the rest of the frame the orb is
    live and its smoothed position is exactly [p] (the first write places
    it, and smoothing between [p] and [p] does not move it), and a
    balloon at [p] is hovered: in world-space mode for every non-zero
    [hoverRadiusWorld], in screen-space mode for every non-zero screen
    radius provided [p] projects to a depth in the clip range.  The
    buoyancy update of that frame therefore gives this balloon its
    buoyancy plus [buoyancyRiseRate * dt], clamped to the unit interval,
    and draws no random number. *)
Theorem X23_first_write_hovers :
  forall (cfg : Balloons.Config) (bnd : Bounds) (project : V3.t -> V3.t)
         (boxes : list Balloons.Box) (dt : R) (o : Balloons.Orbs)
         (slot : Z) (p : V3.t) (b : Balloons.Instance) (s : JS.Rand),
    orbsWF cfg o ->
    Balloons.trackMode (Balloons.interaction cfg) <> "fullBody"%string ->
    (0 <= slot < Z.of_nat (Balloons.MAX_ORBS cfg))%Z ->
    nth (Z.to_nat slot) (Balloons.orbPositions o) V3.zero = V3.zero ->
    Balloons.pos b = p ->
    (Balloons.useScreenSpaceHit (Balloons.interaction cfg) = true ->
     inClipRange project p /\ Balloons.screenRadius cfg <> 0) ->
    (Balloons.useScreenSpaceHit (Balloons.interaction cfg) = false ->
     Balloons.hoverRadiusWorld (Balloons.interaction cfg) <> 0) ->
    exists o2,
      Balloons.applyWrites cfg [(slot, p, 1.0)] (Balloons.decayTTL dt o)
      = Some o2
      /\ let o3 :=
           Balloons.smoothOrbs cfg (Balloons.smoothingAlpha cfg dt) o2 in
         live o3 (Z.to_nat slot)
         /\ nth (Z.to_nat slot) (Balloons.orbPositions o3) V3.zero = p
         /\ Balloons.hoveredTest cfg project boxes o3 b = true
         /\ Balloons.influence cfg bnd project boxes o3 dt b s
            = (Balloons.set_buoy b
                 (JS.clamp
                    (Balloons.buoy b
                     + Balloons.buoyancyRiseRate (Balloons.physics cfg) * dt)
                    0 1),
               s).
Proof.
  intros cfg bnd project boxes dt o slot p b s Hwf Hmode Hslot Hzero Hpos
         Hscreen Hworld.
  set (k := Z.to_nat slot) in *.
  assert (Hk : (k < Balloons.MAX_ORBS cfg)%nat) by (unfold k; lia).
  pose proof (decayTTL_WF cfg dt o Hwf) as Hwf1.
  pose proof (setOrb_in_range_eq cfg slot p 1.0 _ Hwf1 Hslot) as Hset.
  cbv zeta in Hset. fold k in Hset.
  cbn [Balloons.decayTTL Balloons.orbPositions Balloons.orbTargets
       Balloons.orbBuoy Balloons.orbTTL] in Hset.
  rewrite Hzero in Hset.
  assert (Efresh : JS.ltb (V3.lengthSq V3.zero) 1e-6 = true).
  { apply ltb_true_iff. unfold V3.lengthSq, V3.dot. simpl. lra. }
  rewrite Efresh in Hset.
  eexists. split; [simpl; rewrite Hset; reflexivity|].
  match type of Hset with _ = Some ?x => set (o2 := x) in * end.
  assert (Hwf2 : orbsWF cfg o2).
  { destruct (setOrb_in_range cfg slot p 1.0 _ Hwf1 Hslot)
      as (o' & E & Hwf' & _). rewrite Hset in E. now injection E as <-. }
  destruct Hwf as (Hp & Ht & Hb & Hl).
  assert (Hpos2 : nth k (Balloons.orbPositions o2) V3.zero = p).
  { unfold o2. cbn [Balloons.orbPositions]. apply nth_set_nth_eq. lia. }
  assert (Htgt2 : nth k (Balloons.orbTargets o2) V3.zero = p).
  { unfold o2. cbn [Balloons.orbTargets]. apply nth_set_nth_eq. lia. }
  assert (Hlive2 : live o2 k).
  { unfold live, o2. cbn [Balloons.orbTTL].
    rewrite nth_set_nth_eq by (rewrite length_map; lia).
    pose proof (Rmax_l 0.01 (Balloons.orbMaxTTL (Balloons.interaction cfg))).
    unfold JS.Math_max. lra. }
  cbv zeta.
  destruct (smoothOrbs_outcome cfg (Balloons.smoothingAlpha cfg dt) o2 Hwf2)
    as (_ & _ & Httl3 & _ & Hnth3).
  set (o3 := Balloons.smoothOrbs cfg (Balloons.smoothingAlpha cfg dt) o2)
    in *.
  assert (Hlive3 : live o3 k) by (unfold live; now rewrite Httl3).
  assert (Hpos3 : nth k (Balloons.orbPositions o3) V3.zero = p).
  { rewrite (Hnth3 k Hk). unfold smoothed.
    unfold live in Hlive2. rewrite (proj2 (gtb_true_iff _ _) Hlive2).
    rewrite Hpos2, Htgt2. apply lerp_same. }
  assert (Hhov : Balloons.hoveredTest cfg project boxes o3 b = true).
  { destruct (Balloons.useScreenSpaceHit (Balloons.interaction cfg)) eqn:Hs.
    - destruct (Hscreen eq_refl) as [Hclip Hr].
      apply (hoveredTest_screen cfg project boxes o3 b Hmode Hs).
      rewrite Hpos. split; [exact Hclip|]. exists k.
      split; [exact Hk|]. split; [exact Hlive3|]. rewrite Hpos3.
      split; [exact Hclip|]. unfold screenDistSq.
      assert (0 < Balloons.screenRadius cfg * Balloons.screenRadius cfg)
        by nra.
      lra.
    - pose proof (Hworld eq_refl) as Hr.
      apply (hoveredTest_world cfg project boxes o3 b Hmode Hs).
      exists k. split; [exact Hk|]. split; [exact Hlive3|].
      rewrite Hpos3, Hpos. unfold worldDistSq.
      assert (0 < Balloons.hoverRadiusWorld (Balloons.interaction cfg)
                  * Balloons.hoverRadiusWorld (Balloons.interaction cfg))
        by nra.
      lra. }
  split; [exact Hlive3|]. split; [exact Hpos3|]. split; [exact Hhov|].
  now apply influence_hovered.
Qed.

(** The theorem at the configuration of the source. *)
Lemma X23_first_write_hovers_witness :
  let cfg := Balloons.CONFIG in
  let proj := Balloons.project (Balloons.camera3d 1.5) in
  let p := Balloons.pos rowInFront in
  orbsWF cfg (Balloons.initialOrbs cfg)
  /\ Balloons.trackMode (Balloons.interaction cfg) <> "fullBody"%string
  /\ inClipRange proj p
  /\ Balloons.screenRadius cfg <> 0
  /\ exists o2,
       Balloons.applyWrites cfg [(0%Z, p, 1.0)]
         (Balloons.decayTTL 0.016 (Balloons.initialOrbs cfg)) = Some o2
       /\ Balloons.hoveredTest cfg proj []
            (Balloons.smoothOrbs cfg (Balloons.smoothingAlpha cfg 0.016) o2)
            rowInFront = true.
Proof.
  intros cfg proj p.
  assert (Hwf : orbsWF cfg (Balloons.initialOrbs cfg))
    by apply initialOrbs_WF.
  assert (Hmode : Balloons.trackMode (Balloons.interaction cfg)
                  <> "fullBody"%string) by (simpl; discriminate).
  assert (Hclip : inClipRange proj p).
  { unfold inClipRange, proj, p. rewrite ndc_rowInFront. cbn [V3.z]. lra. }
  assert (Hr : Balloons.screenRadius cfg <> 0).
  { assert (0 < Balloons.screenRadius cfg)
      by (apply screenRadius_pos; simpl; lra).
    lra. }
  split; [exact Hwf|]. split; [exact Hmode|]. split; [exact Hclip|].
  split; [exact Hr|].
  destruct (X23_first_write_hovers cfg
              (Balloons.initialBounds cfg) proj [] 0.016
              (Balloons.initialOrbs cfg) 0%Z p rowInFront halves
              Hwf Hmode)
    as (o2 & E & _ & _ & Hh & _).
  - unfold cfg, Balloons.MAX_ORBS. simpl. lia.
  - reflexivity.
  - reflexivity.
  - intros _. split; [exact Hclip | exact Hr].
  - intros Hs. discriminate Hs.
  - exists o2. split; [exact E | exact Hh].
Defined.

(* ====================================================================== *)
(** ** The control panel of the lantern variant                            *)
(* ====================================================================== *)

Lemma opacityInput_finite (x : R) :
  x <> 0 -> Controls.opacityInput (JS.Finite x) = JS.Finite (JS.clamp x 0 1).
Proof.
  intros Hx. unfold Controls.opacityInput, JS.or, JS.truthy.
  now rewrite (proj2 (eqb_false_iff x 0) Hx).
Qed.

Lemma opacityInput_falsy :
  Controls.opacityInput (JS.Finite 0) = JS.Finite 0.9
  /\ Controls.opacityInput JS.NaN = JS.Finite 0.9.
Proof.
  assert (E : JS.clamp 0.9 0 1 = 0.9) by (apply clamp_inside; lra).
  unfold Controls.opacityInput, JS.or, JS.truthy.
  rewrite (proj2 (eqb_true_iff 0 0) eq_refl). simpl. rewrite E. auto.
Qed.

(** X24.  The listeners of the control panel.  The opacity field always
    yields a number between 0 and 1, never [NaN]: a text that is not a
    number gives 0.9, and so does the number 0, which is falsy, so the
    field cannot make the lanterns fully transparent with 0 (a negative
    number is clamped to 0); every other value is clamped.  The listener
    of [setupPhysicsControl] drops a value that is not a finite number and
    leaves the configuration as it is.  Each of the three wobble sliders
    writes its own ranges, whatever they were, and nothing else: [0.4 v, v]
    for the sideways amplitude, [0.375 v, v] for the depth amplitude, and
    [0.4 v, v] for both speeds; the ranges of the other sliders and the
    rest of the configuration are left as they are.  Each of the four
    ranges written is in order exactly when the value of its slider is
    not negative, and inverted when it is negative. *)
Theorem X24_control_panel :
  forall (cfg : Lantern.Config) (parsed : JS.Number) (vX vZ vS : R),
    (exists x, Controls.opacityInput parsed = JS.Finite x /\ 0 <= x <= 1)
    /\ Controls.opacityInput (JS.Finite 0) = JS.Finite 0.9
    /\ Controls.opacityInput JS.NaN = JS.Finite 0.9
    /\ (forall x, 0 < x <= 1 ->
          Controls.opacityInput (JS.Finite x) = JS.Finite x)
    /\ (forall x, x < 0 -> Controls.opacityInput (JS.Finite x) = JS.Finite 0)
    /\ (forall setter : R -> Lantern.Config -> Lantern.Config,
          Controls.physicsInput setter JS.NaN cfg = cfg)
    /\ (let w := Lantern.wobble cfg in
        let cX :=
          Controls.physicsInput Controls.setWobbleAmpX (JS.Finite vX) cfg in
        let cZ :=
          Controls.physicsInput Controls.setWobbleAmpZ (JS.Finite vZ) cfg in
        let cS :=
          Controls.physicsInput Controls.setWobbleSpeed (JS.Finite vS) cfg in
        let restKept (c : Lantern.Config) :=
          Lantern.lantern c = Lantern.lantern cfg
          /\ Lantern.physics c = Lantern.physics cfg
          /\ Lantern.spawn c = Lantern.spawn cfg
          /\ Lantern.rotation_ySpeed_spread c
             = Lantern.rotation_ySpeed_spread cfg
          /\ Lantern.randomLight c = Lantern.randomLight cfg
          /\ Lantern.hover_radius c = Lantern.hover_radius cfg
          /\ Lantern.patterns c = Lantern.patterns cfg in
        (* the slider of the sideways amplitude *)
        (Lantern.wobble cX
         = Lantern.mkWobbleCfg (mkRange (vX * 0.4) vX) (Lantern.cfg_ampZ w)
                               (Lantern.cfg_speedX w) (Lantern.cfg_speedZ w)
         /\ restKept cX
         /\ (ordered (Lantern.cfg_ampX (Lantern.wobble cX)) <-> 0 <= vX)
         /\ (vX < 0 -> max (Lantern.cfg_ampX (Lantern.wobble cX))
                       < min (Lantern.cfg_ampX (Lantern.wobble cX))))
        (* the slider of the depth amplitude *)
        /\ (Lantern.wobble cZ
            = Lantern.mkWobbleCfg (Lantern.cfg_ampX w)
                                  (mkRange (vZ * 0.375) vZ)
                                  (Lantern.cfg_speedX w) (Lantern.cfg_speedZ w)
            /\ restKept cZ
            /\ (ordered (Lantern.cfg_ampZ (Lantern.wobble cZ)) <-> 0 <= vZ)
            /\ (vZ < 0 -> max (Lantern.cfg_ampZ (Lantern.wobble cZ))
                          < min (Lantern.cfg_ampZ (Lantern.wobble cZ))))
        (* the slider of the two speeds *)
        /\ (Lantern.wobble cS
            = Lantern.mkWobbleCfg (Lantern.cfg_ampX w) (Lantern.cfg_ampZ w)
                                  (mkRange (vS * 0.4) vS)
                                  (mkRange (vS * 0.4) vS)
            /\ restKept cS
            /\ (ordered (Lantern.cfg_speedX (Lantern.wobble cS)) <-> 0 <= vS)
            /\ (ordered (Lantern.cfg_speedZ (Lantern.wobble cS)) <-> 0 <= vS)
            /\ (vS < 0 -> max (Lantern.cfg_speedX (Lantern.wobble cS))
                          < min (Lantern.cfg_speedX (Lantern.wobble cS))
                          /\ max (Lantern.cfg_speedZ (Lantern.wobble cS))
                             < min (Lantern.cfg_speedZ (Lantern.wobble cS))))).
Proof.
  intros cfg parsed vX vZ vS.
  destruct opacityInput_falsy as [E0 En].
  refine (conj _ (conj E0 (conj En (conj _ (conj _ (conj _ _)))))).
  - destruct parsed as [x|]; [|exists 0.9; split; [exact En | lra]].
    destruct (Req_dec x 0) as [->|Hx];
      [exists 0.9; split; [exact E0 | lra]|].
    exists (JS.clamp x 0 1). split; [now apply opacityInput_finite|].
    apply clamp_between. lra.
  - intros x Hx. rewrite opacityInput_finite by lra.
    now rewrite clamp_inside by lra.
  - intros x Hx. rewrite opacityInput_finite by lra. f_equal.
    unfold JS.clamp, JS.Math_max, JS.Math_min, Rmax, Rmin.
    repeat destruct Rle_dec; lra.
  - intros setter. reflexivity.
  - cbv zeta. unfold ordered. simpl.
    repeat split; try reflexivity; intros; lra.
Qed.

(** The opacity field at 0.5 keeps 0.5. *)
Lemma X24_control_panel_witness :
  0 < 0.5 <= 1 /\ Controls.opacityInput (JS.Finite 0.5) = JS.Finite 0.5.
Proof.
  assert (H : 0 < 0.5 <= 1) by lra.
  split; [exact H|].
  exact (proj1 (proj2 (proj2 (proj2
           (X24_control_panel Lantern.CONFIG JS.NaN 1 1 1)))) 0.5 H).
Defined.
